(** * Relacon device-access core: a shallow embedding and its properties

    The development follows the C sources of the driver:
    - [DeviceCapabilities.c]: the table of supported devices;
    - [Relacon.c]: sessions, the ASCII command protocol over 8-byte HID
      reports, the raw pass-through pair;
    - [BackendHidapi.c] and [BackendLibusb.c]: the two transports behind
      [Backend.h], in particular how each builds a device listing.

    Bytes, 16-bit identifiers and C [int]/[long] values are integers of [Z];
    a pointer to a NUL-terminated string is the list of bytes readable from
    it.  Heap memory is a finite map from addresses to blocks, with an
    allocator that may fail; the USB side is a log of reports written and a
    queue of reports to be read. *)

From Stdlib Require Import ZArith Ascii String List Lia DecimalString.
From stdpp Require Import base list gmap.

Open Scope Z_scope.

Abbreviation byte := Z (only parsing).

(** ** Result codes ([enum RelaconStatus], Relacon.h) *)

Inductive RelaconStatus :=
| RELACON_STATUS_SUCCESS
| RELACON_STATUS_ERROR_ARGUMENT_NULL
| RELACON_STATUS_ERROR_INVALID_PARAM
| RELACON_STATUS_ERROR_OUT_OF_MEMORY
| RELACON_STATUS_ERROR_TIMEOUT
| RELACON_STATUS_ERROR_BAD_RESPONSE
| RELACON_STATUS_ERROR_DEVICE_IO
| RELACON_STATUS_ERROR_INTERNAL
| RELACON_STATUS_ERROR_NO_ENTRY.

#[global] Instance RelaconStatus_eq_dec : EqDecision RelaconStatus.
Proof. solve_decision. Defined.

(** [enum RelaconDebounceConfig] and [enum RelaconWatchdogConfig]: the
    enumerators, as the integers they stand for. *)
Definition RELACON_DEBOUNCE_CONFIG_10MS : Z := 0.
Definition RELACON_DEBOUNCE_CONFIG_1MS : Z := 1.
Definition RELACON_DEBOUNCE_CONFIG_100US : Z := 2.

Definition RELACON_WATCHDOG_CONFIG_OFF : Z := 0.
Definition RELACON_WATCHDOG_CONFIG_1SEC : Z := 1.
Definition RELACON_WATCHDOG_CONFIG_10SEC : Z := 2.
Definition RELACON_WATCHDOG_CONFIG_1MIN : Z := 3.

Definition UINT8_MAX : Z := 255.
Definition UINT16_MAX : Z := 65535.

(** ** The capability table (DeviceCapabilities.c) *)

Module Capabilities.

Record DeviceCapabilities := {
  numInputs : Z;
  numRelays : Z;
}.

#[global] Instance DeviceCapabilities_eq_dec : EqDecision DeviceCapabilities.
Proof. solve_decision. Defined.

Definition VID_ONTRAK : Z := 0x0a07.
Definition VID_PIDCODES : Z := 0x1209.

Definition PID_ADU200 : Z := 200.
Definition PID_ADU208 : Z := 208.
Definition PID_ADU218 : Z := 218.
Definition PID_RELACON : Z := 0xFA70.

Record DeviceTableEntry := {
  vid : Z;
  pid : Z;
  capabilities : DeviceCapabilities;
}.

(** The ADU200 entry is commented out in the source ("Not yet
    tested/supported"), so the array has three elements. *)
Definition SUPPORTED_DEVICES : list DeviceTableEntry :=
  [ {| vid := VID_ONTRAK; pid := PID_ADU208;
       capabilities := {| numInputs := 8; numRelays := 8 |} |};
    {| vid := VID_ONTRAK; pid := PID_ADU218;
       capabilities := {| numInputs := 8; numRelays := 8 |} |};
    {| vid := VID_PIDCODES; pid := PID_RELACON;
       capabilities := {| numInputs := 8; numRelays := 8 |} |} ].

(** The [for] loop of [DeviceCapabilitiesQuery], from index [i] on: the
    first entry whose two identifiers are equal to the arguments. *)
Fixpoint query_from (table : list DeviceTableEntry) (v p : Z)
  : option DeviceCapabilities :=
  match table with
  | [] => None
  | entry :: rest =>
      if (vid entry =? v) && (pid entry =? p)
      then Some (capabilities entry)
      else query_from rest v p
  end.

Definition DeviceCapabilitiesQuery (v p : Z) : option DeviceCapabilities :=
  query_from SUPPORTED_DEVICES v p.

End Capabilities.


(** ** Library functions of C used by the driver *)

Module CLib.

(** A pointer to characters is modelled by the bytes readable from it; a
    read past the end of the modelled bytes yields NUL. *)

Definition bytes_of_string (s : string) : list byte :=
  map (fun c => Z.of_nat (nat_of_ascii c)) (list_ascii_of_string s).

Fixpoint strlen (s : list byte) : nat :=
  match s with
  | [] => O
  | c :: rest => if c =? 0 then O else S (strlen rest)
  end.

(** The characters of the string at [s], without the terminator. *)
Definition cstr (s : list byte) : list byte := take (strlen s) s.

(** [strcmp a b == 0] *)
Definition strcmp_eq (a b : list byte) : bool :=
  bool_decide (cstr a = cstr b).

(** [strncpy(dst, src, n)] writes exactly [n] bytes: the characters of
    [src] up to [n] of them, then NULs for what is left of [n]. *)
Fixpoint strncpy_image (src : list byte) (n : nat) : list byte :=
  match n with
  | O => []
  | S n' =>
      match src with
      | [] => replicate n 0
      | c :: rest =>
          if c =? 0 then replicate n 0 else c :: strncpy_image rest n'
      end
  end.

(** Overwriting memory [dst] from offset [off] with [src]; [dst] keeps its
    length (a write reaching past the modelled bytes is cut there). *)
Definition write_at (off : nat) (src dst : list byte) : list byte :=
  take (length dst) (take off dst ++ src ++ drop (off + length src) dst).

Definition strncpy (dst src : list byte) (n : nat) : list byte :=
  write_at 0 (strncpy_image src n) dst.

(** [memset(&buf[off], c, n)] *)
Definition memset (off : nat) (c : byte) (n : nat) (buf : list byte)
  : list byte :=
  write_at off (replicate n c) buf.

Definition isspace (c : byte) : bool :=
  (c =? 32) || ((9 <=? c) && (c <=? 13)).

Definition isdigit (c : byte) : bool := (48 <=? c) && (c <=? 57).

Definition LONG_MAX : Z := 2 ^ 63 - 1.
Definition LONG_MIN : Z := - 2 ^ 63.

Fixpoint skip_spaces (s : list byte) : nat :=
  match s with
  | c :: rest => if isspace c then S (skip_spaces rest) else O
  | [] => O
  end.

(** The digits at the head of [s]: their value on top of [acc], and how
    many there are. *)
Fixpoint scan_digits (acc : Z) (s : list byte) : Z * nat :=
  match s with
  | c :: rest =>
      if isdigit c
      then let '(v, n) := scan_digits (10 * acc + (c - 48)) rest in (v, S n)
      else (acc, O)
  | [] => (acc, O)
  end.

(** [strtol(s, &endptr, 10)]: the value and the offset of [endptr] from
    [s].  White space, one optional sign, then digits; with no digit at all
    nothing is converted, the value is 0 and [endptr] is [s] itself.  A value
    out of the range of [long] is clamped. *)
Definition strtol (s : list byte) : Z * nat :=
  let ws := skip_spaces s in
  let s1 := drop ws s in
  let '(neg, sg) :=
    match s1 with
    | 45 :: _ => (true, 1%nat)
    | 43 :: _ => (false, 1%nat)
    | _ => (false, O)
    end in
  let '(v, nd) := scan_digits 0 (drop sg s1) in
  match nd with
  | O => (0, O)
  | _ =>
      let r := if neg : bool then - v else v in
      (Z.max LONG_MIN (Z.min LONG_MAX r), (ws + sg + nd)%nat)
  end.

(** [*endptr] *)
Definition deref (s : list byte) (off : nat) : byte := nth off s 0.

(** The output of [printf]'s [%d], [%03u] and [%c]. *)
Definition fmt_d (n : Z) : list byte :=
  bytes_of_string (NilZero.string_of_int (Z.to_int n)).

Definition fmt_03u (n : Z) : list byte :=
  let ds := bytes_of_string (NilZero.string_of_uint (N.to_uint (Z.to_N n))) in
  replicate (3 - length ds) 48 ++ ds.

(** [vsnprintf(buf + off, size, ...)] for a conversion whose whole output
    is [text]: at most [size - 1] characters and a NUL are written, and the
    length of the whole output is returned. *)
Definition vsnprintf (off size : nat) (text buf : list byte)
  : Z * list byte :=
  match size with
  | O => (Z.of_nat (length text), buf)
  | S room =>
      (Z.of_nat (length text), write_at off (take room text ++ [0]) buf)
  end.

End CLib.

Export CLib.

(** ** The transport seen from a session (Backend.h)

    The two backends are alternatives fixed when the driver is built; the
    model carries the choice as a value. *)

Inductive BackendKind := HIDAPI | LIBUSB.

(** What the next read on the IN endpoint meets. *)
Inductive RxEvent :=
| RxReport (data : list byte)
| RxTimeout
| RxError.

(** The link to an opened device: every report handed to the transport
    for writing, the outcome of the coming writes ([true]: accepted; none
    listed: accepted), and the coming read events (none listed: the device
    stays silent). *)
Record Link := {
  tx_log : list (list byte);
  tx_results : list bool;
  rx_queue : list RxEvent;
}.

Definition addr := nat.

Record BackendDevice := {
  bd_addr : addr;
  bd_kind : BackendKind;
  bd_link : Link;
}.

(** [BackendDeviceWriteReport]: [hid_write] returning -1, or
    [libusb_interrupt_transfer] returning non-zero, is a device-I/O error. *)
Definition BackendDeviceWriteReport (d : BackendDevice) (buf : list byte)
    (len : nat) : RelaconStatus * BackendDevice :=
  let l := bd_link d in
  let accepted := match tx_results l with [] => true | r :: _ => r end in
  let l' := {| tx_log := tx_log l ++ [take len buf];
               tx_results := tail (tx_results l);
               rx_queue := rx_queue l |} in
  (if accepted then RELACON_STATUS_SUCCESS else RELACON_STATUS_ERROR_DEVICE_IO,
   {| bd_addr := bd_addr d; bd_kind := bd_kind d; bd_link := l' |}).

(** [BackendDeviceReadReport]: with hidapi the number of bytes read is the
    result, 0 meaning a timeout and -1 an error; with libusb any non-zero
    result of the transfer, a timeout included, is a device-I/O error.
    The status and the new contents of [buf].  The calls that return are
    modelled: with a wait without limit ([timeoutMs] -1 with hidapi, 0 with
    libusb) a read from a device that sends nothing does not return, and
    the statements about such a device are made for a limited wait. *)
Definition BackendDeviceReadReport (d : BackendDevice) (buf : list byte)
    (len : nat) (timeoutMs : Z)
  : RelaconStatus * list byte * BackendDevice :=
  let l := bd_link d in
  let ev := match rx_queue l with [] => RxTimeout | e :: _ => e end in
  let d' := {| bd_addr := bd_addr d; bd_kind := bd_kind d;
               bd_link := {| tx_log := tx_log l;
                             tx_results := tx_results l;
                             rx_queue := tail (rx_queue l) |} |} in
  match ev, bd_kind d with
  | RxReport data, HIDAPI =>
      match take len data with
      | [] => (RELACON_STATUS_ERROR_TIMEOUT, buf, d')
      | got => (RELACON_STATUS_SUCCESS, write_at 0 got buf, d')
      end
  | RxReport data, LIBUSB =>
      (RELACON_STATUS_SUCCESS, write_at 0 (take len data) buf, d')
  | RxTimeout, HIDAPI => (RELACON_STATUS_ERROR_TIMEOUT, buf, d')
  | RxTimeout, LIBUSB => (RELACON_STATUS_ERROR_DEVICE_IO, buf, d')
  | RxError, _ => (RELACON_STATUS_ERROR_DEVICE_IO, buf, d')
  end.

(** ** Sessions (Relacon.c) *)

Definition REPORT_DATA_LEN : nat := 7.
Definition REPORT_BUF_LEN : nat := REPORT_DATA_LEN + 1.
Definition REPORT_ID_CMD : byte := 1.
Definition DEFAULT_TIMEOUT_MS : Z := 500.

(** [struct RelaconDeviceInfo]: the three strings and the handle are
    pointers, [None] for NULL. *)
Record RelaconDeviceInfo := {
  vid : Z;
  pid : Z;
  serialNum : option addr;
  manufacturer : option addr;
  product : option addr;
  handle : option addr;
  numRelays : Z;
  numInputs : Z;
}.

(** [struct RelaconDevice].  [reportBuf] is the array of 8 bytes;
    [trailing] stands for the bytes of the structure that lie behind the
    array (the [info] member), which a string function scanning from
    [&reportBuf[1]] reaches when the 7 data bytes hold no NUL. *)
Record RelaconDevice := {
  dev_addr : addr;
  backendDevice : BackendDevice;
  reportBuf : list byte;
  trailing : list byte;
  info : RelaconDeviceInfo;
}.

Definition set_reportBuf (dev : RelaconDevice) (buf : list byte)
  : RelaconDevice :=
  {| dev_addr := dev_addr dev; backendDevice := backendDevice dev;
     reportBuf := buf; trailing := trailing dev; info := info dev |}.

Definition set_backendDevice (dev : RelaconDevice) (d : BackendDevice)
  : RelaconDevice :=
  {| dev_addr := dev_addr dev; backendDevice := d;
     reportBuf := reportBuf dev; trailing := trailing dev;
     info := info dev |}.

(** The reports written so far through a session. *)
Definition sent (dev : RelaconDevice) : list (list byte) :=
  tx_log (bd_link (backendDevice dev)).

Definition ReadReport (dev : RelaconDevice) (timeout : Z)
  : RelaconStatus * RelaconDevice :=
  let '(status, buf, d) :=
    BackendDeviceReadReport (backendDevice dev) (reportBuf dev)
      REPORT_BUF_LEN timeout in
  (status, set_backendDevice (set_reportBuf dev buf) d).

(** [ReadNumericResponse].  [value] is the contents of the [long] the
    fourth argument points to; its contents afterwards are returned. *)
Definition ReadNumericResponse (dev : RelaconDevice) (min max : Z)
    (value : Z) : RelaconStatus * Z * RelaconDevice :=
  let '(status, dev) := ReadReport dev DEFAULT_TIMEOUT_MS in
  if decide (status = RELACON_STATUS_SUCCESS) then
    if negb (nth 0 (reportBuf dev) 0 =? REPORT_ID_CMD) then
      (RELACON_STATUS_ERROR_BAD_RESPONSE, value, dev)
    else
      let s := drop 1 (reportBuf dev) ++ trailing dev in
      let '(tmp, endptr) := strtol s in
      if negb (deref s endptr =? 0) then
        (RELACON_STATUS_ERROR_BAD_RESPONSE, value, dev)
      else if (tmp <? min) || (tmp >? max) then
        (RELACON_STATUS_ERROR_BAD_RESPONSE, value, dev)
      else
        (status, tmp, dev)
  else (status, value, dev).

Definition WriteReport (dev : RelaconDevice)
  : RelaconStatus * RelaconDevice :=
  let '(status, d) :=
    BackendDeviceWriteReport (backendDevice dev) (reportBuf dev)
      REPORT_BUF_LEN in
  (status, set_backendDevice dev d).

(** [WriteFormattedCmd]; [text] is what the format and its arguments
    expand to. *)
Definition WriteFormattedCmd (dev : RelaconDevice) (text : list byte)
  : RelaconStatus * RelaconDevice :=
  let '(res, buf) := vsnprintf 1 REPORT_DATA_LEN text (reportBuf dev) in
  let dev := set_reportBuf dev buf in
  if res <? 0 then (RELACON_STATUS_ERROR_INTERNAL, dev)
  else if res >? Z.of_nat REPORT_DATA_LEN then
    (RELACON_STATUS_ERROR_INTERNAL, dev)
  else
    let buf := <[O := REPORT_ID_CMD]> (reportBuf dev) in
    let buf := memset (1 + Z.to_nat res) 0
                 (REPORT_BUF_LEN - Z.to_nat res - 1) buf in
    WriteReport (set_reportBuf dev buf).

(** *** The public operations

    A pointer argument that only receives a value is [NULL] or [PTR]; a
    session pointer is [None] for NULL.  An operation either returns a
    status, together with the value it stored through its output pointer
    if it stored one, or it dereferences a null pointer. *)

Inductive pointer := NULL | PTR.

Inductive Result (A : Type) :=
| Returned (status : RelaconStatus) (stored : option A)
| NullDereference.

Arguments Returned {A} status stored.
Arguments NullDereference {A}.

(** [*p = v;] followed by [return status;] *)
Definition store_through {A : Type} (p : pointer) (v : A)
    (status : RelaconStatus) : Result A :=
  match p with
  | PTR => Returned status (Some v)
  | NULL => NullDereference
  end.

Definition failed {A : Type} (status : RelaconStatus) : Result A :=
  Returned status None.

Section PublicOperations.

(** The contents of a [long] local variable before anything is assigned to
    it. *)
Variable indeterminate : Z.

(** [RelaconDeviceGetInfo] tests [dev] only; [devInfo] is written without
    a test.  On the NULL branch the source passes [&dev->api->log] to the
    logging macro before it returns, which loads [dev->api] through the
    null pointer. *)
Definition RelaconDeviceGetInfo (dev : option RelaconDevice)
    (devInfo : pointer) : Result RelaconDeviceInfo * option RelaconDevice :=
  match dev with
  | None => (NullDereference, None)
  | Some dev =>
      (store_through devInfo (info dev) RELACON_STATUS_SUCCESS, Some dev)
  end.

Definition RelaconDeviceReadInputs (dev : option RelaconDevice)
    (val : pointer) : Result Z * option RelaconDevice :=
  match dev, val with
  | None, _ => (failed RELACON_STATUS_ERROR_ARGUMENT_NULL, None)
  | Some dev, NULL => (failed RELACON_STATUS_ERROR_ARGUMENT_NULL, Some dev)
  | Some dev, PTR =>
      let '(status, dev) := WriteFormattedCmd dev (bytes_of_string "PI") in
      if decide (status = RELACON_STATUS_SUCCESS) then
        let '(status, tmp, dev) :=
          ReadNumericResponse dev 0 UINT8_MAX indeterminate in
        if decide (status = RELACON_STATUS_SUCCESS)
        then (store_through val (tmp mod 256) status, Some dev)
        else (failed status, Some dev)
      else (failed status, Some dev)
  end.

Definition RelaconDeviceSingleRelayWrite (dev : option RelaconDevice)
    (relay : Z) (assert : bool) : Result unit * option RelaconDevice :=
  match dev with
  | None => (failed RELACON_STATUS_ERROR_ARGUMENT_NULL, None)
  | Some dev =>
      if relay >=? numRelays (info dev) then
        (failed RELACON_STATUS_ERROR_ARGUMENT_NULL, Some dev)
      else
        let '(status, dev) :=
          WriteFormattedCmd dev
            (bytes_of_string (if assert then "SK" else "RK") ++ fmt_d relay) in
        (failed status, Some dev)
  end.

(** The second test of the source is again [dev == NULL], not a test of
    [isAsserted]. *)
Definition RelaconDeviceSingleRelayRead (dev : option RelaconDevice)
    (relay : Z) (isAsserted : pointer) : Result bool * option RelaconDevice :=
  match dev with
  | None => (failed RELACON_STATUS_ERROR_ARGUMENT_NULL, None)
  | Some dev =>
      if relay >=? numRelays (info dev) then
        (failed RELACON_STATUS_ERROR_ARGUMENT_NULL, Some dev)
      else
        let '(status, dev) :=
          WriteFormattedCmd dev (bytes_of_string "RPK" ++ fmt_d relay) in
        if decide (status = RELACON_STATUS_SUCCESS) then
          let '(status, value, dev) :=
            ReadNumericResponse dev 0 1 indeterminate in
          if decide (status = RELACON_STATUS_SUCCESS)
          then (store_through isAsserted (negb (value =? 0)) status, Some dev)
          else (failed status, Some dev)
        else (failed status, Some dev)
  end.

Definition RelaconDeviceRelaysWrite (dev : option RelaconDevice) (val : Z)
  : Result unit * option RelaconDevice :=
  match dev with
  | None => (failed RELACON_STATUS_ERROR_ARGUMENT_NULL, None)
  | Some dev =>
      let '(status, dev) :=
        WriteFormattedCmd dev (bytes_of_string "MK" ++ fmt_03u val) in
      (failed status, Some dev)
  end.

(** Here too the second test of the source is [dev == NULL]. *)
Definition RelaconDeviceRelaysRead (dev : option RelaconDevice)
    (value : pointer) : Result Z * option RelaconDevice :=
  match dev with
  | None => (failed RELACON_STATUS_ERROR_ARGUMENT_NULL, None)
  | Some dev =>
      let '(status, dev) := WriteFormattedCmd dev (bytes_of_string "PK") in
      if decide (status = RELACON_STATUS_SUCCESS) then
        let '(status, tmp, dev) :=
          ReadNumericResponse dev 0 UINT8_MAX indeterminate in
        if decide (status = RELACON_STATUS_SUCCESS)
        then (store_through value (tmp mod 256) status, Some dev)
        else (failed status, Some dev)
      else (failed status, Some dev)
  end.

(** The value is stored as [(uint8_t)tmp] into the [uint16_t]. *)
Definition RelaconDeviceEventCounterGet (dev : option RelaconDevice)
    (counter : Z) (clear : bool) (value : pointer)
  : Result Z * option RelaconDevice :=
  match dev, value with
  | None, _ => (failed RELACON_STATUS_ERROR_ARGUMENT_NULL, None)
  | Some dev, NULL => (failed RELACON_STATUS_ERROR_ARGUMENT_NULL, Some dev)
  | Some dev, PTR =>
      if counter >=? numInputs (info dev) then
        (failed RELACON_STATUS_ERROR_INVALID_PARAM, Some dev)
      else
        let '(status, dev) :=
          WriteFormattedCmd dev
            (bytes_of_string "R" ++
             bytes_of_string (if clear then "C" else "E") ++ fmt_d counter) in
        if decide (status = RELACON_STATUS_SUCCESS) then
          let '(status, tmp, dev) :=
            ReadNumericResponse dev 0 UINT16_MAX indeterminate in
          if decide (status = RELACON_STATUS_SUCCESS)
          then (store_through value (tmp mod 256) status, Some dev)
          else (failed status, Some dev)
        else (failed status, Some dev)
  end.

Definition RelaconDeviceEventCounterDebounceSet (dev : option RelaconDevice)
    (config : Z) : Result unit * option RelaconDevice :=
  match dev with
  | None => (failed RELACON_STATUS_ERROR_ARGUMENT_NULL, None)
  | Some dev =>
      if (config <? RELACON_DEBOUNCE_CONFIG_10MS) ||
         (config >? RELACON_DEBOUNCE_CONFIG_100US) then
        (failed RELACON_STATUS_ERROR_INVALID_PARAM, Some dev)
      else
        let '(status, dev) :=
          WriteFormattedCmd dev (bytes_of_string "DB" ++ fmt_d config) in
        (failed status, Some dev)
  end.

Definition RelaconDeviceEventCounterDebounceGet (dev : option RelaconDevice)
    (config : pointer) : Result Z * option RelaconDevice :=
  match dev, config with
  | None, _ => (failed RELACON_STATUS_ERROR_ARGUMENT_NULL, None)
  | Some dev, NULL => (failed RELACON_STATUS_ERROR_ARGUMENT_NULL, Some dev)
  | Some dev, PTR =>
      let '(status, dev) := WriteFormattedCmd dev (bytes_of_string "DB") in
      if decide (status = RELACON_STATUS_SUCCESS) then
        let '(status, tmp, dev) :=
          ReadNumericResponse dev RELACON_DEBOUNCE_CONFIG_10MS
            RELACON_DEBOUNCE_CONFIG_100US indeterminate in
        if decide (status = RELACON_STATUS_SUCCESS)
        then (store_through config tmp status, Some dev)
        else (failed status, Some dev)
      else (failed status, Some dev)
  end.

Definition RelaconDeviceWatchdogSet (dev : option RelaconDevice)
    (config : Z) : Result unit * option RelaconDevice :=
  match dev with
  | None => (failed RELACON_STATUS_ERROR_ARGUMENT_NULL, None)
  | Some dev =>
      if (config <? RELACON_WATCHDOG_CONFIG_OFF) ||
         (config >? RELACON_WATCHDOG_CONFIG_1MIN) then
        (failed RELACON_STATUS_ERROR_INVALID_PARAM, Some dev)
      else
        let '(status, dev) :=
          WriteFormattedCmd dev (bytes_of_string "WD" ++ fmt_d config) in
        (failed status, Some dev)
  end.

Definition RelaconDeviceWatchdogGet (dev : option RelaconDevice)
    (config : pointer) : Result Z * option RelaconDevice :=
  match dev, config with
  | None, _ => (failed RELACON_STATUS_ERROR_ARGUMENT_NULL, None)
  | Some dev, NULL => (failed RELACON_STATUS_ERROR_ARGUMENT_NULL, Some dev)
  | Some dev, PTR =>
      let '(status, dev) := WriteFormattedCmd dev (bytes_of_string "WD") in
      if decide (status = RELACON_STATUS_SUCCESS) then
        let '(status, tmp, dev) :=
          ReadNumericResponse dev RELACON_WATCHDOG_CONFIG_OFF
            RELACON_WATCHDOG_CONFIG_1MIN indeterminate in
        if decide (status = RELACON_STATUS_SUCCESS)
        then (store_through config tmp status, Some dev)
        else (failed status, Some dev)
      else (failed status, Some dev)
  end.

End PublicOperations.

(** [cmd] is NULL or the bytes of the caller's command string. *)
Definition RelaconDeviceRawWrite (dev : option RelaconDevice)
    (cmd : option (list byte)) : Result unit * option RelaconDevice :=
  match dev, cmd with
  | None, _ => (failed RELACON_STATUS_ERROR_ARGUMENT_NULL, None)
  | Some dev, None => (failed RELACON_STATUS_ERROR_ARGUMENT_NULL, Some dev)
  | Some dev, Some cmd =>
      if (REPORT_DATA_LEN <? strlen cmd)%nat then
        (failed RELACON_STATUS_ERROR_INVALID_PARAM, Some dev)
      else
        let buf := <[O := REPORT_ID_CMD]> (reportBuf dev) in
        let buf := write_at 1 (strncpy_image cmd REPORT_DATA_LEN) buf in
        let '(status, dev) := WriteReport (set_reportBuf dev buf) in
        (failed status, Some dev)
  end.

(** [buf] is NULL or the caller's memory from [buf] on, which may extend
    beyond the [len] bytes announced; the result carries that memory as
    the call leaves it. *)
Definition RelaconDeviceRawRead (dev : option RelaconDevice)
    (buf : option (list byte)) (len : nat) (timeout : Z)
  : Result (list byte) * option RelaconDevice :=
  match dev, buf with
  | None, _ => (failed RELACON_STATUS_ERROR_ARGUMENT_NULL, None)
  | Some dev, None => (failed RELACON_STATUS_ERROR_ARGUMENT_NULL, Some dev)
  | Some dev, Some buf =>
      let '(status, dev) := ReadReport dev timeout in
      if decide (status = RELACON_STATUS_SUCCESS) then
        (Returned status
           (Some (strncpy buf (drop 1 (reportBuf dev) ++ trailing dev) len)),
         Some dev)
      else (failed status, Some dev)
  end.

(** The report buffer of a session is the 8-byte array of the structure. *)
Definition report_buffer_ok (dev : RelaconDevice) : Prop :=
  length (reportBuf dev) = REPORT_BUF_LEN.

(** ** Sample data

    Concrete sessions and reports on which the statements below are
    evaluated. *)

Definition sample_info : RelaconDeviceInfo :=
  {| vid := 0x0a07; pid := 218; serialNum := None; manufacturer := None;
     product := None; handle := None; numRelays := 8; numInputs := 8 |}.

(** A session on an ADU218 whose device will answer with [events]. *)
Definition sample_device (k : BackendKind) (events : list RxEvent)
  : RelaconDevice :=
  {| dev_addr := 1%nat;
     backendDevice :=
       {| bd_addr := 0%nat; bd_kind := k;
          bd_link := {| tx_log := []; tx_results := [];
                        rx_queue := events |} |};
     reportBuf := replicate 8 0;
     trailing := [0x07; 0x0a; 218; 0];
     info := sample_info |}.

(** ** Heap memory

    A block is a character buffer, a device-list entry (which records the
    device it was made for), or another structure whose fields the model
    keeps in its own records.  Addresses are handed out once; the outcome
    of the coming calls of the allocator is part of the state ([false]: NULL
    is returned; none listed: the allocation succeeds). *)

Inductive StringDescriptor :=
| NoDescriptor
| Unreadable
| Text (s : list Z).

(** A device on the bus as either library presents it: its identifiers,
    the usage of the HID collection (hidapi gives one enumeration entry per
    collection on some platforms), whether opening it and claiming its
    interface succeed, its three string descriptors (16-bit characters),
    and the link a session on it starts from. *)
Record UsbDevice := {
  vendor_id : Z;
  product_id : Z;
  usage : Z;
  openable : bool;
  claimable : bool;
  str_manufacturer : StringDescriptor;
  str_product : StringDescriptor;
  str_serial : StringDescriptor;
  firmware : Link;
}.

Inductive block :=
| Chars (s : list byte)
| EntryBlock (d : UsbDevice)
| Structure (tag : string).

Record Memory := {
  blocks : gmap addr block;
  brk : addr;
  budget : list bool;
}.

Definition malloc (b : block) (m : Memory) : option addr * Memory :=
  match budget m with
  | false :: rest =>
      (None, {| blocks := blocks m; brk := brk m; budget := rest |})
  | _ =>
      (Some (brk m),
       {| blocks := <[brk m := b]> (blocks m); brk := S (brk m);
          budget := tail (budget m) |})
  end.

(** [free(p)]; [free(NULL)] does nothing. *)
Definition free (p : option addr) (m : Memory) : Memory :=
  match p with
  | None => m
  | Some a =>
      {| blocks := delete a (blocks m); brk := brk m; budget := budget m |}
  end.

(** The characters behind a [char *]; reading memory that is not a live
    character buffer has no defined result in C and reads as the empty
    string here. *)
Definition load_chars (m : Memory) (p : addr) : list byte :=
  match blocks m !! p with
  | Some (Chars s) => s
  | _ => []
  end.

Definition strdup (p : addr) (m : Memory) : option addr * Memory :=
  malloc (Chars (cstr (load_chars m p) ++ [0])) m.

(** The supported-device test shared by the two backends. *)
Definition capabilities_of (d : UsbDevice)
  : option Capabilities.DeviceCapabilities :=
  Capabilities.DeviceCapabilitiesQuery (vendor_id d) (product_id d).

(** What the transport library reports: the devices attached, in the
    order of its enumeration, and whether the enumeration call itself
    fails.  [filter_hid_collection_usage] is the build setting
    [FILTER_HID_COLLECTION_USAGE]. *)
Record Platform := {
  attached : list UsbDevice;
  enumeration_fails : bool;
  filter_hid_collection_usage : bool;
}.

(** [struct BackendDeviceListEntry]; the [next] pointers are the order of
    the list that holds the entries. *)
Record BackendDeviceListEntry := {
  entry_addr : addr;
  devInfo : RelaconDeviceInfo;
  device : UsbDevice;
}.

(** [struct BackendDeviceList]: [listStart] is the chain from the first
    entry, [listCurrent] the chain from the cursor. *)
Record BackendDeviceList := {
  list_addr : addr;
  listStart : list BackendDeviceListEntry;
  listCurrent : list BackendDeviceListEntry;
}.

(** The three frees of [DeviceInfoDestroy] / [DeviceInfoFree]. *)
Definition DeviceInfoFree (i : RelaconDeviceInfo) (m : Memory) : Memory :=
  free (serialNum i) (free (product i) (free (manufacturer i) m)).

Definition entry_destroy (m : Memory) (e : BackendDeviceListEntry)
  : Memory :=
  free (Some (entry_addr e)) (DeviceInfoFree (devInfo e) m).

(** [DeviceListEntriesDestroy], the same walk in both backends. *)
Definition DeviceListEntriesDestroy (entries : list BackendDeviceListEntry)
    (m : Memory) : Memory :=
  foldl entry_destroy m entries.

(** [BackendDeviceListGetNext], the same in both backends. *)
Definition BackendDeviceListGetNext (devList : BackendDeviceList)
  : option RelaconDeviceInfo * BackendDeviceList :=
  match listCurrent devList with
  | [] => (None, devList)
  | listEntry :: next =>
      (Some (devInfo listEntry),
       {| list_addr := list_addr devList; listStart := listStart devList;
          listCurrent := next |})
  end.

Definition set_manufacturer (i : RelaconDeviceInfo) (p : option addr) :=
  {| vid := vid i; pid := pid i; serialNum := serialNum i;
     manufacturer := p; product := product i; handle := handle i;
     numRelays := numRelays i; numInputs := numInputs i |}.

Definition set_product (i : RelaconDeviceInfo) (p : option addr) :=
  {| vid := vid i; pid := pid i; serialNum := serialNum i;
     manufacturer := manufacturer i; product := p; handle := handle i;
     numRelays := numRelays i; numInputs := numInputs i |}.

Definition set_serialNum (i : RelaconDeviceInfo) (p : option addr) :=
  {| vid := vid i; pid := pid i; serialNum := p;
     manufacturer := manufacturer i; product := product i;
     handle := handle i;
     numRelays := numRelays i; numInputs := numInputs i |}.

(** The device information both backends start an entry with. *)
Definition initial_info (a : addr) (d : UsbDevice)
    (capabilities : Capabilities.DeviceCapabilities) : RelaconDeviceInfo :=
  {| vid := vendor_id d; pid := product_id d; serialNum := None;
     manufacturer := None; product := None; handle := Some a;
     numRelays := Capabilities.numRelays capabilities;
     numInputs := Capabilities.numInputs capabilities |}.

(** ** The hidapi backend (BackendHidapi.c) *)

Module Hidapi.

(** [wcslen] and [wcstombs] in the "C" locale, which the program never
    leaves: a wide character above 127 cannot be converted. *)
Definition wcslen (ws : list Z) : nat := strlen ws.

Definition wcstombs (ws : list Z) : option (list byte) :=
  let cs := take (wcslen ws) ws in
  if forallb (fun c => (0 <? c) && (c <? 128)) cs then Some cs else None.

(** What [hid_get_..._string] leaves in [wchar_t strBuf[64]] for a
    descriptor [s]: at most 63 characters and the terminator. *)
Definition STRING_BUF_LEN : nat := 64.

Definition fetched (s : list Z) : list Z := take (STRING_BUF_LEN - 1) s.

(** [FetchString]: the status, what [*buf] holds afterwards ([cur] is what
    it held before), and the memory. *)
Definition FetchString (desc : StringDescriptor) (cur : option addr)
    (m : Memory) : RelaconStatus * option addr * Memory :=
  match desc with
  | NoDescriptor | Unreadable => (RELACON_STATUS_SUCCESS, None, m)
  | Text s =>
      let strBuf := fetched s in
      match malloc (Chars (replicate (wcslen strBuf + 1) 0)) m with
      | (None, m) => (RELACON_STATUS_ERROR_OUT_OF_MEMORY, cur, m)
      | (Some asciiStrBuf, m) =>
          match wcstombs strBuf with
          | None => (RELACON_STATUS_ERROR_INTERNAL, cur, m)
          | Some cs =>
              (RELACON_STATUS_SUCCESS, Some asciiStrBuf,
               {| blocks := <[asciiStrBuf := Chars (cs ++ [0])]> (blocks m);
                  brk := brk m; budget := budget m |})
          end
      end
  end.

Definition IsPotentialRelaconDevice (plat : Platform) (d : UsbDevice)
  : bool :=
  if filter_hid_collection_usage plat then usage d =? 1 else true.

(** [DeviceInfoPopulate]: the statuses of the three [FetchString] calls
    are not looked at. *)
Definition DeviceInfoPopulate (listEntry : addr) (d : UsbDevice)
    (capabilities : Capabilities.DeviceCapabilities) (m : Memory)
  : RelaconDeviceInfo * Memory :=
  let devInfo := initial_info listEntry d capabilities in
  if openable d then
    let '(_, p, m) := FetchString (str_manufacturer d) (manufacturer devInfo) m in
    let devInfo := set_manufacturer devInfo p in
    let '(_, p, m) := FetchString (str_product d) (product devInfo) m in
    let devInfo := set_product devInfo p in
    let '(_, p, m) := FetchString (str_serial d) (serialNum devInfo) m in
    let devInfo := set_serialNum devInfo p in
    (devInfo, m)
  else (devInfo, m).

(** The [while] loop of [DeviceListEntriesCreate] over the enumeration of
    hidapi; [linked] are the entries linked so far. *)
Fixpoint entries_loop (plat : Platform) (hidapiDevInfo : list UsbDevice)
    (linked : list BackendDeviceListEntry) (m : Memory)
  : RelaconStatus * list BackendDeviceListEntry * Memory :=
  match hidapiDevInfo with
  | [] => (RELACON_STATUS_SUCCESS, linked, m)
  | d :: next =>
      match capabilities_of d with
      | None => entries_loop plat next linked m
      | Some capabilities =>
          if negb (IsPotentialRelaconDevice plat d) then
            entries_loop plat next linked m
          else
            match malloc (EntryBlock d) m with
            | (None, m) => (RELACON_STATUS_ERROR_OUT_OF_MEMORY, linked, m)
            | (Some listEntry, m) =>
                let '(i, m) := DeviceInfoPopulate listEntry d capabilities m in
                entries_loop plat next
                  (linked ++ [{| entry_addr := listEntry; devInfo := i;
                                 device := d |}]) m
            end
      end
  end.

(** [DeviceListEntriesCreate]: the status, the entries reachable from
    [listStart] (after a failure they have been freed), the memory. *)
Definition DeviceListEntriesCreate (plat : Platform) (m : Memory)
  : RelaconStatus * list BackendDeviceListEntry * Memory :=
  let '(status, linked, m) := entries_loop plat (attached plat) [] m in
  if decide (status = RELACON_STATUS_SUCCESS) then (status, linked, m)
  else (status, linked, DeviceListEntriesDestroy linked m).

Definition BackendDeviceListCreate (plat : Platform) (m : Memory)
  : RelaconStatus * option BackendDeviceList * Memory :=
  match malloc (Structure "BackendDeviceList") m with
  | (None, m) => (RELACON_STATUS_ERROR_OUT_OF_MEMORY, None, m)
  | (Some devList, m) =>
      if enumeration_fails plat || bool_decide (attached plat = []) then
        (RELACON_STATUS_ERROR_INTERNAL, None, free (Some devList) m)
      else
        let '(status, entries, m) := DeviceListEntriesCreate plat m in
        if decide (status = RELACON_STATUS_SUCCESS) then
          (status,
           Some {| list_addr := devList; listStart := entries;
                   listCurrent := entries |}, m)
        else (status, None, free (Some devList) m)
  end.

Definition BackendDeviceListDestroy (devList : BackendDeviceList)
    (m : Memory) : RelaconStatus * Memory :=
  let m := DeviceListEntriesDestroy (listStart devList) m in
  (RELACON_STATUS_SUCCESS, free (Some (list_addr devList)) m).

(** [BackendDeviceOpen]: the handle is the address of a list entry, read
    from memory; one whose listing is gone has no defined behaviour in C
    and is answered with an internal failure here.  When [hid_open_path]
    fails the structure just allocated is not freed. *)
Definition BackendDeviceOpen (handle : option addr) (m : Memory)
  : RelaconStatus * option BackendDevice * Memory :=
  match handle ≫= (fun a => blocks m !! a) with
  | Some (EntryBlock d) =>
      match malloc (Structure "BackendDevice") m with
      | (None, m) => (RELACON_STATUS_ERROR_OUT_OF_MEMORY, None, m)
      | (Some dev, m) =>
          if openable d then
            (RELACON_STATUS_SUCCESS,
             Some {| bd_addr := dev; bd_kind := HIDAPI;
                     bd_link := firmware d |}, m)
          else (RELACON_STATUS_ERROR_INTERNAL, None, m)
      end
  | _ => (RELACON_STATUS_ERROR_INTERNAL, None, m)
  end.

End Hidapi.

(** [BackendDeviceClose], the same in both backends: the library handle
    is closed and the structure freed. *)
Definition BackendDeviceClose (dev : BackendDevice) (m : Memory)
  : RelaconStatus * Memory :=
  (RELACON_STATUS_SUCCESS, free (Some (bd_addr dev)) m).

(** ** The libusb backend (BackendLibusb.c) *)

Module Libusb.

Definition STRING_DESCRIPTOR_BUF_LEN : nat := 128.

(** [libusb_get_string_descriptor_ascii]: characters above 127 become
    ['?'], and the text is cut to leave room for the terminator. *)
Definition descriptor_ascii (s : list Z) : list byte :=
  map (fun c => if c <? 128 then c else 63)
    (take (STRING_DESCRIPTOR_BUF_LEN - 1) s) ++ [0].

(** [FetchStringDescriptor]: the status, what [*str] holds afterwards, the
    memory.  A descriptor index of 0 is [NoDescriptor]. *)
Definition FetchStringDescriptor (desc : StringDescriptor)
    (cur : option addr) (m : Memory)
  : RelaconStatus * option addr * Memory :=
  match desc with
  | NoDescriptor => (RELACON_STATUS_ERROR_NO_ENTRY, cur, m)
  | _ =>
      match malloc (Chars (replicate STRING_DESCRIPTOR_BUF_LEN 0)) m with
      | (None, m) => (RELACON_STATUS_ERROR_OUT_OF_MEMORY, cur, m)
      | (Some newString, m) =>
          match desc with
          | Text s =>
              (RELACON_STATUS_SUCCESS, Some newString,
               {| blocks :=
                    <[newString := Chars (descriptor_ascii s)]> (blocks m);
                  brk := brk m; budget := budget m |})
          | _ =>
              (RELACON_STATUS_ERROR_INTERNAL, cur, free (Some newString) m)
          end
      end
  end.

(** One round of the [for] loop of [PopulateDeviceInfoStrings]: it runs
    while the status is success; a fetch that fails for another reason than
    a missing descriptor frees the strings of the entry and becomes the
    status. *)
Definition fetch_into (get : RelaconDeviceInfo -> option addr)
    (set : RelaconDeviceInfo -> option addr -> RelaconDeviceInfo)
    (desc : StringDescriptor)
    (st : RelaconStatus * RelaconDeviceInfo * Memory)
  : RelaconStatus * RelaconDeviceInfo * Memory :=
  let '(status, i, m) := st in
  if decide (status = RELACON_STATUS_SUCCESS) then
    let '(fetchStatus, p, m) := FetchStringDescriptor desc (get i) m in
    let i := set i p in
    if decide (fetchStatus <> RELACON_STATUS_SUCCESS /\
               fetchStatus <> RELACON_STATUS_ERROR_NO_ENTRY)
    then (fetchStatus, i, DeviceInfoFree i m)
    else (status, i, m)
  else st.

Definition PopulateDeviceInfoStrings (i : RelaconDeviceInfo)
    (d : UsbDevice) (m : Memory)
  : RelaconStatus * RelaconDeviceInfo * Memory :=
  if openable d then
    fetch_into serialNum set_serialNum (str_serial d)
      (fetch_into product set_product (str_product d)
         (fetch_into manufacturer set_manufacturer (str_manufacturer d)
            (RELACON_STATUS_SUCCESS, i, m)))
  else (RELACON_STATUS_ERROR_INTERNAL, i, m).

Definition DeviceListEntryCreate (d : UsbDevice)
    (capabilities : Capabilities.DeviceCapabilities) (m : Memory)
  : RelaconStatus * option BackendDeviceListEntry * Memory :=
  match malloc (EntryBlock d) m with
  | (None, m) => (RELACON_STATUS_ERROR_OUT_OF_MEMORY, None, m)
  | (Some newEntry, m) =>
      let '(status, i, m) :=
        PopulateDeviceInfoStrings (initial_info newEntry d capabilities)
          d m in
      if decide (status = RELACON_STATUS_SUCCESS) then
        (status,
         Some {| entry_addr := newEntry; devInfo := i; device := d |}, m)
      else (status, None, free (Some newEntry) m)
  end.

(** The [for] loop of [DeviceListEntriesCreate] over the device list of
    libusb; [linked] are the entries linked so far. *)
Fixpoint entries_loop (deviceList : list UsbDevice)
    (linked : list BackendDeviceListEntry) (m : Memory)
  : RelaconStatus * list BackendDeviceListEntry * Memory :=
  match deviceList with
  | [] => (RELACON_STATUS_SUCCESS, linked, m)
  | d :: rest =>
      match capabilities_of d with
      | None => entries_loop rest linked m
      | Some capabilities =>
          match DeviceListEntryCreate d capabilities m with
          | (_, Some entry, m) => entries_loop rest (linked ++ [entry]) m
          | (status, None, m) =>
              if decide (status = RELACON_STATUS_ERROR_OUT_OF_MEMORY) then
                (status, linked, DeviceListEntriesDestroy linked m)
              else entries_loop rest linked m
          end
      end
  end.

Definition DeviceListEntriesCreate (plat : Platform) (m : Memory)
  : RelaconStatus * list BackendDeviceListEntry * Memory :=
  entries_loop (attached plat) [] m.

(** After a failure of [DeviceListEntriesCreate] neither the list
    structure nor the device list of libusb is released. *)
Definition BackendDeviceListCreate (plat : Platform) (m : Memory)
  : RelaconStatus * option BackendDeviceList * Memory :=
  match malloc (Structure "BackendDeviceList") m with
  | (None, m) => (RELACON_STATUS_ERROR_OUT_OF_MEMORY, None, m)
  | (Some newDeviceList, m) =>
      if enumeration_fails plat then
        (RELACON_STATUS_ERROR_INTERNAL, None, free (Some newDeviceList) m)
      else
        let '(status, entries, m) := DeviceListEntriesCreate plat m in
        if decide (status = RELACON_STATUS_SUCCESS) then
          (status,
           Some {| list_addr := newDeviceList; listStart := entries;
                   listCurrent := entries |}, m)
        else (status, None, m)
  end.

Definition BackendDeviceListDestroy (devList : BackendDeviceList)
    (m : Memory) : RelaconStatus * Memory :=
  let m := DeviceListEntriesDestroy (listStart devList) m in
  (RELACON_STATUS_SUCCESS, free (Some (list_addr devList)) m).

(** [BackendDeviceOpen]; see [Hidapi.BackendDeviceOpen] for the handle.
    When the interface cannot be claimed the structure is not freed. *)
Definition BackendDeviceOpen (handle : option addr) (m : Memory)
  : RelaconStatus * option BackendDevice * Memory :=
  match handle ≫= (fun a => blocks m !! a) with
  | Some (EntryBlock d) =>
      match malloc (Structure "BackendDevice") m with
      | (None, m) => (RELACON_STATUS_ERROR_OUT_OF_MEMORY, None, m)
      | (Some newDev, m) =>
          if negb (openable d) then
            (RELACON_STATUS_ERROR_INTERNAL, None, free (Some newDev) m)
          else if negb (claimable d) then
            (RELACON_STATUS_ERROR_INTERNAL, None, m)
          else
            (RELACON_STATUS_SUCCESS,
             Some {| bd_addr := newDev; bd_kind := LIBUSB;
                     bd_link := firmware d |}, m)
      end
  | _ => (RELACON_STATUS_ERROR_INTERNAL, None, m)
  end.

End Libusb.

(** ** Listings and opening a session (Relacon.c) *)

(** The backend the driver was built with. *)
Definition BackendDeviceListCreate (k : BackendKind) :=
  match k with
  | HIDAPI => Hidapi.BackendDeviceListCreate
  | LIBUSB => Libusb.BackendDeviceListCreate
  end.

Definition BackendDeviceListDestroy (k : BackendKind) :=
  match k with
  | HIDAPI => Hidapi.BackendDeviceListDestroy
  | LIBUSB => Libusb.BackendDeviceListDestroy
  end.

Definition BackendDeviceOpen (k : BackendKind) :=
  match k with
  | HIDAPI => Hidapi.BackendDeviceOpen
  | LIBUSB => Libusb.BackendDeviceOpen
  end.

Record RelaconDeviceList := {
  rdl_addr : addr;
  backendDeviceList : BackendDeviceList;
}.

Definition RelaconDeviceListCreate (k : BackendKind) (plat : Platform)
    (m : Memory) : option RelaconDeviceList * Memory :=
  match malloc (Structure "RelaconDeviceList") m with
  | (None, m) => (None, m)
  | (Some devList, m) =>
      let '(status, l, m) := BackendDeviceListCreate k plat m in
      match l with
      | Some l =>
          if decide (status = RELACON_STATUS_SUCCESS)
          then (Some {| rdl_addr := devList; backendDeviceList := l |}, m)
          else (None, free (Some devList) m)
      | None => (None, free (Some devList) m)
      end
  end.

Definition RelaconDeviceListDestroy (k : BackendKind)
    (devList : RelaconDeviceList) (m : Memory) : RelaconStatus * Memory :=
  let '(status, m) :=
    BackendDeviceListDestroy k (backendDeviceList devList) m in
  (status, free (Some (rdl_addr devList)) m).

(** The test of [FindFirstMatchingDevice] on one candidate.  [serialNum] is
    NULL or the caller's string. *)
Definition matches_filter (m : Memory) (vid' pid' : Z)
    (serialNum' : option (list byte)) (candidate : RelaconDeviceInfo)
  : bool :=
  ((vid' =? 0) || (vid' =? vid candidate)) &&
  ((pid' =? 0) || (pid' =? pid candidate)) &&
  match serialNum' with
  | None => true
  | Some s =>
      match serialNum candidate with
      | None => false
      | Some p => strcmp_eq s (load_chars m p)
      end
  end.

(** The [while] loop of [FindFirstMatchingDevice]; it ends at the latest
    when [BackendDeviceListGetNext] has gone through the list. *)
Fixpoint find_loop (fuel : nat) (m : Memory) (devList : BackendDeviceList)
    (vid' pid' : Z) (serialNum' : option (list byte))
  : option RelaconDeviceInfo * BackendDeviceList :=
  match fuel with
  | O => (None, devList)
  | S fuel =>
      match BackendDeviceListGetNext devList with
      | (None, devList) => (None, devList)
      | (Some candidate, devList) =>
          if matches_filter m vid' pid' serialNum' candidate
          then (Some candidate, devList)
          else find_loop fuel m devList vid' pid' serialNum'
      end
  end.

Definition FindFirstMatchingDevice (m : Memory)
    (devList : BackendDeviceList) (vid' pid' : Z)
    (serialNum' : option (list byte))
  : option RelaconDeviceInfo * BackendDeviceList :=
  find_loop (S (length (listCurrent devList))) m devList vid' pid' serialNum'.

(** [p != NULL ? strdup(p) : p] *)
Definition copy_string (p : option addr) (m : Memory)
  : option addr * Memory :=
  match p with
  | None => (None, m)
  | Some a => strdup a m
  end.

Section Open.

(** What a freshly allocated report buffer holds, and the bytes of the
    [info] member that lie behind it in the structure. *)
Variable fresh_reportBuf : list byte.
Variable layout : RelaconDeviceInfo -> list byte.

Definition RelaconDeviceOpen (k : BackendKind) (plat : Platform)
    (vid' pid' : Z) (serialNum' : option (list byte)) (m : Memory)
  : option RelaconDevice * Memory :=
  match RelaconDeviceListCreate k plat m with
  | (None, m) => (None, m)
  | (Some devList, m) =>
      let '(devInfo, l) :=
        FindFirstMatchingDevice m (backendDeviceList devList)
          vid' pid' serialNum' in
      let devList := {| rdl_addr := rdl_addr devList;
                        backendDeviceList := l |} in
      let '(dev, m) :=
        match devInfo with
        | None => (None, m)
        | Some devInfo =>
            match BackendDeviceOpen k (handle devInfo) m with
            | (status, Some backendDevice, m) =>
                if decide (status = RELACON_STATUS_SUCCESS) then
                  match malloc (Structure "RelaconDevice") m with
                  | (None, m) =>
                      (None, (BackendDeviceClose backendDevice m).2)
                  | (Some dev, m) =>
                      let '(p, m) := copy_string (product devInfo) m in
                      let i := set_product devInfo p in
                      let '(p, m) := copy_string (manufacturer devInfo) m in
                      let i := set_manufacturer i p in
                      let '(p, m) := copy_string (serialNum devInfo) m in
                      let i := set_serialNum i p in
                      (Some {| dev_addr := dev;
                               backendDevice := backendDevice;
                               reportBuf := fresh_reportBuf;
                               trailing := layout i;
                               info := i |}, m)
                  end
                else (None, m)
            | (_, None, m) => (None, m)
            end
        end in
      (dev, (RelaconDeviceListDestroy k devList m).2)
  end.

End Open.

Definition RelaconDeviceClose (dev : RelaconDevice) (m : Memory)
  : RelaconStatus * Memory :=
  let m := free (product (info dev)) m in
  let m := free (manufacturer (info dev)) m in
  let m := free (serialNum (info dev)) m in
  let m := free (Some (dev_addr dev)) m in
  BackendDeviceClose (backendDevice dev) m.

(** ** Notions used to state the memory properties *)

(** No block lives at an address that was never handed out. *)
Definition mem_ok (m : Memory) : Prop :=
  forall a, (brk m <= a)%nat -> blocks m !! a = None.

Definition info_strings (i : RelaconDeviceInfo) : list addr :=
  option_list (manufacturer i) ++ option_list (product i) ++
  option_list (serialNum i).

(** The addresses an entry owns: its strings and itself. *)
Definition entry_addrs (e : BackendDeviceListEntry) : list addr :=
  info_strings (devInfo e) ++ [entry_addr e].

Definition entries_addrs (l : list BackendDeviceListEntry) : list addr :=
  concat (map entry_addrs l).

(** [m'] is [m] after allocations and frees that left exactly the fresh
    addresses [owned] changed. *)
Definition only_grew (m m' : Memory) (owned : list addr) : Prop :=
  mem_ok m' /\ (brk m <= brk m')%nat /\
  Forall (fun a => (brk m <= a < brk m')%nat) owned /\
  (forall a, a ∉ owned -> blocks m' !! a = blocks m !! a).

(** [m'] is [m] after allocations and frees that left the blocks of [m]
    alone; [owned] are fresh addresses. *)
Definition kept_old (m m' : Memory) (owned : list addr) : Prop :=
  mem_ok m' /\ (brk m <= brk m')%nat /\
  Forall (fun a => (brk m <= a < brk m')%nat) owned /\
  (forall a, (a < brk m)%nat -> blocks m' !! a = blocks m !! a).

(** The candidates the libusb backend lists when memory suffices: the
    supported devices that can be opened and whose present string
    descriptors can all be read. *)
Definition readable (s : StringDescriptor) : bool :=
  match s with Unreadable => false | _ => true end.

Definition strings_readable (d : UsbDevice) : bool :=
  openable d && readable (str_manufacturer d) && readable (str_product d) &&
  readable (str_serial d).

Definition libusb_listable (d : UsbDevice) : bool :=
  bool_decide (is_Some (capabilities_of d)) && strings_readable d.

(** The candidates the hidapi backend lists: the supported devices that
    pass the collection-usage test. *)
Definition hidapi_listable (plat : Platform) (d : UsbDevice) : bool :=
  bool_decide (is_Some (capabilities_of d)) &&
  Hidapi.IsPotentialRelaconDevice plat d.

(** The strings of a device information are live character buffers. *)
Definition strings_live (m : Memory) (i : RelaconDeviceInfo) : Prop :=
  forall p, p ∈ info_strings i -> exists s, blocks m !! p = Some (Chars s).

(** An entry of a listing is intact: its strings are live, it is itself
    live, and its handle is its own address. *)
Definition entry_live (m : Memory) (e : BackendDeviceListEntry) : Prop :=
  strings_live m (devInfo e) /\
  blocks m !! entry_addr e = Some (EntryBlock (device e)) /\
  handle (devInfo e) = Some (entry_addr e).

(** The state of the loop of [Libusb.PopulateDeviceInfoStrings] with
    respect to the memory [m0] it started from: while the status is success
    the strings fetched so far are what changed; after a failure nothing
    is. *)
Definition populate_inv (m0 : Memory)
    (st : RelaconStatus * RelaconDeviceInfo * Memory) : Prop :=
  let '(status, i, m) := st in
  (budget m0 = [] ->
   budget m = [] /\ status <> RELACON_STATUS_ERROR_OUT_OF_MEMORY) /\
  ((status = RELACON_STATUS_SUCCESS /\ only_grew m0 m (info_strings i) /\
    strings_live m i) \/
   ((status = RELACON_STATUS_ERROR_OUT_OF_MEMORY \/
     status = RELACON_STATUS_ERROR_INTERNAL) /\ only_grew m0 m [])).

(** An entry made for a device that cannot be opened carries no string. *)
Definition unopened_bare (e : BackendDeviceListEntry) : Prop :=
  openable (device e) = false -> info_strings (devInfo e) = [].

(** [DeviceListEntriesCreate] of the backend the driver was built with. *)
Definition DeviceListEntriesCreate (k : BackendKind) :=
  match k with
  | HIDAPI => Hidapi.DeviceListEntriesCreate
  | LIBUSB => Libusb.DeviceListEntriesCreate
  end.

(** ** Sample devices and platforms *)

Definition quiet_link : Link :=
  {| tx_log := []; tx_results := []; rx_queue := [] |}.

(** An ADU218 with its three strings. *)
Definition adu218 : UsbDevice :=
  {| vendor_id := 0x0a07; product_id := 218; usage := 1;
     openable := true; claimable := true;
     str_manufacturer := Text (bytes_of_string "OnTrak");
     str_product := Text (bytes_of_string "ADU218");
     str_serial := Text (bytes_of_string "B02594");
     firmware := quiet_link |}.

(** A second ADU218 with another serial number. *)
Definition adu218_b : UsbDevice :=
  {| vendor_id := 0x0a07; product_id := 218; usage := 1;
     openable := true; claimable := true;
     str_manufacturer := Text (bytes_of_string "OnTrak");
     str_product := Text (bytes_of_string "ADU218");
     str_serial := Text (bytes_of_string "B07777");
     firmware := quiet_link |}.

(** An ADU208 that some other program holds open. *)
Definition busy_adu208 : UsbDevice :=
  {| vendor_id := 0x0a07; product_id := 208; usage := 1;
     openable := false; claimable := false;
     str_manufacturer := Text (bytes_of_string "OnTrak");
     str_product := Text (bytes_of_string "ADU208");
     str_serial := Text (bytes_of_string "A00001");
     firmware := quiet_link |}.

(** A device that is not in the capability table. *)
Definition keyboard : UsbDevice :=
  {| vendor_id := 0x046d; product_id := 0xc31c; usage := 6;
     openable := true; claimable := true;
     str_manufacturer := Text (bytes_of_string "Logi");
     str_product := NoDescriptor; str_serial := NoDescriptor;
     firmware := quiet_link |}.

Definition sample_platform : Platform :=
  {| attached := [keyboard; busy_adu208; adu218; adu218_b];
     enumeration_fails := false;
     filter_hid_collection_usage := false |}.

(** An empty heap whose allocator never fails, and one whose sixth
    allocation fails. *)
Definition empty_memory : Memory :=
  {| blocks := ∅; brk := O; budget := [] |}.

Definition tight_memory : Memory :=
  {| blocks := ∅; brk := O;
     budget := [true; true; true; true; true; false] |}.

Definition no_match (m : Memory) (vid' pid' : Z)
    (serialNum' : option (list byte)) (e : BackendDeviceListEntry) : Prop :=
  matches_filter m vid' pid' serialNum' (devInfo e) = false.

(** How a string of a session relates to the string [src] of the entry it
    was opened from: [m0] is the memory before opening, [m1] the memory
    when the listing exists, [m'] the memory after [RelaconDeviceOpen] has
    returned, [listing] the addresses the listing owns.  An absent string
    stays absent; a present one is a live buffer of the listing, and its
    copy, made unless the allocation failed, lies outside the listing and
    is live afterwards with the same characters. *)
Definition session_copy (m0 m1 m' : Memory) (listing : list addr)
    (src dst : option addr) : Prop :=
  match src with
  | None => dst = None
  | Some p =>
      p ∈ listing /\ (exists s, blocks m1 !! p = Some (Chars s)) /\
      (budget m0 = [] -> is_Some dst) /\
      forall q, dst = Some q ->
                (q ∉ listing) /\
                blocks m' !! q = Some (Chars (cstr (load_chars m1 p) ++ [0]))
  end.

(** The number a string of decimal digits denotes. *)
Definition decimal_value (ds : list byte) : Z :=
  fold_left (fun acc c => 10 * acc + (c - 48)) ds 0.

(** ** Definitions for the further properties *)

(** Whether the transport takes the next report written. *)
Definition accepts_write (dev : RelaconDevice) : bool :=
  match tx_results (bd_link (backendDevice dev)) with
  | [] => true
  | r :: _ => r
  end.

(** The report that carries the text [text] after the identifier. *)
Definition report_of (text : list byte) : list byte :=
  REPORT_ID_CMD :: text ++ replicate (7 - length text) 0.

(** The device sends nothing before the read gives up. *)
Definition silent (dev : RelaconDevice) : bool :=
  match rx_queue (bd_link (backendDevice dev)) with
  | [] | RxTimeout :: _ => true
  | _ => false
  end.

(** What a read that met no report answers with each transport. *)
Definition unanswered_status (k : BackendKind) : RelaconStatus :=
  match k with
  | HIDAPI => RELACON_STATUS_ERROR_TIMEOUT
  | LIBUSB => RELACON_STATUS_ERROR_DEVICE_IO
  end.

(** The traffic of one call that left the session [dev] as [dev']: at most
    one report was handed to the transport, of 8 bytes, behind those written
    before; at most one read event was used up; the report buffer has its 8
    bytes and the device information is the same. *)
Definition one_exchange (dev dev' : RelaconDevice) : Prop :=
  (exists l, sent dev' = sent dev ++ l /\ (length l <= 1)%nat /\
             Forall (fun r => length r = REPORT_BUF_LEN) l) /\
  (rx_queue (bd_link (backendDevice dev')) =
     rx_queue (bd_link (backendDevice dev)) \/
   rx_queue (bd_link (backendDevice dev')) =
     tail (rx_queue (bd_link (backendDevice dev)))) /\
  report_buffer_ok dev' /\ info dev' = info dev.

(** The session an operation called on [dev] leaves behind went through
    at most one exchange. *)
Definition after_call {A : Type} (dev : RelaconDevice)
    (r : Result A * option RelaconDevice) : Prop :=
  exists dev', r.2 = Some dev' /\ one_exchange dev dev'.

(** A string descriptor of which [Hidapi.wcstombs] can convert what is
    fetched (or that is absent), and a device all of whose strings are
    such. *)
Definition convertible (desc : StringDescriptor) : bool :=
  match desc with
  | Text ws => bool_decide (is_Some (Hidapi.wcstombs (Hidapi.fetched ws)))
  | _ => true
  end.

Definition strings_convertible (d : UsbDevice) : bool :=
  convertible (str_manufacturer d) && convertible (str_product d) &&
  convertible (str_serial d).

(** A device that the listing shows but that a session cannot be opened
    on: with hidapi one that cannot be opened, with libusb one whose
    interface cannot be claimed. *)
Definition busy (k : BackendKind) (d : UsbDevice) : bool :=
  match k with
  | HIDAPI => negb (openable d)
  | LIBUSB => openable d && negb (claimable d)
  end.

(** Whether the backend can open a session on a device: with hidapi the
    device must open, with libusb it must open and its interface must be
    claimed. *)
Definition can_open (k : BackendKind) (d : UsbDevice) : bool :=
  match k with
  | HIDAPI => openable d
  | LIBUSB => openable d && claimable d
  end.

(** An entry describes the device it was made for: its identifiers are
    the device's, and its relay and input counts are those the capability
    table gives for them. *)
Definition entry_describes (e : BackendDeviceListEntry) : Prop :=
  vid (devInfo e) = vendor_id (device e) /\
  pid (devInfo e) = product_id (device e) /\
  Capabilities.DeviceCapabilitiesQuery (vid (devInfo e)) (pid (devInfo e)) =
    Some {| Capabilities.numInputs := numInputs (devInfo e);
            Capabilities.numRelays := numRelays (devInfo e) |}.

(** An entry for one of the devices [all]. *)
Definition entry_of (all : list UsbDevice) (e : BackendDeviceListEntry)
  : Prop :=
  entry_describes e /\ device e ∈ all.

(** The fields of a device information that are not strings. *)
Definition identity (i : RelaconDeviceInfo) : Z * Z * Z * Z * option addr :=
  (vid i, pid i, numRelays i, numInputs i, handle i).

(** ** The API context (Relacon.c, [BackendInit] and [BackendExit])

    The transport library has a state of its own: whether it is
    initialised, and whether its initialisation ([hid_init], [libusb_init])
    and its shutdown ([hid_exit]) fail when they are called. *)

Record Library := {
  init_fails : bool;
  exit_fails : bool;
  initialised : bool;
}.

Definition set_initialised (lib : Library) (b : bool) : Library :=
  {| init_fails := init_fails lib; exit_fails := exit_fails lib;
     initialised := b |}.

(** [hid_init()] and [libusb_init(&ctx)]: 0 on success. *)
Definition library_init (lib : Library) : Z * Library :=
  if init_fails lib then (-1, lib) else (0, set_initialised lib true).

(** [hid_exit()]: 0 on success.  [libusb_exit(ctx)] returns nothing. *)
Definition hid_exit (lib : Library) : Z * Library :=
  if exit_fails lib then (-1, lib) else (0, set_initialised lib false).

Definition libusb_exit (lib : Library) : Library :=
  set_initialised lib false.

(** A library that works and has not been initialised. *)
Definition fresh_library : Library :=
  {| init_fails := false; exit_fails := false; initialised := false |}.

Module HidapiBackend.

(** [hid_init] comes first; when the allocation fails afterwards the
    library is shut down again. *)
Definition BackendInit (lib : Library) (m : Memory)
  : RelaconStatus * option addr * Library * Memory :=
  let '(r, lib) := library_init lib in
  if negb (r =? 0) then (RELACON_STATUS_ERROR_INTERNAL, None, lib, m)
  else
    match malloc (Structure "Backend") m with
    | (None, m) =>
        (RELACON_STATUS_ERROR_OUT_OF_MEMORY, None, (hid_exit lib).2, m)
    | (Some hidapiBackend, m) =>
        (RELACON_STATUS_SUCCESS, Some hidapiBackend, lib, m)
    end.

(** The structure is freed before [hid_exit] is called and whatever it
    answers. *)
Definition BackendExit (backend : addr) (lib : Library) (m : Memory)
  : RelaconStatus * Library * Memory :=
  let m := free (Some backend) m in
  let '(r, lib) := hid_exit lib in
  (if negb (r =? 0) then RELACON_STATUS_ERROR_INTERNAL
   else RELACON_STATUS_SUCCESS, lib, m).

End HidapiBackend.

Module LibusbBackend.

(** The allocation comes first; when [libusb_init] fails afterwards the
    structure is freed. *)
Definition BackendInit (lib : Library) (m : Memory)
  : RelaconStatus * option addr * Library * Memory :=
  match malloc (Structure "Backend") m with
  | (None, m) => (RELACON_STATUS_ERROR_OUT_OF_MEMORY, None, lib, m)
  | (Some newBackend, m) =>
      let '(result, lib) := library_init lib in
      if negb (result =? 0)
      then (RELACON_STATUS_ERROR_INTERNAL, None, lib,
            free (Some newBackend) m)
      else (RELACON_STATUS_SUCCESS, Some newBackend, lib, m)
  end.

Definition BackendExit (backend : addr) (lib : Library) (m : Memory)
  : RelaconStatus * Library * Memory :=
  let lib := libusb_exit lib in
  (RELACON_STATUS_SUCCESS, lib, free (Some backend) m).

End LibusbBackend.

Definition BackendInit (k : BackendKind) :=
  match k with
  | HIDAPI => HidapiBackend.BackendInit
  | LIBUSB => LibusbBackend.BackendInit
  end.

Definition BackendExit (k : BackendKind) :=
  match k with
  | HIDAPI => HidapiBackend.BackendExit
  | LIBUSB => LibusbBackend.BackendExit
  end.

(** [struct RelaconApi]: where it lives, and its [backend] member (the
    [log] member is left out with the logging). *)
Record RelaconApi := {
  api_addr : addr;
  backend : addr;
}.

Definition RelaconApiInit (k : BackendKind) (lib : Library) (m : Memory)
  : option RelaconApi * Library * Memory :=
  match malloc (Structure "RelaconApi") m with
  | (None, m) => (None, lib, m)
  | (Some api, m) =>
      let '(status, b, lib, m) := BackendInit k lib m in
      match b with
      | Some b =>
          if decide (status = RELACON_STATUS_SUCCESS)
          then (Some {| api_addr := api; backend := b |}, lib, m)
          else (None, lib, free (Some api) m)
      | None => (None, lib, free (Some api) m)
      end
  end.

Definition RelaconApiExit (k : BackendKind) (api : option RelaconApi)
    (lib : Library) (m : Memory) : RelaconStatus * Library * Memory :=
  match api with
  | None => (RELACON_STATUS_ERROR_ARGUMENT_NULL, lib, m)
  | Some api =>
      let '(status, lib, m) := BackendExit k (backend api) lib m in
      (status, lib, free (Some (api_addr api)) m)
  end.

(** [RelaconDeviceListGetNext]: the entry under the cursor is copied to
    [*devInfo], string pointers included, and the cursor moves on. *)
Definition RelaconDeviceListGetNext (devList : option RelaconDeviceList)
    (devInfo : pointer)
  : Result RelaconDeviceInfo * option RelaconDeviceList :=
  match devList, devInfo with
  | None, _ => (failed RELACON_STATUS_ERROR_ARGUMENT_NULL, None)
  | Some devList, NULL =>
      (failed RELACON_STATUS_ERROR_ARGUMENT_NULL, Some devList)
  | Some devList, PTR =>
      match BackendDeviceListGetNext (backendDeviceList devList) with
      | (Some devInfoInternal, l) =>
          (store_through devInfo devInfoInternal RELACON_STATUS_SUCCESS,
           Some {| rdl_addr := rdl_addr devList; backendDeviceList := l |})
      | (None, l) =>
          (failed RELACON_STATUS_ERROR_NO_ENTRY,
           Some {| rdl_addr := rdl_addr devList; backendDeviceList := l |})
      end
  end.

(** ** The command-line program (relacon-cli.c) *)

Module Cli.

(** *** Library functions of C used by the program *)

(** The value of a character as a digit, letters counting from 10. *)
Definition digit_value (c : byte) : option Z :=
  if isdigit c then Some (c - 48)
  else if (97 <=? c) && (c <=? 122) then Some (c - 87)
  else if (65 <=? c) && (c <=? 90) then Some (c - 55)
  else None.

(** The digits in base [base] at the head of [s]: their value on top of
    [acc], and how many there are. *)
Fixpoint scan_base (base acc : Z) (s : list byte) : Z * nat :=
  match s with
  | c :: rest =>
      match digit_value c with
      | Some d =>
          if d <? base
          then let '(v, n) := scan_base base (base * acc + d) rest in (v, S n)
          else (acc, O)
      | None => (acc, O)
      end
  | [] => (acc, O)
  end.

(** [strtol(s, &endptr, 0)]: the value and the offset of [endptr] from [s].
    White space and one optional sign are skipped; [0x] or [0X] before a
    hexadecimal digit announces base 16, another leading [0] base 8, and
    anything else is read in base 10.  With no digit at all nothing is
    converted: the value is 0 and [endptr] is [s].  A value out of the range
    of [long] is clamped. *)
Definition strtol_auto (s : list byte) : Z * nat :=
  let ws := skip_spaces s in
  let s1 := drop ws s in
  let '(neg, sg) :=
    match s1 with
    | 45 :: _ => (true, 1%nat)
    | 43 :: _ => (false, 1%nat)
    | _ => (false, O)
    end in
  let s2 := drop sg s1 in
  let '(base, prefix) :=
    match s2 with
    | 48 :: x :: h :: _ =>
        if ((x =? 120) || (x =? 88)) &&
           match digit_value h with Some d => d <? 16 | None => false end
        then (16, 2%nat) else (8, O)
    | 48 :: _ => (8, O)
    | _ => (10, O)
    end in
  let '(v, nd) := scan_base base 0 (drop prefix s2) in
  match nd with
  | O => (0, O)
  | _ =>
      let r := if neg : bool then - v else v in
      (Z.max LONG_MIN (Z.min LONG_MAX r), (ws + sg + prefix + nd)%nat)
  end.

Definition hex_digit (d : Z) : byte := if d <? 10 then 48 + d else 87 + d.

(** [%02x] of an 8-bit value and [%04x] of a 16-bit value. *)
Definition fmt_02x (n : Z) : list byte :=
  [hex_digit (n / 16 mod 16); hex_digit (n mod 16)].

Definition fmt_04x (n : Z) : list byte :=
  [hex_digit (n / 4096 mod 16); hex_digit (n / 256 mod 16);
   hex_digit (n / 16 mod 16); hex_digit (n mod 16)].

(** [%u] *)
Definition fmt_u (n : Z) : list byte :=
  bytes_of_string (NilZero.string_of_uint (N.to_uint (Z.to_N n))).

(** A line of text with its newline. *)
Definition line (text : list byte) : list byte := text ++ [10].

(** The two output streams, with what the program itself prints on them.
    The library writes lines of its own on the error stream when a call
    fails or a device is skipped (the macros [LOG_ERROR] and
    [LOG_WARNING]); these lines are not part of the model, and the
    statements about the error stream of a run that goes through the
    library leave room for them. *)
Record Console := {
  stdout : list byte;
  stderr : list byte;
}.

Definition printf (text : list byte) (c : Console) : Console :=
  {| stdout := stdout c ++ text; stderr := stderr c |}.

Definition eprintf (text : list byte) (c : Console) : Console :=
  {| stdout := stdout c; stderr := stderr c ++ text |}.

(** The value of an enumerator of [enum RelaconStatus], as [%d] prints
    it. *)
Definition status_code (status : RelaconStatus) : Z :=
  match status with
  | RELACON_STATUS_SUCCESS => 0
  | RELACON_STATUS_ERROR_ARGUMENT_NULL => 1
  | RELACON_STATUS_ERROR_INVALID_PARAM => 2
  | RELACON_STATUS_ERROR_OUT_OF_MEMORY => 3
  | RELACON_STATUS_ERROR_TIMEOUT => 4
  | RELACON_STATUS_ERROR_BAD_RESPONSE => 5
  | RELACON_STATUS_ERROR_DEVICE_IO => 6
  | RELACON_STATUS_ERROR_INTERNAL => 7
  | RELACON_STATUS_ERROR_NO_ENTRY => 8
  end.

(** What is left of a console on which only error messages were
    printed. *)
Definition complained (c c' : Console) : Prop :=
  stdout c' = stdout c /\ exists msg, stderr c' = stderr c ++ msg.

(** *** Options *)

Definition NUM_DIGITAL_INPUTS : Z := 8.
Definition NUM_RELAYS : Z := 8.

Inductive Operation :=
| OPERATION_NONE
| OPERATION_PRINT_HELP
| OPERATION_PRINT_VERSION
| OPERATION_LIST_DEVICES
| OPERATION_RW_ALL_RELAYS
| OPERATION_RW_SINGLE_RELAY
| OPERATION_R_DIGITAL_INPUTS
| OPERATION_R_EVENT_COUNTER
| OPERATION_RW_DEBOUNCE
| OPERATION_RW_WATCHDOG.

#[global] Instance Operation_eq_dec : EqDecision Operation.
Proof. solve_decision. Defined.

(** The value of an enumerator of [enum Operation]. *)
Definition operation_index (o : Operation) : nat :=
  match o with
  | OPERATION_NONE => 0
  | OPERATION_PRINT_HELP => 1
  | OPERATION_PRINT_VERSION => 2
  | OPERATION_LIST_DEVICES => 3
  | OPERATION_RW_ALL_RELAYS => 4
  | OPERATION_RW_SINGLE_RELAY => 5
  | OPERATION_R_DIGITAL_INPUTS => 6
  | OPERATION_R_EVENT_COUNTER => 7
  | OPERATION_RW_DEBOUNCE => 8
  | OPERATION_RW_WATCHDOG => 9
  end.

Module Options.

(** [struct CommandLineOptions] *)
Record CommandLineOptions := {
  progName : list byte;
  vid : Z;
  pid : Z;
  serialNumber : option (list byte);
  operation : Operation;
  relayIndex : Z;
  counterIndex : Z;
  clearOnRead : bool;
  writeValue : option (list byte);
}.

End Options.

Abbreviation CommandLineOptions := Options.CommandLineOptions.

(** The number a string of octal digits denotes. *)
Definition octal_value (ds : list byte) : Z :=
  fold_left (fun acc c => 8 * acc + (c - 48)) ds 0.

(** [ParseAndValidateNumber]; [out] is what the [long] behind the fourth
    argument holds, before and after. *)
Definition ParseAndValidateNumber (str : list byte) (min max : Z) (out : Z)
    (c : Console) : bool * Z * Console :=
  let '(val, endptr) := strtol_auto str in
  if negb (deref str endptr =? 0) then
    (false, out,
     eprintf (line (bytes_of_string "Failed to parse numeric value " ++
                    cstr str)) c)
  else if (val <? min) || (val >? max) then
    (false, out,
     eprintf (line (bytes_of_string "Value " ++ fmt_d val ++
                    bytes_of_string " is outside valid range [" ++
                    fmt_d min ++ bytes_of_string ", " ++ fmt_d max ++
                    bytes_of_string "]")) c)
  else (true, val, c).

(** [ValidateAndSetOperation]; the operation [*dst] holds afterwards is
    returned. *)
Definition ValidateAndSetOperation (dst src : Operation) (c : Console)
  : bool * Operation * Console :=
  if bool_decide (dst = OPERATION_NONE) || bool_decide (dst = src)
  then (true, src, c)
  else (false, dst,
        eprintf (line (bytes_of_string
                         "Conflicting options specified on command line")) c).

(** [PrintUsage]: the text printed. *)
Definition usage (progName : list byte) : list byte :=
  line (bytes_of_string "Usage: " ++ cstr progName ++
        bytes_of_string " [-l|-d|-w|-i|-e|-g] [OPTION]... [WRITE_VALUE]") ++
  line [] ++
  line (bytes_of_string "  -l, --list-devices       list available devices and exit") ++
  line (bytes_of_string "  -v, --vendor-id=ID       open device with the specified USB vendor ID") ++
  line (bytes_of_string "  -p, --product-id=ID      open device with the specified USB product ID") ++
  line (bytes_of_string "  -s, --serial-num=SERIAL  open device with the specified USB serial number") ++
  line (bytes_of_string "  -d, --debounce           read or write the debouce configuration") ++
  line (bytes_of_string "  -w, --watchdog           read or write the watchdog configuration") ++
  line (bytes_of_string "  -i, --individual=N       read or write the state for individual relay N") ++
  line (bytes_of_string "  -e, --event-counter=N    read the value of event counter N") ++
  line (bytes_of_string "  -c, --clear              clears the event counter on read") ++
  line (bytes_of_string "  -g, --digital            reads the state of the digital input pins") ++
  line [] ++
  line (bytes_of_string "Any combination of -v, -p, and -s can be used to filter which relay device") ++
  line (bytes_of_string "is operated on. If multiple devices match the filter criteria, the first") ++
  line (bytes_of_string "available device is used.") ++
  line [] ++
  line (bytes_of_string "Options -d, -w, -i, -e, and -g are mutually exclusive and determine which") ++
  line (bytes_of_string "device parameter is read or written. No positional arguments should be") ++
  line (bytes_of_string "specified for a read, whereas the WRITE_VALUE positional argument must be") ++
  line (bytes_of_string "specified to write a value. If none of these options is provided, the default") ++
  line (bytes_of_string "behavior is to read or write the state of the relay port.") ++
  line [] ++
  line (bytes_of_string "For the watchdog configuration writes, the acceptable write values are:") ++
  line (bytes_of_string "  0 - Watchdog timer is disabled") ++
  line (bytes_of_string "  1 - Watchdog timeout is 1 second") ++
  line (bytes_of_string "  2 - Watchdog timeout is 10 seconds") ++
  line (bytes_of_string "  3 - Watchdog timeout is 1 minute") ++
  line [] ++
  line (bytes_of_string "For the debounce configuration writes, the acceptable write values are:") ++
  line (bytes_of_string "  0 - Debounce window is 10ms") ++
  line (bytes_of_string "  1 - Debounce window is 1ms") ++
  line (bytes_of_string "  2 - Debounce window is 100us").

(** The version the build gives the program ([CMAKE_PROJECT_VERSION]). *)
Definition RELACON_CLI_VERSION : list byte := bytes_of_string "0.1".

Definition SimpleOperationPrintHelp (options : CommandLineOptions)
    (c : Console) : bool * Console :=
  (true, printf (usage (Options.progName options)) c).

Definition SimpleOperationPrintVersion (options : CommandLineOptions)
    (c : Console) : bool * Console :=
  (true, printf (line (bytes_of_string "Version: " ++ RELACON_CLI_VERSION)) c).

(** *** Calls of the library on an open session

    The program hands the library the address of a local variable:
    [local] is what the variable holds before the call, and what it holds
    afterwards is returned with the status.  (The third case of [returned]
    does not arise with such a pointer.) *)

Definition returned {A : Type} (r : Result A) (local : A)
  : RelaconStatus * A :=
  match r with
  | Returned status (Some v) => (status, v)
  | Returned status None => (status, local)
  | NullDereference => (RELACON_STATUS_SUCCESS, local)
  end.

Definition call {A : Type}
    (op : option RelaconDevice -> pointer -> Result A * option RelaconDevice)
    (dev : RelaconDevice) (local : A) : RelaconStatus * A * RelaconDevice :=
  let '(r, dev') := op (Some dev) PTR in
  (returned r local, default dev dev').

Definition call_set
    (op : option RelaconDevice -> Result unit * option RelaconDevice)
    (dev : RelaconDevice) : RelaconStatus * RelaconDevice :=
  let '(r, dev') := op (Some dev) in
  ((returned r tt).1, default dev dev').

(** The message of a failed call. *)
Definition failure (what : string) (status : RelaconStatus) : list byte :=
  line (bytes_of_string "Failed to " ++ bytes_of_string what ++
        bytes_of_string " (status=" ++ fmt_d (status_code status) ++
        bytes_of_string ")").

Section Program.

(** The contents of local variables before anything is assigned to them;
    what a freshly allocated session holds in its report buffer and behind
    it; the backend the library was built with and the devices attached. *)
Variable indeterminate : Z.
Variable indeterminate_bool : bool.
Variable fresh_reportBuf : list byte.
Variable layout : RelaconDeviceInfo -> list byte.
Variable k : BackendKind.
Variable plat : Platform.

(** The filter of [ApiOperationListDevices], written out in the program
    once more. *)
Definition listed (m : Memory) (options : CommandLineOptions)
    (devInfo : RelaconDeviceInfo) : bool :=
  ((Options.vid options =? 0) || (vid devInfo =? Options.vid options)) &&
  ((Options.pid options =? 0) || (pid devInfo =? Options.pid options)) &&
  match Options.serialNumber options with
  | None => true
  | Some s =>
      match serialNum devInfo with
      | None => false
      | Some p => strcmp_eq s (load_chars m p)
      end
  end.

(** [ptr ? ptr : fallback] as [%s] prints it. *)
Definition string_or (m : Memory) (p : option addr) (fallback : string)
  : list byte :=
  match p with
  | Some a => cstr (load_chars m a)
  | None => bytes_of_string fallback
  end.

(** The two lines printed for one device. *)
Definition device_lines (m : Memory) (devInfo : RelaconDeviceInfo)
  : list byte :=
  line (fmt_04x (vid devInfo) ++ bytes_of_string ":" ++
        fmt_04x (pid devInfo) ++ bytes_of_string ": " ++
        string_or m (manufacturer devInfo) "<NO MANUFACTURER>" ++
        bytes_of_string " - " ++
        string_or m (product devInfo) "<NO PRODUCT>" ++
        bytes_of_string " (" ++
        string_or m (serialNum devInfo) "<NO SERIAL NUMBER>" ++
        bytes_of_string ")") ++
  line ([9] ++ fmt_u (numRelays devInfo) ++ bytes_of_string " relays, " ++
        fmt_u (numInputs devInfo) ++ bytes_of_string " inputs").

(** The [while] loop of [ApiOperationListDevices]; it ends at the latest
    when the list has been gone through. *)
Fixpoint list_loop (fuel : nat) (m : Memory) (options : CommandLineOptions)
    (devList : RelaconDeviceList) (devInfo : RelaconDeviceInfo)
    (c : Console) : RelaconDeviceList * Console :=
  match fuel with
  | O => (devList, c)
  | S fuel =>
      let '(r, devList') := RelaconDeviceListGetNext (Some devList) PTR in
      let devList := default devList devList' in
      let '(status, devInfo) := returned r devInfo in
      if decide (status = RELACON_STATUS_SUCCESS) then
        list_loop fuel m options devList devInfo
          (if listed m options devInfo then printf (device_lines m devInfo) c
           else c)
      else (devList, c)
  end.

Definition ApiOperationListDevices (api : RelaconApi)
    (options : CommandLineOptions) (indeterminate_info : RelaconDeviceInfo)
    (c : Console) (m : Memory) : bool * Console * Memory :=
  match RelaconDeviceListCreate k plat m with
  | (None, m) =>
      (false, eprintf (line (bytes_of_string "Failed to create device list")) c,
       m)
  | (Some devList, m) =>
      let '(devList, c) :=
        list_loop (S (length (listCurrent (backendDeviceList devList))))
          m options devList indeterminate_info c in
      (true, c, (RelaconDeviceListDestroy k devList m).2)
  end.

Definition DeviceOperationReadDigitalInputs (dev : RelaconDevice)
    (options : CommandLineOptions) (c : Console)
  : bool * RelaconDevice * Console :=
  let '(status, value, dev) :=
    call (RelaconDeviceReadInputs indeterminate) dev indeterminate in
  if decide (status <> RELACON_STATUS_SUCCESS)
  then (false, dev, eprintf (failure "read digital inputs" status) c)
  else (true, dev, printf (line (bytes_of_string "0x" ++ fmt_02x value)) c).

Definition DeviceOperationReadEventCounter (dev : RelaconDevice)
    (options : CommandLineOptions) (c : Console)
  : bool * RelaconDevice * Console :=
  let '(status, count, dev) :=
    call (fun d p =>
            RelaconDeviceEventCounterGet indeterminate d
              (Options.counterIndex options) (Options.clearOnRead options) p)
      dev indeterminate in
  if decide (status <> RELACON_STATUS_SUCCESS)
  then (false, dev, eprintf (failure "read event counter" status) c)
  else (true, dev, printf (line (bytes_of_string "0x" ++ fmt_04x count)) c).

Definition DeviceOperationReadWriteRelays (dev : RelaconDevice)
    (options : CommandLineOptions) (c : Console)
  : bool * RelaconDevice * Console :=
  match Options.writeValue options with
  | None =>
      let '(status, value, dev) :=
        call (RelaconDeviceRelaysRead indeterminate) dev indeterminate in
      if decide (status <> RELACON_STATUS_SUCCESS)
      then (false, dev, eprintf (failure "read relays" status) c)
      else (true, dev, printf (line (bytes_of_string "0x" ++ fmt_02x value)) c)
  | Some writeValue =>
      let '(success, value, c) :=
        ParseAndValidateNumber writeValue 0 UINT8_MAX indeterminate c in
      if success then
        let '(status, dev) :=
          call_set (fun d => RelaconDeviceRelaysWrite d (value mod 256)) dev in
        if decide (status <> RELACON_STATUS_SUCCESS)
        then (success, dev, eprintf (failure "write relays" status) c)
        else (true, dev, c)
      else (success, dev, c)
  end.

Definition DeviceOperationReadWriteSingleRelay (dev : RelaconDevice)
    (options : CommandLineOptions) (c : Console)
  : bool * RelaconDevice * Console :=
  match Options.writeValue options with
  | None =>
      let '(status, isClosed, dev) :=
        call (fun d p =>
                RelaconDeviceSingleRelayRead indeterminate d
                  (Options.relayIndex options) p)
          dev indeterminate_bool in
      if decide (status <> RELACON_STATUS_SUCCESS)
      then (false, dev, eprintf (failure "read relay" status) c)
      else (true, dev,
            printf (line (fmt_d (if isClosed : bool then 1 else 0))) c)
  | Some writeValue =>
      let '(success, value, c) :=
        ParseAndValidateNumber writeValue 0 1 indeterminate c in
      if success then
        let '(status, dev) :=
          call_set (fun d =>
                      RelaconDeviceSingleRelayWrite d
                        (Options.relayIndex options) (negb (value =? 0)))
            dev in
        if decide (status <> RELACON_STATUS_SUCCESS)
        then (success, dev, eprintf (failure "write relay" status) c)
        else (true, dev, c)
      else (success, dev, c)
  end.

Definition DeviceOperationReadWriteDebounce (dev : RelaconDevice)
    (options : CommandLineOptions) (c : Console)
  : bool * RelaconDevice * Console :=
  match Options.writeValue options with
  | None =>
      let '(status, value, dev) :=
        call (RelaconDeviceEventCounterDebounceGet indeterminate) dev
          indeterminate in
      if decide (status <> RELACON_STATUS_SUCCESS)
      then (false, dev, eprintf (failure "read debounce value" status) c)
      else
        let configString :=
          if value =? RELACON_DEBOUNCE_CONFIG_100US then Some "100us"%string
          else if value =? RELACON_DEBOUNCE_CONFIG_1MS then Some "1ms"%string
          else if value =? RELACON_DEBOUNCE_CONFIG_10MS
               then Some "10ms"%string
          else None in
        match configString with
        | Some configString =>
            (true, dev,
             printf (line (bytes_of_string "Debounce setting: " ++
                           bytes_of_string configString)) c)
        | None =>
            (false, dev,
             eprintf (line (bytes_of_string
                              "Received unexpected debounce setting")) c)
        end
  | Some writeValue =>
      let '(success, value, c) :=
        ParseAndValidateNumber writeValue RELACON_DEBOUNCE_CONFIG_10MS
          RELACON_DEBOUNCE_CONFIG_100US indeterminate c in
      if success then
        let '(status, dev) :=
          call_set (fun d => RelaconDeviceEventCounterDebounceSet d value)
            dev in
        if decide (status <> RELACON_STATUS_SUCCESS)
        then (success, dev, eprintf (failure "set debounce" status) c)
        else (true, dev, c)
      else (success, dev, c)
  end.

Definition DeviceOperationReadWriteWatchdog (dev : RelaconDevice)
    (options : CommandLineOptions) (c : Console)
  : bool * RelaconDevice * Console :=
  match Options.writeValue options with
  | None =>
      let '(status, value, dev) :=
        call (RelaconDeviceWatchdogGet indeterminate) dev indeterminate in
      if decide (status <> RELACON_STATUS_SUCCESS)
      then (false, dev, eprintf (failure "read watchdog value" status) c)
      else
        let configString :=
          if value =? RELACON_WATCHDOG_CONFIG_OFF then Some "OFF"%string
          else if value =? RELACON_WATCHDOG_CONFIG_1SEC then Some "1s"%string
          else if value =? RELACON_WATCHDOG_CONFIG_10SEC
               then Some "10s"%string
          else if value =? RELACON_WATCHDOG_CONFIG_1MIN then Some "1m"%string
          else None in
        match configString with
        | Some configString =>
            (true, dev,
             printf (line (bytes_of_string "Watchdog setting: " ++
                           bytes_of_string configString)) c)
        | None =>
            (false, dev,
             eprintf (line (bytes_of_string
                              "Received unexpected watchdog setting")) c)
        end
  | Some writeValue =>
      let '(success, value, c) :=
        ParseAndValidateNumber writeValue RELACON_WATCHDOG_CONFIG_OFF
          RELACON_WATCHDOG_CONFIG_1MIN indeterminate c in
      if success then
        let '(status, dev) :=
          call_set (fun d => RelaconDeviceWatchdogSet d value) dev in
        if decide (status <> RELACON_STATUS_SUCCESS)
        then (success, dev, eprintf (failure "set watchdog" status) c)
        else (true, dev, c)
      else (success, dev, c)
  end.

(** What the program acts on: the two output streams, the heap, the
    transport library, and the link of the session it held, as the session
    left it ([None] when no session was opened). *)
Record World := {
  console : Console;
  heap : Memory;
  library : Library;
  link : option Link;
}.

(** The three tables of handlers, indexed by the value of the operation;
    an element that the initialiser does not name is a null pointer. *)
Definition SIMPLE_OPERATION_HANDLERS
  : list (option (CommandLineOptions -> Console -> bool * Console)) :=
  [None; Some SimpleOperationPrintHelp; Some SimpleOperationPrintVersion].

Definition API_OPERATION_HANDLERS
  : list (option (RelaconApi -> CommandLineOptions -> RelaconDeviceInfo ->
                  Console -> Memory -> bool * Console * Memory)) :=
  [None; None; None; Some ApiOperationListDevices].

Definition DEVICE_OPERATION_HANDLERS
  : list (option (RelaconDevice -> CommandLineOptions -> Console ->
                  bool * RelaconDevice * Console)) :=
  [None; None; None; None;
   Some DeviceOperationReadWriteRelays;
   Some DeviceOperationReadWriteSingleRelay;
   Some DeviceOperationReadDigitalInputs;
   Some DeviceOperationReadEventCounter;
   Some DeviceOperationReadWriteDebounce;
   Some DeviceOperationReadWriteWatchdog].

(** [operation < ARRAY_COUNT(table) && table[operation] != NULL] *)
Definition handler {H : Type} (table : list (option H)) (o : Operation)
  : option H :=
  mjoin (table !! operation_index o).

Definition RunOperation (options : CommandLineOptions)
    (indeterminate_info : RelaconDeviceInfo) (w : World) : bool * World :=
  match handler SIMPLE_OPERATION_HANDLERS (Options.operation options) with
  | Some h =>
      let '(success, c) := h options (console w) in
      (success,
       {| console := c; heap := heap w; library := library w;
          link := link w |})
  | None =>
      match RelaconApiInit k (library w) (heap w) with
      | (None, lib, m) =>
          (false,
           {| console :=
                eprintf (line (bytes_of_string
                                 "Failed to initialize Relacon API"))
                  (console w);
              heap := m; library := lib; link := link w |})
      | (Some api, lib, m) =>
          let '(success, c, m, l) :=
            match handler API_OPERATION_HANDLERS
                    (Options.operation options) with
            | Some h =>
                let '(success, c, m) :=
                  h api options indeterminate_info (console w) m in
                (success, c, m, link w)
            | None =>
                match RelaconDeviceOpen fresh_reportBuf layout k plat
                        (Options.vid options) (Options.pid options)
                        (Options.serialNumber options) m with
                | (None, m) =>
                    (false,
                     eprintf (line (bytes_of_string
                                      "Failed to open Relacon device"))
                       (console w),
                     m, link w)
                | (Some dev, m) =>
                    let '(success, dev, c) :=
                      match handler DEVICE_OPERATION_HANDLERS
                              (Options.operation options) with
                      | Some h => h dev options (console w)
                      | None =>
                          (false, dev,
                           eprintf (line (bytes_of_string
                                            "No handler found for operation"))
                             (console w))
                      end in
                    (success, c, (RelaconDeviceClose dev m).2,
                     Some (bd_link (backendDevice dev)))
                end
            end in
          let '(_, lib, m) := RelaconApiExit k (Some api) lib m in
          (success,
           {| console := c; heap := m; library := lib; link := l |})
      end
  end.

(** What [getopt_long] does with the arguments of the program, call by
    call: the option characters it returns before it returns -1, each with
    [optarg] (which means something only for an option that takes an
    argument), and the arguments from [argv[optind]] on after a given
    number of calls. *)
Record Getopt := {
  results : list (Z * list byte);
  remaining : nat -> list (list byte);
}.

Definition with_vid (o : CommandLineOptions) (v : Z) : CommandLineOptions :=
  {| Options.progName := Options.progName o; Options.vid := v;
     Options.pid := Options.pid o;
     Options.serialNumber := Options.serialNumber o;
     Options.operation := Options.operation o;
     Options.relayIndex := Options.relayIndex o;
     Options.counterIndex := Options.counterIndex o;
     Options.clearOnRead := Options.clearOnRead o;
     Options.writeValue := Options.writeValue o |}.

Definition with_pid (o : CommandLineOptions) (v : Z) : CommandLineOptions :=
  {| Options.progName := Options.progName o; Options.vid := Options.vid o;
     Options.pid := v;
     Options.serialNumber := Options.serialNumber o;
     Options.operation := Options.operation o;
     Options.relayIndex := Options.relayIndex o;
     Options.counterIndex := Options.counterIndex o;
     Options.clearOnRead := Options.clearOnRead o;
     Options.writeValue := Options.writeValue o |}.

Definition with_serialNumber (o : CommandLineOptions)
    (v : option (list byte)) : CommandLineOptions :=
  {| Options.progName := Options.progName o; Options.vid := Options.vid o;
     Options.pid := Options.pid o;
     Options.serialNumber := v;
     Options.operation := Options.operation o;
     Options.relayIndex := Options.relayIndex o;
     Options.counterIndex := Options.counterIndex o;
     Options.clearOnRead := Options.clearOnRead o;
     Options.writeValue := Options.writeValue o |}.

Definition with_operation (o : CommandLineOptions) (v : Operation)
  : CommandLineOptions :=
  {| Options.progName := Options.progName o; Options.vid := Options.vid o;
     Options.pid := Options.pid o;
     Options.serialNumber := Options.serialNumber o;
     Options.operation := v;
     Options.relayIndex := Options.relayIndex o;
     Options.counterIndex := Options.counterIndex o;
     Options.clearOnRead := Options.clearOnRead o;
     Options.writeValue := Options.writeValue o |}.

Definition with_relayIndex (o : CommandLineOptions) (v : Z)
  : CommandLineOptions :=
  {| Options.progName := Options.progName o; Options.vid := Options.vid o;
     Options.pid := Options.pid o;
     Options.serialNumber := Options.serialNumber o;
     Options.operation := Options.operation o;
     Options.relayIndex := v;
     Options.counterIndex := Options.counterIndex o;
     Options.clearOnRead := Options.clearOnRead o;
     Options.writeValue := Options.writeValue o |}.

Definition with_counterIndex (o : CommandLineOptions) (v : Z)
  : CommandLineOptions :=
  {| Options.progName := Options.progName o; Options.vid := Options.vid o;
     Options.pid := Options.pid o;
     Options.serialNumber := Options.serialNumber o;
     Options.operation := Options.operation o;
     Options.relayIndex := Options.relayIndex o;
     Options.counterIndex := v;
     Options.clearOnRead := Options.clearOnRead o;
     Options.writeValue := Options.writeValue o |}.

Definition with_clearOnRead (o : CommandLineOptions) (v : bool)
  : CommandLineOptions :=
  {| Options.progName := Options.progName o; Options.vid := Options.vid o;
     Options.pid := Options.pid o;
     Options.serialNumber := Options.serialNumber o;
     Options.operation := Options.operation o;
     Options.relayIndex := Options.relayIndex o;
     Options.counterIndex := Options.counterIndex o;
     Options.clearOnRead := v;
     Options.writeValue := Options.writeValue o |}.

Definition with_writeValue (o : CommandLineOptions)
    (v : option (list byte)) : CommandLineOptions :=
  {| Options.progName := Options.progName o; Options.vid := Options.vid o;
     Options.pid := Options.pid o;
     Options.serialNumber := Options.serialNumber o;
     Options.operation := Options.operation o;
     Options.relayIndex := Options.relayIndex o;
     Options.counterIndex := Options.counterIndex o;
     Options.clearOnRead := Options.clearOnRead o;
     Options.writeValue := v |}.

Definition with_progName (o : CommandLineOptions) (v : list byte)
  : CommandLineOptions :=
  {| Options.progName := v; Options.vid := Options.vid o;
     Options.pid := Options.pid o;
     Options.serialNumber := Options.serialNumber o;
     Options.operation := Options.operation o;
     Options.relayIndex := Options.relayIndex o;
     Options.counterIndex := Options.counterIndex o;
     Options.clearOnRead := Options.clearOnRead o;
     Options.writeValue := Options.writeValue o |}.

(** The state of [ParseCommandLine] in its loop: [success], the options,
    the local [longValue], the number of calls of [getopt_long] made, the
    output. *)
Definition Parsing : Type :=
  bool * CommandLineOptions * Z * nat * Console.

(** An operation option: [ValidateAndSetOperation] on the operation of the
    options. *)
Definition select (src : Operation) (o : CommandLineOptions) (c : Console)
  : bool * CommandLineOptions * Console :=
  let '(success, dst, c) :=
    ValidateAndSetOperation (Options.operation o) src c in
  (success, with_operation o dst, c).

(** The [switch] on the character that [getopt_long] returned. *)
Definition option_case (ch : Z) (optarg : list byte)
    (o : CommandLineOptions) (longValue : Z) (c : Console)
  : bool * CommandLineOptions * Z * Console :=
  if ch =? 108 then
    let '(success, o, c) := select OPERATION_LIST_DEVICES o c in
    (success, o, longValue, c)
  else if ch =? 118 then
    let '(success, longValue, c) :=
      ParseAndValidateNumber optarg 0 UINT16_MAX longValue c in
    (success, if success then with_vid o (longValue mod 65536) else o,
     longValue, c)
  else if ch =? 112 then
    let '(success, longValue, c) :=
      ParseAndValidateNumber optarg 0 UINT16_MAX longValue c in
    (success, if success then with_pid o (longValue mod 65536) else o,
     longValue, c)
  else if ch =? 115 then
    (true, with_serialNumber o (Some optarg), longValue, c)
  else if ch =? 100 then
    let '(success, o, c) := select OPERATION_RW_DEBOUNCE o c in
    (success, o, longValue, c)
  else if ch =? 119 then
    let '(success, o, c) := select OPERATION_RW_WATCHDOG o c in
    (success, o, longValue, c)
  else if ch =? 105 then
    let '(success, o, c) := select OPERATION_RW_SINGLE_RELAY o c in
    if success then
      let '(success, longValue, c) :=
        ParseAndValidateNumber optarg 0 (NUM_RELAYS - 1) longValue c in
      (success,
       if success then with_relayIndex o (longValue mod 256) else o,
       longValue, c)
    else (success, o, longValue, c)
  else if ch =? 101 then
    let '(success, o, c) := select OPERATION_R_EVENT_COUNTER o c in
    if success then
      let '(success, longValue, c) :=
        ParseAndValidateNumber optarg 0 (NUM_DIGITAL_INPUTS - 1) longValue c in
      (success,
       if success then with_counterIndex o (longValue mod 256) else o,
       longValue, c)
    else (success, o, longValue, c)
  else if ch =? 99 then
    (true, with_clearOnRead o true, longValue, c)
  else if ch =? 103 then
    let '(success, o, c) := select OPERATION_R_DIGITAL_INPUTS o c in
    (success, o, longValue, c)
  else if ch =? 104 then
    let '(success, o, c) := select OPERATION_PRINT_HELP o c in
    (success, o, longValue, c)
  else if ch =? 86 then
    let '(success, o, c) := select OPERATION_PRINT_VERSION o c in
    (success, o, longValue, c)
  else (false, o, longValue, c).

(** The operation that an option character stands for, if it stands for
    one. *)
Definition selects (ch : Z) : option Operation :=
  if ch =? 108 then Some OPERATION_LIST_DEVICES
  else if ch =? 100 then Some OPERATION_RW_DEBOUNCE
  else if ch =? 119 then Some OPERATION_RW_WATCHDOG
  else if ch =? 105 then Some OPERATION_RW_SINGLE_RELAY
  else if ch =? 101 then Some OPERATION_R_EVENT_COUNTER
  else if ch =? 103 then Some OPERATION_R_DIGITAL_INPUTS
  else if ch =? 104 then Some OPERATION_PRINT_HELP
  else if ch =? 86 then Some OPERATION_PRINT_VERSION
  else None.

(** The bounds of the numeric options. *)
Definition in_bounds (o : CommandLineOptions) : Prop :=
  0 <= Options.vid o <= UINT16_MAX /\ 0 <= Options.pid o <= UINT16_MAX /\
  0 <= Options.relayIndex o < NUM_RELAYS /\
  0 <= Options.counterIndex o < NUM_DIGITAL_INPUTS.

(** The [while] loop: [getopt_long] is called only while [success]
    holds. *)
Fixpoint options_loop (results : list (Z * list byte)) (st : Parsing)
  : Parsing :=
  let '(success, o, longValue, calls, c) := st in
  if success then
    match results with
    | [] => (success, o, longValue, S calls, c)
    | (ch, optarg) :: rest =>
        let '(success, o, longValue, c) :=
          option_case ch optarg o longValue c in
        options_loop rest (success, o, longValue, S calls, c)
    end
  else st.

(** [ParseCommandLine]; [selectedOptions] is what the caller's structure
    holds before, [argv0] is [argv[0]]. *)
Definition ParseCommandLine (argv0 : list byte) (g : Getopt)
    (selectedOptions : CommandLineOptions) (c : Console)
  : bool * CommandLineOptions * Console :=
  let o :=
    {| Options.progName := Options.progName selectedOptions;
       Options.vid := 0; Options.pid := 0; Options.serialNumber := None;
       Options.operation := OPERATION_NONE; Options.relayIndex := 0;
       Options.counterIndex := 0; Options.clearOnRead := false;
       Options.writeValue := None |} in
  let '(success, o, _, calls, c) :=
    options_loop (results g) (true, o, indeterminate, O, c) in
  let o := with_progName o argv0 in
  let o :=
    if bool_decide (Options.operation o = OPERATION_NONE)
    then with_operation o OPERATION_RW_ALL_RELAYS else o in
  match remaining g calls with
  | [] => (success, o, c)
  | [value] => (success, with_writeValue o (Some value), c)
  | _ =>
      (false, o,
       eprintf (line (bytes_of_string "Encountered extraneous arguments")) c)
  end.

Definition EXIT_SUCCESS : Z := 0.
Definition EXIT_FAILURE : Z := 1.

Definition main (argv0 : list byte) (g : Getopt)
    (selectedOptions : CommandLineOptions)
    (indeterminate_info : RelaconDeviceInfo) (w : World) : Z * World :=
  let '(success, selectedOptions, c) :=
    ParseCommandLine argv0 g selectedOptions (console w) in
  let w := {| console := c; heap := heap w; library := library w;
              link := link w |} in
  if negb success then
    (EXIT_FAILURE,
     {| console := eprintf (usage argv0) (console w); heap := heap w;
        library := library w; link := link w |})
  else
    let '(success, w) := RunOperation selectedOptions indeterminate_info w in
    (if success then EXIT_SUCCESS else EXIT_FAILURE, w).

End Program.


(** *** Sample data *)

Definition quiet_console : Console := {| stdout := []; stderr := [] |}.

Definition blank_options : CommandLineOptions :=
  {| Options.progName := []; Options.vid := 0; Options.pid := 0;
     Options.serialNumber := None; Options.operation := OPERATION_NONE;
     Options.relayIndex := 0; Options.counterIndex := 0;
     Options.clearOnRead := false; Options.writeValue := None |}.


(** Nothing printed, an empty heap, a library that works. *)
Definition fresh_world : World :=
  {| console := quiet_console; heap := empty_memory;
     library := fresh_library; link := None |}.


Definition close_relay_3 : Getopt :=
  {| results := [(105, bytes_of_string "3")];
     remaining := fun _ => [bytes_of_string "1"] |}.

Definition list_and_inputs : Getopt :=
  {| results := [(108, []); (103, [])]; remaining := fun _ => [] |}.

End Cli.

(** * Properties *)

Section CLibFacts.

Lemma length_strncpy_image (src : list byte) (n : nat) :
  length (strncpy_image src n) = n.
Proof.
  revert src. induction n as [| n IH]; intros [| c rest]; simpl; auto.
  - now rewrite length_replicate.
  - destruct (c =? 0); simpl; [now rewrite length_replicate | now rewrite IH].
Qed.

Lemma strlen_le_length (s : list byte) : (strlen s <= length s)%nat.
Proof. induction s as [| c rest IH]; simpl; [lia |]. destruct (c =? 0); lia. Qed.

Lemma length_cstr (s : list byte) : length (cstr s) = strlen s.
Proof. unfold cstr. rewrite length_take. pose proof (strlen_le_length s). lia. Qed.

Lemma cstr_no_NUL (s : list byte) : 0 ∉ cstr s.
Proof.
  unfold cstr. induction s as [| c rest IH]; simpl.
  - apply not_elem_of_nil.
  - destruct (Z.eqb_spec c 0); simpl; [apply not_elem_of_nil |].
    rewrite not_elem_of_cons. split; [congruence | exact IH].
Qed.

(** What [strncpy] leaves in the destination: the characters of the
    source, cut at [n], then NULs up to [n]. *)
Lemma strncpy_image_eq (src : list byte) (n : nat) :
  strncpy_image src n = take n (cstr src) ++ replicate (n - strlen src) 0.
Proof.
  unfold cstr. revert src.
  induction n as [| n IH]; intros [| c rest]; simpl; auto.
  destruct (c =? 0); simpl; [reflexivity |]. now rewrite IH.
Qed.

Lemma strlen_app_ge (s t : list byte) : (strlen s <= strlen (s ++ t))%nat.
Proof. induction s as [| c rest IH]; simpl; [lia |]. destruct (c =? 0); lia. Qed.

Lemma cstr_app_short (s t : list byte) :
  (strlen s < length s)%nat -> cstr (s ++ t) = cstr s.
Proof.
  unfold cstr. induction s as [| c rest IH]; simpl; [lia |].
  destruct (c =? 0); simpl; [reflexivity |].
  intros H. f_equal. apply IH. lia.
Qed.

Lemma cstr_app_prefix (s t : list byte) :
  take (strlen s) (cstr (s ++ t)) = cstr s.
Proof.
  unfold cstr. induction s as [| c rest IH]; simpl; [reflexivity |].
  destruct (c =? 0); simpl; [reflexivity |]. now rewrite IH.
Qed.

Lemma length_write_at (off : nat) (src dst : list byte) :
  length (write_at off src dst) = length dst.
Proof.
  unfold write_at. rewrite length_take, !length_app, length_take, length_drop.
  lia.
Qed.

(** A write that fits replaces exactly the bytes it covers. *)
Lemma write_at_fits (off : nat) (src dst : list byte) :
  (off + length src <= length dst)%nat ->
  write_at off src dst = take off dst ++ src ++ drop (off + length src) dst.
Proof.
  intros H. unfold write_at. apply take_ge.
  rewrite !length_app, length_take, length_drop. lia.
Qed.

Lemma write_at_all (src dst : list byte) :
  length src = length dst -> write_at 0 src dst = src.
Proof.
  intros H. rewrite write_at_fits by (simpl; lia). simpl.
  rewrite drop_ge by lia. apply app_nil_r.
Qed.

End CLibFacts.

Section CapabilityTable.

(** C10: the capability lookup maps exactly the pairs (0x0a07, 208),
    (0x0a07, 218) and (0x1209, 0xFA70) to 8 relays and 8 inputs, and
    yields no capabilities for any other pair of identifiers, the ADU200
    (0x0a07, 200) included. *)
Theorem DeviceCapabilitiesQuery_exact :
  (forall v p : Z,
      Capabilities.DeviceCapabilitiesQuery v p =
        if bool_decide ((v, p) = (0x0a07, 208) \/ (v, p) = (0x0a07, 218) \/
                        (v, p) = (0x1209, 0xFA70))
        then Some {| Capabilities.numInputs := 8;
                     Capabilities.numRelays := 8 |}
        else None) /\
  Capabilities.DeviceCapabilitiesQuery 0x0a07 200 = None.
Proof.
  split; [| reflexivity].
  intros v p.
  cbv [Capabilities.DeviceCapabilitiesQuery Capabilities.SUPPORTED_DEVICES
       Capabilities.query_from Capabilities.vid Capabilities.pid
       Capabilities.capabilities Capabilities.VID_ONTRAK
       Capabilities.VID_PIDCODES Capabilities.PID_ADU208
       Capabilities.PID_ADU218 Capabilities.PID_RELACON].
  case_bool_decide as H.
  - destruct H as [H | [H | H]]; injection H as -> ->; reflexivity.
  - destruct (Z.eqb_spec 2567 v), (Z.eqb_spec 208 p), (Z.eqb_spec 218 p),
      (Z.eqb_spec 4617 v), (Z.eqb_spec 64112 p);
      try lia; subst; simpl; try reflexivity; exfalso; apply H; auto.
Qed.

End CapabilityTable.

Section RawPassThrough.

Lemma report_image (x : byte) (img buf : list byte) :
  length buf = REPORT_BUF_LEN -> length img = REPORT_DATA_LEN ->
  take REPORT_BUF_LEN (write_at 1 img (<[O := x]> buf)) = x :: img.
Proof.
  intros Hb Hi.
  rewrite write_at_fits by (rewrite length_insert, Hb, Hi; reflexivity).
  rewrite Hi. destruct buf as [| b buf]; [discriminate |]. simpl.
  rewrite drop_ge by (simpl in Hb; injection Hb; unfold REPORT_DATA_LEN; lia).
  rewrite app_nil_r. f_equal.
  apply take_ge. rewrite Hi. unfold REPORT_DATA_LEN. lia.
Qed.

(** C6: raw command write answers invalid-parameter and sends nothing when
    the command string is longer than 7 bytes; otherwise it sends exactly
    one 8-byte report, whose byte 0 is the report identifier 1 and whose
    bytes 1 to 7 are the command string followed by zero bytes. *)
Theorem RelaconDeviceRawWrite_report (dev : RelaconDevice)
    (cmd : list byte) :
  report_buffer_ok dev ->
  ((7 < strlen cmd)%nat ->
   RelaconDeviceRawWrite (Some dev) (Some cmd) =
     (Returned RELACON_STATUS_ERROR_INVALID_PARAM None, Some dev)) /\
  ((strlen cmd <= 7)%nat ->
   exists status dev',
     RelaconDeviceRawWrite (Some dev) (Some cmd) =
       (Returned status None, Some dev') /\
     sent dev' =
       sent dev ++ [1 :: cstr cmd ++ replicate (7 - strlen cmd) 0] /\
     length (1 :: cstr cmd ++ replicate (7 - strlen cmd) 0) = 8%nat).
Proof.
  intros Hbuf. unfold RelaconDeviceRawWrite. split; intros Hlen.
  - destruct (Nat.ltb_spec REPORT_DATA_LEN (strlen cmd)) as [_ | H];
      [reflexivity | unfold REPORT_DATA_LEN in H; lia].
  - destruct (Nat.ltb_spec REPORT_DATA_LEN (strlen cmd)) as [H | _];
      [unfold REPORT_DATA_LEN in H; lia |].
    unfold WriteReport, BackendDeviceWriteReport, failed. simpl.
    eexists _, _. split; [reflexivity |]. unfold sent. simpl.
    rewrite report_image by (auto using length_strncpy_image).
    rewrite strncpy_image_eq.
    rewrite take_ge by (rewrite length_cstr; unfold REPORT_DATA_LEN; lia).
    split; [reflexivity |].
    simpl. rewrite length_app, length_cstr, length_replicate. lia.
Qed.

Lemma RelaconDeviceRawWrite_report_witness :
  exists status dev',
    RelaconDeviceRawWrite (Some (sample_device HIDAPI []))
      (Some (bytes_of_string "SK3")) = (Returned status None, Some dev') /\
    sent dev' = [[1; 83; 75; 51; 0; 0; 0; 0]].
Proof.
  destruct (RelaconDeviceRawWrite_report (sample_device HIDAPI [])
              (bytes_of_string "SK3") eq_refl) as [_ H].
  destruct (H ltac:(simpl; lia)) as (status & dev' & Heq & Hsent & _).
  exists status, dev'. split; [exact Heq | exact Hsent].
Defined.

End RawPassThrough.

Section RawRead.

Lemma strncpy_image_lookup_NUL (src : list byte) (n i : nat) :
  strncpy_image src n !! i = Some 0 -> (strlen src <= i < n)%nat.
Proof.
  intros H. assert (i < n)%nat as Hi.
  { apply lookup_lt_Some in H. now rewrite length_strncpy_image in H. }
  split; [| exact Hi].
  rewrite strncpy_image_eq in H.
  destruct (Nat.lt_ge_cases i (strlen src)) as [Hlt | Hge]; [| exact Hge].
  exfalso. rewrite lookup_app_l in H
    by (rewrite length_take, length_cstr; lia).
  rewrite lookup_take_lt in H by lia.
  apply (cstr_no_NUL src). eapply list_elem_of_lookup_2. exact H.
Qed.

Lemma strncpy_image_terminated (src : list byte) (n : nat) :
  (strlen src < n)%nat -> strncpy_image src n !! strlen src = Some 0.
Proof.
  intros H. rewrite strncpy_image_eq.
  rewrite take_ge by (rewrite length_cstr; lia).
  rewrite lookup_app_r by (rewrite length_cstr; lia).
  rewrite length_cstr, Nat.sub_diag. apply lookup_replicate_2. lia.
Qed.

Lemma strncpy_keeps_rest (dst src : list byte) (n : nat) :
  length (strncpy dst src n) = length dst /\
  drop n (strncpy dst src n) = drop n dst.
Proof.
  unfold strncpy. split; [apply length_write_at |].
  destruct (Nat.le_gt_cases n (length dst)) as [Hle | Hgt].
  - rewrite write_at_fits by (rewrite length_strncpy_image; simpl; lia).
    simpl. rewrite length_strncpy_image.
    rewrite drop_app_length' by (now rewrite length_strncpy_image).
    reflexivity.
  - rewrite !drop_ge; [reflexivity | lia | rewrite length_write_at; lia].
Qed.

Lemma strncpy_lookup (dst src : list byte) (n i : nat) :
  (i < n)%nat -> (i < length dst)%nat ->
  strncpy dst src n !! i = strncpy_image src n !! i.
Proof.
  intros Hn Hd. unfold strncpy, write_at.
  rewrite lookup_take_lt by lia. simpl.
  apply lookup_app_l. rewrite length_strncpy_image. lia.
Qed.

(** C7: raw response read leaves every byte of the caller's memory from
    offset [len] on as it was, copies the response cut at [len], and a NUL
    lands among the [len] bytes only when the response string and its
    terminator fit in [len] bytes (and it does land there when the 7 data
    bytes hold the terminator and the buffer really has [len] bytes). *)
Theorem RelaconDeviceRawRead_bounded (dev : RelaconDevice)
    (buf : list byte) (len : nat) (timeout : Z) :
  exists status dev',
    (status <> RELACON_STATUS_SUCCESS /\
     RelaconDeviceRawRead (Some dev) (Some buf) len timeout =
       (Returned status None, Some dev')) \/
    (exists out,
        RelaconDeviceRawRead (Some dev) (Some buf) len timeout =
          (Returned RELACON_STATUS_SUCCESS (Some out), Some dev') /\
        let payload := drop 1 (reportBuf dev') in
        length out = length buf /\
        drop len out = drop len buf /\
        (forall i, (i < len)%nat -> out !! i = Some 0 ->
                   (strlen payload + 1 <= len)%nat) /\
        ((len <= length buf)%nat ->
         take (Nat.min len (strlen payload)) out =
           take (Nat.min len (strlen payload)) (cstr payload)) /\
        ((strlen payload < length payload)%nat ->
         (strlen payload + 1 <= len)%nat -> (len <= length buf)%nat ->
         out !! strlen payload = Some 0)).
Proof.
  unfold RelaconDeviceRawRead.
  destruct (ReadReport dev timeout) as [status dev'] eqn:Hread.
  exists status, dev'.
  destruct (decide (status = RELACON_STATUS_SUCCESS)) as [-> | Hne];
    [right | left; split; [exact Hne | reflexivity]].
  eexists. split; [reflexivity |]. cbv zeta.
  set (payload := drop 1 (reportBuf dev')).
  set (src := payload ++ trailing dev').
  pose proof (strlen_app_ge payload (trailing dev')) as Hsrc. fold src in Hsrc.
  destruct (strncpy_keeps_rest buf src len) as [Hlen Hrest].
  split; [exact Hlen |]. split; [exact Hrest |]. split; [| split].
  - intros i Hi H0.
    assert (i < length buf)%nat as Hib
      by (apply lookup_lt_Some in H0; lia).
    rewrite strncpy_lookup in H0 by assumption.
    apply strncpy_image_lookup_NUL in H0. lia.
  - intros Hfit. unfold strncpy.
    rewrite write_at_fits by (rewrite length_strncpy_image; simpl; lia).
    simpl. rewrite take_app_le by (rewrite length_strncpy_image; lia).
    rewrite strncpy_image_eq.
    rewrite take_app_le by (rewrite length_take, length_cstr; lia).
    rewrite take_take.
    replace (Nat.min (Nat.min len (strlen payload)) len)
      with (Nat.min (Nat.min len (strlen payload)) (strlen payload)) by lia.
    rewrite <- take_take. unfold src. now rewrite cstr_app_prefix.
  - intros Hterm Hroom Hfit.
    assert (strlen src = strlen payload) as Heq.
    { rewrite <- !length_cstr. unfold src.
      now rewrite cstr_app_short by exact Hterm. }
    rewrite strncpy_lookup by lia.
    rewrite <- Heq. apply strncpy_image_terminated. lia.
Qed.

Lemma RelaconDeviceRawRead_bounded_witness :
  exists out dev',
    RelaconDeviceRawRead
      (Some (sample_device HIDAPI [RxReport [1; 50; 53; 53; 0; 0; 0; 0]]))
      (Some [9; 9; 9; 9; 9; 9]) 4 (-1) =
      (Returned RELACON_STATUS_SUCCESS (Some out), Some dev') /\
    drop 4 out = [9; 9] /\ out !! 3%nat = Some 0.
Proof.
  destruct (RelaconDeviceRawRead_bounded
              (sample_device HIDAPI [RxReport [1; 50; 53; 53; 0; 0; 0; 0]])
              [9; 9; 9; 9; 9; 9] 4 (-1))
    as (status & dev' & [[Hne H] | (out & H & _ & Hdrop & _ & _ & Hnul)]).
  - exfalso. vm_compute in H. injection H as Hs _. apply Hne. now rewrite <- Hs.
  - exists out, dev'. split; [exact H |]. split; [exact Hdrop |].
    vm_compute in H. injection H as Ho Hd. subst dev'.
    apply Hnul; simpl; lia.
Defined.

End RawRead.

Section NumericResponse.

Lemma ReadReport_report (dev : RelaconDevice) (r : list byte)
    (q : list RxEvent) (timeout : Z) :
  report_buffer_ok dev ->
  rx_queue (bd_link (backendDevice dev)) = RxReport r :: q ->
  length r = REPORT_BUF_LEN ->
  exists dev',
    ReadReport dev timeout = (RELACON_STATUS_SUCCESS, dev') /\
    reportBuf dev' = r /\ trailing dev' = trailing dev /\
    info dev' = info dev /\ sent dev' = sent dev /\
    rx_queue (bd_link (backendDevice dev')) = q.
Proof.
  intros Hbuf Hq Hr. unfold ReadReport, BackendDeviceReadReport.
  rewrite Hq. rewrite take_ge by (rewrite Hr; reflexivity).
  assert (write_at 0 r (reportBuf dev) = r) as Hw
    by (apply write_at_all; rewrite Hr; symmetry; exact Hbuf).
  destruct (bd_kind (backendDevice dev)).
  - destruct r as [| b r]; [discriminate |].
    eexists. split; [reflexivity |]. simpl. auto.
  - eexists. split; [reflexivity |]. simpl. auto.
Qed.

(** What the shared decoder does with a received 8-byte report: it is
    accepted exactly when byte 0 is the report identifier, [strtol] stops
    on a NUL, and the number lies in the range; otherwise the answer is
    bad-response and the caller's variable keeps its contents. *)
Lemma ReadNumericResponse_decode (dev : RelaconDevice) (r : list byte)
    (q : list RxEvent) (min max value : Z) :
  report_buffer_ok dev ->
  rx_queue (bd_link (backendDevice dev)) = RxReport r :: q ->
  length r = REPORT_BUF_LEN ->
  let s := drop 1 r ++ trailing dev in
  let accepted :=
    (nth 0 r 0 =? REPORT_ID_CMD) && (deref s (strtol s).2 =? 0) &&
    (min <=? (strtol s).1) && ((strtol s).1 <=? max) in
  exists dev',
    ReadNumericResponse dev min max value =
      (if accepted then RELACON_STATUS_SUCCESS
       else RELACON_STATUS_ERROR_BAD_RESPONSE,
       if accepted then (strtol s).1 else value,
       dev') /\
    sent dev' = sent dev.
Proof.
  intros Hbuf Hq Hr s accepted.
  destruct (ReadReport_report dev r q DEFAULT_TIMEOUT_MS Hbuf Hq Hr)
    as (dev' & Hread & Hrb & Htr & _ & Hsent & _).
  exists dev'. split; [| exact Hsent].
  unfold ReadNumericResponse. rewrite Hread.
  destruct (decide _) as [_ | Hne]; [| congruence].
  rewrite Hrb, Htr. fold s. subst accepted.
  destruct (nth 0 r 0 =? REPORT_ID_CMD); simpl; [| reflexivity].
  destruct (strtol s) as [tmp endptr]. simpl.
  destruct (deref s endptr =? 0); simpl; [| reflexivity].
  destruct (Z.ltb_spec tmp min), (Z.leb_spec min tmp); try lia; simpl;
    try reflexivity.
  destruct (Z.gtb_spec tmp max), (Z.leb_spec tmp max); try lia; reflexivity.
Qed.

(** C1 (where the code departs from it): a report with the right
    identifier and an empty payload, one that holds no decimal integer at
    all, is accepted by the shared decoder as the number 0 whenever 0 lies
    in the operation's range. *)
Theorem ReadNumericResponse_empty_payload (dev : RelaconDevice)
    (rest : list byte) (q : list RxEvent) (min max value : Z) :
  report_buffer_ok dev ->
  rx_queue (bd_link (backendDevice dev)) = RxReport (1 :: 0 :: rest) :: q ->
  length rest = 6%nat ->
  min <= 0 <= max ->
  exists dev',
    ReadNumericResponse dev min max value = (RELACON_STATUS_SUCCESS, 0, dev').
Proof.
  intros Hbuf Hq Hrest Hrange.
  destruct (ReadNumericResponse_decode dev (1 :: 0 :: rest) q min max value
              Hbuf Hq) as (dev' & H & _).
  { simpl. now rewrite Hrest. }
  exists dev'. rewrite H. simpl.
  destruct (Z.leb_spec min 0), (Z.leb_spec 0 max); try lia. reflexivity.
Qed.

Lemma ReadNumericResponse_empty_payload_witness :
  exists dev',
    ReadNumericResponse
      (sample_device LIBUSB [RxReport [1; 0; 0; 0; 0; 0; 0; 0]]) 0 255 77 =
      (RELACON_STATUS_SUCCESS, 0, dev').
Proof.
  apply (ReadNumericResponse_empty_payload
           (sample_device LIBUSB [RxReport [1; 0; 0; 0; 0; 0; 0; 0]])
           [0; 0; 0; 0; 0; 0] [] 0 255 77);
    [reflexivity | reflexivity | reflexivity | lia].
Defined.

End NumericResponse.

Section Strtol.

Lemma scan_digits_digits (ds rest : list byte) (acc : Z) :
  Forall (fun c => isdigit c = true) ds ->
  (forall c r, rest = c :: r -> isdigit c = false) ->
  scan_digits acc (ds ++ rest) =
    (fold_left (fun a c => 10 * a + (c - 48)) ds acc, length ds).
Proof.
  intros Hds Hrest. revert acc.
  induction Hds as [| d ds Hd _ IH]; intros acc;
    cbn [app scan_digits fold_left length].
  - destruct rest as [| c r]; [reflexivity |].
    cbn [scan_digits]. now rewrite (Hrest c r eq_refl).
  - rewrite Hd, IH. reflexivity.
Qed.

Lemma fold_digits_nonneg (ds : list byte) (acc : Z) :
  Forall (fun c => isdigit c = true) ds -> 0 <= acc ->
  0 <= fold_left (fun a c => 10 * a + (c - 48)) ds acc.
Proof.
  intros Hds. revert acc.
  induction Hds as [| d ds Hd _ IH]; intros acc Hacc; cbn [fold_left];
    [exact Hacc |].
  apply IH. unfold isdigit in Hd. apply andb_true_iff in Hd as [H1 H2].
  apply Z.leb_le in H1. lia.
Qed.

(** [strtol] on digits that end at a byte which is no digit: all of them
    are consumed and their value, cut to the range of [long], comes out. *)
Lemma strtol_digits (d : byte) (ds rest : list byte) :
  Forall (fun c => isdigit c = true) (d :: ds) ->
  (forall c r, rest = c :: r -> isdigit c = false) ->
  strtol ((d :: ds) ++ rest) =
    (Z.max LONG_MIN (Z.min LONG_MAX (decimal_value (d :: ds))),
     length (d :: ds)).
Proof.
  intros Hds Hrest.
  pose proof (scan_digits_digits (d :: ds) rest 0 Hds Hrest) as Hscan.
  assert (d = 48 \/ d = 49 \/ d = 50 \/ d = 51 \/ d = 52 \/ d = 53 \/
          d = 54 \/ d = 55 \/ d = 56 \/ d = 57) as Hd.
  { apply Forall_inv in Hds. unfold isdigit in Hds.
    apply andb_true_iff in Hds as [H1 H2].
    apply Z.leb_le in H1, H2. lia. }
  unfold strtol, decimal_value.
  destruct Hd as [-> | [-> | [-> | [-> | [-> | [-> | [-> | [-> | [-> | ->]]]]]]]]];
    cbn [app] in Hscan; cbn [app];
    match goal with
    | |- context [skip_spaces ?s] =>
        change (skip_spaces s) with O
    end;
    cbn [drop]; cbv beta match; cbn [drop]; rewrite Hscan; reflexivity.
Qed.

(** The decoder accepts a report that carries digits and a terminator,
    with their value, when the value is in the range. *)
Lemma ReadNumericResponse_accepts_number (dev : RelaconDevice)
    (d : byte) (ds pad : list byte) (q : list RxEvent) (min max value : Z) :
  report_buffer_ok dev ->
  rx_queue (bd_link (backendDevice dev)) =
    RxReport (1 :: (d :: ds) ++ 0 :: pad) :: q ->
  length (1 :: (d :: ds) ++ 0 :: pad) = REPORT_BUF_LEN ->
  Forall (fun c => isdigit c = true) (d :: ds) ->
  min <= decimal_value (d :: ds) <= max -> max <= LONG_MAX ->
  exists dev',
    ReadNumericResponse dev min max value =
      (RELACON_STATUS_SUCCESS, decimal_value (d :: ds), dev').
Proof.
  intros Hbuf Hq Hlen Hds Hrange Hmax.
  destruct (ReadNumericResponse_decode dev _ q min max value Hbuf Hq Hlen)
    as (dev' & H & _).
  exists dev'. rewrite H. clear H.
  change (drop 1 (1 :: (d :: ds) ++ 0 :: pad)) with ((d :: ds) ++ 0 :: pad).
  rewrite <- app_assoc.
  rewrite (strtol_digits d ds ((0 :: pad) ++ trailing dev))
    by (auto; intros c r [= <- _]; reflexivity).
  pose proof (fold_digits_nonneg (d :: ds) 0 Hds (Z.le_refl 0)) as Hpos.
  fold (decimal_value (d :: ds)) in Hpos.
  assert (Z.max LONG_MIN (Z.min LONG_MAX (decimal_value (d :: ds))) =
          decimal_value (d :: ds)) as -> by (unfold LONG_MIN, LONG_MAX in *; lia).
  cbn [fst snd nth]. unfold deref.
  rewrite app_nth2 by lia. rewrite Nat.sub_diag.
  cbn [app nth]. unfold REPORT_ID_CMD. cbn [Z.eqb Pos.eqb andb].
  destruct (Z.leb_spec min (decimal_value (d :: ds))),
    (Z.leb_spec (decimal_value (d :: ds)) max); try lia.
  reflexivity.
Qed.

End Strtol.

Section Commands.

(** The report that carries the command [text]. *)
Lemma command_image (text buf : list byte) :
  length buf = REPORT_BUF_LEN -> (length text <= 6)%nat ->
  take REPORT_BUF_LEN
    (memset (1 + length text) 0 (REPORT_BUF_LEN - length text - 1)
       (<[O := REPORT_ID_CMD]> (write_at 1 (text ++ [0]) buf))) =
  REPORT_ID_CMD :: text ++ replicate (7 - length text) 0.
Proof.
  intros Hb Ht. unfold REPORT_BUF_LEN, REPORT_DATA_LEN in *.
  destruct buf as [| b0 buf]; [discriminate |]. simpl in Hb.
  rewrite write_at_fits by (rewrite length_app; simpl; lia).
  simpl. unfold memset, write_at. simpl. f_equal.
  rewrite length_replicate.
  set (X := (text ++ [0]) ++ drop (length (text ++ [0])) buf).
  assert (length X = 7%nat) as HX
    by (unfold X; rewrite !length_app, length_drop; simpl; lia).
  assert (take (length text) X = text) as ->
    by (unfold X; rewrite <- app_assoc; apply take_app_length).
  rewrite (drop_ge X) by lia. rewrite app_nil_r, HX.
  replace (8 - length text - 1)%nat with (7 - length text)%nat by lia.
  rewrite !take_ge by (rewrite ?take_ge;
                       rewrite length_app, length_replicate; lia).
  reflexivity.
Qed.

(** [WriteFormattedCmd] with a command of at most 6 characters hands one
    report to the transport: the identifier, the command, zero bytes. *)
Lemma WriteFormattedCmd_sends (dev : RelaconDevice) (text : list byte) :
  report_buffer_ok dev -> (length text <= 6)%nat ->
  exists status dev',
    WriteFormattedCmd dev text = (status, dev') /\
    sent dev' =
      sent dev ++ [REPORT_ID_CMD :: text ++ replicate (7 - length text) 0] /\
    report_buffer_ok dev' /\ info dev' = info dev /\
    trailing dev' = trailing dev /\
    rx_queue (bd_link (backendDevice dev')) =
      rx_queue (bd_link (backendDevice dev)) /\
    (tx_results (bd_link (backendDevice dev)) = [] ->
     status = RELACON_STATUS_SUCCESS).
Proof.
  intros Hbuf Hlen. unfold WriteFormattedCmd, vsnprintf, REPORT_DATA_LEN.
  rewrite take_ge by lia.
  destruct (Z.ltb_spec (Z.of_nat (length text)) 0) as [H | _]; [lia |].
  destruct (Z.gtb_spec (Z.of_nat (length text)) (Z.of_nat 7)) as [H | _];
    [lia |].
  rewrite Nat2Z.id.
  unfold WriteReport, BackendDeviceWriteReport. simpl.
  eexists _, _. split; [reflexivity |]. unfold sent. simpl.
  rewrite command_image by assumption.
  split; [reflexivity |]. split.
  { unfold report_buffer_ok. simpl. unfold memset.
    now rewrite length_write_at, length_insert, length_write_at. }
  repeat split. intros ->. reflexivity.
Qed.

Lemma uint8_cases (P : Z -> Prop) :
  (forall k : nat, (k < 256)%nat -> P (Z.of_nat k)) ->
  forall n : Z, 0 <= n <= 255 -> P n.
Proof.
  intros H n Hn. rewrite <- (Z2Nat.id n) by lia. apply H. lia.
Qed.

Lemma length_fmt_d_uint8 (n : Z) :
  0 <= n <= 255 -> (length (fmt_d n) <= 3)%nat.
Proof.
  apply (uint8_cases (fun n => (length (fmt_d n) <= 3)%nat)).
  intros k Hk.
  assert (forallb (fun k => (length (fmt_d (Z.of_nat k)) <=? 3)%nat)
            (seq 0 256) = true) as Hall by (vm_compute; reflexivity).
  rewrite forallb_forall in Hall.
  apply Nat.leb_le, Hall, in_seq. lia.
Qed.

End Commands.

Section ArgumentValidation.

Variable indeterminate : Z.

(** C2 (where the code departs from it): a relay index that is not below
    [numRelays] makes single-relay write and single-relay read return the
    null-argument code, not the invalid-parameter code; the session is left
    as it was, so no report is sent. *)
Theorem SingleRelay_index_out_of_range (dev : RelaconDevice) (relay : Z)
    (assert : bool) (isAsserted : pointer) :
  numRelays (info dev) <= relay ->
  RelaconDeviceSingleRelayWrite (Some dev) relay assert =
    (Returned RELACON_STATUS_ERROR_ARGUMENT_NULL None, Some dev) /\
  RelaconDeviceSingleRelayRead indeterminate (Some dev) relay isAsserted =
    (Returned RELACON_STATUS_ERROR_ARGUMENT_NULL None, Some dev).
Proof.
  intros H.
  unfold RelaconDeviceSingleRelayWrite, RelaconDeviceSingleRelayRead.
  destruct (Z.geb_spec relay (numRelays (info dev))); [| lia].
  split; reflexivity.
Qed.

(** The other argument checks answer invalid-parameter and leave the
    session as it was. *)
Lemma invalid_parameter_rejected (dev : RelaconDevice) :
  (forall counter clear,
      numInputs (info dev) <= counter ->
      RelaconDeviceEventCounterGet indeterminate (Some dev) counter clear PTR
      = (Returned RELACON_STATUS_ERROR_INVALID_PARAM None, Some dev)) /\
  (forall config,
      ~ (0 <= config <= 2) ->
      RelaconDeviceEventCounterDebounceSet (Some dev) config =
        (Returned RELACON_STATUS_ERROR_INVALID_PARAM None, Some dev)) /\
  (forall config,
      ~ (0 <= config <= 3) ->
      RelaconDeviceWatchdogSet (Some dev) config =
        (Returned RELACON_STATUS_ERROR_INVALID_PARAM None, Some dev)).
Proof.
  split; [| split].
  - intros counter clear H. unfold RelaconDeviceEventCounterGet.
    destruct (Z.geb_spec counter (numInputs (info dev))); [| lia].
    reflexivity.
  - intros config H. unfold RelaconDeviceEventCounterDebounceSet,
      RELACON_DEBOUNCE_CONFIG_10MS, RELACON_DEBOUNCE_CONFIG_100US.
    destruct (Z.ltb_spec config 0), (Z.gtb_spec config 2);
      try reflexivity; lia.
  - intros config H. unfold RelaconDeviceWatchdogSet,
      RELACON_WATCHDOG_CONFIG_OFF, RELACON_WATCHDOG_CONFIG_1MIN.
    destruct (Z.ltb_spec config 0), (Z.gtb_spec config 3);
      try reflexivity; lia.
Qed.

End ArgumentValidation.

Lemma SingleRelay_index_out_of_range_witness :
  RelaconDeviceSingleRelayWrite (Some (sample_device HIDAPI [])) 8 true =
    (Returned RELACON_STATUS_ERROR_ARGUMENT_NULL None,
     Some (sample_device HIDAPI [])) /\
  RelaconDeviceSingleRelayRead 0 (Some (sample_device HIDAPI [])) 8 PTR =
    (Returned RELACON_STATUS_ERROR_ARGUMENT_NULL None,
     Some (sample_device HIDAPI [])).
Proof.
  apply (SingleRelay_index_out_of_range 0 (sample_device HIDAPI []) 8 true
           PTR).
  simpl. lia.
Defined.

Section EventCounter.

Variable indeterminate : Z.

Lemma ReadReport_sent (dev : RelaconDevice) (timeout : Z) :
  sent (ReadReport dev timeout).2 = sent dev /\
  info (ReadReport dev timeout).2 = info dev.
Proof.
  unfold ReadReport, BackendDeviceReadReport, sent.
  destruct (rx_queue (bd_link (backendDevice dev))) as [| [data | |] q];
    destruct (bd_kind (backendDevice dev)); simpl;
    try destruct (take REPORT_BUF_LEN data); simpl; auto.
Qed.

Lemma ReadNumericResponse_sent (dev : RelaconDevice) (min max value : Z) :
  sent (ReadNumericResponse dev min max value).2 = sent dev.
Proof.
  unfold ReadNumericResponse.
  pose proof (ReadReport_sent dev DEFAULT_TIMEOUT_MS) as [Hs _].
  destruct (ReadReport dev DEFAULT_TIMEOUT_MS) as [status dev'].
  simpl in Hs.
  destruct (decide _); [| exact Hs].
  destruct (negb _); [exact Hs |].
  destruct (strtol _) as [tmp endptr].
  destruct (negb _); [exact Hs |].
  destruct (_ || _); exact Hs.
Qed.

(** Event-counter read with an index below [numInputs] sends [REn], or
    [RCn] when the counter is to be cleared. *)
Lemma RelaconDeviceEventCounterGet_command (dev : RelaconDevice)
    (counter : Z) (clear : bool) :
  report_buffer_ok dev -> 0 <= counter <= 255 ->
  counter < numInputs (info dev) ->
  exists res dev',
    RelaconDeviceEventCounterGet indeterminate (Some dev) counter clear PTR =
      (res, Some dev') /\
    sent dev' =
      sent dev ++
      [let text := bytes_of_string (if clear then "RC" else "RE") ++
                   fmt_d counter in
       1 :: text ++ replicate (7 - length text) 0].
Proof.
  intros Hbuf Hc Hlt. unfold RelaconDeviceEventCounterGet.
  destruct (Z.geb_spec counter (numInputs (info dev))); [lia |].
  pose proof (length_fmt_d_uint8 counter Hc) as Hlen.
  set (text := bytes_of_string "R" ++
               bytes_of_string (if clear then "C" else "E") ++ fmt_d counter).
  assert (text = bytes_of_string (if clear then "RC" else "RE") ++
                 fmt_d counter) as Htext by (destruct clear; reflexivity).
  destruct (WriteFormattedCmd_sends dev text Hbuf)
    as (status & dev1 & Hw & Hsent & _).
  { rewrite Htext, length_app. destruct clear; simpl; lia. }
  rewrite Hw. cbv zeta. rewrite <- Htext.
  destruct (decide _); [| eexists _, _; split; [reflexivity | exact Hsent]].
  pose proof (ReadNumericResponse_sent dev1 0 UINT16_MAX indeterminate) as Hr.
  destruct (ReadNumericResponse dev1 0 UINT16_MAX indeterminate)
    as [[status2 tmp] dev2].
  simpl in Hr.
  destruct (decide _); eexists _, _; (split; [reflexivity |]);
    rewrite Hr; exact Hsent.
Qed.

(** Whatever event-counter read stores is below 256. *)
Lemma RelaconDeviceEventCounterGet_stored_range
    (dev : option RelaconDevice) (counter : Z) (clear : bool)
    (value : pointer) (status : RelaconStatus) (v : Z) :
  (RelaconDeviceEventCounterGet indeterminate dev counter clear value).1 =
    Returned status (Some v) ->
  0 <= v < 256.
Proof.
  unfold RelaconDeviceEventCounterGet.
  destruct dev as [dev |], value; try discriminate.
  destruct (_ >=? _); [discriminate |].
  destruct (WriteFormattedCmd _ _) as [s1 d1].
  destruct (decide _); [| discriminate].
  destruct (ReadNumericResponse _ _ _ _) as [[s2 tmp] d2].
  destruct (decide _); [| discriminate].
  simpl. intros [= _ <-]. apply Z.mod_pos_bound. lia.
Qed.

(** C3 (where the code departs from it): the device answers [RE0] or
    [RC0] with the count 256, which is in [0, 65535]; event-counter read
    succeeds and stores 0 in the caller's 16-bit variable. *)
Theorem RelaconDeviceEventCounterGet_truncates (k : BackendKind)
    (clear : bool) :
  (RelaconDeviceEventCounterGet indeterminate
     (Some (sample_device k [RxReport (1 :: bytes_of_string "256" ++
                                       [0; 0; 0; 0])]))
     0 clear PTR).1 = Returned RELACON_STATUS_SUCCESS (Some 0).
Proof. destruct k, clear; vm_compute; reflexivity. Qed.

End EventCounter.

Section NullArguments.

Variable indeterminate : Z.

(** C9 (where the code departs from it): relay-port read and single-relay
    read called on an open session with a NULL output pointer send their
    command, read the answer and then store through the NULL pointer. *)
Theorem RelaconDeviceRelaysRead_null_output (dev : RelaconDevice)
    (q : list RxEvent) :
  report_buffer_ok dev ->
  tx_results (bd_link (backendDevice dev)) = [] ->
  rx_queue (bd_link (backendDevice dev)) =
    RxReport [1; 48; 0; 0; 0; 0; 0; 0] :: q ->
  0 < numRelays (info dev) ->
  (exists dev',
      RelaconDeviceRelaysRead indeterminate (Some dev) NULL =
        (NullDereference, Some dev') /\
      sent dev' = sent dev ++ [[1; 80; 75; 0; 0; 0; 0; 0]]) /\
  (exists dev',
      RelaconDeviceSingleRelayRead indeterminate (Some dev) 0 NULL =
        (NullDereference, Some dev') /\
      sent dev' = sent dev ++ [[1; 82; 80; 75; 48; 0; 0; 0]]).
Proof.
  intros Hbuf Htx Hrx Hrel.
  assert (forall text min max,
             (length text <= 6)%nat -> min <= 0 <= max ->
             exists dev1 dev2,
               WriteFormattedCmd dev text = (RELACON_STATUS_SUCCESS, dev1) /\
               ReadNumericResponse dev1 min max indeterminate =
                 (RELACON_STATUS_SUCCESS, 0, dev2) /\
               sent dev2 =
                 sent dev ++ [1 :: text ++ replicate (7 - length text) 0])
    as Hio.
  { intros text min max Hlen Hrange.
    destruct (WriteFormattedCmd_sends dev text Hbuf Hlen)
      as (status & dev1 & Hw & Hsent & Hbuf1 & _ & _ & Hq1 & Hst).
    rewrite (Hst Htx) in Hw. rewrite Hrx in Hq1.
    destruct (ReadNumericResponse_decode dev1 _ q min max indeterminate
                Hbuf1 Hq1 eq_refl) as (dev2 & Hr & Hsent2).
    exists dev1, dev2. split; [exact Hw |].
    split; [| rewrite Hsent2; exact Hsent].
    rewrite Hr.
    change (strtol (drop 1 [1; 48; 0; 0; 0; 0; 0; 0] ++ trailing dev1))
      with (0, 1%nat).
    simpl.
    destruct (Z.leb_spec min 0), (Z.leb_spec 0 max); try lia. reflexivity. }
  split.
  - destruct (Hio (bytes_of_string "PK") 0 UINT8_MAX)
      as (dev1 & dev2 & Hw & Hr & Hsent);
      [simpl; lia | unfold UINT8_MAX; lia |].
    exists dev2. unfold RelaconDeviceRelaysRead. rewrite Hw. simpl.
    rewrite Hr. simpl. split; [reflexivity | exact Hsent].
  - destruct (Hio (bytes_of_string "RPK" ++ fmt_d 0) 0 1)
      as (dev1 & dev2 & Hw & Hr & Hsent); [simpl; lia | lia |].
    exists dev2. unfold RelaconDeviceSingleRelayRead.
    destruct (Z.geb_spec 0 (numRelays (info dev))); [lia |].
    rewrite Hw. simpl. rewrite Hr. simpl.
    split; [reflexivity | exact Hsent].
Qed.

(** The operations that do test their pointers answer null-argument and
    leave the session as it was. *)
Lemma null_arguments_rejected (dev : RelaconDevice) (len : nat)
    (timeout counter : Z) (clear : bool) :
  RelaconDeviceReadInputs indeterminate (Some dev) NULL =
    (Returned RELACON_STATUS_ERROR_ARGUMENT_NULL None, Some dev) /\
  RelaconDeviceEventCounterGet indeterminate (Some dev) counter clear NULL =
    (Returned RELACON_STATUS_ERROR_ARGUMENT_NULL None, Some dev) /\
  RelaconDeviceEventCounterDebounceGet indeterminate (Some dev) NULL =
    (Returned RELACON_STATUS_ERROR_ARGUMENT_NULL None, Some dev) /\
  RelaconDeviceWatchdogGet indeterminate (Some dev) NULL =
    (Returned RELACON_STATUS_ERROR_ARGUMENT_NULL None, Some dev) /\
  RelaconDeviceRawWrite (Some dev) None =
    (Returned RELACON_STATUS_ERROR_ARGUMENT_NULL None, Some dev) /\
  RelaconDeviceRawRead (Some dev) None len timeout =
    (Returned RELACON_STATUS_ERROR_ARGUMENT_NULL None, Some dev).
Proof. repeat split. Qed.

End NullArguments.

Lemma RelaconDeviceRelaysRead_null_output_witness :
  (exists dev',
      RelaconDeviceRelaysRead 0
        (Some (sample_device HIDAPI [RxReport [1; 48; 0; 0; 0; 0; 0; 0]]))
        NULL = (NullDereference, Some dev') /\
      sent dev' = [[1; 80; 75; 0; 0; 0; 0; 0]]) /\
  (exists dev',
      RelaconDeviceSingleRelayRead 0
        (Some (sample_device HIDAPI [RxReport [1; 48; 0; 0; 0; 0; 0; 0]]))
        0 NULL = (NullDereference, Some dev') /\
      sent dev' = [[1; 82; 80; 75; 48; 0; 0; 0]]).
Proof.
  apply (RelaconDeviceRelaysRead_null_output 0
           (sample_device HIDAPI [RxReport [1; 48; 0; 0; 0; 0; 0; 0]]) []);
    [reflexivity | reflexivity | reflexivity | simpl; lia].
Defined.

Section MemoryFacts.

Lemma malloc_cases (b : block) (m : Memory) :
  (exists m', malloc b m = (None, m') /\ blocks m' = blocks m /\
              brk m' = brk m /\ budget m = false :: budget m') \/
  (exists m', malloc b m = (Some (brk m), m') /\
              blocks m' = <[brk m := b]> (blocks m) /\
              brk m' = S (brk m) /\ budget m' = tail (budget m)).
Proof.
  unfold malloc. destruct (budget m) as [| [|] rest].
  - right. eexists. split; [reflexivity |]. simpl. auto.
  - right. eexists. split; [reflexivity |]. simpl. auto.
  - left. eexists. split; [reflexivity |]. simpl. auto.
Qed.

Lemma malloc_unlimited (b : block) (m : Memory) :
  budget m = [] ->
  exists m', malloc b m = (Some (brk m), m') /\ budget m' = [] /\
             blocks m' = <[brk m := b]> (blocks m) /\ brk m' = S (brk m).
Proof.
  intros Hb. unfold malloc. rewrite Hb. eexists. split; [reflexivity |].
  simpl. auto.
Qed.

Lemma blocks_free (p : option addr) (m : Memory) (a : addr) :
  blocks (free p m) !! a =
    if decide (a ∈ option_list p) then None else blocks m !! a.
Proof.
  destruct p as [q |]; unfold free, option_list; cbn [blocks].
  - rewrite lookup_delete. case_decide as H1; case_decide as H2;
      try reflexivity; exfalso.
    + apply H2. subst. apply list_elem_of_here.
    + apply list_elem_of_singleton in H2. congruence.
  - case_decide as H; [| reflexivity]. now apply not_elem_of_nil in H.
Qed.

Lemma brk_free (p : option addr) (m : Memory) : brk (free p m) = brk m.
Proof. destruct p; reflexivity. Qed.

Lemma budget_free (p : option addr) (m : Memory) :
  budget (free p m) = budget m.
Proof. destruct p; reflexivity. Qed.

Lemma blocks_DeviceInfoFree (i : RelaconDeviceInfo) (m : Memory) (a : addr) :
  blocks (DeviceInfoFree i m) !! a =
    if decide (a ∈ info_strings i) then None else blocks m !! a.
Proof.
  unfold DeviceInfoFree, info_strings. rewrite !blocks_free.
  repeat case_decide; try reflexivity; exfalso;
    rewrite !elem_of_app in *; tauto.
Qed.

Lemma brk_DeviceInfoFree (i : RelaconDeviceInfo) (m : Memory) :
  brk (DeviceInfoFree i m) = brk m /\
  budget (DeviceInfoFree i m) = budget m.
Proof.
  unfold DeviceInfoFree. now rewrite !brk_free, !budget_free.
Qed.

Lemma blocks_entry_destroy (e : BackendDeviceListEntry) (m : Memory)
    (a : addr) :
  blocks (entry_destroy m e) !! a =
    if decide (a ∈ entry_addrs e) then None else blocks m !! a.
Proof.
  unfold entry_destroy, entry_addrs.
  rewrite blocks_free, blocks_DeviceInfoFree. simpl option_list.
  repeat case_decide; try reflexivity; exfalso;
    rewrite !elem_of_app in *; tauto.
Qed.

(** Destroying the entries frees exactly the addresses they own. *)
Lemma blocks_DeviceListEntriesDestroy (l : list BackendDeviceListEntry)
    (m : Memory) (a : addr) :
  blocks (DeviceListEntriesDestroy l m) !! a =
    if decide (a ∈ entries_addrs l) then None else blocks m !! a.
Proof.
  unfold DeviceListEntriesDestroy, entries_addrs. revert m.
  induction l as [| e l IH]; intros m; cbn [foldl map concat].
  - case_decide as H; [| reflexivity]. now apply not_elem_of_nil in H.
  - rewrite IH, blocks_entry_destroy.
    repeat case_decide; try reflexivity; exfalso;
      rewrite !elem_of_app in *; tauto.
Qed.

Lemma brk_DeviceListEntriesDestroy (l : list BackendDeviceListEntry)
    (m : Memory) :
  brk (DeviceListEntriesDestroy l m) = brk m /\
  budget (DeviceListEntriesDestroy l m) = budget m.
Proof.
  unfold DeviceListEntriesDestroy. revert m.
  induction l as [| e l IH]; intros m; simpl; [auto |].
  destruct (IH (entry_destroy m e)) as [-> ->]. unfold entry_destroy.
  rewrite brk_free, budget_free. apply brk_DeviceInfoFree.
Qed.

Lemma entries_addrs_app (l1 l2 : list BackendDeviceListEntry) :
  entries_addrs (l1 ++ l2) = entries_addrs l1 ++ entries_addrs l2.
Proof. unfold entries_addrs. now rewrite map_app, concat_app. Qed.

Lemma only_grew_refl (m : Memory) : mem_ok m -> only_grew m m [].
Proof. intros H. repeat split; auto. Qed.

Lemma only_grew_trans (m1 m2 m3 : Memory) (s1 s2 : list addr) :
  only_grew m1 m2 s1 -> only_grew m2 m3 s2 -> only_grew m1 m3 (s1 ++ s2).
Proof.
  intros (_ & Hb1 & Hf1 & Hs1) (Hok & Hb2 & Hf2 & Hs2).
  split; [exact Hok |]. split; [lia |]. split.
  - apply Forall_app. split; eapply Forall_impl; eauto; simpl; lia.
  - intros a Ha. rewrite elem_of_app in Ha.
    rewrite Hs2, Hs1; tauto.
Qed.

Lemma only_grew_kept_old (m m' : Memory) (s : list addr) :
  only_grew m m' s -> kept_old m m' s.
Proof.
  intros (Hok & Hb & Hf & Hs). repeat split; auto.
  intros a Ha. apply Hs. intros Hin.
  rewrite Forall_forall in Hf. apply Hf in Hin. lia.
Qed.

Lemma kept_old_refl (m : Memory) : mem_ok m -> kept_old m m [].
Proof. intros H. repeat split; auto. Qed.

Lemma kept_old_trans (m1 m2 m3 : Memory) (s1 s2 : list addr) :
  kept_old m1 m2 s1 -> kept_old m2 m3 s2 -> kept_old m1 m3 (s1 ++ s2).
Proof.
  intros (_ & Hb1 & Hf1 & Hs1) (Hok & Hb2 & Hf2 & Hs2).
  split; [exact Hok |]. split; [lia |]. split.
  - apply Forall_app. split; eapply Forall_impl; eauto; simpl; lia.
  - intros a Ha. rewrite Hs2, Hs1; [reflexivity | lia | lia].
Qed.

End MemoryFacts.

Section AllocatorFacts.

Lemma malloc_Some_grew (b : block) (m m' : Memory) (a : addr) :
  mem_ok m -> malloc b m = (Some a, m') ->
  a = brk m /\ only_grew m m' [a] /\ blocks m' !! a = Some b /\
  budget m' = tail (budget m).
Proof.
  intros Hok Hm.
  destruct (malloc_cases b m) as [(m1 & H1 & _) | (m1 & H1 & Hb & Hk & Hg)];
    rewrite H1 in Hm; [discriminate |].
  injection Hm as <- <-. split; [reflexivity |]. split; [| split].
  - split; [| split; [| split]].
    + intros a Ha. rewrite Hb, lookup_insert_ne by lia. apply Hok. lia.
    + lia.
    + constructor; [lia | constructor].
    + intros a Ha. rewrite Hb. apply lookup_insert_ne.
      intros Heq. apply Ha. rewrite <- Heq. apply list_elem_of_here.
  - rewrite Hb. apply lookup_insert_eq.
  - exact Hg.
Qed.

Lemma malloc_None_grew (b : block) (m m' : Memory) :
  mem_ok m -> malloc b m = (None, m') ->
  only_grew m m' [] /\ budget m = false :: budget m'.
Proof.
  intros Hok Hm.
  destruct (malloc_cases b m) as [(m1 & H1 & Hb & Hk & Hg) | (m1 & H1 & _)];
    rewrite H1 in Hm; [| discriminate].
  injection Hm as <-. split; [| exact Hg].
  split; [| split; [| split]].
  - intros a Ha. rewrite Hb. apply Hok. lia.
  - lia.
  - constructor.
  - intros a _. now rewrite Hb.
Qed.

(** Overwriting a fresh live block changes nothing else. *)
Lemma poke_grew (m0 m : Memory) (s : list addr) (a : addr) (b : block) :
  only_grew m0 m s -> a ∈ s ->
  only_grew m0
    {| blocks := <[a := b]> (blocks m); brk := brk m; budget := budget m |}
    s.
Proof.
  intros (Hok & Hb & Hf & Hs) Ha.
  split; [| split; [| split]]; cbn [blocks brk]; auto.
  - intros x Hx. cbn [blocks brk] in *.
    rewrite Forall_forall in Hf. pose proof (Hf a Ha).
    rewrite lookup_insert_ne by lia. now apply Hok.
  - intros x Hx. rewrite lookup_insert_ne by (intros ->; tauto).
    now apply Hs.
Qed.

(** Frees of fresh addresses [gone]: what is left changed is [s']. *)
Lemma frees_grew (m0 m mf : Memory) (s s' gone : list addr) :
  mem_ok m0 -> only_grew m0 m s -> brk mf = brk m ->
  (forall a, blocks mf !! a =
             if decide (a ∈ gone) then None else blocks m !! a) ->
  (forall a, a ∈ gone -> a ∈ s) ->
  (forall a, a ∈ s -> a ∈ s' \/ a ∈ gone) ->
  (forall a, a ∈ s' -> a ∈ s) ->
  only_grew m0 mf s'.
Proof.
  intros Hok0 (Hok & Hb & Hf & Hs) Hbrk Hlook Hgone Hcover Hsub.
  rewrite Forall_forall in Hf.
  split; [| split; [| split]].
  - intros a Ha. rewrite Hlook. case_decide; [reflexivity |].
    apply Hok. lia.
  - lia.
  - rewrite Forall_forall. intros a Ha. rewrite Hbrk. auto.
  - intros a Ha. rewrite Hlook. case_decide as Hin.
    + symmetry. apply Hok0. pose proof (Hf a (Hgone a Hin)). lia.
    + apply Hs. intros Hin'. destruct (Hcover a Hin'); tauto.
Qed.

Lemma only_grew_equiv (m m' : Memory) (s s' : list addr) :
  (forall a, a ∈ s <-> a ∈ s') -> only_grew m m' s -> only_grew m m' s'.
Proof.
  intros Heq (Hok & Hb & Hf & Hs). rewrite Forall_forall in Hf.
  split; [| split; [| split]]; auto.
  - rewrite Forall_forall. intros a Ha. apply Hf, Heq, Ha.
  - intros a Ha. apply Hs. rewrite Heq. exact Ha.
Qed.

Lemma frees_kept (m0 m mf : Memory) (s s' gone : list addr) :
  kept_old m0 m s -> brk mf = brk m ->
  (forall a, blocks mf !! a =
             if decide (a ∈ gone) then None else blocks m !! a) ->
  (forall a, a ∈ gone -> a ∈ s) ->
  (forall a, a ∈ s' -> a ∈ s) ->
  kept_old m0 mf s'.
Proof.
  intros (Hok & Hb & Hf & Hs) Hbrk Hlook Hgone Hsub.
  rewrite Forall_forall in Hf.
  split; [| split; [| split]].
  - intros a Ha. rewrite Hlook. case_decide; [reflexivity |].
    apply Hok. lia.
  - lia.
  - rewrite Forall_forall. intros a Ha. rewrite Hbrk. auto.
  - intros a Ha. rewrite Hlook. case_decide as Hin.
    + pose proof (Hf a (Hgone a Hin)). lia.
    + now apply Hs.
Qed.

Lemma poke_kept (m0 m : Memory) (s : list addr) (a : addr) (b : block) :
  kept_old m0 m s -> a ∈ s ->
  kept_old m0
    {| blocks := <[a := b]> (blocks m); brk := brk m; budget := budget m |}
    s.
Proof.
  intros (Hok & Hb & Hf & Hs) Ha. rewrite Forall_forall in Hf.
  pose proof (Hf a Ha).
  split; [| split; [| split]]; cbn [blocks brk]; auto.
  - intros x Hx. cbn [blocks brk] in *.
    rewrite lookup_insert_ne by lia. now apply Hok.
  - rewrite Forall_forall. exact Hf.
  - intros x Hx. rewrite lookup_insert_ne by lia. now apply Hs.
Qed.

Lemma kept_old_weaken (m m' : Memory) (s s' : list addr) :
  (forall a, a ∈ s' -> a ∈ s) -> kept_old m m' s -> kept_old m m' s'.
Proof.
  intros Hsub (Hok & Hb & Hf & Hs). rewrite Forall_forall in Hf.
  split; [| split; [| split]]; auto.
  rewrite Forall_forall. auto.
Qed.

End AllocatorFacts.

Section LibusbEntries.

Import Libusb.

Lemma FetchStringDescriptor_spec (desc : StringDescriptor)
    (cur : option addr) (m m' : Memory) (st : RelaconStatus)
    (p : option addr) :
  mem_ok m -> FetchStringDescriptor desc cur m = (st, p, m') ->
  (budget m = [] ->
   budget m' = [] /\ st <> RELACON_STATUS_ERROR_OUT_OF_MEMORY) /\
  ((st = RELACON_STATUS_ERROR_NO_ENTRY /\ desc = NoDescriptor /\ p = cur /\
    m' = m) \/
   (st = RELACON_STATUS_ERROR_OUT_OF_MEMORY /\ p = cur /\
    only_grew m m' []) \/
   (st = RELACON_STATUS_ERROR_INTERNAL /\ desc = Unreadable /\ p = cur /\
    only_grew m m' []) \/
   (st = RELACON_STATUS_SUCCESS /\
    exists a s, desc = Text s /\ p = Some a /\ only_grew m m' [a] /\
                blocks m' !! a = Some (Chars (descriptor_ascii s)))).
Proof.
  intros Hok. unfold FetchStringDescriptor.
  destruct desc as [| | s].
  - intros [= <- <- <-]. split; [intros Hb; split; [exact Hb | discriminate] |].
    left. auto.
  - destruct (malloc _ m) as [[a |] m1] eqn:Hm; intros [= <- <- <-].
    + destruct (malloc_Some_grew _ _ _ _ Hok Hm) as (-> & Hg & Hl & Hb).
      split.
      { intros Hb0. cbn [budget]. rewrite Hb, Hb0.
        split; [reflexivity | discriminate]. }
      right; right; left.
      split; [reflexivity | split; [reflexivity | split; [reflexivity |]]].
      eapply (frees_grew m m1 _ [brk m] [] [brk m]); eauto.
      * intros x. apply (blocks_free (Some (brk m)) m1 x).
      * intros x Hx. now apply not_elem_of_nil in Hx.
    + destruct (malloc_None_grew _ _ _ Hok Hm) as [Hg Hb].
      split; [intros Hb0; rewrite Hb0 in Hb; discriminate |].
      right; left. auto.
  - destruct (malloc _ m) as [[a |] m1] eqn:Hm; intros [= <- <- <-].
    + destruct (malloc_Some_grew _ _ _ _ Hok Hm) as (-> & Hg & Hl & Hb).
      split.
      { intros Hb0. cbn [budget]. rewrite Hb, Hb0.
        split; [reflexivity | discriminate]. }
      right; right; right. split; [reflexivity |].
      exists (brk m), s.
      split; [reflexivity | split; [reflexivity | split]].
      * apply poke_grew; [exact Hg | apply list_elem_of_here].
      * cbn [blocks]. apply lookup_insert_eq.
    + destruct (malloc_None_grew _ _ _ Hok Hm) as [Hg Hb].
      split; [intros Hb0; rewrite Hb0 in Hb; discriminate |].
      right; left. auto.
Qed.

Lemma fetch_into_inv (get : RelaconDeviceInfo -> option addr)
    (set : RelaconDeviceInfo -> option addr -> RelaconDeviceInfo)
    (desc : StringDescriptor) (m0 : Memory) (status : RelaconStatus)
    (i : RelaconDeviceInfo) (m : Memory) :
  mem_ok m0 ->
  get i = None -> set i None = i ->
  (forall p a, a ∈ info_strings (set i p) <->
               a ∈ option_list p \/ a ∈ info_strings i) ->
  populate_inv m0 (status, i, m) ->
  populate_inv m0 (fetch_into get set desc (status, i, m)) /\
  let '(status', i', _) := fetch_into get set desc (status, i, m) in
  (exists p, i' = set i p) /\
  (status' = RELACON_STATUS_SUCCESS ->
   status = RELACON_STATUS_SUCCESS /\ readable desc = true) /\
  (status' = RELACON_STATUS_ERROR_INTERNAL ->
   status = RELACON_STATUS_ERROR_INTERNAL \/ readable desc = false).
Proof.
  intros Hok0 Hget Hset Hin [Hbud Hinv]. unfold fetch_into.
  destruct (decide (status = RELACON_STATUS_SUCCESS)) as [-> | Hne].
  2: { split; [split; assumption |].
       split; [exists None; now rewrite Hset |]. split; [tauto | auto]. }
  destruct Hinv as [(_ & Hg & Hlive) | ([? | ?] & _)]; try discriminate.
  assert (mem_ok m) as Hok by apply Hg.
  destruct (FetchStringDescriptor desc (get i) m) as [[fs p] m1] eqn:Hf.
  destruct (FetchStringDescriptor_spec _ _ _ _ _ _ Hok Hf)
    as [Hbud1 [(-> & -> & -> & ->) | [(-> & -> & Hg1) |
        [(-> & -> & -> & Hg1) | (-> & a & s & -> & -> & Hg1 & Hl1)]]]];
    rewrite ?Hget, ?Hset.
  - rewrite decide_False by (intros [_ H]; now apply H).
    split; [split; [exact Hbud | left; auto] |].
    split; [exists None; now rewrite Hset |]. split; [auto | discriminate].
  - rewrite decide_True by (split; discriminate).
    assert (only_grew m0 m1 (info_strings i)) as Hg2.
    { eapply only_grew_equiv; [| eapply only_grew_trans; eauto].
      intros x. rewrite app_nil_r. reflexivity. }
    split; [split |].
    + intros Hb. destruct (Hbud Hb) as [Hb1 _].
      destruct (Hbud1 Hb1) as [_ Hcontra]. now contradiction Hcontra.
    + right. split; [left; reflexivity |].
      apply (frees_grew m0 m1 _ (info_strings i) [] (info_strings i)
               Hok0 Hg2);
        [apply brk_DeviceInfoFree | intros x; apply blocks_DeviceInfoFree
        | auto | auto | intros x Hx; now apply not_elem_of_nil in Hx].
    + split; [exists None; now rewrite Hset |].
      split; discriminate.
  - rewrite decide_True by (split; discriminate).
    assert (only_grew m0 m1 (info_strings i)) as Hg2.
    { eapply only_grew_equiv; [| eapply only_grew_trans; eauto].
      intros x. rewrite app_nil_r. reflexivity. }
    split; [split |].
    + intros Hb. destruct (Hbud Hb) as [Hb1 _].
      destruct (Hbud1 Hb1) as [Hb2 _].
      split; [| discriminate].
      now rewrite (proj2 (brk_DeviceInfoFree i m1)).
    + right. split; [right; reflexivity |].
      apply (frees_grew m0 m1 _ (info_strings i) [] (info_strings i)
               Hok0 Hg2);
        [apply brk_DeviceInfoFree | intros x; apply blocks_DeviceInfoFree
        | auto | auto | intros x Hx; now apply not_elem_of_nil in Hx].
    + split; [exists None; now rewrite Hset |].
      split; [discriminate | auto].
  - rewrite decide_False by (intros [H _]; now apply H).
    split; [split |].
    + intros Hb. destruct (Hbud Hb) as [Hb1 _].
      destruct (Hbud1 Hb1) as [Hb2 _]. split; [exact Hb2 | discriminate].
    + left. split; [reflexivity |]. split.
      * eapply only_grew_equiv; [| eapply only_grew_trans; eauto].
        intros x. rewrite Hin, elem_of_app. simpl.
        rewrite list_elem_of_singleton. tauto.
      * intros q Hq. apply Hin in Hq as [Hq | Hq].
        -- simpl in Hq. apply list_elem_of_singleton in Hq. subst q. eauto.
        -- destruct (Hlive q Hq) as [s' Hs'].
           exists s'. rewrite <- Hs'. apply Hg1.
           intros Hqa. apply list_elem_of_singleton in Hqa. subst q.
           destruct Hg as (Hokm & _). destruct Hg1 as (_ & _ & Hfa & _).
           apply Forall_inv in Hfa.
           rewrite Hokm in Hs' by lia. discriminate.
    + split; [eexists; reflexivity |]. split; [auto | discriminate].
Qed.

End LibusbEntries.

Section LibusbListing.

Import Libusb.

Lemma set_manufacturer_laws (i : RelaconDeviceInfo) :
  manufacturer i = None ->
  set_manufacturer i None = i /\
  forall p a, a ∈ info_strings (set_manufacturer i p) <->
              a ∈ option_list p \/ a ∈ info_strings i.
Proof.
  destruct i; simpl. intros ->. split; [reflexivity |].
  intros p a. unfold info_strings. simpl. rewrite !elem_of_app. tauto.
Qed.

Lemma set_product_laws (i : RelaconDeviceInfo) :
  product i = None ->
  set_product i None = i /\
  forall p a, a ∈ info_strings (set_product i p) <->
              a ∈ option_list p \/ a ∈ info_strings i.
Proof.
  destruct i; simpl. intros ->. split; [reflexivity |].
  intros p a. unfold info_strings. simpl. rewrite !elem_of_app.
  pose proof (not_elem_of_nil a). tauto.
Qed.

Lemma set_serialNum_laws (i : RelaconDeviceInfo) :
  serialNum i = None ->
  set_serialNum i None = i /\
  forall p a, a ∈ info_strings (set_serialNum i p) <->
              a ∈ option_list p \/ a ∈ info_strings i.
Proof.
  destruct i; simpl. intros ->. split; [reflexivity |].
  intros p a. unfold info_strings. simpl. rewrite !elem_of_app.
  pose proof (not_elem_of_nil a). tauto.
Qed.

Lemma PopulateDeviceInfoStrings_spec (i : RelaconDeviceInfo)
    (d : UsbDevice) (m : Memory) :
  mem_ok m ->
  manufacturer i = None -> product i = None -> serialNum i = None ->
  populate_inv m (PopulateDeviceInfoStrings i d m) /\
  let '(status, i', _) := PopulateDeviceInfoStrings i d m in
  handle i' = handle i /\
  (status = RELACON_STATUS_SUCCESS -> strings_readable d = true) /\
  (status = RELACON_STATUS_ERROR_INTERNAL -> strings_readable d = false).
Proof.
  intros Hok Hm Hp Hs. unfold PopulateDeviceInfoStrings, strings_readable.
  destruct (openable d); cbv iota; rewrite ?andb_true_l, ?andb_false_l.
  2: { split; [| split; [reflexivity | split; [discriminate | reflexivity]]].
       split; [intros Hb; split; [exact Hb | discriminate] |].
       right. split; [auto | now apply only_grew_refl]. }
  assert (populate_inv m (RELACON_STATUS_SUCCESS, i, m)) as H0.
  { split; [intros Hb; split; [exact Hb | discriminate] |].
    assert (info_strings i = []) as Hnil
      by (unfold info_strings; now rewrite Hm, Hp, Hs).
    left. split; [reflexivity |]. rewrite Hnil.
    split; [now apply only_grew_refl |].
    intros p Hin. rewrite Hnil in Hin. now apply not_elem_of_nil in Hin. }
  destruct (set_manufacturer_laws i Hm) as [Ha1 Ha2].
  destruct (fetch_into_inv manufacturer set_manufacturer (str_manufacturer d)
              m _ i m Hok Hm Ha1 Ha2 H0) as [H1 F1].
  destruct (fetch_into manufacturer set_manufacturer _ _)
    as [[st1 i1] m1].
  destruct F1 as ([p1 ->] & F1s & F1i).
  destruct (set_product_laws (set_manufacturer i p1) Hp) as [Hb1 Hb2].
  destruct (fetch_into_inv product set_product (str_product d)
              m st1 (set_manufacturer i p1) m1 Hok Hp Hb1 Hb2 H1)
    as [H2 F2].
  destruct (fetch_into product set_product _ _) as [[st2 i2] m2].
  destruct F2 as ([p2 ->] & F2s & F2i).
  destruct (set_serialNum_laws (set_product (set_manufacturer i p1) p2) Hs)
    as [Hc1 Hc2].
  destruct (fetch_into_inv serialNum set_serialNum (str_serial d)
              m st2 (set_product (set_manufacturer i p1) p2) m2
              Hok Hs Hc1 Hc2 H2) as [H3 F3].
  destruct (fetch_into serialNum set_serialNum _ _) as [[st3 i3] m3].
  destruct F3 as ([p3 ->] & F3s & F3i).
  split; [exact H3 |]. split; [reflexivity |]. split.
  - intros E3. destruct (F3s E3) as [E2 R3]. destruct (F2s E2) as [E1 R2].
    destruct (F1s E1) as [_ R1]. now rewrite R1, R2, R3.
  - intros E3. destruct (F3i E3) as [E2 | R3];
      [| now rewrite R3, !andb_false_r].
    destruct (F2i E2) as [E1 | R2]; [| now rewrite R2, !andb_false_r].
    destruct (F1i E1) as [E0 | R1]; [discriminate | now rewrite R1].
Qed.

(** [DeviceListEntryCreate] on one candidate: either an entry comes out,
    and what changed in memory is what the entry owns; or none does, the
    memory is as before, and unless memory ran out the candidate could not
    be opened or one of its strings could not be read. *)
Lemma DeviceListEntryCreate_spec (d : UsbDevice)
    (capabilities : Capabilities.DeviceCapabilities) (m : Memory) :
  mem_ok m ->
  let '(status, entry, m') := DeviceListEntryCreate d capabilities m in
  (budget m = [] ->
   budget m' = [] /\ status <> RELACON_STATUS_ERROR_OUT_OF_MEMORY) /\
  match entry with
  | Some e =>
      status = RELACON_STATUS_SUCCESS /\ device e = d /\
      only_grew m m' (entry_addrs e) /\ entry_live m' e /\
      strings_readable d = true
  | None =>
      only_grew m m' [] /\
      (status = RELACON_STATUS_ERROR_OUT_OF_MEMORY \/
       (status = RELACON_STATUS_ERROR_INTERNAL /\
        strings_readable d = false))
  end.
Proof.
  intros Hok. unfold DeviceListEntryCreate.
  destruct (malloc (EntryBlock d) m) as [[a |] m1] eqn:Hm.
  2: { destruct (malloc_None_grew _ _ _ Hok Hm) as [Hg Hb].
       split; [intros Hb0; rewrite Hb0 in Hb; discriminate |]. auto. }
  destruct (malloc_Some_grew _ _ _ _ Hok Hm) as (-> & Hg & Hl & Hb).
  assert (mem_ok m1) as Hok1 by apply Hg.
  pose proof (PopulateDeviceInfoStrings_spec
                (initial_info (brk m) d capabilities) d m1 Hok1
                eq_refl eq_refl eq_refl) as Hspec.
  destruct (PopulateDeviceInfoStrings _ d m1) as [[status i] m2].
  destruct Hspec as [[Hbud Hinv] (Hh & Hrs & Hri)].
  assert (budget m = [] ->
          budget m2 = [] /\ status <> RELACON_STATUS_ERROR_OUT_OF_MEMORY)
    as Hbud'.
  { intros Hb0. apply Hbud. now rewrite Hb, Hb0. }
  destruct Hinv as [(-> & Hg2 & Hlive) | (Hst & Hg2)].
  - rewrite decide_True by reflexivity. split; [exact Hbud' |].
    cbn [device devInfo entry_addr].
    split; [reflexivity |]. split; [reflexivity |]. split; [| split].
    + eapply only_grew_equiv; [| eapply only_grew_trans; eauto].
      intros x. unfold entry_addrs. cbn [devInfo entry_addr].
      rewrite !elem_of_app. tauto.
    + split; [exact Hlive |]. cbn [device devInfo entry_addr].
      split; [| exact Hh].
      destruct Hg2 as (_ & _ & Hf & Hs).
      rewrite Hs; [exact Hl |].
      intros Hin. rewrite Forall_forall in Hf. apply Hf in Hin.
      destruct Hg as (_ & _ & Hfm & _). apply Forall_inv in Hfm. lia.
    + auto.
  - rewrite decide_False by (destruct Hst; congruence).
    split.
    { intros Hb0. destruct (Hbud' Hb0). now rewrite budget_free. }
    split.
    + assert (only_grew m m2 [brk m]) as Hg3.
      { eapply only_grew_equiv; [| eapply only_grew_trans; eauto].
        intros x. rewrite app_nil_r. reflexivity. }
      apply (frees_grew m m2 _ [brk m] [] [brk m] Hok Hg3);
        [apply brk_free | intros x; apply blocks_free | auto | auto
        | intros x Hx; now apply not_elem_of_nil in Hx].
    + destruct Hst as [-> | ->]; auto.
Qed.

Lemma entry_live_kept (m m1 : Memory) (s : list addr)
    (e : BackendDeviceListEntry) :
  kept_old m m1 s -> Forall (fun x => (x < brk m)%nat) (entry_addrs e) ->
  entry_live m e -> entry_live m1 e.
Proof.
  intros (_ & _ & _ & Hs) Hf (Hlive & Hblk & Hh).
  rewrite Forall_forall in Hf. unfold entry_addrs in Hf.
  split; [| split; [| exact Hh]].
  - intros p Hp. destruct (Hlive p Hp) as [c Hc]. exists c.
    rewrite Hs; [exact Hc |]. apply Hf. rewrite elem_of_app. auto.
  - rewrite Hs; [exact Hblk |]. apply Hf. rewrite elem_of_app.
    right. apply list_elem_of_here.
Qed.

Lemma entries_live_kept (m0 m m1 : Memory) (s : list addr)
    (linked : list BackendDeviceListEntry) :
  kept_old m0 m (entries_addrs linked) -> kept_old m m1 s ->
  Forall (entry_live m) linked -> Forall (entry_live m1) linked.
Proof.
  intros (_ & _ & Hf & _) Hk Hl.
  rewrite Forall_forall in Hf. rewrite Forall_forall in Hl.
  rewrite Forall_forall.
  intros e He. eapply entry_live_kept; [exact Hk | | auto].
  rewrite Forall_forall. intros x Hx.
  assert (x ∈ entries_addrs linked) as Hin.
  { unfold entries_addrs. apply list_elem_of_In, in_concat.
    exists (entry_addrs e). split; [| now apply list_elem_of_In].
    apply in_map, list_elem_of_In, He. }
  apply Hf in Hin. lia.
Qed.

(** The loop of [DeviceListEntriesCreate] with respect to the memory [m0]
    the enumeration started from. *)
Lemma entries_loop_spec (deviceList : list UsbDevice) (m0 : Memory) :
  mem_ok m0 ->
  forall (linked : list BackendDeviceListEntry) (m : Memory),
    only_grew m0 m (entries_addrs linked) ->
    Forall (entry_live m) linked ->
    let '(status, linked', m') := entries_loop deviceList linked m in
    (budget m = [] ->
     budget m' = [] /\ status <> RELACON_STATUS_ERROR_OUT_OF_MEMORY) /\
    ((status = RELACON_STATUS_SUCCESS /\
      only_grew m0 m' (entries_addrs linked') /\
      Forall (entry_live m') linked' /\
      map device linked' =
        map device linked ++ List.filter libusb_listable deviceList) \/
     (status = RELACON_STATUS_ERROR_OUT_OF_MEMORY /\ only_grew m0 m' [])).
Proof.
  intros Hok0. induction deviceList as [| d rest IH]; intros linked m Hg Hl.
  - simpl. split; [intros Hb; split; [exact Hb | discriminate] |].
    left. rewrite app_nil_r. auto.
  - cbn [entries_loop List.filter]. unfold libusb_listable.
    destruct (capabilities_of d) as [capabilities |] eqn:Hcap.
    2: { rewrite bool_decide_eq_false_2 by (intros [? ?]; discriminate).
         simpl. apply IH; assumption. }
    rewrite bool_decide_eq_true_2 by eauto. rewrite andb_true_l.
    assert (mem_ok m) as Hok by apply Hg.
    pose proof (DeviceListEntryCreate_spec d capabilities m Hok) as Hc.
    destruct (DeviceListEntryCreate d capabilities m)
      as [[status [e |]] m1].
    + destruct Hc as (Hbud & -> & Hdev & Hg1 & Hlive & ->).
      specialize (IH (linked ++ [e]) m1).
      destruct (entries_loop rest (linked ++ [e]) m1) as [[st l'] m'].
      destruct IH as [Hbud2 IH].
      * rewrite entries_addrs_app. unfold entries_addrs at 2. simpl.
        rewrite app_nil_r. eapply only_grew_trans; eauto.
      * apply Forall_app. split; [| constructor; [exact Hlive | constructor]].
        apply (entries_live_kept m0 m m1 (entry_addrs e) linked);
          [apply only_grew_kept_old, Hg | apply only_grew_kept_old, Hg1
          | exact Hl].
      * split.
        { intros Hb0. destruct (Hbud Hb0) as [Hb1 _]. auto. }
        destruct IH as [(-> & Hg' & Hl' & Hmap) | (-> & Hg')];
          [left | right; auto].
        split; [reflexivity |]. split; [exact Hg' |]. split; [exact Hl' |].
        rewrite Hmap, map_app, <- app_assoc. simpl. now rewrite Hdev.
    + destruct Hc as (Hbud & Hg1 & Hst).
      assert (only_grew m0 m1 (entries_addrs linked)) as Hg2.
      { eapply only_grew_equiv; [| eapply only_grew_trans; eauto].
        intros x. rewrite app_nil_r. reflexivity. }
      destruct Hst as [-> | [-> ->]].
      * rewrite decide_True by reflexivity. split.
        { intros Hb0. destruct (Hbud Hb0) as [_ Hcontra].
          now contradiction Hcontra. }
        right. split; [reflexivity |].
        apply (frees_grew m0 m1 _ (entries_addrs linked) []
                 (entries_addrs linked) Hok0 Hg2);
          [apply brk_DeviceListEntriesDestroy
          | intros x; apply blocks_DeviceListEntriesDestroy
          | auto | auto | intros x Hx; now apply not_elem_of_nil in Hx].
      * rewrite decide_False by discriminate.
        specialize (IH linked m1 Hg2).
        destruct (entries_loop rest linked m1) as [[st l'] m'].
        destruct IH as [Hbud2 IH].
        { apply (entries_live_kept m0 m m1 [] linked);
            [apply only_grew_kept_old, Hg | apply only_grew_kept_old, Hg1
            | exact Hl]. }
        split; [| exact IH].
        intros Hb0. destruct (Hbud Hb0) as [Hb1 _]. auto.
Qed.

End LibusbListing.

Section HidapiListing.

Import Hidapi.

Lemma FetchString_spec (desc : StringDescriptor) (m : Memory) :
  mem_ok m ->
  let '(_, p, m') := FetchString desc None m in
  kept_old m m' (option_list p) /\
  (forall a, p = Some a -> exists s, blocks m' !! a = Some (Chars s)) /\
  (budget m = [] -> budget m' = []).
Proof.
  intros Hok. unfold FetchString.
  destruct desc as [| | s];
    try (split; [now apply kept_old_refl | split; [discriminate | auto]]).
  cbv zeta. destruct (malloc _ m) as [[a |] m1] eqn:Hm.
  - destruct (malloc_Some_grew _ _ _ _ Hok Hm) as (-> & Hg & Hl & Hb).
    apply only_grew_kept_old in Hg.
    assert (budget m = [] -> budget m1 = []) as Hbud
      by (intros Hb0; now rewrite Hb, Hb0).
    destruct (wcstombs (fetched s)) as [cs |].
    + split; [| split; [| exact Hbud]].
      * apply poke_kept; [exact Hg | apply list_elem_of_here].
      * intros a [= <-]. eexists. cbn [blocks]. apply lookup_insert_eq.
    + split; [| split; [discriminate | exact Hbud]].
      eapply kept_old_weaken; [| exact Hg].
      intros x Hx. now apply not_elem_of_nil in Hx.
  - destruct (malloc_None_grew _ _ _ Hok Hm) as [Hg Hb].
    split; [now apply only_grew_kept_old |]. split; [discriminate |].
    intros Hb0. rewrite Hb0 in Hb. discriminate.
Qed.

Lemma strings_live_kept (m m1 : Memory) (s : list addr)
    (i i' : RelaconDeviceInfo) (p : option addr) :
  kept_old m m1 (option_list p) ->
  Forall (fun x => (x < brk m)%nat) (info_strings i) ->
  strings_live m i ->
  (forall a, p = Some a -> exists c, blocks m1 !! a = Some (Chars c)) ->
  (forall a, a ∈ info_strings i' -> a ∈ option_list p \/ a ∈ info_strings i) ->
  strings_live m1 i'.
Proof.
  intros (_ & _ & _ & Hs) Hf Hlive Hp Hin a Ha.
  rewrite Forall_forall in Hf.
  destruct (Hin a Ha) as [Hn | Ho].
  - destruct p as [q |]; [| now apply not_elem_of_nil in Hn].
    apply list_elem_of_singleton in Hn. subst. now apply Hp.
  - destruct (Hlive a Ho) as [c Hc]. exists c. rewrite Hs; auto.
Qed.

(** [DeviceInfoPopulate]: what the entry owns afterwards is fresh and
    live; a device that cannot be opened gets no string. *)
Lemma DeviceInfoPopulate_spec (listEntry : addr) (d : UsbDevice)
    (capabilities : Capabilities.DeviceCapabilities) (m : Memory) :
  mem_ok m ->
  let '(i, m') := DeviceInfoPopulate listEntry d capabilities m in
  kept_old m m' (info_strings i) /\ strings_live m' i /\
  handle i = Some listEntry /\
  (openable d = false -> info_strings i = []) /\
  (budget m = [] -> budget m' = []).
Proof.
  intros Hok. unfold DeviceInfoPopulate.
  set (i0 := initial_info listEntry d capabilities).
  assert (strings_live m i0) as Hl0
    by (intros p Hp; now apply not_elem_of_nil in Hp).
  destruct (openable d).
  2: { split; [now apply kept_old_refl |]. auto. }
  pose proof (FetchString_spec (str_manufacturer d) m Hok) as H1.
  change (manufacturer i0) with (@None addr).
  destruct (FetchString (str_manufacturer d) None m) as [[st1 p1] m1].
  destruct H1 as (Hk1 & Hp1 & Hb1).
  destruct (set_manufacturer_laws i0 eq_refl) as [_ Hin1].
  assert (strings_live m1 (set_manufacturer i0 p1)) as Hl1.
  { apply (strings_live_kept m m1 [] i0 _ p1 Hk1);
      [constructor | exact Hl0 | exact Hp1 | intros a Ha; now apply Hin1]. }
  assert (kept_old m m1 (info_strings (set_manufacturer i0 p1))) as Hg1.
  { eapply kept_old_weaken; [| exact Hk1].
    intros a Ha. apply Hin1 in Ha as [Ha | Ha]; [exact Ha |].
    now apply not_elem_of_nil in Ha. }
  assert (mem_ok m1) as Hok1 by apply Hk1.
  pose proof (FetchString_spec (str_product d) m1 Hok1) as H2.
  change (product (set_manufacturer i0 p1)) with (@None addr).
  destruct (FetchString (str_product d) None m1) as [[st2 p2] m2].
  destruct H2 as (Hk2 & Hp2 & Hb2).
  destruct (set_product_laws (set_manufacturer i0 p1) eq_refl) as [_ Hin2].
  assert (strings_live m2 (set_product (set_manufacturer i0 p1) p2)) as Hl2.
  { apply (strings_live_kept m1 m2 [] (set_manufacturer i0 p1) _ p2 Hk2);
      [| exact Hl1 | exact Hp2 | intros a Ha; now apply Hin2].
    destruct Hg1 as (_ & _ & Hf & _). eapply Forall_impl; [exact Hf |].
    simpl. lia. }
  assert (kept_old m m2
            (info_strings (set_product (set_manufacturer i0 p1) p2)))
    as Hg2.
  { eapply kept_old_weaken; [| eapply kept_old_trans; eauto].
    intros a Ha. apply Hin2 in Ha. rewrite elem_of_app. tauto. }
  assert (mem_ok m2) as Hok2 by apply Hk2.
  pose proof (FetchString_spec (str_serial d) m2 Hok2) as H3.
  change (serialNum (set_product (set_manufacturer i0 p1) p2))
    with (@None addr).
  destruct (FetchString (str_serial d) None m2) as [[st3 p3] m3].
  destruct H3 as (Hk3 & Hp3 & Hb3).
  destruct (set_serialNum_laws (set_product (set_manufacturer i0 p1) p2)
              eq_refl) as [_ Hin3].
  split; [| split; [| split; [reflexivity | split; [discriminate | auto]]]].
  - eapply kept_old_weaken; [| eapply kept_old_trans; eauto].
    intros a Ha. apply Hin3 in Ha. rewrite elem_of_app. tauto.
  - apply (strings_live_kept m2 m3 []
             (set_product (set_manufacturer i0 p1) p2) _ p3 Hk3);
      [| exact Hl2 | exact Hp3 | intros a Ha; now apply Hin3].
    destruct Hg2 as (_ & _ & Hf & _). eapply Forall_impl; [exact Hf |].
    simpl. lia.
Qed.

Lemma hidapi_entries_loop_spec (plat : Platform)
    (hidapiDevInfo : list UsbDevice) (m0 : Memory) :
  forall (linked : list BackendDeviceListEntry) (m : Memory),
    kept_old m0 m (entries_addrs linked) ->
    Forall (entry_live m) linked -> Forall unopened_bare linked ->
    let '(status, linked', m') :=
      entries_loop plat hidapiDevInfo linked m in
    kept_old m0 m' (entries_addrs linked') /\
    Forall (entry_live m') linked' /\ Forall unopened_bare linked' /\
    ((status = RELACON_STATUS_SUCCESS /\
      map device linked' =
        map device linked ++
        List.filter (hidapi_listable plat) hidapiDevInfo) \/
     status = RELACON_STATUS_ERROR_OUT_OF_MEMORY) /\
    (budget m = [] -> budget m' = [] /\ status = RELACON_STATUS_SUCCESS).
Proof.
  induction hidapiDevInfo as [| d rest IH]; intros linked m Hk Hl Hu.
  - simpl. rewrite app_nil_r. auto 10.
  - cbn [entries_loop List.filter]. unfold hidapi_listable.
    destruct (capabilities_of d) as [capabilities |] eqn:Hcap.
    2: { rewrite bool_decide_eq_false_2 by (intros [? ?]; discriminate).
         simpl. apply IH; assumption. }
    rewrite bool_decide_eq_true_2 by eauto. rewrite andb_true_l.
    destruct (IsPotentialRelaconDevice plat d); cbn [negb];
      [| apply IH; assumption].
    assert (mem_ok m) as Hok by apply Hk.
    destruct (malloc (EntryBlock d) m) as [[a |] m1] eqn:Hm.
    2: { destruct (malloc_None_grew _ _ _ Hok Hm) as [Hg Hb].
         apply only_grew_kept_old in Hg.
         split; [| split; [| split; [exact Hu | split; [auto |]]]].
         - eapply kept_old_weaken; [| eapply kept_old_trans; eauto].
           intros x Hx. rewrite app_nil_r. exact Hx.
         - eapply entries_live_kept; eauto.
         - intros Hb0. rewrite Hb0 in Hb. discriminate. }
    destruct (malloc_Some_grew _ _ _ _ Hok Hm) as (-> & Hg & Hblk & Hb).
    apply only_grew_kept_old in Hg.
    assert (mem_ok m1) as Hok1 by apply Hg.
    pose proof (DeviceInfoPopulate_spec (brk m) d capabilities m1 Hok1)
      as Hp.
    destruct (DeviceInfoPopulate (brk m) d capabilities m1) as [i m2].
    destruct Hp as (Hk2 & Hlive & Hh & Hbare & Hb2).
    set (e := {| entry_addr := brk m; devInfo := i; device := d |}).
    assert (kept_old m m2 (entry_addrs e)) as Hke.
    { eapply kept_old_weaken; [| eapply kept_old_trans; eauto].
      intros x. unfold entry_addrs. cbn [devInfo entry_addr e].
      rewrite !elem_of_app. tauto. }
    specialize (IH (linked ++ [e]) m2).
    destruct (entries_loop plat rest (linked ++ [e]) m2) as [[st l'] m'].
    destruct IH as (Hk' & Hl' & Hu' & Hst & Hbud).
    + rewrite entries_addrs_app. unfold entries_addrs at 2.
      cbn [map concat]. rewrite app_nil_r. eapply kept_old_trans; eauto.
    + apply Forall_app. split.
      * eapply entries_live_kept; eauto.
      * constructor; [| constructor].
        split; [exact Hlive |]. split; [| exact Hh].
        cbn [device entry_addr e].
        destruct Hk2 as (_ & _ & _ & Hs). rewrite Hs; [exact Hblk |].
        destruct Hg as (_ & _ & Hf & _). apply Forall_inv in Hf. lia.
    + apply Forall_app. split; [exact Hu |].
      constructor; [exact Hbare | constructor].
    + split; [exact Hk' |]. split; [exact Hl' |]. split; [exact Hu' |].
      split.
      * destruct Hst as [[-> Hmap] | ->]; [left | right; reflexivity].
        split; [reflexivity |].
        rewrite Hmap, map_app, <- app_assoc. reflexivity.
      * intros Hb0. apply Hbud, Hb2. now rewrite Hb, Hb0.
Qed.

End HidapiListing.

Section ListingCreation.

Lemma mem_ok_empty (b : list bool) :
  mem_ok {| blocks := ∅; brk := O; budget := b |}.
Proof. intros a _. apply lookup_empty. Qed.

Lemma libusb_DeviceListEntriesCreate_spec (plat : Platform) (m : Memory) :
  mem_ok m ->
  let '(status, entries, m') := Libusb.DeviceListEntriesCreate plat m in
  (budget m = [] ->
   budget m' = [] /\ status <> RELACON_STATUS_ERROR_OUT_OF_MEMORY) /\
  ((status = RELACON_STATUS_SUCCESS /\
    only_grew m m' (entries_addrs entries) /\
    Forall (entry_live m') entries /\
    map device entries = List.filter libusb_listable (attached plat)) \/
   (status = RELACON_STATUS_ERROR_OUT_OF_MEMORY /\ only_grew m m' [])).
Proof.
  intros Hok. unfold Libusb.DeviceListEntriesCreate.
  apply (entries_loop_spec (attached plat) m Hok [] m);
    [now apply only_grew_refl | constructor].
Qed.

Lemma hidapi_DeviceListEntriesCreate_spec (plat : Platform) (m : Memory) :
  mem_ok m ->
  let '(status, entries, m') := Hidapi.DeviceListEntriesCreate plat m in
  (budget m = [] -> budget m' = [] /\ status = RELACON_STATUS_SUCCESS) /\
  ((status = RELACON_STATUS_SUCCESS /\
    kept_old m m' (entries_addrs entries) /\
    Forall (entry_live m') entries /\ Forall unopened_bare entries /\
    map device entries =
      List.filter (hidapi_listable plat) (attached plat)) \/
   (status = RELACON_STATUS_ERROR_OUT_OF_MEMORY /\ kept_old m m' [] /\
    forall a, a ∈ entries_addrs entries -> blocks m' !! a = None)).
Proof.
  intros Hok. unfold Hidapi.DeviceListEntriesCreate.
  pose proof (hidapi_entries_loop_spec plat (attached plat) m [] m
                (kept_old_refl m Hok) (List.Forall_nil _) (List.Forall_nil _))
    as H.
  destruct (Hidapi.entries_loop plat (attached plat) [] m)
    as [[status linked] m1].
  destruct H as (Hk & Hl & Hu & Hst & Hbud).
  destruct Hst as [[-> Hmap] | ->].
  - rewrite decide_True by reflexivity. split; [exact Hbud |]. left. auto.
  - rewrite decide_False by discriminate. split.
    { intros Hb. destruct (Hbud Hb). discriminate. }
    right. split; [reflexivity |]. split.
    + apply (frees_kept m m1 _ (entries_addrs linked) []
               (entries_addrs linked) Hk);
        [apply brk_DeviceListEntriesDestroy
        | intros x; apply blocks_DeviceListEntriesDestroy | auto
        | intros x Hx; now apply not_elem_of_nil in Hx].
    + intros a Ha. rewrite blocks_DeviceListEntriesDestroy.
      now rewrite decide_True.
Qed.

(** When the enumeration of a backend fails, no listing comes out. *)
Lemma RelaconDeviceListCreate_fails (k : BackendKind) (plat : Platform)
    (m : Memory) :
  let m1 := (malloc (Structure "RelaconDeviceList") m).2 in
  let m2 := (malloc (Structure "BackendDeviceList") m1).2 in
  (DeviceListEntriesCreate k plat m2).1.1 <> RELACON_STATUS_SUCCESS ->
  (RelaconDeviceListCreate k plat m).1 = None.
Proof.
  cbv zeta. intros Hst. unfold RelaconDeviceListCreate.
  destruct (malloc (Structure "RelaconDeviceList") m) as [[a |] m1];
    [| reflexivity].
  cbn [snd] in Hst.
  destruct k; cbn [BackendDeviceListCreate DeviceListEntriesCreate] in *.
  - unfold Hidapi.BackendDeviceListCreate.
    destruct (malloc (Structure "BackendDeviceList") m1) as [[b |] m2];
      [| reflexivity].
    cbn [snd] in Hst. destruct (_ || _); [reflexivity |].
    destruct (Hidapi.DeviceListEntriesCreate plat m2) as [[st l] m3].
    cbn [fst] in Hst. rewrite decide_False by exact Hst. reflexivity.
  - unfold Libusb.BackendDeviceListCreate.
    destruct (malloc (Structure "BackendDeviceList") m1) as [[b |] m2];
      [| reflexivity].
    cbn [snd] in Hst. destruct (enumeration_fails plat); [reflexivity |].
    destruct (Libusb.DeviceListEntriesCreate plat m2) as [[st l] m3].
    cbn [fst] in Hst. rewrite decide_False by exact Hst. reflexivity.
Qed.

(** C4 as the code has it.  With libusb a candidate that cannot be opened
    or whose strings cannot be read is left out and the others are listed
    in order; running out of memory ends the enumeration and leaves the
    heap as it was before it.  With hidapi a candidate that cannot be
    opened is listed all the same, without strings; running out of memory
    for an entry ends the enumeration, frees every entry made so far with
    its strings and leaves the older blocks alone.  In both, a failed
    enumeration makes listing creation return no listing. *)
Theorem listing_creation_failures (plat : Platform) (m : Memory) :
  mem_ok m ->
  (let '(status, entries, m') := Libusb.DeviceListEntriesCreate plat m in
   (budget m = [] -> status = RELACON_STATUS_SUCCESS) /\
   ((status = RELACON_STATUS_SUCCESS /\
     map device entries = List.filter libusb_listable (attached plat) /\
     Forall (entry_live m') entries) \/
    (status = RELACON_STATUS_ERROR_OUT_OF_MEMORY /\
     forall a, blocks m' !! a = blocks m !! a))) /\
  (let '(status, entries, m') := Hidapi.DeviceListEntriesCreate plat m in
   (budget m = [] -> status = RELACON_STATUS_SUCCESS) /\
   ((status = RELACON_STATUS_SUCCESS /\
     map device entries =
       List.filter (hidapi_listable plat) (attached plat) /\
     Forall (entry_live m') entries /\ Forall unopened_bare entries) \/
    (status = RELACON_STATUS_ERROR_OUT_OF_MEMORY /\
     (forall a, a ∈ entries_addrs entries -> blocks m' !! a = None) /\
     (forall a, (a < brk m)%nat -> blocks m' !! a = blocks m !! a)))) /\
  (forall k,
      let m1 := (malloc (Structure "RelaconDeviceList") m).2 in
      let m2 := (malloc (Structure "BackendDeviceList") m1).2 in
      (DeviceListEntriesCreate k plat m2).1.1 <> RELACON_STATUS_SUCCESS ->
      (RelaconDeviceListCreate k plat m).1 = None).
Proof.
  intros Hok. split; [| split].
  - pose proof (libusb_DeviceListEntriesCreate_spec plat m Hok) as H.
    destruct (Libusb.DeviceListEntriesCreate plat m) as [[status l] m'].
    destruct H as [Hbud [(-> & Hg & Hl & Hmap) | (-> & Hg)]].
    + split; [auto |]. left. auto.
    + split; [intros Hb; destruct (Hbud Hb) as [_ Hc]; now contradiction Hc |].
      right. split; [reflexivity |]. intros a. apply Hg, not_elem_of_nil.
  - pose proof (hidapi_DeviceListEntriesCreate_spec plat m Hok) as H.
    destruct (Hidapi.DeviceListEntriesCreate plat m) as [[status l] m'].
    destruct H as [Hbud [(-> & Hk & Hl & Hu & Hmap) | (-> & Hk & Hfree)]].
    + split; [auto |]. left. auto.
    + split; [intros Hb; now destruct (Hbud Hb) |].
      right. split; [reflexivity |]. split; [exact Hfree |]. apply Hk.
  - intros k. apply RelaconDeviceListCreate_fails.
Qed.

Lemma listing_creation_failures_witness :
  map device (Libusb.DeviceListEntriesCreate sample_platform empty_memory).1.2
    = [adu218; adu218_b] /\
  (Libusb.DeviceListEntriesCreate sample_platform tight_memory).1.1 =
    RELACON_STATUS_ERROR_OUT_OF_MEMORY /\
  blocks (Libusb.DeviceListEntriesCreate sample_platform tight_memory).2 = ∅.
Proof.
  split.
  - pose proof (listing_creation_failures sample_platform empty_memory
                  (mem_ok_empty _)) as H.
    apply proj1 in H. revert H.
    generalize (Libusb.DeviceListEntriesCreate sample_platform empty_memory).
    intros [[status l] m'] [Hs [(_ & Hmap & _) | (-> & _)]];
      [| specialize (Hs eq_refl); discriminate].
    cbn [fst snd]. rewrite Hmap. vm_compute. reflexivity.
  - assert ((Libusb.DeviceListEntriesCreate sample_platform tight_memory).1.1
            = RELACON_STATUS_ERROR_OUT_OF_MEMORY) as Hst
      by (vm_compute; reflexivity).
    pose proof (listing_creation_failures sample_platform tight_memory
                  (mem_ok_empty _)) as H.
    apply proj1 in H. revert H Hst.
    generalize (Libusb.DeviceListEntriesCreate sample_platform tight_memory).
    intros [[status l] m'] [_ [(-> & _) | (_ & Hsame)]] Hst;
      [discriminate |].
    split; [exact Hst |]. apply map_eq. intros a. cbn [snd].
    rewrite Hsame. reflexivity.
Defined.

(** C4 as stated fails for the hidapi backend: a supported device that
    cannot be opened to fetch its strings is not skipped, it is listed. *)
Lemma hidapi_lists_unopenable_candidate :
  openable busy_adu208 = false /\
  exists entries m',
    Hidapi.DeviceListEntriesCreate sample_platform empty_memory =
      (RELACON_STATUS_SUCCESS, entries, m') /\
    map device entries = [busy_adu208; adu218; adu218_b].
Proof.
  split; [reflexivity |].
  destruct (Hidapi.DeviceListEntriesCreate sample_platform empty_memory)
    as [[status entries] m'] eqn:E.
  vm_compute in E. injection E as <- <- <-.
  eexists _, _. split; [reflexivity | vm_compute; reflexivity].
Qed.

End ListingCreation.

Section OpeningSessions.

Lemma BackendDeviceListCreate_Some (k : BackendKind) (plat : Platform)
    (m m' : Memory) (status : RelaconStatus) (l : BackendDeviceList) :
  mem_ok m ->
  BackendDeviceListCreate k plat m = (status, Some l, m') ->
  status = RELACON_STATUS_SUCCESS /\ listCurrent l = listStart l /\
  kept_old m m' (list_addr l :: entries_addrs (listStart l)) /\
  Forall (entry_live m') (listStart l) /\
  (budget m = [] -> budget m' = []).
Proof.
  intros Hok. destruct k; cbn [BackendDeviceListCreate].
  - unfold Hidapi.BackendDeviceListCreate.
    destruct (malloc (Structure "BackendDeviceList") m) as [[a |] m1] eqn:Hm;
      [| discriminate].
    destruct (malloc_Some_grew _ _ _ _ Hok Hm) as (-> & Hg & _ & Hb).
    apply only_grew_kept_old in Hg. destruct (_ || _); [discriminate |].
    assert (mem_ok m1) as Hok1 by apply Hg.
    pose proof (hidapi_DeviceListEntriesCreate_spec plat m1 Hok1) as H.
    destruct (Hidapi.DeviceListEntriesCreate plat m1) as [[st es] m2].
    destruct (decide (st = RELACON_STATUS_SUCCESS)) as [-> | Hne];
      [| discriminate].
    intros [= <- <- <-]. cbn [listStart listCurrent list_addr].
    destruct H as [Hbud [(_ & Hk & Hl & _) | (Hc & _)]]; [| discriminate].
    split; [reflexivity |]. split; [reflexivity |]. split; [| split].
    + apply (kept_old_trans m m1 m2 [brk m] _ Hg Hk).
    + exact Hl.
    + intros Hb0. apply Hbud. now rewrite Hb, Hb0.
  - unfold Libusb.BackendDeviceListCreate.
    destruct (malloc (Structure "BackendDeviceList") m) as [[a |] m1] eqn:Hm;
      [| discriminate].
    destruct (malloc_Some_grew _ _ _ _ Hok Hm) as (-> & Hg & _ & Hb).
    apply only_grew_kept_old in Hg.
    destruct (enumeration_fails plat); [discriminate |].
    assert (mem_ok m1) as Hok1 by apply Hg.
    pose proof (libusb_DeviceListEntriesCreate_spec plat m1 Hok1) as H.
    destruct (Libusb.DeviceListEntriesCreate plat m1) as [[st es] m2].
    destruct (decide (st = RELACON_STATUS_SUCCESS)) as [-> | Hne];
      [| discriminate].
    intros [= <- <- <-]. cbn [listStart listCurrent list_addr].
    destruct H as [Hbud [(_ & Hk & Hl & _) | (Hc & _)]]; [| discriminate].
    apply only_grew_kept_old in Hk.
    split; [reflexivity |]. split; [reflexivity |]. split; [| split].
    + apply (kept_old_trans m m1 m2 [brk m] _ Hg Hk).
    + exact Hl.
    + intros Hb0. apply Hbud. now rewrite Hb, Hb0.
Qed.

(** A listing that was created: its cursor is at the first entry, what it
    owns is fresh and live, older blocks are as they were. *)
Lemma RelaconDeviceListCreate_Some (k : BackendKind) (plat : Platform)
    (m m' : Memory) (devList : RelaconDeviceList) :
  mem_ok m ->
  RelaconDeviceListCreate k plat m = (Some devList, m') ->
  let l := backendDeviceList devList in
  listCurrent l = listStart l /\
  kept_old m m'
    (rdl_addr devList :: list_addr l :: entries_addrs (listStart l)) /\
  Forall (entry_live m') (listStart l) /\
  (budget m = [] -> budget m' = []).
Proof.
  intros Hok. unfold RelaconDeviceListCreate.
  destruct (malloc (Structure "RelaconDeviceList") m) as [[a |] m1] eqn:Hm;
    [| discriminate].
  destruct (malloc_Some_grew _ _ _ _ Hok Hm) as (-> & Hg & _ & Hb).
  apply only_grew_kept_old in Hg. assert (mem_ok m1) as Hok1 by apply Hg.
  destruct (BackendDeviceListCreate k plat m1) as [[st [l |]] m2] eqn:Hl;
    [| discriminate].
  destruct (BackendDeviceListCreate_Some k plat m1 m2 st l Hok1 Hl)
    as (-> & Hcur & Hk & Hlive & Hbud).
  rewrite decide_True by reflexivity. intros [= <- <-].
  cbn [backendDeviceList rdl_addr].
  split; [exact Hcur |]. split; [| split; [exact Hlive |]].
  - apply (kept_old_trans m m1 m2 [brk m] _ Hg Hk).
  - intros Hb0. apply Hbud. now rewrite Hb, Hb0.
Qed.

(** The search loop returns the first entry from the cursor on that passes
    the test, and nothing when none does. *)
Lemma find_loop_spec (m : Memory) (vid' pid' : Z)
    (serialNum' : option (list byte)) (fuel : nat) :
  forall devList : BackendDeviceList,
    (length (listCurrent devList) < fuel)%nat ->
    let '(r, devList') :=
      find_loop fuel m devList vid' pid' serialNum' in
    listStart devList' = listStart devList /\
    list_addr devList' = list_addr devList /\
    match r with
    | Some c =>
        exists pre e post,
          listCurrent devList = pre ++ e :: post /\ c = devInfo e /\
          Forall (no_match m vid' pid' serialNum') pre /\
          matches_filter m vid' pid' serialNum' c = true
    | None => Forall (no_match m vid' pid' serialNum') (listCurrent devList)
    end.
Proof.
  induction fuel as [| fuel IH]; intros devList Hlen; [lia |].
  cbn [find_loop]. unfold BackendDeviceListGetNext.
  destruct (listCurrent devList) as [| e next] eqn:Hcur.
  - split; [reflexivity |]. split; [reflexivity | constructor].
  - destruct (matches_filter m vid' pid' serialNum' (devInfo e)) eqn:Hmatch.
    + split; [reflexivity |]. split; [reflexivity |].
      exists [], e, next. split; [reflexivity |]. split; [reflexivity |].
      split; [constructor | exact Hmatch].
    + specialize (IH {| list_addr := list_addr devList;
                        listStart := listStart devList;
                        listCurrent := next |}).
      cbn [listCurrent listStart list_addr] in IH.
      destruct (find_loop fuel m _ vid' pid' serialNum') as [r devList'].
      destruct IH as (Hs & Ha & Hr); [simpl in Hlen; lia |].
      split; [exact Hs |]. split; [exact Ha |].
      destruct r as [c |].
      * destruct Hr as (pre & e' & post & -> & -> & Hpre & Hm).
        exists (e :: pre), e', post. split; [reflexivity |].
        split; [reflexivity |]. split; [| exact Hm].
        constructor; [exact Hmatch | exact Hpre].
      * constructor; [exact Hmatch | exact Hr].
Qed.

Lemma matches_filter_spec (m : Memory) (vid' pid' : Z)
    (serialNum' : option (list byte)) (c : RelaconDeviceInfo) :
  matches_filter m vid' pid' serialNum' c = true <->
  (vid' = 0 \/ vid' = vid c) /\ (pid' = 0 \/ pid' = pid c) /\
  (forall s, serialNum' = Some s ->
             exists a, serialNum c = Some a /\
                       cstr s = cstr (load_chars m a)).
Proof.
  unfold matches_filter, strcmp_eq.
  rewrite !andb_true_iff, !orb_true_iff, !Z.eqb_eq.
  destruct serialNum' as [s |].
  - destruct (serialNum c) as [a |].
    + rewrite bool_decide_eq_true. split.
      * intros [[Hv Hp] Hs]. split; [exact Hv |]. split; [exact Hp |].
        intros s' [= <-]. eauto.
      * intros (Hv & Hp & Hs). split; [split; assumption |].
        destruct (Hs s eq_refl) as (a' & [= <-] & Heq). exact Heq.
    + split; [intros [_ H]; discriminate |].
      intros (_ & _ & Hs). destruct (Hs s eq_refl) as (a' & H & _).
      discriminate.
  - split; [| tauto]. intros [[Hv Hp] _]. split; [exact Hv |].
    split; [exact Hp |]. discriminate.
Qed.

End OpeningSessions.

Section SessionMemory.

Lemma BackendDeviceOpen_spec (k : BackendKind) (h : option addr)
    (m : Memory) :
  mem_ok m ->
  let '(status, r, m') := BackendDeviceOpen k h m in
  kept_old m m' [] /\ (budget m = [] -> budget m' = []) /\
  forall bd, r = Some bd ->
             status = RELACON_STATUS_SUCCESS /\
             (brk m <= bd_addr bd < brk m')%nat /\
             exists a d, h = Some a /\ blocks m !! a = Some (EntryBlock d) /\
                         bd_link bd = firmware d /\ bd_kind bd = k.
Proof.
  intros Hok.
  assert (forall a m1, malloc (Structure "BackendDevice") m = (Some a, m1) ->
                       kept_old m m1 [a] /\
                       (budget m = [] -> budget m1 = []) /\
                       (brk m <= a < brk m1)%nat) as Halloc.
  { intros a m1 Hm.
    destruct (malloc_Some_grew _ _ _ _ Hok Hm) as (-> & Hg & _ & Hb).
    apply only_grew_kept_old in Hg. split; [exact Hg | split].
    - intros Hb0. now rewrite Hb, Hb0.
    - destruct Hg as (_ & _ & Hf & _). now apply Forall_inv in Hf. }
  assert (forall m1, malloc (Structure "BackendDevice") m = (None, m1) ->
                     kept_old m m1 [] /\ (budget m = [] -> budget m1 = []))
    as Hfail.
  { intros m1 Hm. destruct (malloc_None_grew _ _ _ Hok Hm) as [Hg Hb].
    split; [now apply only_grew_kept_old |].
    intros Hb0. rewrite Hb0 in Hb. discriminate. }
  assert (forall (s : list addr) m1, kept_old m m1 s -> kept_old m m1 [])
    as Hweak.
  { intros s m1 Hk. eapply kept_old_weaken; [| exact Hk].
    intros x Hx. now apply not_elem_of_nil in Hx. }
  destruct k; cbn [BackendDeviceOpen];
    [unfold Hidapi.BackendDeviceOpen | unfold Libusb.BackendDeviceOpen].
  - destruct h as [a |]; cbn [mbind option_bind];
      [| split; [now apply kept_old_refl | split; [auto | discriminate]]].
    destruct (blocks m !! a) as [[c | d | t] |] eqn:Hblk;
      try (split; [now apply kept_old_refl | split; [auto | discriminate]]).
    destruct (malloc (Structure "BackendDevice") m) as [[b |] m1] eqn:Hm.
    + destruct (Halloc b m1 eq_refl) as (Hk & Hbud & Hrange).
      destruct (openable d);
        (split; [exact (Hweak _ _ Hk) | split; [exact Hbud |]]);
        [| discriminate].
      intros bd [= <-]. cbn [bd_addr bd_link bd_kind].
      split; [reflexivity |]. split; [exact Hrange |]. eauto 10.
    + destruct (Hfail m1 eq_refl) as [Hk Hbud].
      split; [exact Hk | split; [exact Hbud | discriminate]].
  - destruct h as [a |]; cbn [mbind option_bind];
      [| split; [now apply kept_old_refl | split; [auto | discriminate]]].
    destruct (blocks m !! a) as [[c | d | t] |] eqn:Hblk;
      try (split; [now apply kept_old_refl | split; [auto | discriminate]]).
    destruct (malloc (Structure "BackendDevice") m) as [[b |] m1] eqn:Hm.
    + destruct (Halloc b m1 eq_refl) as (Hk & Hbud & Hrange).
      destruct (openable d); cbn [negb].
      2: { split; [| split; [| discriminate]].
           - apply (frees_kept m m1 _ [b] [] [b] Hk);
               [apply brk_free | intros x; apply blocks_free | auto
               | intros x Hx; now apply not_elem_of_nil in Hx].
           - intros Hb0. rewrite budget_free. auto. }
      destruct (claimable d); cbn [negb];
        (split; [exact (Hweak _ _ Hk) | split; [exact Hbud |]]);
        [| discriminate].
      intros bd [= <-]. cbn [bd_addr bd_link bd_kind].
      split; [reflexivity |]. split; [exact Hrange |]. eauto 10.
    + destruct (Hfail m1 eq_refl) as [Hk Hbud].
      split; [exact Hk | split; [exact Hbud | discriminate]].
Qed.

Lemma copy_string_spec (p : option addr) (m : Memory) :
  mem_ok m ->
  let '(q, m') := copy_string p m in
  kept_old m m' (option_list q) /\
  (budget m = [] -> budget m' = [] /\ (is_Some p -> is_Some q)) /\
  (p = None -> q = None) /\
  forall a, q = Some a ->
            exists p0, p = Some p0 /\
                       blocks m' !! a =
                         Some (Chars (cstr (load_chars m p0) ++ [0])).
Proof.
  intros Hok. unfold copy_string, strdup. destruct p as [p0 |].
  2: { split; [now apply kept_old_refl |]. split; [| split; [auto |]].
       - intros Hb. split; [exact Hb |]. intros [? ?]. discriminate.
       - discriminate. }
  destruct (malloc _ m) as [[a |] m1] eqn:Hm.
  - destruct (malloc_Some_grew _ _ _ _ Hok Hm) as (-> & Hg & Hl & Hb).
    split; [now apply only_grew_kept_old |]. split; [| split].
    + intros Hb0. split; [now rewrite Hb, Hb0 | eauto].
    + discriminate.
    + intros a [= <-]. eauto.
  - destruct (malloc_None_grew _ _ _ Hok Hm) as [Hg Hb].
    split; [now apply only_grew_kept_old |]. split; [| split].
    + intros Hb0. rewrite Hb0 in Hb. discriminate.
    + discriminate.
    + discriminate.
Qed.

Lemma blocks_RelaconDeviceListDestroy (k : BackendKind)
    (devList : RelaconDeviceList) (m : Memory) (a : addr) :
  blocks (RelaconDeviceListDestroy k devList m).2 !! a =
    if decide (a ∈ rdl_addr devList :: list_addr (backendDeviceList devList)
                 :: entries_addrs (listStart (backendDeviceList devList)))
    then None else blocks m !! a.
Proof.
  unfold RelaconDeviceListDestroy.
  assert (BackendDeviceListDestroy k (backendDeviceList devList) m =
          Hidapi.BackendDeviceListDestroy (backendDeviceList devList) m)
    as -> by (destruct k; reflexivity).
  unfold Hidapi.BackendDeviceListDestroy. cbn [snd].
  rewrite !blocks_free, blocks_DeviceListEntriesDestroy.
  cbn [option_list].
  repeat case_decide; try reflexivity; exfalso;
    unfold option_list, option_rect in *;
    repeat match goal with
           | H : context [_ ∈ _ :: _] |- _ => rewrite elem_of_cons in H
           | H : context [_ ∈ []] |- _ => rewrite elem_of_nil in H
           end; tauto.
Qed.

Lemma load_chars_kept (m m' : Memory) (s : list addr) (p : addr) :
  kept_old m m' s -> (p < brk m)%nat -> load_chars m' p = load_chars m p.
Proof.
  intros (_ & _ & _ & Hs) Hp. unfold load_chars. now rewrite Hs.
Qed.

End SessionMemory.

Section OpenFirstMatch.

Variable fresh_reportBuf : list byte.
Variable layout : RelaconDeviceInfo -> list byte.

(** The steps a successful [RelaconDeviceOpen] went through. *)
Lemma RelaconDeviceOpen_Some (k : BackendKind) (plat : Platform)
    (vid' pid' : Z) (serialNum' : option (list byte)) (m m' : Memory)
    (dev : RelaconDevice) :
  RelaconDeviceOpen fresh_reportBuf layout k plat vid' pid' serialNum' m =
    (Some dev, m') ->
  exists devList m1 c l bd m2 a m3 p1 m4 p2 m5 p3 m6,
    RelaconDeviceListCreate k plat m = (Some devList, m1) /\
    FindFirstMatchingDevice m1 (backendDeviceList devList)
      vid' pid' serialNum' = (Some c, l) /\
    BackendDeviceOpen k (handle c) m1 =
      (RELACON_STATUS_SUCCESS, Some bd, m2) /\
    malloc (Structure "RelaconDevice") m2 = (Some a, m3) /\
    copy_string (product c) m3 = (p1, m4) /\
    copy_string (manufacturer c) m4 = (p2, m5) /\
    copy_string (serialNum c) m5 = (p3, m6) /\
    dev = (let i := set_serialNum
                      (set_manufacturer (set_product c p1) p2) p3 in
           {| dev_addr := a; backendDevice := bd;
              reportBuf := fresh_reportBuf; trailing := layout i;
              info := i |}) /\
    m' = (RelaconDeviceListDestroy k
            {| rdl_addr := rdl_addr devList; backendDeviceList := l |}
            m6).2.
Proof.
  unfold RelaconDeviceOpen.
  destruct (RelaconDeviceListCreate k plat m) as [[devList |] m1] eqn:E1;
    [| discriminate].
  destruct (FindFirstMatchingDevice m1 _ vid' pid' serialNum')
    as [[c |] l] eqn:E2; [| discriminate].
  destruct (BackendDeviceOpen k (handle c) m1) as [[st [bd |]] m2] eqn:E3;
    [| discriminate].
  destruct (decide (st = RELACON_STATUS_SUCCESS)) as [-> | _];
    [| discriminate].
  destruct (malloc (Structure "RelaconDevice") m2) as [[a |] m3] eqn:E4;
    [| discriminate].
  destruct (copy_string (product c) m3) as [p1 m4] eqn:E5.
  destruct (copy_string (manufacturer c) m4) as [p2 m5] eqn:E6.
  destruct (copy_string (serialNum c) m5) as [p3 m6] eqn:E7.
  intros [= <- <-].
  exists devList, m1, c, l, bd, m2, a, m3, p1, m4, p2, m5, p3, m6.
  repeat split; assumption.
Qed.

(** Opening with filters.  An entry passes exactly when every filter that
    was given agrees with it (a serial-number filter needs the entry to
    have a serial string with the same characters); when no entry of the
    listing passes, no session is returned; a session that is returned is
    on the first entry of the listing that passes. *)
Lemma RelaconDeviceOpen_filter_facts (k : BackendKind) (plat : Platform)
    (vid' pid' : Z) (serialNum' : option (list byte)) (m m1 : Memory)
    (devList : RelaconDeviceList) :
  mem_ok m ->
  RelaconDeviceListCreate k plat m = (Some devList, m1) ->
  let entries := listStart (backendDeviceList devList) in
  let passes e := matches_filter m1 vid' pid' serialNum' (devInfo e) in
  let open :=
    RelaconDeviceOpen fresh_reportBuf layout k plat vid' pid' serialNum' m in
  (forall e,
      passes e = true <->
      (vid' = 0 \/ vid' = vid (devInfo e)) /\
      (pid' = 0 \/ pid' = pid (devInfo e)) /\
      (forall s, serialNum' = Some s ->
                 exists a, serialNum (devInfo e) = Some a /\
                           cstr s = cstr (load_chars m1 a))) /\
  (Forall (fun e => passes e = false) entries -> open.1 = None) /\
  (forall dev,
      open.1 = Some dev ->
      exists pre e post,
        entries = pre ++ e :: post /\
        Forall (fun x => passes x = false) pre /\ passes e = true /\
        vid (info dev) = vid (devInfo e) /\
        pid (info dev) = pid (devInfo e) /\
        numRelays (info dev) = numRelays (devInfo e) /\
        numInputs (info dev) = numInputs (devInfo e) /\
        handle (info dev) = Some (entry_addr e) /\
        bd_link (backendDevice dev) = firmware (device e)).
Proof.
  intros Hok Hcreate entries passes open.
  destruct (RelaconDeviceListCreate_Some k plat m m1 devList Hok Hcreate)
    as (Hcur & Hk & Hlive & _).
  pose proof (find_loop_spec m1 vid' pid' serialNum'
                (S (length (listCurrent (backendDeviceList devList))))
                (backendDeviceList devList) (Nat.lt_succ_diag_r _)) as Hfind.
  fold (FindFirstMatchingDevice m1 (backendDeviceList devList)
          vid' pid' serialNum') in Hfind.
  rewrite Hcur in Hfind. fold entries in Hfind.
  split; [intros e; apply matches_filter_spec |]. split.
  - intros Hnone. subst open. unfold RelaconDeviceOpen. rewrite Hcreate.
    destruct (FindFirstMatchingDevice m1 _ vid' pid' serialNum')
      as [[c |] l]; [| reflexivity].
    exfalso. destruct Hfind as (_ & _ & pre & e & post & He & -> & _ & Hm).
    rewrite Forall_forall in Hnone.
    assert (passes e = false) as Hf
      by (apply Hnone; rewrite He, elem_of_app; right; apply list_elem_of_here).
    unfold passes in Hf. congruence.
  - intros dev Hdev. subst open.
    destruct (RelaconDeviceOpen _ _ k plat vid' pid' serialNum' m)
      as [r m'] eqn:Hopen.
    cbn [fst] in Hdev. subst r.
    destruct (RelaconDeviceOpen_Some _ _ _ _ _ _ _ _ Hopen)
      as (devList' & m1' & c & l & bd & m2 & a & m3 & p1 & m4 & p2 & m5 &
          p3 & m6 & Hc' & Hf & Hbo & _ & _ & _ & _ & -> & _).
    rewrite Hcreate in Hc'. injection Hc' as <- <-.
    rewrite Hf in Hfind.
    destruct Hfind as (_ & _ & pre & e & post & He & -> & Hpre & Hm).
    exists pre, e, post. split; [exact He |]. split; [exact Hpre |].
    split; [exact Hm |]. cbn [info backendDevice].
    repeat (split; [reflexivity |]).
    assert (entry_live m1 e) as (_ & Hblk & Hh).
    { rewrite Forall_forall in Hlive. apply Hlive. fold entries.
      rewrite He, elem_of_app. right. apply list_elem_of_here. }
    split; [exact Hh |].
    assert (mem_ok m1) as Hok1 by apply Hk.
    pose proof (BackendDeviceOpen_spec k (handle (devInfo e)) m1 Hok1) as Hs.
    rewrite Hbo in Hs. destruct Hs as (_ & _ & Hs).
    destruct (Hs bd eq_refl) as (_ & _ & x & d & Hx & Hd & Hlink & _).
    rewrite Hh in Hx. injection Hx as <-. rewrite Hblk in Hd.
    injection Hd as <-. exact Hlink.
Qed.

End OpenFirstMatch.

Section SessionStrings.

Variable fresh_reportBuf : list byte.
Variable layout : RelaconDeviceInfo -> list byte.

(** One of the three copies made by [RelaconDeviceOpen]: [ma] and [mb] are
    the memory before and after it, [m6] the memory when the listing is
    destroyed, [gone] the addresses that destruction frees. *)
Lemma session_copy_step (m0 m1 ma mb m6 m' : Memory)
    (sa sb listing gone : list addr) (src q : option addr) :
  kept_old m1 ma sa -> copy_string src ma = (q, mb) -> kept_old mb m6 sb ->
  (forall x, x ∈ gone -> (x < brk m1)%nat) ->
  (forall x, x ∈ listing -> x ∈ gone) ->
  (forall a, blocks m' !! a =
             if decide (a ∈ gone) then None else blocks m6 !! a) ->
  (forall p, src = Some p ->
             p ∈ listing /\ exists s, blocks m1 !! p = Some (Chars s)) ->
  (budget m0 = [] -> budget ma = []) ->
  session_copy m0 m1 m' listing src q /\
  (forall a, q = Some a -> (brk ma <= a < brk mb)%nat) /\
  (budget m0 = [] -> budget mb = []).
Proof.
  intros Ha Hcopy Hb Hgone Hsub Hfinal Hsrc Hbud.
  assert (mem_ok ma) as Hok by apply Ha.
  pose proof (copy_string_spec src ma Hok) as Hspec. rewrite Hcopy in Hspec.
  destruct Hspec as (Hk & Hbud' & Hnone & Hsome).
  assert (forall a, q = Some a -> (brk ma <= a < brk mb)%nat) as Hrange.
  { intros a ->. destruct Hk as (_ & _ & Hf & _). now apply Forall_inv in Hf. }
  split; [| split; [exact Hrange |]].
  2: { intros Hb0. now apply Hbud', Hbud. }
  unfold session_copy. destruct src as [p |]; [| now apply Hnone].
  destruct (Hsrc p eq_refl) as [Hin Hlive].
  split; [exact Hin |]. split; [exact Hlive |]. split.
  { intros Hb0. destruct (Hbud' (Hbud Hb0)) as [_ Hq]. apply Hq. eauto. }
  intros a Hq. specialize (Hrange a Hq).
  assert (a ∉ gone) as Hout.
  { intros Hx. apply Hgone in Hx. destruct Ha as (_ & Hle & _). lia. }
  split; [intros Hx; apply Hout, Hsub, Hx |].
  rewrite Hfinal, decide_False by exact Hout.
  destruct Hb as (_ & _ & _ & Hs). rewrite Hs by lia.
  destruct (Hsome a Hq) as (p0 & [= <-] & Hblk).
  rewrite <- (load_chars_kept m1 ma sa p Ha); [exact Hblk |].
  apply Hgone, Hsub, Hin.
Qed.

(** C8: a session that [RelaconDeviceOpen] returns was opened from an
    entry of the listing it made; that listing is gone when it returns;
    each string of the entry was copied once into a buffer of the session's
    own, outside the listing and live after the listing's destruction with
    the same characters; the three buffers are distinct, and
    [RelaconDeviceClose] frees them. *)
Theorem RelaconDeviceOpen_owns_strings (k : BackendKind) (plat : Platform)
    (vid' pid' : Z) (serialNum' : option (list byte)) (m m' : Memory)
    (dev : RelaconDevice) :
  mem_ok m ->
  RelaconDeviceOpen fresh_reportBuf layout k plat vid' pid' serialNum' m =
    (Some dev, m') ->
  exists devList m1 e,
    RelaconDeviceListCreate k plat m = (Some devList, m1) /\
    e ∈ listStart (backendDeviceList devList) /\
    (FindFirstMatchingDevice m1 (backendDeviceList devList)
       vid' pid' serialNum').1 = Some (devInfo e) /\
    let listing := entries_addrs (listStart (backendDeviceList devList)) in
    (forall a, a ∈ listing -> blocks m' !! a = None) /\
    session_copy m m1 m' listing
      (manufacturer (devInfo e)) (manufacturer (info dev)) /\
    session_copy m m1 m' listing
      (product (devInfo e)) (product (info dev)) /\
    session_copy m m1 m' listing
      (serialNum (devInfo e)) (serialNum (info dev)) /\
    NoDup (info_strings (info dev)) /\
    (forall a, a ∈ info_strings (info dev) ->
               blocks (RelaconDeviceClose dev m').2 !! a = None).
Proof.
  intros Hok Hopen.
  destruct (RelaconDeviceOpen_Some _ _ _ _ _ _ _ _ _ _ Hopen)
    as (devList & m1 & c & l & bd & m2 & a & m3 & p1 & m4 & p2 & m5 &
        p3 & m6 & Hcreate & Hf & Hbo & Hmal & Hc1 & Hc2 & Hc3 & -> & ->).
  destruct (RelaconDeviceListCreate_Some k plat m m1 devList Hok Hcreate)
    as (Hcur & Hk & Hlive & Hbud1).
  pose proof (find_loop_spec m1 vid' pid' serialNum'
                (S (length (listCurrent (backendDeviceList devList))))
                (backendDeviceList devList) (Nat.lt_succ_diag_r _)) as Hfind.
  fold (FindFirstMatchingDevice m1 (backendDeviceList devList)
          vid' pid' serialNum') in Hfind.
  rewrite Hf, Hcur in Hfind.
  destruct Hfind as (Hls & Hla & pre & e & post & He & -> & _ & _).
  assert (e ∈ listStart (backendDeviceList devList)) as Hin
    by (rewrite He, elem_of_app; right; apply list_elem_of_here).
  exists devList, m1, e. split; [exact Hcreate |]. split; [exact Hin |].
  split; [now rewrite Hf |]. cbv zeta.
  set (listing := entries_addrs (listStart (backendDeviceList devList))).
  set (gone := rdl_addr devList :: list_addr (backendDeviceList devList)
               :: listing).
  set (m' := (RelaconDeviceListDestroy k
                {| rdl_addr := rdl_addr devList; backendDeviceList := l |}
                m6).2).
  assert (forall x, blocks m' !! x =
                    if decide (x ∈ gone) then None else blocks m6 !! x)
    as Hfinal.
  { intros x. subst m' gone listing.
    rewrite blocks_RelaconDeviceListDestroy.
    cbn [rdl_addr backendDeviceList]. now rewrite Hls, Hla. }
  assert (forall x, x ∈ gone -> (x < brk m1)%nat) as Hgone.
  { intros x Hx. destruct Hk as (_ & _ & Hfr & _).
    rewrite Forall_forall in Hfr. apply Hfr in Hx. lia. }
  assert (forall x, x ∈ listing -> x ∈ gone) as Hsub
    by (intros x Hx; subst gone; rewrite !elem_of_cons; auto).
  assert (forall get : RelaconDeviceInfo -> option addr,
             (forall i, get i ∈ [manufacturer i; product i; serialNum i]) ->
             forall p, get (devInfo e) = Some p ->
                       p ∈ listing /\
                       exists s, blocks m1 !! p = Some (Chars s)) as Howned.
  { intros get Hget p Hp.
    assert (p ∈ info_strings (devInfo e)) as Hpi.
    { unfold info_strings. specialize (Hget (devInfo e)). rewrite Hp in Hget.
      rewrite !elem_of_cons in Hget. rewrite !elem_of_app.
      destruct Hget as [<- | [<- | [<- | Hn]]];
        [| | | now apply not_elem_of_nil in Hn]; simpl;
        rewrite list_elem_of_singleton; auto. }
    split.
    - subst listing. unfold entries_addrs.
      apply list_elem_of_In, in_concat. exists (entry_addrs e).
      split; [apply in_map, list_elem_of_In, Hin |].
      apply list_elem_of_In. unfold entry_addrs. rewrite elem_of_app. auto.
    - rewrite Forall_forall in Hlive. destruct (Hlive e Hin) as [Hsl _].
      now apply Hsl. }
  assert (mem_ok m1) as Hok1 by apply Hk.
  pose proof (BackendDeviceOpen_spec k (handle (devInfo e)) m1 Hok1) as Hbs.
  rewrite Hbo in Hbs. destruct Hbs as (Hk2 & Hbud2 & _).
  assert (mem_ok m2) as Hok2 by apply Hk2.
  destruct (malloc_Some_grew _ _ _ _ Hok2 Hmal) as (-> & Hg3 & _ & Hb3).
  apply only_grew_kept_old in Hg3.
  pose proof (kept_old_trans _ _ _ _ _ Hk2 Hg3) as Hk3.
  assert (mem_ok m3) as Hok3 by apply Hg3.
  pose proof (copy_string_spec (product (devInfo e)) m3 Hok3) as Hs1.
  rewrite Hc1 in Hs1. destruct Hs1 as (Hk34 & _).
  assert (mem_ok m4) as Hok4 by apply Hk34.
  pose proof (copy_string_spec (manufacturer (devInfo e)) m4 Hok4) as Hs2.
  rewrite Hc2 in Hs2. destruct Hs2 as (Hk45 & _).
  assert (mem_ok m5) as Hok5 by apply Hk45.
  pose proof (copy_string_spec (serialNum (devInfo e)) m5 Hok5) as Hs3.
  rewrite Hc3 in Hs3. destruct Hs3 as (Hk56 & _).
  assert (mem_ok m6) as Hok6 by apply Hk56.
  pose proof (kept_old_trans _ _ _ _ _ Hk3 Hk34) as Hk4.
  pose proof (kept_old_trans _ _ _ _ _ Hk4 Hk45) as Hk5.
  pose proof (kept_old_trans _ _ _ _ _ Hk45 Hk56) as Hk46.
  assert (budget m = [] -> budget m3 = []) as Hbud3.
  { intros Hb0. rewrite Hb3, (Hbud2 (Hbud1 Hb0)). reflexivity. }
  destruct (session_copy_step m m1 m3 m4 m6 m' _ _ listing gone
              (product (devInfo e)) p1 Hk3 Hc1 Hk46 Hgone Hsub Hfinal)
    as (Hcp1 & Hr1 & Hbud4).
  { apply (Howned product). intros i. rewrite !elem_of_cons. auto. }
  { exact Hbud3. }
  destruct (session_copy_step m m1 m4 m5 m6 m' _ _ listing gone
              (manufacturer (devInfo e)) p2 Hk4 Hc2 Hk56 Hgone Hsub Hfinal)
    as (Hcp2 & Hr2 & Hbud5).
  { apply (Howned manufacturer). intros i. rewrite !elem_of_cons. auto. }
  { exact Hbud4. }
  destruct (session_copy_step m m1 m5 m6 m6 m' _ [] listing gone
              (serialNum (devInfo e)) p3 Hk5 Hc3 (kept_old_refl m6 Hok6)
              Hgone Hsub Hfinal) as (Hcp3 & Hr3 & _).
  { apply (Howned serialNum). intros i. rewrite !elem_of_cons. auto. }
  { exact Hbud5. }
  cbn [info manufacturer product serialNum set_serialNum set_manufacturer
       set_product].
  split.
  { intros x Hx. rewrite Hfinal. rewrite decide_True by auto. reflexivity. }
  split; [exact Hcp2 |]. split; [exact Hcp1 |]. split; [exact Hcp3 |].
  split.
  - unfold info_strings.
    cbn [manufacturer product serialNum].
    destruct Hk34 as (_ & Hle34 & _). destruct Hk45 as (_ & Hle45 & _).
    destruct p1 as [q1 |], p2 as [q2 |], p3 as [q3 |]; simpl;
      repeat constructor;
      rewrite ?elem_of_cons, ?elem_of_nil;
      try (pose proof (Hr1 _ eq_refl)); try (pose proof (Hr2 _ eq_refl));
      try (pose proof (Hr3 _ eq_refl)); lia.
  - intros x Hx. unfold RelaconDeviceClose, BackendDeviceClose.
    cbn [snd info dev_addr backendDevice manufacturer product serialNum].
    rewrite !blocks_free.
    unfold info_strings in Hx. cbn [manufacturer product serialNum] in Hx.
    rewrite !elem_of_app in Hx.
    repeat case_decide; try reflexivity. tauto.
Qed.

End SessionStrings.

Lemma RelaconDeviceOpen_owns_strings_witness :
  exists dev m',
    RelaconDeviceOpen (replicate 8 0) (fun _ => []) LIBUSB sample_platform
      0 0 (Some (bytes_of_string "B07777")) empty_memory = (Some dev, m') /\
    NoDup (info_strings (info dev)) /\
    (forall a, a ∈ info_strings (info dev) ->
               blocks (RelaconDeviceClose dev m').2 !! a = None).
Proof.
  destruct (RelaconDeviceOpen (replicate 8 0) (fun _ => []) LIBUSB
              sample_platform 0 0 (Some (bytes_of_string "B07777"))
              empty_memory) as [[dev |] m'] eqn:E;
    [| vm_compute in E; discriminate].
  exists dev, m'. split; [reflexivity |].
  destruct (RelaconDeviceOpen_owns_strings _ _ _ _ _ _ _ _ _ _
              (mem_ok_empty _) E)
    as (devList & m1 & e & _ & _ & _ & _ & _ & _ & _ & Hnd & Hclose).
  split; assumption.
Defined.

Section Examples.

(** Opening by serial number on the sample platform: the session is on the
    second ADU218, the entry at address 7 of the listing, and its strings
    are copies at addresses of their own. *)
Example open_by_serial :
  let r := RelaconDeviceOpen (replicate 8 0) (fun _ => []) LIBUSB
             sample_platform 0 0 (Some (bytes_of_string "B07777"))
             empty_memory in
  (info <$> r.1) =
    Some {| vid := 0x0a07; pid := 218; serialNum := Some 15%nat;
            manufacturer := Some 14%nat; product := Some 13%nat;
            handle := Some 7%nat; numRelays := 8; numInputs := 8 |} /\
  load_chars r.2 15%nat = bytes_of_string "B07777" ++ [0] /\
  blocks r.2 !! 7%nat = None.
Proof. vm_compute. repeat split. Qed.

(** With hidapi an allocation failure while a string is fetched is not
    looked at: the entry is listed without that string. *)
Example hidapi_string_allocation_failure :
  let m := {| blocks := ∅; brk := O; budget := [true; false] |} in
  let plat := {| attached := [adu218]; enumeration_fails := false;
                 filter_hid_collection_usage := true |} in
  let r := Hidapi.DeviceListEntriesCreate plat m in
  r.1.1 = RELACON_STATUS_SUCCESS /\
  map (fun e => manufacturer (devInfo e)) r.1.2 = [None] /\
  map (fun e => product (devInfo e)) r.1.2 = [Some 1%nat].
Proof. vm_compute. repeat split. Qed.

End Examples.

(** * Further properties *)

Section CommandLayer.

Lemma WriteFormattedCmd_status (dev : RelaconDevice) (text : list byte) :
  report_buffer_ok dev -> (length text <= 6)%nat ->
  exists dev',
    WriteFormattedCmd dev text =
      (if accepts_write dev then RELACON_STATUS_SUCCESS
       else RELACON_STATUS_ERROR_DEVICE_IO, dev') /\
    sent dev' = sent dev ++ [report_of text] /\
    report_buffer_ok dev' /\ info dev' = info dev /\
    trailing dev' = trailing dev /\
    rx_queue (bd_link (backendDevice dev')) =
      rx_queue (bd_link (backendDevice dev)) /\
    tx_results (bd_link (backendDevice dev')) =
      tail (tx_results (bd_link (backendDevice dev))) /\
    bd_kind (backendDevice dev') = bd_kind (backendDevice dev).
Proof.
  intros Hbuf Hlen. unfold WriteFormattedCmd, vsnprintf, REPORT_DATA_LEN.
  rewrite take_ge by lia.
  destruct (Z.ltb_spec (Z.of_nat (length text)) 0) as [H | _]; [lia |].
  destruct (Z.gtb_spec (Z.of_nat (length text)) (Z.of_nat 7)) as [H | _];
    [lia |].
  rewrite Nat2Z.id.
  unfold WriteReport, BackendDeviceWriteReport, accepts_write. simpl.
  eexists. split; [reflexivity |]. unfold sent. simpl.
  rewrite command_image by assumption.
  split; [reflexivity |]. split.
  { unfold report_buffer_ok. simpl. unfold memset.
    now rewrite length_write_at, length_insert, length_write_at. }
  repeat split.
Qed.

End CommandLayer.

Section CommandBounds.

Lemma WriteFormattedCmd_seven (dev : RelaconDevice) (text : list byte) :
  report_buffer_ok dev -> length text = 7%nat ->
  exists dev',
    WriteFormattedCmd dev text =
      (if accepts_write dev then RELACON_STATUS_SUCCESS
       else RELACON_STATUS_ERROR_DEVICE_IO, dev') /\
    sent dev' = sent dev ++ [REPORT_ID_CMD :: take 6 text ++ [0]].
Proof.
  intros Hbuf Hlen. unfold WriteFormattedCmd, vsnprintf, REPORT_DATA_LEN.
  rewrite Hlen.
  change (Z.of_nat 7 <? 0) with false. change (Z.of_nat 7 >? Z.of_nat 7) with false.
  cbv beta iota.
  unfold WriteReport, BackendDeviceWriteReport, accepts_write. simpl.
  eexists. split; [reflexivity |]. unfold sent. simpl. f_equal. f_equal.
  unfold report_buffer_ok, REPORT_BUF_LEN, REPORT_DATA_LEN in Hbuf.
  destruct (reportBuf dev) as [| b0 buf]; [discriminate |]. simpl in Hbuf.
  assert (length (take 6 text ++ [0]) = 7%nat) as H7
    by (rewrite length_app, length_take, Hlen; reflexivity).
  unfold memset. rewrite (write_at_fits 1) by (simpl; lia).
  simpl. rewrite H7. rewrite (drop_ge buf) by lia. rewrite app_nil_r.
  unfold write_at. simpl. f_equal.
  rewrite H7.
  change (Z.to_nat (Z.of_nat 7)) with 7%nat.
  rewrite (take_ge (take 6 text ++ [0]) 7) by (rewrite H7; reflexivity).
  rewrite (drop_ge (take 6 text ++ [0])) by (rewrite H7; reflexivity).
  rewrite app_nil_r.
  do 2 (rewrite (take_ge (take 6 text ++ [0]) 7)
          by (rewrite H7; reflexivity)).
  reflexivity.
Qed.

Lemma WriteFormattedCmd_long (dev : RelaconDevice) (text : list byte) :
  (7 < length text)%nat ->
  exists dev',
    WriteFormattedCmd dev text = (RELACON_STATUS_ERROR_INTERNAL, dev') /\
    backendDevice dev' = backendDevice dev.
Proof.
  intros Hlen. unfold WriteFormattedCmd, vsnprintf, REPORT_DATA_LEN.
  destruct (Z.ltb_spec (Z.of_nat (length text)) 0) as [H | _]; [lia |].
  destruct (Z.gtb_spec (Z.of_nat (length text)) (Z.of_nat 7)) as [_ | H];
    [| lia].
  eexists. split; reflexivity.
Qed.

End CommandBounds.

Section Formatting.

Lemma fmt_03u_uint8 (n : Z) :
  0 <= n <= 255 ->
  fmt_03u n = [48 + n / 100; 48 + (n / 10) mod 10; 48 + n mod 10].
Proof.
  apply (uint8_cases
           (fun n => fmt_03u n =
                     [48 + n / 100; 48 + (n / 10) mod 10; 48 + n mod 10])).
  intros k Hk.
  assert (forallb
            (fun k => let n := Z.of_nat k in
               bool_decide
                 (fmt_03u n =
                  [48 + n / 100; 48 + (n / 10) mod 10; 48 + n mod 10]))
            (seq 0 256) = true) as Hall by (vm_compute; reflexivity).
  rewrite forallb_forall in Hall.
  specialize (Hall k). cbv beta zeta in Hall.
  apply bool_decide_eq_true in Hall; [exact Hall |]. apply in_seq. lia.
Qed.

(** [%d] of a number below 256: its decimal digits, at most three, none of
    them a spare leading zero. *)
Lemma fmt_d_uint8 (n : Z) :
  0 <= n <= 255 ->
  Forall (fun c => isdigit c = true) (fmt_d n) /\
  decimal_value (fmt_d n) = n /\
  (1 <= length (fmt_d n) <= 3)%nat /\
  (n < 10 -> fmt_d n = [48 + n]).
Proof.
  apply (uint8_cases
           (fun n => Forall (fun c => isdigit c = true) (fmt_d n) /\
                     decimal_value (fmt_d n) = n /\
                     (1 <= length (fmt_d n) <= 3)%nat /\
                     (n < 10 -> fmt_d n = [48 + n]))).
  intros k Hk.
  assert (forallb
            (fun k => let n := Z.of_nat k in
               forallb isdigit (fmt_d n) &&
               (decimal_value (fmt_d n) =? n) &&
               (1 <=? length (fmt_d n))%nat && (length (fmt_d n) <=? 3)%nat &&
               ((10 <=? n) || bool_decide (fmt_d n = [48 + n])))
            (seq 0 256) = true) as Hall by (vm_compute; reflexivity).
  rewrite forallb_forall in Hall.
  specialize (Hall k). cbv beta zeta in Hall.
  rewrite !andb_true_iff in Hall.
  destruct Hall as [[[[H1 H2] H3] H4] H5]; [apply in_seq; lia |].
  split; [| split; [| split]].
  - apply Forall_forall. intros c Hc.
    rewrite forallb_forall in H1. apply H1.
    apply list_elem_of_In. exact Hc.
  - apply Z.eqb_eq. exact H2.
  - apply Nat.leb_le in H3, H4. lia.
  - intros Hlt. apply orb_true_iff in H5. destruct H5 as [H5 | H5].
    + apply Z.leb_le in H5. lia.
    + apply bool_decide_eq_true in H5. exact H5.
Qed.

End Formatting.

Section NumericAnswers.

Lemma decimal_value_snoc (ds : list byte) (c : byte) :
  decimal_value (ds ++ [c]) = 10 * decimal_value ds + (c - 48).
Proof. unfold decimal_value. now rewrite fold_left_app. Qed.

Lemma decimal_value_bound (ds : list byte) :
  Forall (fun c => isdigit c = true) ds ->
  0 <= decimal_value ds < 10 ^ Z.of_nat (length ds).
Proof.
  induction ds as [| c ds IH] using rev_ind; intros Hd.
  - unfold decimal_value. simpl. lia.
  - apply Forall_app in Hd. destruct Hd as [Hds Hc].
    apply Forall_inv in Hc. specialize (IH Hds).
    rewrite decimal_value_snoc, length_app. simpl length.
    rewrite Nat2Z.inj_add, Z.pow_add_r by lia.
    change (10 ^ Z.of_nat 1) with 10.
    unfold isdigit in Hc. apply andb_true_iff in Hc.
    destruct Hc as [H1 H2]. apply Z.leb_le in H1, H2. nia.
Qed.

(** The shared decoder on an answer that carries the digits [ds]: their
    value is checked against the range and returned; one read event is
    used up and nothing is written. *)
Lemma ReadNumericResponse_number (dev : RelaconDevice) (ds : list byte)
    (q : list RxEvent) (min max value : Z) :
  report_buffer_ok dev ->
  rx_queue (bd_link (backendDevice dev)) = RxReport (report_of ds) :: q ->
  ds <> [] -> (length ds <= 6)%nat ->
  Forall (fun c => isdigit c = true) ds ->
  let n := decimal_value ds in
  let ok := (min <=? n) && (n <=? max) in
  exists dev',
    ReadNumericResponse dev min max value =
      (if ok then RELACON_STATUS_SUCCESS
       else RELACON_STATUS_ERROR_BAD_RESPONSE,
       if ok then n else value, dev') /\
    sent dev' = sent dev /\
    rx_queue (bd_link (backendDevice dev')) = q /\
    info dev' = info dev /\ report_buffer_ok dev'.
Proof.
  intros Hbuf Hq Hne Hlen Hd n ok.
  assert (length (report_of ds) = REPORT_BUF_LEN) as Hr.
  { unfold report_of. simpl. rewrite length_app, length_replicate.
    unfold REPORT_BUF_LEN, REPORT_DATA_LEN. lia. }
  destruct (ReadReport_report dev (report_of ds) q DEFAULT_TIMEOUT_MS
              Hbuf Hq Hr) as (dev' & Hread & Hrb & Htr & Hinfo & Hsent & Hrx).
  exists dev'.
  assert (report_buffer_ok dev') as Hok'
    by (unfold report_buffer_ok; now rewrite Hrb).
  split; [| auto].
  unfold ReadNumericResponse. rewrite Hread.
  destruct (decide _) as [_ | Hx]; [| congruence].
  rewrite Hrb.
  change (nth 0 (report_of ds) 0 =? REPORT_ID_CMD) with true.
  cbv beta iota. unfold negb at 1. cbv iota.
  destruct ds as [| d ds]; [congruence |].
  assert (drop 1 (report_of (d :: ds)) ++ trailing dev' =
          (d :: ds) ++ 0 :: (replicate (6 - length (d :: ds)) 0 ++
                             trailing dev')) as Hs.
  { unfold report_of. cbn [drop].
    replace (7 - length (d :: ds))%nat
      with (S (6 - length (d :: ds))) by lia.
    cbn [replicate]. rewrite drop_0, <- app_assoc. reflexivity. }
  rewrite Hs.
  rewrite (strtol_digits d ds) by (auto; intros c r [= <- _]; reflexivity).
  unfold deref. rewrite app_nth2 by lia. rewrite Nat.sub_diag.
  cbn [nth]. change (0 =? 0) with true. cbv beta iota.
  unfold negb at 1. cbv iota.
  pose proof (decimal_value_bound (d :: ds) Hd) as Hb.
  assert (10 ^ Z.of_nat (length (d :: ds)) <= 10 ^ 6) as Hp
    by (apply Z.pow_le_mono_r; lia).
  fold n in Hb |- *.
  assert (Z.max LONG_MIN (Z.min LONG_MAX n) = n) as ->.
  { unfold LONG_MIN, LONG_MAX. change (10 ^ 6) with 1000000 in Hp. lia. }
  subst ok.
  destruct (Z.ltb_spec n min), (Z.leb_spec min n); try lia; simpl;
    try reflexivity.
  destruct (Z.gtb_spec n max), (Z.leb_spec n max); try lia; reflexivity.
Qed.

End NumericAnswers.

Section WriteCommands.

(** X1: how [WriteFormattedCmd] treats the length of the command text.  Up
    to six characters are sent whole, padded with zero bytes to the eight
    bytes of the report, and the status is that of the transport.  A text
    of exactly seven characters is not refused: its first six characters
    are sent and the seventh is dropped, with the status of the transport.
    A longer text gives an internal error and nothing is sent. *)
Theorem WriteFormattedCmd_length_bounds (dev : RelaconDevice)
    (text : list byte) :
  report_buffer_ok dev ->
  let status := if accepts_write dev then RELACON_STATUS_SUCCESS
                else RELACON_STATUS_ERROR_DEVICE_IO in
  ((length text <= 6)%nat ->
   exists dev', WriteFormattedCmd dev text = (status, dev') /\
                sent dev' = sent dev ++ [report_of text]) /\
  (length text = 7%nat ->
   exists dev', WriteFormattedCmd dev text = (status, dev') /\
                sent dev' = sent dev ++ [REPORT_ID_CMD :: take 6 text ++ [0]]) /\
  ((7 < length text)%nat ->
   exists dev', WriteFormattedCmd dev text =
                  (RELACON_STATUS_ERROR_INTERNAL, dev') /\
                sent dev' = sent dev).
Proof.
  intros Hbuf status. split; [| split]; intros Hlen.
  - destruct (WriteFormattedCmd_status dev text Hbuf Hlen)
      as (dev' & Hw & Hs & _).
    exists dev'. auto.
  - apply WriteFormattedCmd_seven; assumption.
  - destruct (WriteFormattedCmd_long dev text Hlen) as (dev' & Hw & Hb).
    exists dev'. split; [exact Hw |]. unfold sent. now rewrite Hb.
Qed.

Lemma WriteFormattedCmd_length_bounds_witness :
  exists dev',
    WriteFormattedCmd (sample_device LIBUSB []) (bytes_of_string "MK00255") =
      (RELACON_STATUS_SUCCESS, dev') /\
    sent dev' = [[1; 77; 75; 48; 48; 50; 53; 0]].
Proof.
  apply (proj1 (proj2 (WriteFormattedCmd_length_bounds
                         (sample_device LIBUSB [])
                         (bytes_of_string "MK00255") eq_refl))).
  reflexivity.
Defined.

(** X2: [RelaconDeviceRelaysWrite] with a value of 0..255 sends one report:
    the identifier 1, the letters MK, the value as three decimal digits
    with leading zeros, and two zero bytes.  The status is success if the
    transport took the report and a device I/O error if it did not; no
    report is read. *)
Theorem RelaconDeviceRelaysWrite_command (dev : RelaconDevice) (val : Z) :
  report_buffer_ok dev -> 0 <= val <= 255 ->
  exists dev',
    RelaconDeviceRelaysWrite (Some dev) val =
      (Returned (if accepts_write dev then RELACON_STATUS_SUCCESS
                 else RELACON_STATUS_ERROR_DEVICE_IO) None, Some dev') /\
    sent dev' =
      sent dev ++
      [[1; 77; 75; 48 + val / 100; 48 + (val / 10) mod 10; 48 + val mod 10;
        0; 0]] /\
    rx_queue (bd_link (backendDevice dev')) =
      rx_queue (bd_link (backendDevice dev)).
Proof.
  intros Hbuf Hval. unfold RelaconDeviceRelaysWrite.
  rewrite (fmt_03u_uint8 val Hval).
  destruct (WriteFormattedCmd_status dev
              (bytes_of_string "MK" ++
               [48 + val / 100; 48 + (val / 10) mod 10; 48 + val mod 10])
              Hbuf) as (dev' & Hw & Hs & _ & _ & _ & Hrx & _);
    [simpl; lia |].
  rewrite Hw. exists dev'. split; [reflexivity |]. split; [exact Hs | exact Hrx].
Qed.

Lemma RelaconDeviceRelaysWrite_command_witness :
  exists dev',
    RelaconDeviceRelaysWrite (Some (sample_device HIDAPI [])) 37 =
      (Returned RELACON_STATUS_SUCCESS None, Some dev') /\
    sent dev' = [[1; 77; 75; 48; 51; 55; 0; 0]].
Proof.
  destruct (RelaconDeviceRelaysWrite_command (sample_device HIDAPI []) 37)
    as (dev' & H1 & H2 & _); [reflexivity | lia |].
  exists dev'. split; [exact H1 | exact H2].
Defined.

(** X3: [RelaconDeviceSingleRelayWrite] on a relay the device has sends
    one report: SK to close the relay and RK to open it, followed by the
    relay index in decimal without padding (one digit below ten), the rest
    of the report being zero bytes.  The status is success if the transport
    took the report and a device I/O error if it did not. *)
Theorem RelaconDeviceSingleRelayWrite_command (dev : RelaconDevice)
    (relay : Z) (assert : bool) :
  report_buffer_ok dev -> 0 <= relay <= 255 ->
  relay < numRelays (info dev) ->
  exists ds dev',
    RelaconDeviceSingleRelayWrite (Some dev) relay assert =
      (Returned (if accepts_write dev then RELACON_STATUS_SUCCESS
                 else RELACON_STATUS_ERROR_DEVICE_IO) None, Some dev') /\
    Forall (fun c => isdigit c = true) ds /\ decimal_value ds = relay /\
    (relay < 10 -> ds = [48 + relay]) /\
    sent dev' =
      sent dev ++ [report_of ((if assert then 83 else 82) :: 75 :: ds)].
Proof.
  intros Hbuf Hrelay Hlt. unfold RelaconDeviceSingleRelayWrite.
  destruct (Z.geb_spec relay (numRelays (info dev))) as [H | _]; [lia |].
  destruct (fmt_d_uint8 relay Hrelay) as (Hd & Hv & Hl & Hone).
  exists (fmt_d relay).
  destruct (WriteFormattedCmd_status dev
              (bytes_of_string (if assert then "SK" else "RK") ++ fmt_d relay)
              Hbuf) as (dev' & Hw & Hs & _).
  { rewrite length_app. destruct assert; simpl; lia. }
  rewrite Hw. exists dev'. split; [reflexivity |].
  repeat (split; [assumption |]).
  rewrite Hs. destruct assert; reflexivity.
Qed.

Lemma RelaconDeviceSingleRelayWrite_command_witness :
  exists ds dev',
    RelaconDeviceSingleRelayWrite (Some (sample_device HIDAPI [])) 3 true =
      (Returned RELACON_STATUS_SUCCESS None, Some dev') /\
    ds = [51] /\ sent dev' = [report_of (83 :: 75 :: ds)].
Proof.
  destruct (RelaconDeviceSingleRelayWrite_command (sample_device HIDAPI [])
              3 true) as (ds & dev' & H1 & _ & _ & H2 & H3);
    [reflexivity | lia | simpl; lia |].
  exists ds, dev'. split; [exact H1 |]. split; [apply H2; lia | exact H3].
Defined.

(** X4: [RelaconDeviceEventCounterDebounceSet] with a setting of 0..2 sends
    the report DB followed by the setting as one digit, and
    [RelaconDeviceWatchdogSet] with a setting of 0..3 sends WD followed by
    the setting as one digit; the status is that of the transport. *)
Theorem configuration_set_commands (dev : RelaconDevice) (config : Z) :
  report_buffer_ok dev ->
  let status := if accepts_write dev then RELACON_STATUS_SUCCESS
                else RELACON_STATUS_ERROR_DEVICE_IO in
  (0 <= config <= 2 ->
   exists dev',
     RelaconDeviceEventCounterDebounceSet (Some dev) config =
       (Returned status None, Some dev') /\
     sent dev' = sent dev ++ [[1; 68; 66; 48 + config; 0; 0; 0; 0]]) /\
  (0 <= config <= 3 ->
   exists dev',
     RelaconDeviceWatchdogSet (Some dev) config =
       (Returned status None, Some dev') /\
     sent dev' = sent dev ++ [[1; 87; 68; 48 + config; 0; 0; 0; 0]]).
Proof.
  intros Hbuf status. split; intros Hc.
  - unfold RelaconDeviceEventCounterDebounceSet,
      RELACON_DEBOUNCE_CONFIG_10MS, RELACON_DEBOUNCE_CONFIG_100US.
    destruct (Z.ltb_spec config 0) as [H | _]; [lia |].
    destruct (Z.gtb_spec config 2) as [H | _]; [lia |].
    destruct (fmt_d_uint8 config) as (_ & _ & _ & Hone); [lia |].
    rewrite Hone by lia.
    destruct (WriteFormattedCmd_status dev
                (bytes_of_string "DB" ++ [48 + config]) Hbuf)
      as (dev' & Hw & Hs & _); [simpl; lia |].
    cbn [orb]. rewrite Hw. exists dev'. split; [reflexivity | exact Hs].
  - unfold RelaconDeviceWatchdogSet,
      RELACON_WATCHDOG_CONFIG_OFF, RELACON_WATCHDOG_CONFIG_1MIN.
    destruct (Z.ltb_spec config 0) as [H | _]; [lia |].
    destruct (Z.gtb_spec config 3) as [H | _]; [lia |].
    destruct (fmt_d_uint8 config) as (_ & _ & _ & Hone); [lia |].
    rewrite Hone by lia.
    destruct (WriteFormattedCmd_status dev
                (bytes_of_string "WD" ++ [48 + config]) Hbuf)
      as (dev' & Hw & Hs & _); [simpl; lia |].
    cbn [orb]. rewrite Hw. exists dev'. split; [reflexivity | exact Hs].
Qed.

Lemma configuration_set_commands_witness :
  exists dev',
    RelaconDeviceWatchdogSet (Some (sample_device LIBUSB [])) 3 =
      (Returned RELACON_STATUS_SUCCESS None, Some dev') /\
    sent dev' = [[1; 87; 68; 51; 0; 0; 0; 0]].
Proof.
  apply (proj2 (configuration_set_commands (sample_device LIBUSB []) 3
                  eq_refl)).
  lia.
Defined.

End WriteCommands.

Section Queries.

Variable indeterminate : Z.

(** A command is written and taken by the transport; the device then
    answers with the digits [ds]. *)
Lemma query_exchange (dev : RelaconDevice) (text ds : list byte)
    (q : list RxEvent) (min max : Z) :
  report_buffer_ok dev -> accepts_write dev = true ->
  rx_queue (bd_link (backendDevice dev)) = RxReport (report_of ds) :: q ->
  ds <> [] -> (length ds <= 6)%nat ->
  Forall (fun c => isdigit c = true) ds ->
  (length text <= 6)%nat ->
  let n := decimal_value ds in
  let ok := (min <=? n) && (n <=? max) in
  exists dev1 dev2,
    WriteFormattedCmd dev text = (RELACON_STATUS_SUCCESS, dev1) /\
    ReadNumericResponse dev1 min max indeterminate =
      (if ok then RELACON_STATUS_SUCCESS
       else RELACON_STATUS_ERROR_BAD_RESPONSE,
       if ok then n else indeterminate, dev2) /\
    sent dev2 = sent dev ++ [report_of text] /\
    rx_queue (bd_link (backendDevice dev2)) = q /\
    info dev2 = info dev.
Proof.
  intros Hbuf Hacc Hq Hne Hlen Hd Htext n ok.
  destruct (WriteFormattedCmd_status dev text Hbuf Htext)
    as (dev1 & Hw & Hs1 & Hok1 & Hi1 & _ & Hrx1 & _).
  rewrite Hacc in Hw. rewrite Hq in Hrx1.
  destruct (ReadNumericResponse_number dev1 ds q min max indeterminate
              Hok1 Hrx1 Hne Hlen Hd) as (dev2 & Hr & Hs2 & Hrx2 & Hi2 & _).
  exists dev1, dev2. split; [exact Hw |]. split; [exact Hr |].
  rewrite Hs2, Hs1, Hi2, Hi1. auto.
Qed.

(** X5: [RelaconDeviceReadInputs] sends the report PI and
    [RelaconDeviceRelaysRead] the report PK.  When the transport takes the
    report and the device answers with a decimal number of at most six
    digits (so that the seven data bytes of the answer end in a zero
    byte), the answer is consumed, and the value is stored with success
    if it is at most 255; a larger number is a bad response and nothing is
    stored. *)
Theorem port_reads (dev : RelaconDevice) (ds : list byte)
    (q : list RxEvent) :
  report_buffer_ok dev -> accepts_write dev = true ->
  rx_queue (bd_link (backendDevice dev)) = RxReport (report_of ds) :: q ->
  ds <> [] -> (length ds <= 6)%nat ->
  Forall (fun c => isdigit c = true) ds ->
  let n := decimal_value ds in
  let answer :=
    if n <=? 255 then Returned RELACON_STATUS_SUCCESS (Some n)
    else Returned RELACON_STATUS_ERROR_BAD_RESPONSE None in
  (exists dev',
      RelaconDeviceReadInputs indeterminate (Some dev) PTR =
        (answer, Some dev') /\
      sent dev' = sent dev ++ [[1; 80; 73; 0; 0; 0; 0; 0]] /\
      rx_queue (bd_link (backendDevice dev')) = q) /\
  (exists dev',
      RelaconDeviceRelaysRead indeterminate (Some dev) PTR =
        (answer, Some dev') /\
      sent dev' = sent dev ++ [[1; 80; 75; 0; 0; 0; 0; 0]] /\
      rx_queue (bd_link (backendDevice dev')) = q).
Proof.
  intros Hbuf Hacc Hq Hne Hlen Hd n answer.
  pose proof (decimal_value_bound ds Hd) as Hb. fold n in Hb.
  split.
  - destruct (query_exchange dev (bytes_of_string "PI") ds q 0 UINT8_MAX
                Hbuf Hacc Hq Hne Hlen Hd) as (dev1 & dev2 & Hw & Hr & Hs & Hrx & _);
      [simpl; lia |].
    exists dev2. split; [| split; [exact Hs | exact Hrx]].
    unfold RelaconDeviceReadInputs. rewrite Hw.
    destruct (decide _) as [_ | Hx]; [| congruence].
    rewrite Hr. fold n. subst answer. unfold UINT8_MAX.
    destruct (Z.leb_spec 0 n) as [_ | H]; [| lia].
    destruct (Z.leb_spec n 255); cbn [andb].
    + destruct (decide _) as [_ | Hx]; [| congruence].
      unfold store_through. rewrite Z.mod_small by lia. reflexivity.
    + destruct (decide _) as [Hx | _]; [discriminate | reflexivity].
  - destruct (query_exchange dev (bytes_of_string "PK") ds q 0 UINT8_MAX
                Hbuf Hacc Hq Hne Hlen Hd) as (dev1 & dev2 & Hw & Hr & Hs & Hrx & _);
      [simpl; lia |].
    exists dev2. split; [| split; [exact Hs | exact Hrx]].
    unfold RelaconDeviceRelaysRead. rewrite Hw.
    destruct (decide _) as [_ | Hx]; [| congruence].
    rewrite Hr. fold n. subst answer. unfold UINT8_MAX.
    destruct (Z.leb_spec 0 n) as [_ | H]; [| lia].
    destruct (Z.leb_spec n 255); cbn [andb].
    + destruct (decide _) as [_ | Hx]; [| congruence].
      unfold store_through. rewrite Z.mod_small by lia. reflexivity.
    + destruct (decide _) as [Hx | _]; [discriminate | reflexivity].
Qed.

(** X6: [RelaconDeviceSingleRelayRead] on a relay the device has sends RPK
    followed by the relay index in decimal.  When the transport takes the
    report and the device answers with a decimal number of at most six
    digits, an answer of value 0 is stored as false (open), one of value 1
    as true (closed), and any other number is a bad response. *)
Theorem RelaconDeviceSingleRelayRead_answer (dev : RelaconDevice)
    (relay : Z) (ds : list byte) (q : list RxEvent) :
  report_buffer_ok dev -> accepts_write dev = true ->
  rx_queue (bd_link (backendDevice dev)) = RxReport (report_of ds) :: q ->
  ds <> [] -> (length ds <= 6)%nat ->
  Forall (fun c => isdigit c = true) ds ->
  0 <= relay <= 255 -> relay < numRelays (info dev) ->
  let n := decimal_value ds in
  exists dev',
    RelaconDeviceSingleRelayRead indeterminate (Some dev) relay PTR =
      (if n =? 0 then Returned RELACON_STATUS_SUCCESS (Some false)
       else if n =? 1 then Returned RELACON_STATUS_SUCCESS (Some true)
       else Returned RELACON_STATUS_ERROR_BAD_RESPONSE None, Some dev') /\
    sent dev' = sent dev ++ [report_of (82 :: 80 :: 75 :: fmt_d relay)] /\
    rx_queue (bd_link (backendDevice dev')) = q.
Proof.
  intros Hbuf Hacc Hq Hne Hlen Hd Hrelay Hlt n.
  pose proof (decimal_value_bound ds Hd) as Hb. fold n in Hb.
  destruct (fmt_d_uint8 relay Hrelay) as (_ & _ & Hl & _).
  destruct (query_exchange dev (bytes_of_string "RPK" ++ fmt_d relay) ds q
              0 1 Hbuf Hacc Hq Hne Hlen Hd)
    as (dev1 & dev2 & Hw & Hr & Hs & Hrx & _);
    [rewrite length_app; simpl; lia |].
  exists dev2. split; [| split; [exact Hs | exact Hrx]].
  unfold RelaconDeviceSingleRelayRead.
  destruct (Z.geb_spec relay (numRelays (info dev))) as [H | _]; [lia |].
  rewrite Hw.
  destruct (decide _) as [_ | Hx]; [| congruence].
  rewrite Hr. fold n.
  destruct (Z.leb_spec 0 n) as [_ | H]; [| lia].
  destruct (Z.leb_spec n 1); cbn [andb].
  - destruct (decide _) as [_ | Hx]; [| congruence].
    unfold store_through.
    destruct (Z.eqb_spec n 0) as [-> | H0]; [reflexivity |].
    destruct (Z.eqb_spec n 1) as [-> | H1]; [reflexivity | lia].
  - destruct (decide _) as [Hx | _]; [discriminate |].
    destruct (Z.eqb_spec n 0); [lia |].
    destruct (Z.eqb_spec n 1); [lia | reflexivity].
Qed.

(** X7: [RelaconDeviceEventCounterDebounceGet] sends the report DB and
    [RelaconDeviceWatchdogGet] the report WD.  When the transport takes
    the report and the device answers with a decimal number of at most six
    digits, the first accepts a value of 0..2 and the second a value of
    0..3; a larger number is a bad response and nothing is stored. *)
Theorem configuration_get_answers (dev : RelaconDevice) (ds : list byte)
    (q : list RxEvent) :
  report_buffer_ok dev -> accepts_write dev = true ->
  rx_queue (bd_link (backendDevice dev)) = RxReport (report_of ds) :: q ->
  ds <> [] -> (length ds <= 6)%nat ->
  Forall (fun c => isdigit c = true) ds ->
  let n := decimal_value ds in
  let answer (top : Z) :=
    if n <=? top then Returned RELACON_STATUS_SUCCESS (Some n)
    else Returned RELACON_STATUS_ERROR_BAD_RESPONSE None in
  (exists dev',
      RelaconDeviceEventCounterDebounceGet indeterminate (Some dev) PTR =
        (answer 2, Some dev') /\
      sent dev' = sent dev ++ [[1; 68; 66; 0; 0; 0; 0; 0]] /\
      rx_queue (bd_link (backendDevice dev')) = q) /\
  (exists dev',
      RelaconDeviceWatchdogGet indeterminate (Some dev) PTR =
        (answer 3, Some dev') /\
      sent dev' = sent dev ++ [[1; 87; 68; 0; 0; 0; 0; 0]] /\
      rx_queue (bd_link (backendDevice dev')) = q).
Proof.
  intros Hbuf Hacc Hq Hne Hlen Hd n answer.
  pose proof (decimal_value_bound ds Hd) as Hb. fold n in Hb.
  split.
  - destruct (query_exchange dev (bytes_of_string "DB") ds q
                RELACON_DEBOUNCE_CONFIG_10MS RELACON_DEBOUNCE_CONFIG_100US
                Hbuf Hacc Hq Hne Hlen Hd)
      as (dev1 & dev2 & Hw & Hr & Hs & Hrx & _); [simpl; lia |].
    exists dev2. split; [| split; [exact Hs | exact Hrx]].
    unfold RelaconDeviceEventCounterDebounceGet. rewrite Hw.
    destruct (decide _) as [_ | Hx]; [| congruence].
    rewrite Hr. fold n. subst answer.
    unfold RELACON_DEBOUNCE_CONFIG_10MS, RELACON_DEBOUNCE_CONFIG_100US.
    destruct (Z.leb_spec 0 n) as [_ | H]; [| lia].
    destruct (Z.leb_spec n 2); cbn [andb].
    + destruct (decide _) as [_ | Hx]; [| congruence]. reflexivity.
    + destruct (decide _) as [Hx | _]; [discriminate | reflexivity].
  - destruct (query_exchange dev (bytes_of_string "WD") ds q
                RELACON_WATCHDOG_CONFIG_OFF RELACON_WATCHDOG_CONFIG_1MIN
                Hbuf Hacc Hq Hne Hlen Hd)
      as (dev1 & dev2 & Hw & Hr & Hs & Hrx & _); [simpl; lia |].
    exists dev2. split; [| split; [exact Hs | exact Hrx]].
    unfold RelaconDeviceWatchdogGet. rewrite Hw.
    destruct (decide _) as [_ | Hx]; [| congruence].
    rewrite Hr. fold n. subst answer.
    unfold RELACON_WATCHDOG_CONFIG_OFF, RELACON_WATCHDOG_CONFIG_1MIN.
    destruct (Z.leb_spec 0 n) as [_ | H]; [| lia].
    destruct (Z.leb_spec n 3); cbn [andb].
    + destruct (decide _) as [_ | Hx]; [| congruence]. reflexivity.
    + destruct (decide _) as [Hx | _]; [discriminate | reflexivity].
Qed.

End Queries.

Lemma port_reads_witness :
  exists dev',
    RelaconDeviceReadInputs 0
      (Some (sample_device HIDAPI [RxReport [1; 49; 54; 53; 0; 0; 0; 0]]))
      PTR = (Returned RELACON_STATUS_SUCCESS (Some 165), Some dev') /\
    sent dev' = [[1; 80; 73; 0; 0; 0; 0; 0]].
Proof.
  destruct (port_reads 0
              (sample_device HIDAPI [RxReport [1; 49; 54; 53; 0; 0; 0; 0]])
              [49; 54; 53] [])
    as [(dev' & H1 & H2 & _) _];
    [reflexivity | reflexivity | reflexivity | discriminate | simpl; lia
    | repeat constructor |].
  exists dev'. split; [exact H1 | exact H2].
Defined.

Lemma RelaconDeviceSingleRelayRead_answer_witness :
  exists dev',
    RelaconDeviceSingleRelayRead 0
      (Some (sample_device LIBUSB [RxReport [1; 49; 0; 0; 0; 0; 0; 0]]))
      5 PTR = (Returned RELACON_STATUS_SUCCESS (Some true), Some dev') /\
    sent dev' = [[1; 82; 80; 75; 53; 0; 0; 0]].
Proof.
  destruct (RelaconDeviceSingleRelayRead_answer 0
              (sample_device LIBUSB [RxReport [1; 49; 0; 0; 0; 0; 0; 0]])
              5 [49] [])
    as (dev' & H1 & H2 & _);
    [reflexivity | reflexivity | reflexivity | discriminate | simpl; lia
    | repeat constructor | lia | simpl; lia |].
  exists dev'. split; [exact H1 | exact H2].
Defined.

Lemma configuration_get_answers_witness :
  exists dev',
    RelaconDeviceEventCounterDebounceGet 0
      (Some (sample_device HIDAPI [RxReport [1; 51; 0; 0; 0; 0; 0; 0]]))
      PTR = (Returned RELACON_STATUS_ERROR_BAD_RESPONSE None, Some dev').
Proof.
  destruct (configuration_get_answers 0
              (sample_device HIDAPI [RxReport [1; 51; 0; 0; 0; 0; 0; 0]])
              [51] [])
    as [(dev' & H1 & _) _];
    [reflexivity | reflexivity | reflexivity | discriminate | simpl; lia
    | repeat constructor |].
  exists dev'. exact H1.
Defined.

Section Failures.

Variable indeterminate : Z.

Lemma ReadReport_silent (dev : RelaconDevice) (timeout : Z) :
  silent dev = true ->
  exists dev',
    ReadReport dev timeout =
      (unanswered_status (bd_kind (backendDevice dev)), dev') /\
    sent dev' = sent dev /\ reportBuf dev' = reportBuf dev.
Proof.
  unfold silent, ReadReport, BackendDeviceReadReport, unanswered_status.
  intros H.
  destruct (rx_queue (bd_link (backendDevice dev))) as [| [r | |] q];
    try discriminate;
    destruct (bd_kind (backendDevice dev));
    (eexists; split; [reflexivity |]; split; reflexivity).
Qed.

Lemma ReadNumericResponse_silent (dev : RelaconDevice) (min max value : Z) :
  silent dev = true ->
  exists dev',
    ReadNumericResponse dev min max value =
      (unanswered_status (bd_kind (backendDevice dev)), value, dev') /\
    sent dev' = sent dev.
Proof.
  intros H. destruct (ReadReport_silent dev DEFAULT_TIMEOUT_MS H)
    as (dev' & Hr & Hs & _).
  exists dev'. split; [| exact Hs].
  unfold ReadNumericResponse. rewrite Hr.
  destruct (decide _) as [Hx | _]; [| reflexivity].
  destruct (bd_kind (backendDevice dev)); discriminate.
Qed.

(** A command goes out and the device stays silent. *)
Lemma query_unanswered_exchange (dev : RelaconDevice) (text : list byte)
    (min max : Z) :
  report_buffer_ok dev -> accepts_write dev = true -> silent dev = true ->
  (length text <= 6)%nat ->
  exists dev1 dev2,
    WriteFormattedCmd dev text = (RELACON_STATUS_SUCCESS, dev1) /\
    ReadNumericResponse dev1 min max indeterminate =
      (unanswered_status (bd_kind (backendDevice dev)), indeterminate, dev2) /\
    sent dev2 = sent dev ++ [report_of text].
Proof.
  intros Hbuf Hacc Hsil Htext.
  destruct (WriteFormattedCmd_status dev text Hbuf Htext)
    as (dev1 & Hw & Hs1 & _ & _ & _ & Hrx1 & _ & Hk1).
  rewrite Hacc in Hw.
  assert (silent dev1 = true) as Hsil1 by (unfold silent; now rewrite Hrx1).
  destruct (ReadNumericResponse_silent dev1 min max indeterminate Hsil1)
    as (dev2 & Hr & Hs2).
  exists dev1, dev2. rewrite Hw, Hr, Hs2, Hs1, Hk1. auto.
Qed.

Lemma unanswered_not_success (k : BackendKind) :
  unanswered_status k <> RELACON_STATUS_SUCCESS.
Proof. destruct k; discriminate. Qed.

(** X8: a device that does not answer.  When the command is taken but no
    report arrives within the wait, every query stores nothing and returns
    the same status, which depends on the backend: a timeout with hidapi, a
    device I/O error with libusb.  A raw read with a positive timeout (a
    limited wait) returns that status too. *)
Theorem query_unanswered (dev : RelaconDevice) (buf : list byte)
    (len : nat) (timeout : Z) :
  report_buffer_ok dev -> accepts_write dev = true -> silent dev = true ->
  let status := unanswered_status (bd_kind (backendDevice dev)) in
  (RelaconDeviceReadInputs indeterminate (Some dev) PTR).1 =
    Returned status None /\
  (RelaconDeviceRelaysRead indeterminate (Some dev) PTR).1 =
    Returned status None /\
  (RelaconDeviceEventCounterDebounceGet indeterminate (Some dev) PTR).1 =
    Returned status None /\
  (RelaconDeviceWatchdogGet indeterminate (Some dev) PTR).1 =
    Returned status None /\
  (forall relay,
      0 <= relay <= 255 -> relay < numRelays (info dev) ->
      (RelaconDeviceSingleRelayRead indeterminate (Some dev) relay PTR).1 =
        Returned status None) /\
  (forall counter clear,
      0 <= counter <= 255 -> counter < numInputs (info dev) ->
      (RelaconDeviceEventCounterGet indeterminate (Some dev) counter clear
         PTR).1 = Returned status None) /\
  (0 < timeout < 2 ^ 31 ->
   (RelaconDeviceRawRead (Some dev) (Some buf) len timeout).1 =
     Returned status None).
Proof.
  intros Hbuf Hacc Hsil status.
  pose proof (unanswered_not_success (bd_kind (backendDevice dev))) as Hne.
  fold status in Hne.
  repeat split.
  - destruct (query_unanswered_exchange dev (bytes_of_string "PI") 0
                UINT8_MAX Hbuf Hacc Hsil) as (d1 & d2 & Hw & Hr & _);
      [simpl; lia |].
    unfold RelaconDeviceReadInputs. rewrite Hw.
    destruct (decide _) as [_ | Hx]; [| congruence]. rewrite Hr.
    destruct (decide _) as [Hx | _]; [contradiction | reflexivity].
  - destruct (query_unanswered_exchange dev (bytes_of_string "PK") 0
                UINT8_MAX Hbuf Hacc Hsil) as (d1 & d2 & Hw & Hr & _);
      [simpl; lia |].
    unfold RelaconDeviceRelaysRead. rewrite Hw.
    destruct (decide _) as [_ | Hx]; [| congruence]. rewrite Hr.
    destruct (decide _) as [Hx | _]; [contradiction | reflexivity].
  - destruct (query_unanswered_exchange dev (bytes_of_string "DB")
                RELACON_DEBOUNCE_CONFIG_10MS RELACON_DEBOUNCE_CONFIG_100US
                Hbuf Hacc Hsil) as (d1 & d2 & Hw & Hr & _);
      [simpl; lia |].
    unfold RelaconDeviceEventCounterDebounceGet. rewrite Hw.
    destruct (decide _) as [_ | Hx]; [| congruence]. rewrite Hr.
    destruct (decide _) as [Hx | _]; [contradiction | reflexivity].
  - destruct (query_unanswered_exchange dev (bytes_of_string "WD")
                RELACON_WATCHDOG_CONFIG_OFF RELACON_WATCHDOG_CONFIG_1MIN
                Hbuf Hacc Hsil) as (d1 & d2 & Hw & Hr & _);
      [simpl; lia |].
    unfold RelaconDeviceWatchdogGet. rewrite Hw.
    destruct (decide _) as [_ | Hx]; [| congruence]. rewrite Hr.
    destruct (decide _) as [Hx | _]; [contradiction | reflexivity].
  - intros relay Hrelay Hlt.
    destruct (fmt_d_uint8 relay Hrelay) as (_ & _ & Hl & _).
    destruct (query_unanswered_exchange dev
                (bytes_of_string "RPK" ++ fmt_d relay) 0 1 Hbuf Hacc Hsil)
      as (d1 & d2 & Hw & Hr & _);
      [rewrite length_app; simpl; lia |].
    unfold RelaconDeviceSingleRelayRead.
    destruct (Z.geb_spec relay (numRelays (info dev))) as [H | _]; [lia |].
    rewrite Hw.
    destruct (decide _) as [_ | Hx]; [| congruence]. rewrite Hr.
    destruct (decide _) as [Hx | _]; [contradiction | reflexivity].
  - intros counter clear Hcounter Hlt.
    destruct (fmt_d_uint8 counter Hcounter) as (_ & _ & Hl & _).
    destruct (query_unanswered_exchange dev
                (bytes_of_string "R" ++
                 bytes_of_string (if clear then "C" else "E") ++
                 fmt_d counter) 0 UINT16_MAX Hbuf Hacc Hsil)
      as (d1 & d2 & Hw & Hr & _);
      [rewrite !length_app; destruct clear; simpl; lia |].
    unfold RelaconDeviceEventCounterGet.
    destruct (Z.geb_spec counter (numInputs (info dev))) as [H | _]; [lia |].
    rewrite Hw.
    destruct (decide _) as [_ | Hx]; [| congruence]. rewrite Hr.
    destruct (decide _) as [Hx | _]; [contradiction | reflexivity].
  - intros _. destruct (ReadReport_silent dev timeout Hsil) as (d1 & Hr & _).
    unfold RelaconDeviceRawRead. rewrite Hr.
    destruct (decide _) as [Hx | _]; [contradiction | reflexivity].
Qed.

(** X9: when the transport does not take the command, every query returns
    a device I/O error, stores nothing, and does not read: the reports
    waiting in the receive queue stay there. *)
Theorem query_write_rejected (dev : RelaconDevice) :
  report_buffer_ok dev -> accepts_write dev = false ->
  let unread (r : Result Z * option RelaconDevice) :=
    exists dev',
      r = (Returned RELACON_STATUS_ERROR_DEVICE_IO None, Some dev') /\
      rx_queue (bd_link (backendDevice dev')) =
        rx_queue (bd_link (backendDevice dev)) in
  unread (RelaconDeviceReadInputs indeterminate (Some dev) PTR) /\
  unread (RelaconDeviceRelaysRead indeterminate (Some dev) PTR) /\
  unread (RelaconDeviceEventCounterDebounceGet indeterminate (Some dev) PTR) /\
  unread (RelaconDeviceWatchdogGet indeterminate (Some dev) PTR) /\
  (forall counter clear,
      0 <= counter <= 255 -> counter < numInputs (info dev) ->
      unread (RelaconDeviceEventCounterGet indeterminate (Some dev) counter
                clear PTR)) /\
  (forall relay,
      0 <= relay <= 255 -> relay < numRelays (info dev) ->
      exists dev',
        RelaconDeviceSingleRelayRead indeterminate (Some dev) relay PTR =
          (Returned RELACON_STATUS_ERROR_DEVICE_IO None, Some dev') /\
        rx_queue (bd_link (backendDevice dev')) =
          rx_queue (bd_link (backendDevice dev))).
Proof.
  intros Hbuf Hacc unread.
  assert (forall text, (length text <= 6)%nat ->
            exists dev1,
              WriteFormattedCmd dev text =
                (RELACON_STATUS_ERROR_DEVICE_IO, dev1) /\
              rx_queue (bd_link (backendDevice dev1)) =
                rx_queue (bd_link (backendDevice dev))) as Hwrite.
  { intros text Htext.
    destruct (WriteFormattedCmd_status dev text Hbuf Htext)
      as (dev1 & Hw & _ & _ & _ & _ & Hrx & _).
    rewrite Hacc in Hw. exists dev1. auto. }
  subst unread. cbv beta.
  repeat split.
  - destruct (Hwrite (bytes_of_string "PI")) as (d1 & Hw & Hrx);
      [simpl; lia |].
    exists d1. split; [| exact Hrx].
    unfold RelaconDeviceReadInputs. rewrite Hw.
    destruct (decide _) as [Hx | _]; [discriminate | reflexivity].
  - destruct (Hwrite (bytes_of_string "PK")) as (d1 & Hw & Hrx);
      [simpl; lia |].
    exists d1. split; [| exact Hrx].
    unfold RelaconDeviceRelaysRead. rewrite Hw.
    destruct (decide _) as [Hx | _]; [discriminate | reflexivity].
  - destruct (Hwrite (bytes_of_string "DB")) as (d1 & Hw & Hrx);
      [simpl; lia |].
    exists d1. split; [| exact Hrx].
    unfold RelaconDeviceEventCounterDebounceGet. rewrite Hw.
    destruct (decide _) as [Hx | _]; [discriminate | reflexivity].
  - destruct (Hwrite (bytes_of_string "WD")) as (d1 & Hw & Hrx);
      [simpl; lia |].
    exists d1. split; [| exact Hrx].
    unfold RelaconDeviceWatchdogGet. rewrite Hw.
    destruct (decide _) as [Hx | _]; [discriminate | reflexivity].
  - intros counter clear Hcounter Hlt.
    destruct (fmt_d_uint8 counter Hcounter) as (_ & _ & Hl & _).
    destruct (Hwrite (bytes_of_string "R" ++
                      bytes_of_string (if clear then "C" else "E") ++
                      fmt_d counter)) as (d1 & Hw & Hrx);
      [rewrite !length_app; destruct clear; simpl; lia |].
    exists d1. split; [| exact Hrx].
    unfold RelaconDeviceEventCounterGet.
    destruct (Z.geb_spec counter (numInputs (info dev))) as [H | _]; [lia |].
    rewrite Hw.
    destruct (decide _) as [Hx | _]; [discriminate | reflexivity].
  - intros relay Hrelay Hlt.
    destruct (fmt_d_uint8 relay Hrelay) as (_ & _ & Hl & _).
    destruct (Hwrite (bytes_of_string "RPK" ++ fmt_d relay))
      as (d1 & Hw & Hrx); [rewrite length_app; simpl; lia |].
    exists d1. split; [| exact Hrx].
    unfold RelaconDeviceSingleRelayRead.
    destruct (Z.geb_spec relay (numRelays (info dev))) as [H | _]; [lia |].
    rewrite Hw.
    destruct (decide _) as [Hx | _]; [discriminate | reflexivity].
Qed.

End Failures.

Lemma query_unanswered_witness :
  (RelaconDeviceReadInputs 0 (Some (sample_device HIDAPI [])) PTR).1 =
    Returned RELACON_STATUS_ERROR_TIMEOUT None /\
  (RelaconDeviceReadInputs 0 (Some (sample_device LIBUSB [RxTimeout])) PTR).1 =
    Returned RELACON_STATUS_ERROR_DEVICE_IO None /\
  (RelaconDeviceRawRead (Some (sample_device LIBUSB [RxTimeout]))
     (Some (replicate 8 0)) 8 500).1 =
    Returned RELACON_STATUS_ERROR_DEVICE_IO None.
Proof.
  split; [| split].
  - apply (query_unanswered 0 (sample_device HIDAPI []) [] 0 500);
      [reflexivity | reflexivity | reflexivity].
  - apply (query_unanswered 0 (sample_device LIBUSB [RxTimeout]) [] 0 500);
      [reflexivity | reflexivity | reflexivity].
  - apply (query_unanswered 0 (sample_device LIBUSB [RxTimeout])
             (replicate 8 0) 8 500);
      [reflexivity | reflexivity | reflexivity | lia].
Defined.

Lemma query_write_rejected_witness :
  exists dev',
    RelaconDeviceRelaysRead 0
      (Some {| dev_addr := 1%nat;
               backendDevice :=
                 {| bd_addr := 0%nat; bd_kind := LIBUSB;
                    bd_link := {| tx_log := []; tx_results := [false];
                                  rx_queue := [RxReport [1; 48; 0; 0; 0; 0; 0; 0]] |} |};
               reportBuf := replicate 8 0; trailing := [];
               info := sample_info |}) PTR =
      (Returned RELACON_STATUS_ERROR_DEVICE_IO None, Some dev') /\
    rx_queue (bd_link (backendDevice dev')) =
      [RxReport [1; 48; 0; 0; 0; 0; 0; 0]].
Proof.
  apply (query_write_rejected 0
           {| dev_addr := 1%nat;
              backendDevice :=
                {| bd_addr := 0%nat; bd_kind := LIBUSB;
                   bd_link := {| tx_log := []; tx_results := [false];
                                 rx_queue := [RxReport [1; 48; 0; 0; 0; 0; 0; 0]] |} |};
              reportBuf := replicate 8 0; trailing := [];
              info := sample_info |}); reflexivity.
Defined.

Section Discipline.

Variable indeterminate : Z.

Lemma one_exchange_refl (dev : RelaconDevice) :
  report_buffer_ok dev -> one_exchange dev dev.
Proof.
  intros H. split; [| auto].
  exists []. rewrite app_nil_r. repeat split; [simpl; lia | constructor].
Qed.

Lemma WriteReport_exchange (dev : RelaconDevice) :
  report_buffer_ok dev -> one_exchange dev (WriteReport dev).2.
Proof.
  intros H. unfold WriteReport, BackendDeviceWriteReport. simpl.
  split; [| auto].
  eexists [_]. unfold sent. simpl. split; [reflexivity |].
  split; [lia |]. constructor; [| constructor].
  rewrite length_take. unfold report_buffer_ok in H. rewrite H. lia.
Qed.

Lemma WriteFormattedCmd_exchange (dev : RelaconDevice) (text : list byte) :
  report_buffer_ok dev ->
  one_exchange dev (WriteFormattedCmd dev text).2 /\
  rx_queue (bd_link (backendDevice (WriteFormattedCmd dev text).2)) =
    rx_queue (bd_link (backendDevice dev)).
Proof.
  intros H. unfold WriteFormattedCmd, vsnprintf, REPORT_DATA_LEN.
  assert (report_buffer_ok
            (set_reportBuf dev
               (write_at 1 (take 6 text ++ [0]) (reportBuf dev)))) as H1
    by (unfold report_buffer_ok; simpl; now rewrite length_write_at).
  destruct (_ <? 0).
  { split; [| reflexivity]. split; [| auto].
    exists []. rewrite app_nil_r. repeat split; [simpl; lia | constructor]. }
  destruct (_ >? _).
  { split; [| reflexivity]. split; [| auto].
    exists []. rewrite app_nil_r. repeat split; [simpl; lia | constructor]. }
  match goal with
  | |- one_exchange _ (WriteReport ?d).2 /\ _ =>
      assert (report_buffer_ok d) as H2
  end.
  { unfold report_buffer_ok, memset. simpl.
    now rewrite length_write_at, length_insert, length_write_at. }
  split; [| reflexivity].
  apply WriteReport_exchange in H2.
  destruct H2 as ((l & Hs & Hl & Hf) & Hrx & Hok & Hi).
  split; [exists l; auto |]. auto.
Qed.

Lemma ReadReport_exchange (dev : RelaconDevice) (timeout : Z) :
  report_buffer_ok dev ->
  one_exchange dev (ReadReport dev timeout).2 /\
  sent (ReadReport dev timeout).2 = sent dev.
Proof.
  intros H. unfold ReadReport, BackendDeviceReadReport.
  assert (forall got, length (write_at 0 got (reportBuf dev)) = REPORT_BUF_LEN)
    as Hw by (intros got; now rewrite length_write_at).
  destruct (rx_queue (bd_link (backendDevice dev))) as [| e q] eqn:Hq;
    [| destruct e as [data | |]];
    destruct (bd_kind (backendDevice dev));
    try destruct (take REPORT_BUF_LEN data) eqn:Ht;
    (split; [| reflexivity]);
    (split; [exists []; rewrite app_nil_r;
             repeat split; [simpl; lia | constructor] |]);
    (split; [right; simpl; rewrite ?Hq; reflexivity |]);
    (split; [| reflexivity]);
    unfold report_buffer_ok; simpl; auto.
Qed.

Lemma one_exchange_write_read (dev dev1 dev2 : RelaconDevice) :
  one_exchange dev dev1 ->
  rx_queue (bd_link (backendDevice dev1)) =
    rx_queue (bd_link (backendDevice dev)) ->
  one_exchange dev1 dev2 -> sent dev2 = sent dev1 ->
  one_exchange dev dev2.
Proof.
  intros ((l & Hs & Hl & Hf) & _ & _ & Hi) Hrx (_ & Hrx2 & Hok & Hi2) Hs2.
  split; [exists l; rewrite Hs2; auto |].
  rewrite <- Hrx. split; [exact Hrx2 |]. split; [exact Hok | congruence].
Qed.

Lemma ReadNumericResponse_exchange (dev : RelaconDevice) (min max value : Z) :
  report_buffer_ok dev ->
  one_exchange dev (ReadNumericResponse dev min max value).2 /\
  sent (ReadNumericResponse dev min max value).2 = sent dev.
Proof.
  intros H. destruct (ReadReport_exchange dev DEFAULT_TIMEOUT_MS H) as [H1 H2].
  unfold ReadNumericResponse.
  destruct (ReadReport dev DEFAULT_TIMEOUT_MS) as [status dev1].
  simpl in H1, H2.
  destruct (decide _); [| auto].
  destruct (negb _); [auto |].
  destruct (strtol _) as [tmp endptr].
  destruct (negb _); [auto |].
  destruct (_ || _); auto.
Qed.

(** A command followed by the decoding of its answer. *)
Lemma query_discipline (dev : RelaconDevice) (text : list byte)
    (min max : Z) :
  report_buffer_ok dev ->
  one_exchange dev (WriteFormattedCmd dev text).2 /\
  one_exchange dev
    (ReadNumericResponse (WriteFormattedCmd dev text).2 min max
       indeterminate).2.
Proof.
  intros H. destruct (WriteFormattedCmd_exchange dev text H) as [H1 Hrx].
  split; [exact H1 |].
  assert (report_buffer_ok (WriteFormattedCmd dev text).2) as Hok by apply H1.
  destruct (ReadNumericResponse_exchange (WriteFormattedCmd dev text).2
              min max indeterminate Hok) as [H2 Hs].
  eapply one_exchange_write_read; eauto.
Qed.

End Discipline.

Section OperationsDiscipline.

Variable indeterminate : Z.

(** A command, and where the operation reads one, the decoding of the
    answer: whatever the statuses are, the session went through one
    exchange. *)
Ltac query :=
  match goal with
  | Hcmd : (forall text status dev1, WriteFormattedCmd _ text = _ -> _),
    Hquery : (forall text min max status1 status2 tmp dev1 dev2, _)
    |- context [WriteFormattedCmd ?d ?text] =>
      let Hw := fresh "Hw" in
      let Hr := fresh "Hr" in
      destruct (WriteFormattedCmd d text) as [? ?] eqn:Hw;
      try (destruct (decide _);
           [match goal with
            | |- context [ReadNumericResponse ?d1 ?a ?b ?c] =>
                destruct (ReadNumericResponse d1 a b c) as [[? ?] ?] eqn:Hr;
                destruct (decide _)
            end |]);
      (eexists; split; [reflexivity | solve [eauto]])
  end.

(** X10: every public operation on a session returns the session, has
    written at most one report, of eight bytes, has read at most one, and
    leaves the report buffer at its length and the device information as
    it was. *)
Theorem public_operations_one_exchange (dev : RelaconDevice) :
  report_buffer_ok dev ->
  (forall p, after_call dev (RelaconDeviceGetInfo (Some dev) p)) /\
  (forall p, after_call dev (RelaconDeviceReadInputs indeterminate (Some dev) p)) /\
  (forall relay assert,
      after_call dev (RelaconDeviceSingleRelayWrite (Some dev) relay assert)) /\
  (forall relay p,
      after_call dev
        (RelaconDeviceSingleRelayRead indeterminate (Some dev) relay p)) /\
  (forall val, after_call dev (RelaconDeviceRelaysWrite (Some dev) val)) /\
  (forall p, after_call dev (RelaconDeviceRelaysRead indeterminate (Some dev) p)) /\
  (forall counter clear p,
      after_call dev
        (RelaconDeviceEventCounterGet indeterminate (Some dev) counter clear p)) /\
  (forall config,
      after_call dev (RelaconDeviceEventCounterDebounceSet (Some dev) config)) /\
  (forall p,
      after_call dev
        (RelaconDeviceEventCounterDebounceGet indeterminate (Some dev) p)) /\
  (forall config, after_call dev (RelaconDeviceWatchdogSet (Some dev) config)) /\
  (forall p, after_call dev (RelaconDeviceWatchdogGet indeterminate (Some dev) p)) /\
  (forall cmd, after_call dev (RelaconDeviceRawWrite (Some dev) cmd)) /\
  (forall buf len timeout,
      after_call dev (RelaconDeviceRawRead (Some dev) buf len timeout)).
Proof.
  intros Hbuf.
  pose proof (one_exchange_refl dev Hbuf) as Hrefl.
  assert (forall text min max status1 status2 tmp dev1 dev2,
            WriteFormattedCmd dev text = (status1, dev1) ->
            ReadNumericResponse dev1 min max indeterminate =
              (status2, tmp, dev2) ->
            one_exchange dev dev2) as Hquery.
  { intros text min max status1 status2 tmp dev1 dev2 Hw Hr.
    pose proof (proj2 (query_discipline indeterminate dev text min max Hbuf))
      as H.
    rewrite Hw in H. simpl in H. rewrite Hr in H. exact H. }
  assert (forall text status dev1,
            WriteFormattedCmd dev text = (status, dev1) ->
            one_exchange dev dev1) as Hcmd.
  { intros text status dev1 Hw.
    pose proof (proj1 (WriteFormattedCmd_exchange dev text Hbuf)) as H.
    rewrite Hw in H. exact H. }
  assert (forall A (r : Result A), after_call dev (r, Some dev)) as Hsame.
  { intros A r. exists dev. split; [reflexivity | exact Hrefl]. }
  repeat split.
  - intros p. apply Hsame.
  - intros [|]; [apply Hsame |].
    unfold RelaconDeviceReadInputs. query.
  - intros relay assert. unfold RelaconDeviceSingleRelayWrite.
    destruct (_ >=? _); [apply Hsame |]. query.
  - intros relay p. unfold RelaconDeviceSingleRelayRead.
    destruct (_ >=? _); [apply Hsame |]. query.
  - intros val. unfold RelaconDeviceRelaysWrite. query.
  - intros p. unfold RelaconDeviceRelaysRead. query.
  - intros counter clear [|]; [apply Hsame |].
    unfold RelaconDeviceEventCounterGet.
    destruct (_ >=? _); [apply Hsame |]. query.
  - intros config. unfold RelaconDeviceEventCounterDebounceSet.
    destruct (_ || _); [apply Hsame |]. query.
  - intros [|]; [apply Hsame |].
    unfold RelaconDeviceEventCounterDebounceGet. query.
  - intros config. unfold RelaconDeviceWatchdogSet.
    destruct (_ || _); [apply Hsame |]. query.
  - intros [|]; [apply Hsame |].
    unfold RelaconDeviceWatchdogGet. query.
  - intros [cmd |]; [| apply Hsame].
    unfold RelaconDeviceRawWrite.
    destruct (_ <? _)%nat; [apply Hsame |].
    match goal with
    | |- context [WriteReport ?d] =>
        assert (report_buffer_ok d) as Hok;
        [| pose proof (WriteReport_exchange d Hok) as Hx;
           destruct (WriteReport d) as [status dev1] eqn:Hw ]
    end.
    { unfold report_buffer_ok. simpl.
      now rewrite length_write_at, length_insert. }
    exists dev1. split; [reflexivity |].
    destruct Hx as ((l & Hs & Hl & Hf) & Hrx & Hok1 & Hi).
    split; [exists l; auto |]. auto.
  - intros [buf |] len timeout; [| apply Hsame].
    unfold RelaconDeviceRawRead.
    pose proof (proj1 (ReadReport_exchange dev timeout Hbuf)) as Hx.
    destruct (ReadReport dev timeout) as [status dev1].
    destruct (decide _); exists dev1; (split; [reflexivity | exact Hx]).
Qed.

End OperationsDiscipline.

Lemma public_operations_one_exchange_witness :
  report_buffer_ok (sample_device HIDAPI []) /\
  after_call (sample_device HIDAPI [])
    (RelaconDeviceRelaysWrite (Some (sample_device HIDAPI [])) 37) /\
  after_call (sample_device HIDAPI [])
    (RelaconDeviceWatchdogGet 0 (Some (sample_device HIDAPI [])) PTR).
Proof.
  pose proof (public_operations_one_exchange 0 (sample_device HIDAPI [])
                eq_refl)
    as (_ & _ & _ & _ & Hw & _ & _ & _ & _ & _ & Hg & _).
  split; [reflexivity |]. split; [apply Hw | apply Hg].
Defined.

Section RawPair.

Lemma strlen_no_NUL (s t : list byte) :
  0 ∉ s -> strlen (s ++ 0 :: t) = length s.
Proof.
  induction s as [| c s IH]; intros H; [reflexivity |].
  simpl. destruct (Z.eqb_spec c 0) as [-> | _].
  - exfalso. apply H. left.
  - f_equal. apply IH. intros Hin. apply H. now right.
Qed.

Lemma cstr_no_NUL_app (s t : list byte) :
  0 ∉ s -> cstr (s ++ 0 :: t) = s.
Proof.
  intros H. unfold cstr. rewrite strlen_no_NUL by exact H.
  apply take_app_length.
Qed.

Lemma cstr_cstr (s : list byte) (t : list byte) :
  cstr (cstr s ++ 0 :: t) = cstr s.
Proof. apply cstr_no_NUL_app, cstr_no_NUL. Qed.

(** What [strncpy(buf, src, len)] leaves in a buffer that has [len] bytes,
    when the string at [src] is [text]. *)
Lemma strncpy_text (buf text rest : list byte) (len : nat) :
  0 ∉ text -> (len <= length buf)%nat ->
  strncpy buf (text ++ 0 :: rest) len =
    take len text ++ replicate (len - length text) 0 ++ drop len buf.
Proof.
  intros Htext Hlen. unfold strncpy.
  rewrite write_at_fits by (rewrite length_strncpy_image; simpl; lia).
  rewrite length_strncpy_image. cbn [take app Nat.add].
  rewrite strncpy_image_eq, cstr_no_NUL_app, strlen_no_NUL by exact Htext.
  now rewrite <- app_assoc.
Qed.

(** Raw read of a session that receives the 8-byte report [r]. *)
Lemma RelaconDeviceRawRead_report (dev : RelaconDevice) (r buf : list byte)
    (q : list RxEvent) (len : nat) (timeout : Z) :
  report_buffer_ok dev ->
  rx_queue (bd_link (backendDevice dev)) = RxReport r :: q ->
  length r = REPORT_BUF_LEN ->
  exists dev',
    RelaconDeviceRawRead (Some dev) (Some buf) len timeout =
      (Returned RELACON_STATUS_SUCCESS
         (Some (strncpy buf (drop 1 r ++ trailing dev) len)), Some dev') /\
    rx_queue (bd_link (backendDevice dev')) = q /\ sent dev' = sent dev.
Proof.
  intros Hbuf Hq Hr.
  destruct (ReadReport_report dev r q timeout Hbuf Hq Hr)
    as (dev' & Hread & Hrb & Htr & _ & Hsent & Hrx).
  exists dev'. split; [| auto].
  unfold RelaconDeviceRawRead. rewrite Hread.
  destruct (decide _) as [_ | Hx]; [| congruence].
  now rewrite Hrb, Htr.
Qed.

Lemma length_report_of (text : list byte) :
  (length text <= 7)%nat -> length (report_of text) = REPORT_BUF_LEN.
Proof.
  intros H. unfold report_of. simpl. rewrite length_app, length_replicate.
  unfold REPORT_BUF_LEN, REPORT_DATA_LEN. lia.
Qed.

(** The data bytes of the report that carries a short text, and what lies
    behind them. *)
Lemma payload_report_of (text rest : list byte) :
  (length text <= 6)%nat ->
  drop 1 (report_of text) ++ rest =
    text ++ 0 :: (replicate (6 - length text) 0 ++ rest).
Proof.
  intros H. unfold report_of. cbn [drop]. rewrite drop_0.
  replace (7 - length text)%nat with (S (6 - length text)) by lia.
  cbn [replicate]. now rewrite <- app_assoc.
Qed.

(** X11: [RelaconDeviceRawRead] of a report whose text has at most six
    characters (so that its seven data bytes end in a zero byte) copies
    the text into the first [len] bytes of the caller's buffer: the text
    cut to [len] characters, then zero bytes up to [len]; the rest of the
    buffer is left alone, and nothing is sent.  A text of [len] characters
    or more is stored without a terminating zero byte. *)
Theorem RelaconDeviceRawRead_copies (dev : RelaconDevice)
    (text buf : list byte) (q : list RxEvent) (len : nat) (timeout : Z) :
  report_buffer_ok dev ->
  rx_queue (bd_link (backendDevice dev)) = RxReport (report_of text) :: q ->
  0 ∉ text -> (length text <= 6)%nat -> (len <= length buf)%nat ->
  exists dev',
    RelaconDeviceRawRead (Some dev) (Some buf) len timeout =
      (Returned RELACON_STATUS_SUCCESS
         (Some (take len text ++ replicate (len - length text) 0 ++
                drop len buf)),
       Some dev') /\
    rx_queue (bd_link (backendDevice dev')) = q /\ sent dev' = sent dev.
Proof.
  intros Hbuf Hq Htext Hl Hlen.
  destruct (RelaconDeviceRawRead_report dev (report_of text) buf q len
              timeout Hbuf Hq) as (dev' & Hr & Hrest);
    [apply length_report_of; lia |].
  exists dev'. split; [| exact Hrest].
  rewrite Hr, payload_report_of, strncpy_text by assumption. reflexivity.
Qed.

Lemma RelaconDeviceRawRead_copies_witness :
  exists dev',
    RelaconDeviceRawRead
      (Some (sample_device LIBUSB [RxReport [1; 50; 53; 53; 0; 0; 0; 0]]))
      (Some [9; 9; 9; 9; 9; 9]) 5 100 =
      (Returned RELACON_STATUS_SUCCESS (Some [50; 53; 53; 0; 0; 9]),
       Some dev') /\
    rx_queue (bd_link (backendDevice dev')) = [] /\ sent dev' = [].
Proof.
  apply (RelaconDeviceRawRead_copies
           (sample_device LIBUSB [RxReport [1; 50; 53; 53; 0; 0; 0; 0]])
           [50; 53; 53] [9; 9; 9; 9; 9; 9] [] 5 100);
    [reflexivity | reflexivity | | simpl; lia | simpl; lia].
  intros H. repeat (apply elem_of_cons in H; destruct H as [H | H];
                    [discriminate |]).
  apply elem_of_nil in H. exact H.
Defined.

(** X12: a command of at most six characters written with
    [RelaconDeviceRawWrite] goes out as one report, and when a device
    sends that report back, [RelaconDeviceRawRead] into a buffer with more
    room than the command is long gives back the command. *)
Theorem raw_write_read_round_trip (dev : RelaconDevice) (cmd : list byte) :
  report_buffer_ok dev -> (strlen cmd <= 6)%nat ->
  exists status dev1 r,
    RelaconDeviceRawWrite (Some dev) (Some cmd) =
      (Returned status None, Some dev1) /\
    sent dev1 = sent dev ++ [r] /\
    forall (dev2 : RelaconDevice) (q : list RxEvent) (buf : list byte)
           (len : nat) (timeout : Z),
      report_buffer_ok dev2 ->
      rx_queue (bd_link (backendDevice dev2)) = RxReport r :: q ->
      (strlen cmd < len <= length buf)%nat ->
      exists out dev3,
        RelaconDeviceRawRead (Some dev2) (Some buf) len timeout =
          (Returned RELACON_STATUS_SUCCESS (Some out), Some dev3) /\
        cstr out = cstr cmd.
Proof.
  intros Hbuf Hlen. unfold RelaconDeviceRawWrite.
  destruct (Nat.ltb_spec REPORT_DATA_LEN (strlen cmd)) as [H | _];
    [unfold REPORT_DATA_LEN in H; lia |].
  unfold WriteReport, BackendDeviceWriteReport, failed. simpl.
  eexists _, _, _. split; [reflexivity |]. unfold sent. simpl.
  rewrite report_image by (auto using length_strncpy_image).
  rewrite strncpy_image_eq.
  rewrite take_ge by (rewrite length_cstr; unfold REPORT_DATA_LEN; lia).
  split; [reflexivity |].
  intros dev2 q buf len timeout Hbuf2 Hq [Hl1 Hl2].
  unfold REPORT_DATA_LEN in Hq. rewrite <- (length_cstr cmd) in Hq.
  fold (report_of (cstr cmd)) in Hq.
  pose proof (length_cstr cmd) as Hc.
  destruct (RelaconDeviceRawRead_report dev2 (report_of (cstr cmd)) buf q
              len timeout Hbuf2 Hq) as (dev3 & Hr & _);
    [apply length_report_of; lia |].
  eexists _, dev3. split; [exact Hr |].
  rewrite payload_report_of by lia.
  rewrite strncpy_text by (auto using cstr_no_NUL).
  rewrite take_ge by lia.
  replace (len - length (cstr cmd))%nat
    with (S (len - length (cstr cmd) - 1)) by lia.
  cbn [replicate app]. apply cstr_cstr.
Qed.

Lemma raw_write_read_round_trip_witness :
  exists out dev3,
    RelaconDeviceRawRead
      (Some (sample_device HIDAPI [RxReport [1; 82; 80; 75; 51; 0; 0; 0]]))
      (Some (replicate 8 9)) 8 0 =
      (Returned RELACON_STATUS_SUCCESS (Some out), Some dev3) /\
    cstr out = bytes_of_string "RPK3".
Proof.
  destruct (raw_write_read_round_trip (sample_device HIDAPI [])
              (bytes_of_string "RPK3"))
    as (status & dev1 & r & Hw & Hs & Hall); [reflexivity | simpl; lia |].
  vm_compute in Hw. injection Hw as _ <-. vm_compute in Hs.
  injection Hs as <-.
  apply (Hall (sample_device HIDAPI [RxReport [1; 82; 80; 75; 51; 0; 0; 0]])
           [] (replicate 8 9) 8%nat 0);
    [reflexivity | reflexivity | simpl; lia].
Defined.

End RawPair.

Section HeapRoundTrips.

(** Freeing everything that was allocated since [m] gives back the blocks
    of [m]. *)
Lemma release_all (m m' mf : Memory) (s : list addr) :
  mem_ok m -> only_grew m m' s ->
  (forall a, blocks mf !! a =
             if decide (a ∈ s) then None else blocks m' !! a) ->
  blocks mf = blocks m.
Proof.
  intros Hok (_ & _ & Hfresh & Hsame) Hf. apply map_eq. intros a.
  rewrite Hf. destruct (decide (a ∈ s)) as [Hin | Hout].
  - symmetry. apply Hok. rewrite Forall_forall in Hfresh.
    specialize (Hfresh a Hin). lia.
  - apply Hsame, Hout.
Qed.

Lemma libusb_BackendDeviceListCreate_Some (plat : Platform) (m m' : Memory)
    (status : RelaconStatus) (l : BackendDeviceList) :
  mem_ok m ->
  Libusb.BackendDeviceListCreate plat m = (status, Some l, m') ->
  status = RELACON_STATUS_SUCCESS /\ listCurrent l = listStart l /\
  only_grew m m' (list_addr l :: entries_addrs (listStart l)) /\
  Forall (entry_live m') (listStart l) /\
  map device (listStart l) = List.filter libusb_listable (attached plat).
Proof.
  intros Hok. unfold Libusb.BackendDeviceListCreate.
  destruct (malloc (Structure "BackendDeviceList") m) as [[a |] m1] eqn:Hm;
    [| discriminate].
  destruct (malloc_Some_grew _ _ _ _ Hok Hm) as (-> & Hg & _ & Hb).
  destruct (enumeration_fails plat); [discriminate |].
  assert (mem_ok m1) as Hok1 by apply Hg.
  pose proof (libusb_DeviceListEntriesCreate_spec plat m1 Hok1) as H.
  destruct (Libusb.DeviceListEntriesCreate plat m1) as [[st es] m2].
  destruct (decide (st = RELACON_STATUS_SUCCESS)) as [-> | Hne];
    [| discriminate].
  intros [= <- <- <-]. cbn [listStart listCurrent list_addr].
  destruct H as [Hbud [(_ & Hk & Hl & Hmap) | (Hc & _)]]; [| discriminate].
  split; [reflexivity |]. split; [reflexivity |]. split; [| auto].
  apply (only_grew_trans m m1 m2 [brk m] _ Hg Hk).
Qed.

(** What a failed [Libusb.BackendDeviceListCreate] leaves on the heap. *)
Lemma libusb_BackendDeviceListCreate_None (plat : Platform) (m m' : Memory)
    (status : RelaconStatus) :
  mem_ok m ->
  Libusb.BackendDeviceListCreate plat m = (status, None, m') ->
  mem_ok m' /\ (brk m <= brk m')%nat /\
  ((blocks m' = blocks m /\
    (status = RELACON_STATUS_ERROR_OUT_OF_MEMORY \/
     status = RELACON_STATUS_ERROR_INTERNAL /\ enumeration_fails plat = true))
   \/
   (blocks m' = <[brk m := Structure "BackendDeviceList"]> (blocks m) /\
    status = RELACON_STATUS_ERROR_OUT_OF_MEMORY /\
    enumeration_fails plat = false)) /\
  (budget m = [] -> enumeration_fails plat = true).
Proof.
  intros Hok. unfold Libusb.BackendDeviceListCreate.
  destruct (malloc (Structure "BackendDeviceList") m) as [[a |] m1] eqn:Hm.
  - destruct (malloc_Some_grew _ _ _ _ Hok Hm) as (-> & Hg & Hlive & Hb).
    destruct (enumeration_fails plat) eqn:Hen.
    + intros [= <- <-].
      assert (only_grew m (free (Some (brk m)) m1) []) as Hg'.
      { apply (frees_grew m m1 _ [brk m] [] [brk m] Hok Hg);
          [apply brk_free
          | intros x; rewrite blocks_free; reflexivity
          | auto | intros x Hx; now right
          | intros x Hx; now apply not_elem_of_nil in Hx]. }
      split; [apply Hg' |]. split; [apply Hg' |]. split; [| auto].
      left. split; [| auto].
      apply (release_all m (free (Some (brk m)) m1) _ [] Hok Hg').
      intros x. rewrite decide_False by apply not_elem_of_nil. reflexivity.
    + assert (mem_ok m1) as Hok1 by apply Hg.
      pose proof (libusb_DeviceListEntriesCreate_spec plat m1 Hok1) as H.
      destruct (Libusb.DeviceListEntriesCreate plat m1) as [[st es] m2].
      destruct (decide (st = RELACON_STATUS_SUCCESS)) as [-> | Hne];
        [discriminate |].
      intros [= <- <-].
      destruct H as [Hbud [(Hc & _) | (-> & Hk)]]; [contradiction |].
      pose proof (only_grew_trans m m1 m2 [brk m] [] Hg Hk) as Hg2.
      split; [apply Hg2 |]. split; [apply Hg2 |]. split.
      * right. split; [| auto]. apply map_eq. intros x.
        destruct (decide (x = brk m)) as [-> | Hx].
        -- rewrite lookup_insert_eq.
           destruct Hk as (_ & _ & _ & Hsame).
           rewrite Hsame by apply not_elem_of_nil. exact Hlive.
        -- rewrite lookup_insert_ne by congruence.
           destruct Hg2 as (_ & _ & _ & Hsame). apply Hsame.
           rewrite app_nil_r. intros Hin. apply list_elem_of_singleton in Hin.
           contradiction.
      * intros Hb0. exfalso. apply Hbud; [| reflexivity].
        now rewrite Hb, Hb0.
  - destruct (malloc_None_grew _ _ _ Hok Hm) as (Hg & Hb).
    intros [= <- <-]. split; [apply Hg |]. split; [apply Hg |]. split.
    + left. split; [| auto].
      apply (release_all m m1 m1 [] Hok Hg).
      intros x. rewrite decide_False by apply not_elem_of_nil. reflexivity.
    + intros Hb0. rewrite Hb0 in Hb. discriminate.
Qed.

End HeapRoundTrips.

Section LibusbListingHeap.

Lemma libusb_RelaconDeviceListCreate_Some (plat : Platform) (m m' : Memory)
    (devList : RelaconDeviceList) :
  mem_ok m ->
  RelaconDeviceListCreate LIBUSB plat m = (Some devList, m') ->
  let l := backendDeviceList devList in
  listCurrent l = listStart l /\
  only_grew m m'
    (rdl_addr devList :: list_addr l :: entries_addrs (listStart l)) /\
  Forall (entry_live m') (listStart l) /\
  map device (listStart l) = List.filter libusb_listable (attached plat).
Proof.
  intros Hok. unfold RelaconDeviceListCreate.
  destruct (malloc (Structure "RelaconDeviceList") m) as [[a |] m1] eqn:Hm;
    [| discriminate].
  destruct (malloc_Some_grew _ _ _ _ Hok Hm) as (-> & Hg & _ & Hb).
  assert (mem_ok m1) as Hok1 by apply Hg.
  cbn [BackendDeviceListCreate].
  destruct (Libusb.BackendDeviceListCreate plat m1) as [[st [l |]] m2] eqn:Hl;
    [| discriminate].
  destruct (libusb_BackendDeviceListCreate_Some plat m1 m2 st l Hok1 Hl)
    as (-> & Hcur & Hk & Hlive & Hmap).
  rewrite decide_True by reflexivity. intros [= <- <-].
  cbn [backendDeviceList rdl_addr].
  split; [exact Hcur |]. split; [| auto].
  apply (only_grew_trans m m1 m2 [brk m] _ Hg Hk).
Qed.

(** X13: with libusb, a listing that [RelaconDeviceListCreate] returned
    holds, of the devices attached, those that are supported, can be
    opened and have no string descriptor that cannot be read, in the order
    of the enumeration, each with a live entry in the heap, and
    [RelaconDeviceListDestroy] succeeds and gives back every block the
    listing took, wherever the cursor stands. *)
Theorem libusb_listing_round_trip (plat : Platform) (m m' : Memory)
    (devList : RelaconDeviceList) (cursor : list BackendDeviceListEntry) :
  mem_ok m ->
  RelaconDeviceListCreate LIBUSB plat m = (Some devList, m') ->
  let l := backendDeviceList devList in
  let moved :=
    {| rdl_addr := rdl_addr devList;
       backendDeviceList :=
         {| list_addr := list_addr l; listStart := listStart l;
            listCurrent := cursor |} |} in
  map device (listStart l) = List.filter libusb_listable (attached plat) /\
  Forall (entry_live m') (listStart l) /\
  RelaconDeviceListDestroy LIBUSB moved m' =
    (RELACON_STATUS_SUCCESS, (RelaconDeviceListDestroy LIBUSB moved m').2) /\
  blocks (RelaconDeviceListDestroy LIBUSB moved m').2 = blocks m.
Proof.
  intros Hok Hc l moved.
  destruct (libusb_RelaconDeviceListCreate_Some plat m m' devList Hok Hc)
    as (_ & Hg & Hlive & Hmap).
  split; [exact Hmap |]. split; [exact Hlive |]. split; [reflexivity |].
  apply (release_all m m' _ _ Hok Hg).
  intros a. apply (blocks_RelaconDeviceListDestroy LIBUSB moved m' a).
Qed.

Lemma libusb_listing_round_trip_witness :
  exists devList m',
    RelaconDeviceListCreate LIBUSB sample_platform empty_memory =
      (Some devList, m') /\
    map device (listStart (backendDeviceList devList)) = [adu218; adu218_b] /\
    blocks (RelaconDeviceListDestroy LIBUSB devList m').2 = ∅.
Proof.
  destruct (RelaconDeviceListCreate LIBUSB sample_platform empty_memory)
    as [[devList |] m'] eqn:E; [| vm_compute in E; discriminate].
  exists devList, m'. split; [reflexivity |].
  destruct (libusb_listing_round_trip sample_platform empty_memory m' devList
              (listCurrent (backendDeviceList devList)) (mem_ok_empty _) E)
    as (Hmap & _ & _ & Hb).
  split; [rewrite Hmap; vm_compute; reflexivity |].
  destruct devList as [a [b s c]]. exact Hb.
Defined.

(** X14: with libusb, when [RelaconDeviceListCreate] returns NULL the heap
    is either as before or holds one more block, the list structure of the
    backend, which is lost when the entries cannot be created after a
    successful enumeration.  With an allocator that never fails the only
    cause of NULL is a failed enumeration, and then nothing is lost. *)
Theorem libusb_listing_failure_heap (plat : Platform) (m m' : Memory) :
  mem_ok m ->
  RelaconDeviceListCreate LIBUSB plat m = (None, m') ->
  (blocks m' = blocks m \/
   blocks m' = <[S (brk m) := Structure "BackendDeviceList"]> (blocks m) /\
   enumeration_fails plat = false) /\
  (budget m = [] -> enumeration_fails plat = true /\ blocks m' = blocks m).
Proof.
  intros Hok. unfold RelaconDeviceListCreate.
  destruct (malloc (Structure "RelaconDeviceList") m) as [[a |] m1] eqn:Hm.
  - destruct (malloc_Some_grew _ _ _ _ Hok Hm) as (-> & Hg & Hlive & Hb).
    assert (mem_ok m1) as Hok1 by apply Hg.
    assert (brk m1 = S (brk m)) as Hbrk.
    { pose proof (malloc_cases (Structure "RelaconDeviceList") m)
        as [(mx & Hx & _) | (mx & Hx & _ & Hbx & _)];
        rewrite Hm in Hx; [discriminate |]. now injection Hx as ->. }
    cbn [BackendDeviceListCreate].
    destruct (Libusb.BackendDeviceListCreate plat m1) as [[st [l |]] m2] eqn:Hl.
    { destruct (libusb_BackendDeviceListCreate_Some plat m1 m2 st l Hok1 Hl)
        as (-> & _). rewrite decide_True by reflexivity. discriminate. }
    destruct (libusb_BackendDeviceListCreate_None plat m1 m2 st Hok1 Hl)
      as (Hok2 & Hle & Hcases & Hbud).
    intros [= <-].
    assert (forall x, blocks (free (Some (brk m)) m2) !! x =
                      if decide (x = brk m) then None else blocks m2 !! x)
      as Hfree.
    { intros x. rewrite blocks_free. unfold option_list, option_rect.
      destruct (decide (x = brk m)) as [-> | Hx].
      - rewrite decide_True by left. reflexivity.
      - rewrite decide_False; [reflexivity |].
        intros Hin. apply list_elem_of_singleton in Hin. contradiction. }
    assert (forall x, x <> brk m -> blocks m1 !! x = blocks m !! x) as Hm1.
    { intros x Hx. destruct Hg as (_ & _ & _ & Hsame). apply Hsame.
      intros Hin. apply list_elem_of_singleton in Hin. contradiction. }
    assert (blocks m !! brk m = None) as Hnone by (apply Hok; lia).
    assert (blocks m !! S (brk m) = None) as Hnone' by (apply Hok; lia).
    split.
    + destruct Hcases as [[Hsame _] | (Hleak & _ & Hen)].
      * left. apply map_eq. intros x. rewrite Hfree, Hsame.
        destruct (decide (x = brk m)) as [-> | Hx]; [now rewrite Hnone |].
        now apply Hm1.
      * right. split; [| exact Hen]. apply map_eq. intros x.
        rewrite Hfree, Hleak, Hbrk.
        destruct (decide (x = brk m)) as [-> | Hx].
        -- rewrite lookup_insert_ne by lia. now rewrite Hnone.
        -- destruct (decide (x = S (brk m))) as [-> | Hx'].
           ++ now rewrite !lookup_insert_eq.
           ++ rewrite !lookup_insert_ne by congruence. now apply Hm1.
    + intros Hb0.
      assert (enumeration_fails plat = true) as Hen
        by (apply Hbud; now rewrite Hb, Hb0).
      split; [exact Hen |].
      destruct Hcases as [[Hsame _] | (_ & _ & Hen')]; [| congruence].
      apply map_eq. intros x. rewrite Hfree, Hsame.
      destruct (decide (x = brk m)) as [-> | Hx]; [now rewrite Hnone |].
      now apply Hm1.
  - destruct (malloc_None_grew _ _ _ Hok Hm) as (Hg & Hb).
    intros [= <-].
    assert (blocks m1 = blocks m) as Hsame.
    { apply (release_all m m1 m1 [] Hok Hg).
      intros x. rewrite decide_False by apply not_elem_of_nil. reflexivity. }
    split; [now left |]. intros Hb0. rewrite Hb0 in Hb. discriminate.
Qed.

End LibusbListingHeap.

Lemma libusb_listing_failure_heap_witness :
  mem_ok tight_memory /\
  exists m',
    RelaconDeviceListCreate LIBUSB sample_platform tight_memory = (None, m') /\
    (blocks m' = blocks tight_memory \/
     blocks m' =
       <[S (brk tight_memory) := Structure "BackendDeviceList"]>
         (blocks tight_memory) /\
     enumeration_fails sample_platform = false).
Proof.
  split; [apply mem_ok_empty |].
  destruct (RelaconDeviceListCreate LIBUSB sample_platform tight_memory)
    as [[devList |] m'] eqn:E; [vm_compute in E; discriminate |].
  exists m'. split; [reflexivity |].
  apply (libusb_listing_failure_heap sample_platform tight_memory m'
           (mem_ok_empty _) E).
Defined.

Section SessionHeap.

Lemma release_all_equiv (m m' mf : Memory) (s s' : list addr) :
  mem_ok m -> only_grew m m' s -> (forall a, a ∈ s <-> a ∈ s') ->
  (forall a, blocks mf !! a =
             if decide (a ∈ s') then None else blocks m' !! a) ->
  blocks mf = blocks m.
Proof.
  intros Hok Hg Heq Hf.
  apply (release_all m m' mf s' Hok); [| exact Hf].
  eapply only_grew_equiv; eauto.
Qed.

Lemma BackendDeviceOpen_Some_grew (k : BackendKind) (h : option addr)
    (m m' : Memory) (status : RelaconStatus) (bd : BackendDevice) :
  mem_ok m -> BackendDeviceOpen k h m = (status, Some bd, m') ->
  only_grew m m' [bd_addr bd].
Proof.
  intros Hok.
  destruct k; cbn [BackendDeviceOpen];
    [unfold Hidapi.BackendDeviceOpen | unfold Libusb.BackendDeviceOpen];
    (destruct (h ≫= _) as [[c | d | t] |]; try discriminate);
    (destruct (malloc (Structure "BackendDevice") m) as [[b |] m1] eqn:Hm;
     [| discriminate]);
    destruct (malloc_Some_grew _ _ _ _ Hok Hm) as (-> & Hg & _).
  - destruct (openable d); [| discriminate]. now intros [= _ <- <-].
  - destruct (openable d); cbn [negb]; [| discriminate].
    destruct (claimable d); cbn [negb]; [| discriminate].
    now intros [= _ <- <-].
Qed.

Lemma copy_string_grew (p q : option addr) (m m' : Memory) :
  mem_ok m -> copy_string p m = (q, m') -> only_grew m m' (option_list q).
Proof.
  intros Hok. unfold copy_string, strdup. destruct p as [p0 |].
  2: { intros [= <- <-]. now apply only_grew_refl. }
  destruct (malloc _ m) as [[a |] m1] eqn:Hm; intros [= <- <-].
  - now destruct (malloc_Some_grew _ _ _ _ Hok Hm) as (-> & Hg & _).
  - now destruct (malloc_None_grew _ _ _ Hok Hm) as [Hg _].
Qed.

(** Closing a session frees its strings, its structure and the structure
    of the backend, and nothing else. *)
Lemma blocks_RelaconDeviceClose (dev : RelaconDevice) (m : Memory)
    (a : addr) :
  blocks (RelaconDeviceClose dev m).2 !! a =
    if decide (a ∈ info_strings (info dev) ++
                   [dev_addr dev; bd_addr (backendDevice dev)])
    then None else blocks m !! a.
Proof.
  unfold RelaconDeviceClose, BackendDeviceClose. cbn [snd].
  rewrite !blocks_free. unfold info_strings.
  repeat case_decide; try reflexivity; exfalso;
    repeat match goal with
           | H : context [_ ∈ _ ++ _] |- _ => rewrite elem_of_app in H
           end;
    unfold option_list, option_rect in *;
    repeat match goal with
           | H : context [_ ∈ _ :: _] |- _ => rewrite elem_of_cons in H
           | H : context [_ ∈ []] |- _ => rewrite elem_of_nil in H
           end; tauto.
Qed.

End SessionHeap.

Section HidapiExact.

Import Hidapi.

Lemma FetchString_grew (desc : StringDescriptor) (m : Memory) :
  mem_ok m -> convertible desc = true ->
  let '(_, p, m') := FetchString desc None m in
  only_grew m m' (option_list p).
Proof.
  intros Hok Hc. unfold FetchString.
  destruct desc as [| | s]; try (now apply only_grew_refl).
  cbv zeta. destruct (malloc _ m) as [[a |] m1] eqn:Hm.
  - destruct (malloc_Some_grew _ _ _ _ Hok Hm) as (-> & Hg & _).
    cbn [convertible] in Hc. apply bool_decide_eq_true in Hc.
    destruct Hc as [cs Hcs]. rewrite Hcs.
    apply poke_grew; [exact Hg | apply list_elem_of_here].
  - now destruct (malloc_None_grew _ _ _ Hok Hm) as [Hg _].
Qed.

Lemma DeviceInfoPopulate_grew (listEntry : addr) (d : UsbDevice)
    (capabilities : Capabilities.DeviceCapabilities) (m : Memory) :
  mem_ok m -> strings_convertible d = true ->
  let '(i, m') := DeviceInfoPopulate listEntry d capabilities m in
  only_grew m m' (info_strings i).
Proof.
  intros Hok Hc. unfold strings_convertible in Hc.
  apply andb_true_iff in Hc. destruct Hc as [Hc Hc3].
  apply andb_true_iff in Hc. destruct Hc as [Hc1 Hc2].
  unfold DeviceInfoPopulate.
  set (i0 := initial_info listEntry d capabilities).
  destruct (openable d); [| now apply only_grew_refl].
  pose proof (FetchString_grew (str_manufacturer d) m Hok Hc1) as H1.
  change (manufacturer i0) with (@None addr).
  destruct (FetchString (str_manufacturer d) None m) as [[st1 p1] m1].
  assert (mem_ok m1) as Hok1 by apply H1.
  pose proof (FetchString_grew (str_product d) m1 Hok1 Hc2) as H2.
  change (product (set_manufacturer i0 p1)) with (@None addr).
  destruct (FetchString (str_product d) None m1) as [[st2 p2] m2].
  assert (mem_ok m2) as Hok2 by apply H2.
  pose proof (FetchString_grew (str_serial d) m2 Hok2 Hc3) as H3.
  change (serialNum (set_product (set_manufacturer i0 p1) p2))
    with (@None addr).
  destruct (FetchString (str_serial d) None m2) as [[st3 p3] m3].
  pose proof (only_grew_trans _ _ _ _ _
                (only_grew_trans _ _ _ _ _ H1 H2) H3) as Hg.
  eapply only_grew_equiv; [| exact Hg].
  intros a. unfold info_strings.
  cbn [manufacturer product serialNum set_serialNum set_manufacturer
       set_product i0 initial_info].
  now rewrite <- app_assoc.
Qed.

End HidapiExact.

Section HidapiListingHeap.

Lemma hidapi_entries_loop_grew (plat : Platform)
    (hidapiDevInfo : list UsbDevice) (m0 : Memory) :
  mem_ok m0 ->
  Forall (fun d => strings_convertible d = true) hidapiDevInfo ->
  forall (linked : list BackendDeviceListEntry) (m : Memory),
    only_grew m0 m (entries_addrs linked) ->
    let '(status, linked', m') :=
      Hidapi.entries_loop plat hidapiDevInfo linked m in
    only_grew m0 m' (entries_addrs linked').
Proof.
  intros Hok0.
  induction hidapiDevInfo as [| d rest IH]; intros Hconv linked m Hg.
  - exact Hg.
  - apply Forall_cons in Hconv. destruct Hconv as [Hd Hrest].
    specialize (IH Hrest). cbn [Hidapi.entries_loop].
    destruct (capabilities_of d) as [capabilities |]; [| now apply IH].
    destruct (Hidapi.IsPotentialRelaconDevice plat d); cbn [negb];
      [| now apply IH].
    assert (mem_ok m) as Hok by apply Hg.
    destruct (malloc (EntryBlock d) m) as [[a |] m1] eqn:Hm.
    2: { destruct (malloc_None_grew _ _ _ Hok Hm) as [Hg1 _].
         pose proof (only_grew_trans _ _ _ _ _ Hg Hg1) as H.
         now rewrite app_nil_r in H. }
    destruct (malloc_Some_grew _ _ _ _ Hok Hm) as (-> & Hg1 & _).
    assert (mem_ok m1) as Hok1 by apply Hg1.
    pose proof (DeviceInfoPopulate_grew (brk m) d capabilities m1 Hok1 Hd)
      as Hp.
    destruct (Hidapi.DeviceInfoPopulate (brk m) d capabilities m1) as [i m2].
    apply IH. rewrite entries_addrs_app.
    eapply only_grew_equiv;
      [| exact (only_grew_trans _ _ _ _ _
                  (only_grew_trans _ _ _ _ _ Hg Hg1) Hp)].
    intros x.
    change (entries_addrs [{| entry_addr := brk m; devInfo := i;
                              device := d |}])
      with ((info_strings i ++ [brk m]) ++ []).
    repeat rewrite ?elem_of_app, ?elem_of_cons, ?elem_of_nil. tauto.
Qed.

Lemma hidapi_DeviceListEntriesCreate_grew (plat : Platform) (m : Memory) :
  mem_ok m ->
  Forall (fun d => strings_convertible d = true) (attached plat) ->
  let '(status, entries, m') := Hidapi.DeviceListEntriesCreate plat m in
  if decide (status = RELACON_STATUS_SUCCESS)
  then only_grew m m' (entries_addrs entries)
  else only_grew m m' [].
Proof.
  intros Hok Hconv. unfold Hidapi.DeviceListEntriesCreate.
  pose proof (hidapi_entries_loop_grew plat (attached plat) m Hok Hconv [] m
                (only_grew_refl m Hok)) as H.
  destruct (Hidapi.entries_loop plat (attached plat) [] m)
    as [[status linked] m1].
  destruct (decide (status = RELACON_STATUS_SUCCESS)) as [-> | Hne].
  - rewrite decide_True by reflexivity. exact H.
  - rewrite decide_False by exact Hne.
    apply (frees_grew m m1 _ (entries_addrs linked) []
             (entries_addrs linked) Hok H);
      [apply brk_DeviceListEntriesDestroy
      | intros x; apply blocks_DeviceListEntriesDestroy | auto | auto
      | intros x Hx; now apply not_elem_of_nil in Hx].
Qed.

Lemma only_grew_nil_blocks (m m' : Memory) :
  mem_ok m -> only_grew m m' [] -> blocks m' = blocks m.
Proof.
  intros Hok Hg. apply (release_all m m' m' [] Hok Hg).
  intros x. rewrite decide_False by apply not_elem_of_nil. reflexivity.
Qed.

Lemma free_fresh_grew (m m' : Memory) (a : addr) (s : list addr) :
  mem_ok m -> only_grew m m' (a :: s) -> a ∉ s ->
  only_grew m (free (Some a) m') s.
Proof.
  intros Hok Hg Hout.
  apply (frees_grew m m' _ (a :: s) s [a] Hok Hg);
    [apply brk_free | intros x; rewrite blocks_free; reflexivity | | |].
  - intros x Hx. apply list_elem_of_singleton in Hx. subst. left.
  - intros x Hx. apply elem_of_cons in Hx as [-> | Hx]; [right; left | now left].
  - intros x Hx. now right.
Qed.

Lemma hidapi_BackendDeviceListCreate_grew (plat : Platform) (m : Memory) :
  mem_ok m ->
  Forall (fun d => strings_convertible d = true) (attached plat) ->
  let '(status, r, m') := Hidapi.BackendDeviceListCreate plat m in
  match r with
  | Some l =>
      only_grew m m' (list_addr l :: entries_addrs (listStart l))
  | None => only_grew m m' []
  end.
Proof.
  intros Hok Hconv. unfold Hidapi.BackendDeviceListCreate.
  destruct (malloc (Structure "BackendDeviceList") m) as [[a |] m1] eqn:Hm.
  2: { now destruct (malloc_None_grew _ _ _ Hok Hm) as [Hg _]. }
  destruct (malloc_Some_grew _ _ _ _ Hok Hm) as (-> & Hg & _).
  assert (mem_ok m1) as Hok1 by apply Hg.
  destruct (_ || _).
  { apply free_fresh_grew; [exact Hok | exact Hg | apply not_elem_of_nil]. }
  pose proof (hidapi_DeviceListEntriesCreate_grew plat m1 Hok1 Hconv) as H.
  destruct (Hidapi.DeviceListEntriesCreate plat m1) as [[st es] m2].
  destruct (decide (st = RELACON_STATUS_SUCCESS)) as [-> | Hne].
  - cbn [list_addr listStart].
    apply (only_grew_trans m m1 m2 [brk m] _ Hg H).
  - pose proof (only_grew_trans m m1 m2 [brk m] [] Hg H) as Hg2.
    apply free_fresh_grew; [exact Hok | exact Hg2 | apply not_elem_of_nil].
Qed.

Lemma hidapi_RelaconDeviceListCreate_grew (plat : Platform) (m : Memory) :
  mem_ok m ->
  Forall (fun d => strings_convertible d = true) (attached plat) ->
  let '(r, m') := RelaconDeviceListCreate HIDAPI plat m in
  match r with
  | Some devList =>
      only_grew m m'
        (rdl_addr devList :: list_addr (backendDeviceList devList) ::
         entries_addrs (listStart (backendDeviceList devList)))
  | None => blocks m' = blocks m
  end.
Proof.
  intros Hok Hconv. unfold RelaconDeviceListCreate.
  destruct (malloc (Structure "RelaconDeviceList") m) as [[a |] m1] eqn:Hm.
  2: { destruct (malloc_None_grew _ _ _ Hok Hm) as [Hg _].
       now apply only_grew_nil_blocks. }
  destruct (malloc_Some_grew _ _ _ _ Hok Hm) as (-> & Hg & _).
  assert (mem_ok m1) as Hok1 by apply Hg.
  cbn [BackendDeviceListCreate].
  pose proof (hidapi_BackendDeviceListCreate_grew plat m1 Hok1 Hconv) as H.
  destruct (Hidapi.BackendDeviceListCreate plat m1) as [[st [l |]] m2] eqn:Hl.
  - destruct (BackendDeviceListCreate_Some HIDAPI plat m1 m2 st l Hok1 Hl)
      as (-> & _).
    rewrite decide_True by reflexivity. cbn [rdl_addr backendDeviceList].
    apply (only_grew_trans m m1 m2 [brk m] _ Hg H).
  - apply only_grew_nil_blocks; [exact Hok |].
    pose proof (only_grew_trans m m1 m2 [brk m] [] Hg H) as Hg2.
    apply free_fresh_grew; [exact Hok | exact Hg2 | apply not_elem_of_nil].
Qed.

(** X16: with hidapi, when the strings of all devices attached can be
    converted, a listing that [RelaconDeviceListCreate] returned holds the
    listable devices in the order of the enumeration, and
    [RelaconDeviceListDestroy] gives back every block it took, wherever
    the cursor stands; when NULL is returned the heap is as before. *)
Theorem hidapi_listing_round_trip (plat : Platform) (m : Memory) :
  mem_ok m ->
  Forall (fun d => strings_convertible d = true) (attached plat) ->
  match RelaconDeviceListCreate HIDAPI plat m with
  | (Some devList, m') =>
      map device (listStart (backendDeviceList devList)) =
        List.filter (hidapi_listable plat) (attached plat) /\
      forall cursor,
        blocks (RelaconDeviceListDestroy HIDAPI
                  {| rdl_addr := rdl_addr devList;
                     backendDeviceList :=
                       {| list_addr := list_addr (backendDeviceList devList);
                          listStart := listStart (backendDeviceList devList);
                          listCurrent := cursor |} |} m').2 = blocks m
  | (None, m') => blocks m' = blocks m
  end.
Proof.
  intros Hok Hconv.
  pose proof (hidapi_RelaconDeviceListCreate_grew plat m Hok Hconv) as H.
  destruct (RelaconDeviceListCreate HIDAPI plat m) as [[devList |] m'] eqn:Hc;
    [| exact H].
  split.
  - revert Hc. unfold RelaconDeviceListCreate.
    destruct (malloc (Structure "RelaconDeviceList") m) as [[a |] m1] eqn:Hm;
      [| discriminate].
    destruct (malloc_Some_grew _ _ _ _ Hok Hm) as (_ & Hg & _).
    assert (mem_ok m1) as Hok1 by apply Hg.
    cbn [BackendDeviceListCreate]. unfold Hidapi.BackendDeviceListCreate.
    destruct (malloc (Structure "BackendDeviceList") m1) as [[b |] m2] eqn:Hm2;
      [| discriminate].
    destruct (malloc_Some_grew _ _ _ _ Hok1 Hm2) as (_ & Hg2 & _).
    assert (mem_ok m2) as Hok2 by apply Hg2.
    destruct (_ || _); [discriminate |].
    pose proof (hidapi_DeviceListEntriesCreate_spec plat m2 Hok2) as Hs.
    destruct (Hidapi.DeviceListEntriesCreate plat m2) as [[st es] m3].
    destruct (decide (st = RELACON_STATUS_SUCCESS)) as [-> | Hne];
      [| discriminate].
    rewrite decide_True by reflexivity. intros [= <- <-].
    cbn [backendDeviceList listStart].
    destruct Hs as [_ [(_ & _ & _ & _ & Hmap) | (Hx & _)]];
      [exact Hmap | discriminate].
  - intros cursor. apply (release_all m m' _ _ Hok H).
    intros a.
    match goal with
    | |- blocks (RelaconDeviceListDestroy _ ?dl _).2 !! _ = _ =>
        apply (blocks_RelaconDeviceListDestroy HIDAPI dl m' a)
    end.
Qed.

End HidapiListingHeap.

Lemma hidapi_listing_round_trip_witness :
  mem_ok empty_memory /\
  Forall (fun d => strings_convertible d = true) (attached sample_platform) /\
  exists devList m',
    RelaconDeviceListCreate HIDAPI sample_platform empty_memory =
      (Some devList, m') /\
    map device (listStart (backendDeviceList devList)) =
      [busy_adu208; adu218; adu218_b] /\
    blocks (RelaconDeviceListDestroy HIDAPI devList m').2 = ∅.
Proof.
  split; [apply mem_ok_empty |].
  assert (Forall (fun d => strings_convertible d = true)
            (attached sample_platform)) as Hconv by repeat constructor.
  split; [exact Hconv |].
  pose proof (hidapi_listing_round_trip sample_platform empty_memory
                (mem_ok_empty _) Hconv) as H.
  destruct (RelaconDeviceListCreate HIDAPI sample_platform empty_memory)
    as [[devList |] m'] eqn:E; [| vm_compute in E; discriminate].
  exists devList, m'. split; [reflexivity |].
  destruct H as [Hmap Hb]. split; [rewrite Hmap; vm_compute; reflexivity |].
  destruct devList as [a [b s c]]. apply (Hb c).
Defined.

Section OpenCloseHeap.

Variable fresh_reportBuf : list byte.
Variable layout : RelaconDeviceInfo -> list byte.

Lemma FindFirstMatchingDevice_list (m : Memory) (devList : BackendDeviceList)
    (vid' pid' : Z) (serialNum' : option (list byte)) :
  let l := (FindFirstMatchingDevice m devList vid' pid' serialNum').2 in
  listStart l = listStart devList /\ list_addr l = list_addr devList.
Proof.
  unfold FindFirstMatchingDevice.
  pose proof (find_loop_spec m vid' pid' serialNum'
                (S (length (listCurrent devList))) devList
                (Nat.lt_succ_diag_r _)) as H.
  destruct (find_loop _ _ _ _ _ _) as [r l']. cbn [snd].
  destruct H as (H1 & H2 & _). auto.
Qed.

(** A session was opened from a listing whose creation left exactly what
    the listing owns on the heap: closing it gives back the heap as it was
    before the opening. *)
Lemma open_close_heap (k : BackendKind) (plat : Platform) (vid' pid' : Z)
    (serialNum' : option (list byte)) (m m' : Memory) (dev : RelaconDevice) :
  mem_ok m ->
  (forall devList m1,
      RelaconDeviceListCreate k plat m = (Some devList, m1) ->
      only_grew m m1
        (rdl_addr devList :: list_addr (backendDeviceList devList) ::
         entries_addrs (listStart (backendDeviceList devList)))) ->
  RelaconDeviceOpen fresh_reportBuf layout k plat vid' pid' serialNum' m =
    (Some dev, m') ->
  blocks (RelaconDeviceClose dev m').2 = blocks m.
Proof.
  intros Hok Hlist Hopen.
  destruct (RelaconDeviceOpen_Some fresh_reportBuf layout k plat vid' pid'
              serialNum' m m' dev Hopen)
    as (devList & m1 & c & l & bd & m2 & a & m3 & p1 & m4 & p2 & m5 & p3 &
        m6 & Hc & Hfind & Hbo & Hma & Hc1 & Hc2 & Hc3 & -> & ->).
  pose proof (Hlist devList m1 Hc) as Hg1.
  assert (mem_ok m1) as Hok1 by apply Hg1.
  pose proof (BackendDeviceOpen_Some_grew k _ m1 m2 _ bd Hok1 Hbo) as Hg2.
  assert (mem_ok m2) as Hok2 by apply Hg2.
  destruct (malloc_Some_grew _ _ _ _ Hok2 Hma) as (_ & Hg3 & _).
  assert (mem_ok m3) as Hok3 by apply Hg3.
  pose proof (copy_string_grew _ _ _ _ Hok3 Hc1) as Hg4.
  assert (mem_ok m4) as Hok4 by apply Hg4.
  pose proof (copy_string_grew _ _ _ _ Hok4 Hc2) as Hg5.
  assert (mem_ok m5) as Hok5 by apply Hg5.
  pose proof (copy_string_grew _ _ _ _ Hok5 Hc3) as Hg6.
  pose proof (only_grew_trans _ _ _ _ _
                (only_grew_trans _ _ _ _ _
                   (only_grew_trans _ _ _ _ _
                      (only_grew_trans _ _ _ _ _
                         (only_grew_trans _ _ _ _ _ Hg1 Hg2) Hg3) Hg4) Hg5)
                Hg6) as Hg.
  pose proof (FindFirstMatchingDevice_list m1 (backendDeviceList devList)
                vid' pid' serialNum') as Hl.
  rewrite Hfind in Hl. cbn [snd] in Hl. destruct Hl as [Hl1 Hl2].
  eapply (release_all_equiv m m6 _ _ _ Hok Hg); [| intros x].
  2: { rewrite blocks_RelaconDeviceClose.
       rewrite blocks_RelaconDeviceListDestroy.
       cbn [info dev_addr backendDevice rdl_addr backendDeviceList].
       rewrite Hl1, Hl2.
       instantiate (1 :=
         (info_strings (set_serialNum (set_manufacturer (set_product c p1) p2)
                          p3) ++ [a; bd_addr bd]) ++
         (rdl_addr devList :: list_addr (backendDeviceList devList) ::
          entries_addrs (listStart (backendDeviceList devList)))).
       repeat case_decide; try reflexivity; exfalso;
         match goal with
         | H : _ ∉ (_ ++ _) ++ _ |- _ => rewrite elem_of_app in H
         | H : _ ∈ (_ ++ _) ++ _ |- _ => rewrite elem_of_app in H
         end; tauto. }
  intros x. unfold info_strings.
  cbn [manufacturer product serialNum set_serialNum set_manufacturer
       set_product].
  repeat rewrite ?elem_of_app, ?elem_of_cons, ?elem_of_nil. tauto.
Qed.

(** X15: a session that [RelaconDeviceOpen] returned and that is closed
    with [RelaconDeviceClose] leaves the heap with the blocks it held
    before the session was opened: the listing made for the search, the
    session, its backend structure and its copies of the strings are all
    freed.  With hidapi this needs the strings of the devices attached to
    be convertible. *)
Theorem open_close_round_trip (k : BackendKind) (plat : Platform)
    (vid' pid' : Z) (serialNum' : option (list byte)) (m m' : Memory)
    (dev : RelaconDevice) :
  mem_ok m ->
  (k = HIDAPI ->
   Forall (fun d => strings_convertible d = true) (attached plat)) ->
  RelaconDeviceOpen fresh_reportBuf layout k plat vid' pid' serialNum' m
    = (Some dev, m') ->
  RelaconDeviceClose dev m' =
    (RELACON_STATUS_SUCCESS, (RelaconDeviceClose dev m').2) /\
  blocks (RelaconDeviceClose dev m').2 = blocks m.
Proof.
  intros Hok Hconv Hopen. split; [reflexivity |].
  apply (open_close_heap k plat vid' pid' serialNum' m m' dev Hok);
    [| exact Hopen].
  intros devList m1 Hc. destruct k.
  - pose proof (hidapi_RelaconDeviceListCreate_grew plat m Hok
                  (Hconv eq_refl)) as H.
    rewrite Hc in H. exact H.
  - apply (libusb_RelaconDeviceListCreate_Some plat m m1 devList Hok Hc).
Qed.

End OpenCloseHeap.

Lemma open_close_round_trip_witness :
  exists dev m',
    RelaconDeviceOpen (replicate 8 0) (fun _ => []) HIDAPI sample_platform
      0 0 (Some (bytes_of_string "B07777")) empty_memory = (Some dev, m') /\
    blocks (RelaconDeviceClose dev m').2 = ∅.
Proof.
  destruct (RelaconDeviceOpen (replicate 8 0) (fun _ => []) HIDAPI
              sample_platform 0 0 (Some (bytes_of_string "B07777"))
              empty_memory) as [[dev |] m'] eqn:E;
    [| vm_compute in E; discriminate].
  exists dev, m'. split; [reflexivity |].
  apply (open_close_round_trip (replicate 8 0) (fun _ => []) HIDAPI
           sample_platform 0 0 (Some (bytes_of_string "B07777"))
           empty_memory m' dev (mem_ok_empty _));
    [intros _; repeat constructor | exact E].
Defined.

Section FailedOpen.

Variable fresh_reportBuf : list byte.
Variable layout : RelaconDeviceInfo -> list byte.

Lemma listing_grew (k : BackendKind) (plat : Platform) (m m1 : Memory)
    (devList : RelaconDeviceList) :
  mem_ok m ->
  (k = HIDAPI ->
   Forall (fun d => strings_convertible d = true) (attached plat)) ->
  RelaconDeviceListCreate k plat m = (Some devList, m1) ->
  only_grew m m1
    (rdl_addr devList :: list_addr (backendDeviceList devList) ::
     entries_addrs (listStart (backendDeviceList devList))).
Proof.
  intros Hok Hconv Hc. destruct k.
  - pose proof (hidapi_RelaconDeviceListCreate_grew plat m Hok
                  (Hconv eq_refl)) as H.
    rewrite Hc in H. exact H.
  - apply (libusb_RelaconDeviceListCreate_Some plat m m1 devList Hok Hc).
Qed.

Lemma first_match_unique {A : Type} (P : A -> Prop)
    (pre pre' post post' : list A) (e e' : A) :
  pre ++ e :: post = pre' ++ e' :: post' ->
  Forall (fun x => ~ P x) pre -> P e ->
  Forall (fun x => ~ P x) pre' -> P e' ->
  pre = pre' /\ e = e' /\ post = post'.
Proof.
  revert pre'. induction pre as [| x pre IH]; intros [| x' pre'] Heq Hp He Hp' He'.
  - now injection Heq as -> ->.
  - injection Heq as -> _. apply Forall_inv in Hp'. contradiction.
  - injection Heq as -> _. apply Forall_inv in Hp. contradiction.
  - injection Heq as -> Heq.
    apply Forall_cons in Hp as [_ Hp]. apply Forall_cons in Hp' as [_ Hp'].
    destruct (IH pre' Heq Hp He Hp' He') as (-> & -> & ->). auto.
Qed.

(** The search on a fresh listing whose first passing entry is [e]. *)
Lemma FindFirstMatchingDevice_first (m : Memory) (l : BackendDeviceList)
    (vid' pid' : Z) (serialNum' : option (list byte))
    (pre post : list BackendDeviceListEntry) (e : BackendDeviceListEntry) :
  listCurrent l = pre ++ e :: post ->
  Forall (no_match m vid' pid' serialNum') pre ->
  matches_filter m vid' pid' serialNum' (devInfo e) = true ->
  exists l',
    FindFirstMatchingDevice m l vid' pid' serialNum' =
      (Some (devInfo e), l') /\
    listStart l' = listStart l /\ list_addr l' = list_addr l.
Proof.
  intros Hcur Hpre He. unfold FindFirstMatchingDevice.
  pose proof (find_loop_spec m vid' pid' serialNum'
                (S (length (listCurrent l))) l (Nat.lt_succ_diag_r _)) as H.
  destruct (find_loop _ _ _ _ _ _) as [r l'].
  destruct H as (H1 & H2 & Hr). exists l'. split; [| auto]. f_equal.
  destruct r as [c |].
  - destruct Hr as (pre' & e' & post' & Hcur' & -> & Hpre' & He').
    rewrite Hcur in Hcur'.
    destruct (first_match_unique
                (fun x => matches_filter m vid' pid' serialNum' (devInfo x)
                          = true) pre pre' post post' e e' Hcur')
      as (_ & -> & _); auto.
    + eapply Forall_impl; [exact Hpre |]. unfold no_match. intros x Hx.
      congruence.
    + eapply Forall_impl; [exact Hpre' |]. unfold no_match. intros x Hx.
      congruence.
  - exfalso. rewrite Hcur in Hr. apply Forall_app in Hr as [_ Hr].
    apply Forall_inv in Hr. unfold no_match in Hr. congruence.
Qed.

(** X17: when no entry of the listing matches the filter,
    [RelaconDeviceOpen] returns NULL and the heap holds the blocks it held
    before.  With hidapi this needs the strings of the devices attached to
    be convertible, a string that is not being a block that the listing
    loses. *)
Theorem open_without_match_heap (k : BackendKind) (plat : Platform)
    (vid' pid' : Z) (serialNum' : option (list byte)) (m m1 : Memory)
    (devList : RelaconDeviceList) :
  mem_ok m ->
  (k = HIDAPI ->
   Forall (fun d => strings_convertible d = true) (attached plat)) ->
  RelaconDeviceListCreate k plat m = (Some devList, m1) ->
  Forall (no_match m1 vid' pid' serialNum')
    (listStart (backendDeviceList devList)) ->
  exists m',
    RelaconDeviceOpen fresh_reportBuf layout k plat vid' pid' serialNum' m =
      (None, m') /\
    blocks m' = blocks m.
Proof.
  intros Hok Hconv Hc Hnone.
  pose proof (listing_grew k plat m m1 devList Hok Hconv Hc) as Hg.
  destruct (RelaconDeviceListCreate_Some k plat m m1 devList Hok Hc)
    as (Hcur & _).
  unfold RelaconDeviceOpen. rewrite Hc.
  pose proof (find_loop_spec m1 vid' pid' serialNum'
                (S (length (listCurrent (backendDeviceList devList))))
                (backendDeviceList devList) (Nat.lt_succ_diag_r _)) as Hfind.
  fold (FindFirstMatchingDevice m1 (backendDeviceList devList)
          vid' pid' serialNum') in Hfind.
  destruct (FindFirstMatchingDevice m1 _ vid' pid' serialNum') as [[c |] l].
  - exfalso. destruct Hfind as (_ & _ & pre & e & post & He & -> & _ & Hm).
    rewrite Hcur in He. rewrite He in Hnone.
    apply Forall_app in Hnone as [_ Hnone]. apply Forall_inv in Hnone.
    unfold no_match in Hnone. congruence.
  - destruct Hfind as (Hl1 & Hl2 & _).
    eexists. split; [reflexivity |].
    apply (release_all m m1 _ _ Hok Hg). intros a.
    rewrite blocks_RelaconDeviceListDestroy.
    cbn [rdl_addr backendDeviceList]. now rewrite Hl1, Hl2.
Qed.

(** X18: when the first entry that matches the filter is a device that
    cannot be opened (hidapi) or whose interface cannot be claimed
    (libusb), [RelaconDeviceOpen] returns NULL and, memory not being short,
    exactly one block stays allocated: the structure of the backend
    device, which [BackendDeviceOpen] does not free on its failure path.
    With hidapi this needs the strings of the devices attached to be
    convertible (a string that is not is a further block lost). *)
Theorem open_busy_device_leaks (k : BackendKind) (plat : Platform)
    (vid' pid' : Z) (serialNum' : option (list byte)) (m m1 : Memory)
    (devList : RelaconDeviceList)
    (pre post : list BackendDeviceListEntry) (e : BackendDeviceListEntry) :
  mem_ok m -> budget m = [] ->
  (k = HIDAPI ->
   Forall (fun d => strings_convertible d = true) (attached plat)) ->
  RelaconDeviceListCreate k plat m = (Some devList, m1) ->
  listStart (backendDeviceList devList) = pre ++ e :: post ->
  Forall (no_match m1 vid' pid' serialNum') pre ->
  matches_filter m1 vid' pid' serialNum' (devInfo e) = true ->
  busy k (device e) = true ->
  exists m',
    RelaconDeviceOpen fresh_reportBuf layout k plat vid' pid' serialNum' m =
      (None, m') /\
    blocks m !! brk m1 = None /\
    blocks m' = <[brk m1 := Structure "BackendDevice"]> (blocks m).
Proof.
  intros Hok Hbud Hconv Hc Hl Hpre He Hbusy.
  pose proof (listing_grew k plat m m1 devList Hok Hconv Hc) as Hg.
  destruct (RelaconDeviceListCreate_Some k plat m m1 devList Hok Hc)
    as (Hcur & _ & Hlive & Hbud1).
  specialize (Hbud1 Hbud).
  assert (mem_ok m1) as Hok1 by apply Hg.
  assert (entry_live m1 e) as (_ & Hblk & Hh).
  { rewrite Forall_forall in Hlive. apply Hlive.
    rewrite Hl, elem_of_app. right. apply list_elem_of_here. }
  rewrite <- Hcur in Hl.
  destruct (FindFirstMatchingDevice_first m1 (backendDeviceList devList)
              vid' pid' serialNum' pre post e Hl Hpre He)
    as (l' & Hfind & Hl1 & Hl2).
  destruct (malloc_unlimited (Structure "BackendDevice") m1 Hbud1)
    as (m2 & Hm & _ & Hblocks & _).
  assert (BackendDeviceOpen k (handle (devInfo e)) m1 =
          (RELACON_STATUS_ERROR_INTERNAL, None, m2)) as Hopen.
  { rewrite Hh. destruct k; cbn [BackendDeviceOpen busy] in *;
      [unfold Hidapi.BackendDeviceOpen | unfold Libusb.BackendDeviceOpen];
      cbn [mbind option_bind]; rewrite Hblk, Hm.
    - apply negb_true_iff in Hbusy. now rewrite Hbusy.
    - apply andb_true_iff in Hbusy as [Ho Hcl].
      apply negb_true_iff in Hcl. now rewrite Ho, Hcl. }
  unfold RelaconDeviceOpen. rewrite Hc, Hfind, Hopen.
  eexists. split; [reflexivity |].
  assert (blocks m !! brk m1 = None) as Hnone
    by (apply Hok; destruct Hg as (_ & Hle & _); exact Hle).
  split; [exact Hnone |].
  apply map_eq. intros x.
  rewrite blocks_RelaconDeviceListDestroy.
  cbn [rdl_addr backendDeviceList]. rewrite Hl1, Hl2, Hblocks.
  destruct Hg as (_ & _ & Hfresh & Hsame). rewrite Forall_forall in Hfresh.
  destruct (decide (x = brk m1)) as [-> | Hx].
  - rewrite lookup_insert_eq.
    rewrite decide_False; [now rewrite lookup_insert_eq |].
    intros Hin. specialize (Hfresh _ Hin). lia.
  - rewrite !lookup_insert_ne by congruence.
    case_decide as Hin.
    + symmetry. apply Hok. specialize (Hfresh _ Hin). lia.
    + now apply Hsame.
Qed.

End FailedOpen.

Lemma open_without_match_heap_witness :
  exists devList m1 m',
    RelaconDeviceListCreate HIDAPI sample_platform empty_memory =
      (Some devList, m1) /\
    Forall (no_match m1 0 0 (Some (bytes_of_string "NONE")))
      (listStart (backendDeviceList devList)) /\
    RelaconDeviceOpen (replicate 8 0) (fun _ => []) HIDAPI sample_platform
      0 0 (Some (bytes_of_string "NONE")) empty_memory = (None, m') /\
    blocks m' = ∅.
Proof.
  destruct (RelaconDeviceListCreate HIDAPI sample_platform empty_memory)
    as [[devList |] m1] eqn:E; [| vm_compute in E; discriminate].
  assert (Forall (no_match m1 0 0 (Some (bytes_of_string "NONE")))
            (listStart (backendDeviceList devList))) as Hnone.
  { vm_compute in E. injection E as <- <-. repeat constructor. }
  destruct (open_without_match_heap (replicate 8 0) (fun _ => []) HIDAPI
              sample_platform 0 0 (Some (bytes_of_string "NONE"))
              empty_memory m1 devList (mem_ok_empty _)
              (fun _ => ltac:(repeat constructor)) E Hnone)
    as (m' & Ho & Hb).
  exists devList, m1, m'. repeat split; assumption.
Defined.

Lemma open_busy_device_leaks_witness :
  exists m' a,
    RelaconDeviceOpen (replicate 8 0) (fun _ => []) HIDAPI sample_platform
      0 208 None empty_memory = (None, m') /\
    blocks m' = <[a := Structure "BackendDevice"]> ∅.
Proof.
  destruct (RelaconDeviceListCreate HIDAPI sample_platform empty_memory)
    as [[devList |] m1] eqn:E; [| vm_compute in E; discriminate].
  destruct devList as [a [b s c]].
  destruct s as [| e post]; [vm_compute in E; discriminate |].
  assert (matches_filter m1 0 208 None (devInfo e) = true /\
          busy HIDAPI (device e) = true) as [He Hbusy].
  { vm_compute in E. injection E as <- <- <- <- <- <-. split; reflexivity. }
  destruct (open_busy_device_leaks (replicate 8 0) (fun _ => []) HIDAPI
              sample_platform 0 208 None empty_memory m1
              {| rdl_addr := a;
                 backendDeviceList :=
                   {| list_addr := b; listStart := e :: post;
                      listCurrent := c |} |}
              [] post e (mem_ok_empty _) eq_refl
              (fun _ => ltac:(repeat constructor)) E eq_refl
              (Forall_nil_2 _) He Hbusy)
    as (m' & Ho & _ & Hb).
  exists m', (brk m1). split; assumption.
Defined.

Section OpenSelectsFirstMatch.

Variable fresh_reportBuf : list byte.
Variable layout : RelaconDeviceInfo -> list byte.

(** What the backend answers for the entry [e] of a live listing. *)
Lemma BackendDeviceOpen_entry (k : BackendKind) (m : Memory)
    (e : BackendDeviceListEntry) :
  entry_live m e ->
  (can_open k (device e) = false ->
   (BackendDeviceOpen k (handle (devInfo e)) m).1.2 = None) /\
  (can_open k (device e) = true -> budget m = [] ->
   exists bd m',
     BackendDeviceOpen k (handle (devInfo e)) m =
       (RELACON_STATUS_SUCCESS, Some bd, m') /\
     bd_link bd = firmware (device e) /\ bd_kind bd = k /\
     budget m' = []).
Proof.
  intros (_ & Hblk & Hh). rewrite Hh. split.
  - intros Hcan.
    destruct k; cbn [BackendDeviceOpen can_open] in *;
      [unfold Hidapi.BackendDeviceOpen | unfold Libusb.BackendDeviceOpen];
      cbn [mbind option_bind]; rewrite Hblk;
      destruct (malloc _ m) as [[a |] m1]; try reflexivity.
    + now rewrite Hcan.
    + apply andb_false_iff in Hcan.
      destruct (openable (device e)); cbn [negb]; [| reflexivity].
      destruct Hcan as [Hcan | Hcan]; [discriminate |].
      now rewrite Hcan.
  - intros Hcan Hbud.
    destruct (malloc_unlimited (Structure "BackendDevice") m Hbud)
      as (m1 & Hm & Hb1 & _).
    destruct k; cbn [BackendDeviceOpen can_open] in *;
      [unfold Hidapi.BackendDeviceOpen | unfold Libusb.BackendDeviceOpen];
      cbn [mbind option_bind]; rewrite Hblk, Hm.
    + rewrite Hcan. eexists _, m1. repeat split; auto.
    + apply andb_true_iff in Hcan as [-> ->]. cbn [negb].
      eexists _, m1. repeat split; auto.
Qed.

(** C5: opening with filters.  An entry passes exactly when every filter
    that was given agrees with it (a serial-number filter needs the entry
    to have a serial string with the same characters).  When no entry of
    the listing passes, no session is returned.  When an entry passes and
    none before it does, it is the entry the search selects and the only
    one the backend is asked to open: if the backend cannot open it, no
    session is returned, whatever follows in the listing; if the backend
    can, and memory is not short, a session is returned.  A session that is
    returned is on the first entry of the listing that passes: it has the
    identifiers, the counts and the handle of that entry and talks to its
    device. *)
Theorem RelaconDeviceOpen_first_match (k : BackendKind) (plat : Platform)
    (vid' pid' : Z) (serialNum' : option (list byte)) (m m1 : Memory)
    (devList : RelaconDeviceList) :
  mem_ok m ->
  RelaconDeviceListCreate k plat m = (Some devList, m1) ->
  let entries := listStart (backendDeviceList devList) in
  let passes e := matches_filter m1 vid' pid' serialNum' (devInfo e) in
  let open :=
    RelaconDeviceOpen fresh_reportBuf layout k plat vid' pid' serialNum' m in
  let on_entry (dev : RelaconDevice) (e : BackendDeviceListEntry) :=
    vid (info dev) = vid (devInfo e) /\
    pid (info dev) = pid (devInfo e) /\
    numRelays (info dev) = numRelays (devInfo e) /\
    numInputs (info dev) = numInputs (devInfo e) /\
    handle (info dev) = Some (entry_addr e) /\
    bd_link (backendDevice dev) = firmware (device e) in
  (forall e,
      passes e = true <->
      (vid' = 0 \/ vid' = vid (devInfo e)) /\
      (pid' = 0 \/ pid' = pid (devInfo e)) /\
      (forall s, serialNum' = Some s ->
                 exists a, serialNum (devInfo e) = Some a /\
                           cstr s = cstr (load_chars m1 a))) /\
  (Forall (fun e => passes e = false) entries -> open.1 = None) /\
  (forall pre e post,
      entries = pre ++ e :: post ->
      Forall (fun x => passes x = false) pre -> passes e = true ->
      (FindFirstMatchingDevice m1 (backendDeviceList devList)
         vid' pid' serialNum').1 = Some (devInfo e) /\
      (can_open k (device e) = false -> open.1 = None) /\
      (can_open k (device e) = true -> budget m = [] ->
       exists dev, open.1 = Some dev /\ on_entry dev e)) /\
  (forall dev,
      open.1 = Some dev ->
      exists pre e post,
        entries = pre ++ e :: post /\
        Forall (fun x => passes x = false) pre /\ passes e = true /\
        on_entry dev e).
Proof.
  intros Hok Hcreate entries passes open on_entry.
  destruct (RelaconDeviceOpen_filter_facts fresh_reportBuf layout k plat
              vid' pid' serialNum' m m1 devList Hok Hcreate)
    as (Hspec & Hnone & Hsome).
  split; [exact Hspec |]. split; [exact Hnone |].
  split; [| exact Hsome].
  intros pre e post Hsplit Hpre He.
  destruct (RelaconDeviceListCreate_Some k plat m m1 devList Hok Hcreate)
    as (Hcur & Hk & Hlive & Hbud1).
  assert (mem_ok m1) as Hok1 by apply Hk.
  assert (entry_live m1 e) as Hlive_e.
  { rewrite Forall_forall in Hlive. apply Hlive. fold entries.
    rewrite Hsplit, elem_of_app. right. apply list_elem_of_here. }
  pose proof Hlive_e as (_ & _ & Hh).
  assert (listCurrent (backendDeviceList devList) = pre ++ e :: post)
    as Hcur' by (rewrite Hcur; exact Hsplit).
  destruct (FindFirstMatchingDevice_first m1 (backendDeviceList devList)
              vid' pid' serialNum' pre post e Hcur' Hpre He)
    as (l' & Hfind & _).
  destruct (BackendDeviceOpen_entry k m1 e Hlive_e) as [Hcannot Hcan].
  split; [now rewrite Hfind |]. split.
  - intros Hc. specialize (Hcannot Hc).
    subst open. unfold RelaconDeviceOpen. rewrite Hcreate, Hfind.
    destruct (BackendDeviceOpen k (handle (devInfo e)) m1)
      as [[status bd] m2].
    cbn [fst snd] in Hcannot. now rewrite Hcannot.
  - intros Hc Hbud.
    destruct (Hcan Hc (Hbud1 Hbud)) as (bd & m2 & Hopen & Hlink & _ & Hb2).
    destruct (malloc_unlimited (Structure "RelaconDevice") m2 Hb2)
      as (m3 & Hm & _).
    subst open. unfold RelaconDeviceOpen.
    rewrite Hcreate, Hfind, Hopen, decide_True, Hm by reflexivity.
    destruct (copy_string (product (devInfo e)) m3) as [p1 m4].
    destruct (copy_string (manufacturer (devInfo e)) m4) as [p2 m5].
    destruct (copy_string (serialNum (devInfo e)) m5) as [p3 m6].
    eexists. split; [reflexivity |].
    unfold on_entry. cbn. repeat split; auto.
Qed.

End OpenSelectsFirstMatch.

Lemma RelaconDeviceOpen_first_match_witness :
  exists devList m1 first second dev,
    RelaconDeviceListCreate LIBUSB sample_platform empty_memory =
      (Some devList, m1) /\
    listStart (backendDeviceList devList) = [first; second] /\
    device first = adu218 /\ device second = adu218_b /\
    (RelaconDeviceOpen (replicate 8 0) (fun _ => []) LIBUSB sample_platform
       0 0 (Some (bytes_of_string "B07777")) empty_memory).1 = Some dev /\
    handle (info dev) = Some (entry_addr second) /\
    bd_link (backendDevice dev) = firmware adu218_b.
Proof.
  destruct (RelaconDeviceListCreate LIBUSB sample_platform empty_memory)
    as [[devList |] m1] eqn:E; [| vm_compute in E; discriminate].
  pose proof (RelaconDeviceOpen_first_match (replicate 8 0) (fun _ => [])
                LIBUSB sample_platform 0 0
                (Some (bytes_of_string "B07777")) empty_memory m1 devList
                (mem_ok_empty _) E) as (_ & _ & Hsel & _).
  destruct devList as [a [b s c]].
  destruct s as [| first [| second [| third rest]]];
    try (vm_compute in E; discriminate).
  assert (device first = adu218 /\ device second = adu218_b /\
          matches_filter m1 0 0 (Some (bytes_of_string "B07777"))
            (devInfo first) = false /\
          matches_filter m1 0 0 (Some (bytes_of_string "B07777"))
            (devInfo second) = true) as (Hd1 & Hd2 & Hm1 & Hm2).
  { vm_compute in E. injection E as <- <- <- <- <- <-.
    repeat split; reflexivity. }
  destruct (Hsel [first] second [] eq_refl) as (_ & _ & Hopen).
  { constructor; [exact Hm1 | constructor]. }
  { exact Hm2. }
  destruct Hopen as (dev & Hdev & _ & _ & _ & _ & Hh & Hl).
  { rewrite Hd2. reflexivity. }
  { reflexivity. }
  exists {| rdl_addr := a;
            backendDeviceList :=
              {| list_addr := b; listStart := [first; second];
                 listCurrent := c |} |}, m1, first, second, dev.
  split; [reflexivity |]. split; [reflexivity |].
  split; [exact Hd1 |]. split; [exact Hd2 |].
  split; [exact Hdev |]. split; [exact Hh |]. now rewrite Hl, Hd2.
Defined.

Section EntriesDescribe.

Lemma describes_initial (a : addr) (d : UsbDevice)
    (capabilities : Capabilities.DeviceCapabilities)
    (i : RelaconDeviceInfo) :
  capabilities_of d = Some capabilities ->
  identity i = identity (initial_info a d capabilities) ->
  entry_describes {| entry_addr := a; devInfo := i; device := d |}.
Proof.
  intros Hcap [= Hv Hp Hr Hi _]. unfold entry_describes.
  cbn [devInfo device]. rewrite Hv, Hp, Hr, Hi.
  cbn [initial_info vid pid numRelays numInputs].
  split; [reflexivity |]. split; [reflexivity |].
  unfold capabilities_of in Hcap. rewrite Hcap. now destruct capabilities.
Qed.

Lemma identity_fetch_into (get : RelaconDeviceInfo -> option addr)
    (set : RelaconDeviceInfo -> option addr -> RelaconDeviceInfo)
    (desc : StringDescriptor)
    (st : RelaconStatus * RelaconDeviceInfo * Memory) :
  (forall i p, identity (set i p) = identity i) ->
  identity (Libusb.fetch_into get set desc st).1.2 = identity st.1.2.
Proof.
  intros Hset. destruct st as [[status i] m]. unfold Libusb.fetch_into.
  destruct (decide _); [| reflexivity].
  destruct (Libusb.FetchStringDescriptor desc (get i) m) as [[fs p] m1].
  destruct (decide _); cbn [fst snd]; apply Hset.
Qed.

Lemma identity_PopulateDeviceInfoStrings (i : RelaconDeviceInfo)
    (d : UsbDevice) (m : Memory) :
  identity (Libusb.PopulateDeviceInfoStrings i d m).1.2 = identity i.
Proof.
  unfold Libusb.PopulateDeviceInfoStrings.
  destruct (openable d); [| reflexivity].
  rewrite !identity_fetch_into; reflexivity.
Qed.

Lemma libusb_entries_describe (all deviceList : list UsbDevice) :
  (forall d, d ∈ deviceList -> d ∈ all) ->
  forall (linked : list BackendDeviceListEntry) (m : Memory),
    Forall (entry_of all) linked ->
    Forall (entry_of all) (Libusb.entries_loop deviceList linked m).1.2.
Proof.
  induction deviceList as [| d rest IH]; intros Hsub linked m Hl;
    [exact Hl |].
  assert (d ∈ all) as Hd by (apply Hsub; left).
  assert (forall x, x ∈ rest -> x ∈ all) as Hrest
    by (intros x Hx; apply Hsub; now right).
  specialize (IH Hrest).
  cbn [Libusb.entries_loop].
  destruct (capabilities_of d) as [capabilities |] eqn:Hcap; [| now apply IH].
  unfold Libusb.DeviceListEntryCreate.
  destruct (malloc (EntryBlock d) m) as [[a |] m1].
  2: { rewrite decide_True by reflexivity. exact Hl. }
  pose proof (identity_PopulateDeviceInfoStrings
                (initial_info a d capabilities) d m1) as Hid.
  destruct (Libusb.PopulateDeviceInfoStrings _ d m1) as [[st i] m2].
  cbn [fst snd] in Hid.
  destruct (decide (st = RELACON_STATUS_SUCCESS)).
  - apply IH. apply Forall_app. split; [exact Hl |].
    constructor; [| constructor].
    split; [exact (describes_initial a d capabilities i Hcap Hid) | exact Hd].
  - destruct (decide _); [exact Hl | now apply IH].
Qed.

Lemma identity_FetchString_steps (listEntry : addr) (d : UsbDevice)
    (capabilities : Capabilities.DeviceCapabilities) (m : Memory) :
  identity (Hidapi.DeviceInfoPopulate listEntry d capabilities m).1 =
    identity (initial_info listEntry d capabilities).
Proof.
  unfold Hidapi.DeviceInfoPopulate.
  destruct (openable d); [| reflexivity].
  destruct (Hidapi.FetchString _ _ m) as [[s1 p1] m1].
  destruct (Hidapi.FetchString _ _ m1) as [[s2 p2] m2].
  destruct (Hidapi.FetchString _ _ m2) as [[s3 p3] m3].
  reflexivity.
Qed.

Lemma hidapi_entries_describe (plat : Platform)
    (all hidapiDevInfo : list UsbDevice) :
  (forall d, d ∈ hidapiDevInfo -> d ∈ all) ->
  forall (linked : list BackendDeviceListEntry) (m : Memory),
    Forall (entry_of all) linked ->
    Forall (entry_of all)
      (Hidapi.entries_loop plat hidapiDevInfo linked m).1.2.
Proof.
  induction hidapiDevInfo as [| d rest IH]; intros Hsub linked m Hl;
    [exact Hl |].
  assert (d ∈ all) as Hd by (apply Hsub; left).
  assert (forall x, x ∈ rest -> x ∈ all) as Hrest
    by (intros x Hx; apply Hsub; now right).
  specialize (IH Hrest).
  cbn [Hidapi.entries_loop].
  destruct (capabilities_of d) as [capabilities |] eqn:Hcap; [| now apply IH].
  destruct (negb _); [now apply IH |].
  destruct (malloc (EntryBlock d) m) as [[a |] m1]; [| exact Hl].
  pose proof (identity_FetchString_steps a d capabilities m1) as Hid.
  destruct (Hidapi.DeviceInfoPopulate a d capabilities m1) as [i m2].
  cbn [fst] in Hid.
  apply IH. apply Forall_app. split; [exact Hl |].
  constructor; [| constructor].
    split; [exact (describes_initial a d capabilities i Hcap Hid) | exact Hd].
Qed.

(** The entries of a listing that was created describe their devices. *)
Lemma RelaconDeviceListCreate_describes (k : BackendKind) (plat : Platform)
    (m m1 : Memory) (devList : RelaconDeviceList) :
  RelaconDeviceListCreate k plat m = (Some devList, m1) ->
  Forall (entry_of (attached plat)) (listStart (backendDeviceList devList)) /\
  listCurrent (backendDeviceList devList) =
    listStart (backendDeviceList devList).
Proof.
  unfold RelaconDeviceListCreate.
  destruct (malloc (Structure "RelaconDeviceList") m) as [[a |] m0];
    [| discriminate].
  destruct k; cbn [BackendDeviceListCreate].
  - unfold Hidapi.BackendDeviceListCreate.
    destruct (malloc _ m0) as [[b |] m2]; [| discriminate].
    destruct (_ || _); [discriminate |].
    unfold Hidapi.DeviceListEntriesCreate.
    pose proof (hidapi_entries_describe plat (attached plat) (attached plat)
                  (fun d H => H) [] m2 (List.Forall_nil _)) as H.
    destruct (Hidapi.entries_loop plat (attached plat) [] m2)
      as [[st es] m3]. cbn [fst snd] in H.
    destruct (decide (st = RELACON_STATUS_SUCCESS)) as [-> | Hne].
    + rewrite !decide_True by reflexivity. intros [= <- <-]. auto.
    + rewrite !decide_False by exact Hne. discriminate.
  - unfold Libusb.BackendDeviceListCreate.
    destruct (malloc _ m0) as [[b |] m2]; [| discriminate].
    destruct (enumeration_fails plat); [discriminate |].
    unfold Libusb.DeviceListEntriesCreate.
    pose proof (libusb_entries_describe (attached plat) (attached plat)
                  (fun d H => H) [] m2 (List.Forall_nil _)) as H.
    destruct (Libusb.entries_loop (attached plat) [] m2) as [[st es] m3].
    cbn [fst snd] in H.
    destruct (decide (st = RELACON_STATUS_SUCCESS)) as [-> | Hne].
    + rewrite !decide_True by reflexivity. intros [= <- <-]. auto.
    + discriminate.
Qed.

End EntriesDescribe.

Section SessionCapabilities.

Variable fresh_reportBuf : list byte.
Variable layout : RelaconDeviceInfo -> list byte.

Lemma DeviceCapabilitiesQuery_eight (v p : Z)
    (c : Capabilities.DeviceCapabilities) :
  Capabilities.DeviceCapabilitiesQuery v p = Some c ->
  Capabilities.numRelays c = 8 /\ Capabilities.numInputs c = 8.
Proof.
  unfold Capabilities.DeviceCapabilitiesQuery, Capabilities.SUPPORTED_DEVICES.
  cbn [Capabilities.query_from Capabilities.vid Capabilities.pid
       Capabilities.capabilities].
  repeat (destruct (_ && _); [intros [= <-]; split; reflexivity |]).
  discriminate.
Qed.

(** X19: the device information of a session that [RelaconDeviceOpen]
    returned is that of a device attached: its vendor and product
    identifiers are in the capability table with the relay and input
    counts the session reports, which are eight and eight, and a vendor or
    product identifier asked for (not zero) is the one of the session. *)
Theorem opened_session_capabilities (k : BackendKind) (plat : Platform)
    (vid' pid' : Z) (serialNum' : option (list byte)) (m m' : Memory)
    (dev : RelaconDevice) :
  RelaconDeviceOpen fresh_reportBuf layout k plat vid' pid' serialNum' m =
    (Some dev, m') ->
  (exists d, d ∈ attached plat /\ vendor_id d = vid (info dev) /\
             product_id d = pid (info dev)) /\
  Capabilities.DeviceCapabilitiesQuery (vid (info dev)) (pid (info dev)) =
    Some {| Capabilities.numInputs := numInputs (info dev);
            Capabilities.numRelays := numRelays (info dev) |} /\
  numRelays (info dev) = 8 /\ numInputs (info dev) = 8 /\
  (vid' <> 0 -> vid (info dev) = vid') /\
  (pid' <> 0 -> pid (info dev) = pid').
Proof.
  intros Hopen.
  destruct (RelaconDeviceOpen_Some fresh_reportBuf layout k plat vid' pid'
              serialNum' m m' dev Hopen)
    as (devList & m1 & c & l & bd & m2 & a & m3 & p1 & m4 & p2 & m5 & p3 &
        m6 & Hc & Hfind & _ & _ & _ & _ & _ & -> & _).
  destruct (RelaconDeviceListCreate_describes k plat m m1 devList Hc)
    as [Hdesc Hcur].
  pose proof (find_loop_spec m1 vid' pid' serialNum'
                (S (length (listCurrent (backendDeviceList devList))))
                (backendDeviceList devList) (Nat.lt_succ_diag_r _)) as H.
  fold (FindFirstMatchingDevice m1 (backendDeviceList devList)
          vid' pid' serialNum') in H.
  rewrite Hfind in H.
  destruct H as (_ & _ & pre & e & post & He & -> & _ & Hm).
  rewrite Hcur in He. rewrite He in Hdesc.
  apply Forall_app in Hdesc as [_ Hdesc]. apply Forall_inv in Hdesc.
  destruct Hdesc as [(Hv & Hp & Hq) Hin].
  cbn [info vid pid numRelays numInputs set_serialNum set_manufacturer
       set_product].
  split; [exists (device e); auto |]. split; [exact Hq |].
  destruct (DeviceCapabilitiesQuery_eight _ _ _ Hq) as [H8 H8'].
  cbn [Capabilities.numRelays Capabilities.numInputs] in H8, H8'.
  split; [exact H8 |]. split; [exact H8' |].
  apply matches_filter_spec in Hm. destruct Hm as (Hmv & Hmp & _).
  split; intros Hne; [destruct Hmv | destruct Hmp]; congruence.
Qed.

End SessionCapabilities.

Lemma opened_session_capabilities_witness :
  exists dev m',
    RelaconDeviceOpen (replicate 8 0) (fun _ => []) HIDAPI sample_platform
      0 218 None empty_memory = (Some dev, m') /\
    numRelays (info dev) = 8 /\ numInputs (info dev) = 8 /\
    pid (info dev) = 218.
Proof.
  destruct (RelaconDeviceOpen (replicate 8 0) (fun _ => []) HIDAPI
              sample_platform 0 218 None empty_memory)
    as [[dev |] m'] eqn:E; [| vm_compute in E; discriminate].
  exists dev, m'. split; [reflexivity |].
  destruct (opened_session_capabilities (replicate 8 0) (fun _ => []) HIDAPI
              sample_platform 0 218 None empty_memory m' dev E)
    as (_ & _ & H1 & H2 & _ & H3).
  split; [exact H1 |]. split; [exact H2 |]. apply H3. discriminate.
Defined.

Section ApiLifecycle.

Lemma BackendInit_grew (k : BackendKind) (lib : Library) (m : Memory) :
  mem_ok m ->
  let '(status, b, lib', m') := BackendInit k lib m in
  match b with
  | Some a =>
      status = RELACON_STATUS_SUCCESS /\ only_grew m m' [a] /\
      initialised lib' = true /\ init_fails lib = false /\
      init_fails lib' = init_fails lib /\ exit_fails lib' = exit_fails lib
  | None =>
      status <> RELACON_STATUS_SUCCESS /\ only_grew m m' [] /\
      (initialised lib = false -> exit_fails lib = false ->
       initialised lib' = false) /\
      (budget m = [] -> init_fails lib = true)
  end.
Proof.
  intros Hok.
  destruct k; cbn [BackendInit];
    [unfold HidapiBackend.BackendInit | unfold LibusbBackend.BackendInit];
    unfold library_init, hid_exit.
  - destruct (init_fails lib) eqn:Hi; cbn [negb Z.eqb].
    { split; [discriminate |]. split; [now apply only_grew_refl | auto]. }
    destruct (malloc _ m) as [[a |] m1] eqn:Hm.
    + destruct (malloc_Some_grew _ _ _ _ Hok Hm) as (-> & Hg & _).
      cbn [init_fails exit_fails initialised set_initialised]. auto 10.
    + destruct (malloc_None_grew _ _ _ Hok Hm) as (Hg & Hb).
      split; [discriminate |]. split; [exact Hg |]. split.
      * intros _ He. cbn [exit_fails set_initialised]. rewrite He.
        reflexivity.
      * intros Hb0. rewrite Hb0 in Hb. discriminate.
  - destruct (malloc _ m) as [[a |] m1] eqn:Hm.
    + destruct (malloc_Some_grew _ _ _ _ Hok Hm) as (-> & Hg & _).
      destruct (init_fails lib) eqn:Hi; cbn [negb Z.eqb].
      * split; [discriminate |]. split; [| auto].
        apply free_fresh_grew; [exact Hok | exact Hg | apply not_elem_of_nil].
      * cbn [init_fails exit_fails initialised set_initialised]. auto 10.
    + destruct (malloc_None_grew _ _ _ Hok Hm) as (Hg & Hb).
      split; [discriminate |]. split; [exact Hg |]. split; [auto |].
      intros Hb0. rewrite Hb0 in Hb. discriminate.
Qed.

Lemma RelaconApiInit_grew (k : BackendKind) (lib : Library)
    (m : Memory) :
  mem_ok m ->
  let '(api, lib', m') := RelaconApiInit k lib m in
  match api with
  | Some api =>
      only_grew m m' [api_addr api; backend api] /\
      initialised lib' = true /\ init_fails lib = false
  | None =>
      blocks m' = blocks m /\
      (initialised lib = false -> exit_fails lib = false ->
       initialised lib' = false) /\
      (budget m = [] -> init_fails lib = true)
  end.
Proof.
  intros Hok. unfold RelaconApiInit.
  destruct (malloc (Structure "RelaconApi") m) as [[a |] m1] eqn:Hm.
  2: { destruct (malloc_None_grew _ _ _ Hok Hm) as (Hg & Hb).
       split; [now apply only_grew_nil_blocks |]. split; [auto |].
       intros Hb0. rewrite Hb0 in Hb. discriminate. }
  destruct (malloc_Some_grew _ _ _ _ Hok Hm) as (-> & Hg & _ & Hb).
  assert (mem_ok m1) as Hok1 by apply Hg.
  pose proof (BackendInit_grew k lib m1 Hok1) as H.
  destruct (BackendInit k lib m1) as [[[status b] lib'] m2].
  destruct b as [b |].
  - destruct H as (-> & Hg2 & Hup & Hi & _).
    rewrite decide_True by reflexivity. cbn [api_addr backend].
    split; [| auto]. apply (only_grew_trans m m1 m2 [brk m] [b] Hg Hg2).
  - destruct H as (_ & Hg2 & Hdown & Hbud).
    split; [| split; [exact Hdown |]].
    + apply only_grew_nil_blocks; [exact Hok |].
      pose proof (only_grew_trans m m1 m2 [brk m] [] Hg Hg2) as Hg3.
      apply free_fresh_grew; [exact Hok | exact Hg3 | apply not_elem_of_nil].
    + intros Hb0. apply Hbud. now rewrite Hb, Hb0.
Qed.

(** X20: [RelaconApiInit] either returns a context, and then the heap
    has gained exactly two blocks at the two next addresses, the context
    and the structure of the backend, everything else being as before, the
    transport library is initialised and its initialisation did not fail;
    or it returns NULL, and then the heap holds the blocks it held before,
    a library that was not initialised is not initialised afterwards (if
    its shutdown works), and with an allocator that never fails the cause
    is the initialisation of the transport library. *)
Theorem RelaconApiInit_outcome (k : BackendKind) (lib : Library)
    (m : Memory) :
  mem_ok m ->
  let '(api, lib', m') := RelaconApiInit k lib m in
  match api with
  | Some api =>
      api_addr api = brk m /\ backend api = S (brk m) /\
      blocks m !! brk m = None /\ blocks m !! S (brk m) = None /\
      blocks m' =
        <[S (brk m) := Structure "Backend"]>
          (<[brk m := Structure "RelaconApi"]> (blocks m)) /\
      initialised lib' = true /\ init_fails lib = false
  | None =>
      blocks m' = blocks m /\
      (initialised lib = false -> exit_fails lib = false ->
       initialised lib' = false) /\
      (budget m = [] -> init_fails lib = true)
  end.
Proof.
  intros Hok.
  pose proof (RelaconApiInit_grew k lib m Hok) as H.
  destruct (RelaconApiInit k lib m) as [[[api |] lib'] m'] eqn:E;
    [| exact H].
  destruct H as (_ & Hinit & Hfails).
  assert (blocks m !! brk m = None) as Hn1 by (apply Hok; lia).
  assert (blocks m !! S (brk m) = None) as Hn2 by (apply Hok; lia).
  revert E. unfold RelaconApiInit.
  destruct (malloc (Structure "RelaconApi") m) as [[a |] m1] eqn:Hm;
    [| discriminate].
  assert (a = brk m /\ brk m1 = S (brk m) /\
          blocks m1 = <[brk m := Structure "RelaconApi"]> (blocks m))
    as (-> & Hbrk & Hb1).
  { revert Hm. unfold malloc.
    destruct (budget m) as [| [] rest]; intros [= <- <-]; auto. }
  destruct (BackendInit k lib m1) as [[[status b] lib1] m2] eqn:Eb.
  destruct b as [b |]; [| discriminate].
  destruct (decide (status = RELACON_STATUS_SUCCESS)); [| discriminate].
  intros [= <- <- <-]. cbn [api_addr backend].
  assert (b = brk m1 /\
          blocks m2 = <[brk m1 := Structure "Backend"]> (blocks m1))
    as (-> & Hb2).
  { revert Eb. destruct k; cbn [BackendInit];
      unfold HidapiBackend.BackendInit, LibusbBackend.BackendInit,
        library_init, malloc;
      destruct (init_fails lib); cbn [negb Z.eqb fst snd];
      destruct (budget m1) as [| [] rest];
      try discriminate; intros [= <- <- <- <-]; auto. }
  rewrite Hb2, Hb1, Hbrk. repeat split; auto.
Qed.

Lemma RelaconApiInit_outcome_witness :
  mem_ok empty_memory /\
  exists api lib' m',
    RelaconApiInit HIDAPI fresh_library empty_memory = (Some api, lib', m') /\
    blocks m' =
      <[1%nat := Structure "Backend"]>
        (<[0%nat := Structure "RelaconApi"]> ∅) /\
    initialised lib' = true.
Proof.
  split; [apply mem_ok_empty |].
  pose proof (RelaconApiInit_outcome HIDAPI fresh_library empty_memory
                (mem_ok_empty _)) as H.
  destruct (RelaconApiInit HIDAPI fresh_library empty_memory)
    as [[[api |] lib'] m'] eqn:E; [| vm_compute in E; discriminate].
  exists api, lib', m'. split; [reflexivity |].
  destruct H as (_ & _ & _ & _ & Hb & Hi & _). split; assumption.
Defined.

(** X21: a context that [RelaconApiInit] returned and that is passed to
    [RelaconApiExit] leaves the heap with the blocks it held before the
    initialisation.  The status is an internal error exactly with hidapi
    when [hid_exit] fails, and success otherwise; on success the transport
    library is shut down. *)
Theorem RelaconApi_round_trip (k : BackendKind) (lib lib1 : Library)
    (m m1 : Memory) (api : RelaconApi) :
  mem_ok m ->
  RelaconApiInit k lib m = (Some api, lib1, m1) ->
  let '(status, lib2, m2) := RelaconApiExit k (Some api) lib1 m1 in
  blocks m2 = blocks m /\
  status =
    (if match k with HIDAPI => exit_fails lib | LIBUSB => false end
     then RELACON_STATUS_ERROR_INTERNAL else RELACON_STATUS_SUCCESS) /\
  (status = RELACON_STATUS_SUCCESS -> initialised lib2 = false).
Proof.
  intros Hok Hinit.
  pose proof (RelaconApiInit_grew k lib m Hok) as H.
  assert (exit_fails lib1 = exit_fails lib) as He.
  { revert Hinit. unfold RelaconApiInit.
    destruct (malloc _ m) as [[a |] m0] eqn:Hm; [| discriminate].
    destruct (malloc_Some_grew _ _ _ _ Hok Hm) as (_ & Hg & _).
    assert (mem_ok m0) as Hok0 by apply Hg.
    pose proof (BackendInit_grew k lib m0 Hok0) as Hb.
    destruct (BackendInit k lib m0) as [[[status b] lib'] m2].
    destruct b as [b |]; [| discriminate].
    destruct Hb as (-> & _ & _ & _ & _ & He).
    rewrite decide_True by reflexivity. now intros [= _ <- _]. }
  rewrite Hinit in H. destruct H as (Hg & _ & _).
  unfold RelaconApiExit.
  assert (forall m2 lib2 status,
            BackendExit k (backend api) lib1 m1 = (status, lib2, m2) ->
            blocks m2 = blocks (free (Some (backend api)) m1) /\
            status =
              (if match k with HIDAPI => exit_fails lib | LIBUSB => false end
               then RELACON_STATUS_ERROR_INTERNAL
               else RELACON_STATUS_SUCCESS) /\
            (status = RELACON_STATUS_SUCCESS -> initialised lib2 = false))
    as Hexit.
  { intros m2 lib2 status. rewrite <- He.
    destruct k; cbn [BackendExit];
      [unfold HidapiBackend.BackendExit, hid_exit
      | unfold LibusbBackend.BackendExit, libusb_exit].
    - destruct (exit_fails lib1); cbn [negb Z.eqb]; intros [= <- <- <-].
      + split; [reflexivity |]. split; [reflexivity | discriminate].
      + split; [reflexivity |]. split; reflexivity.
    - intros [= <- <- <-]. split; [reflexivity |]. split; reflexivity. }
  destruct (BackendExit k (backend api) lib1 m1) as [[status lib2] m2] eqn:Hx.
  destruct (Hexit m2 lib2 status eq_refl) as (Hb & Hs & Hdown).
  split; [| auto].
  apply (release_all_equiv m m1 _ _ [backend api; api_addr api] Hok Hg).
  - intros x. rewrite !elem_of_cons, !elem_of_nil. tauto.
  - intros x. rewrite blocks_free.
    assert (blocks m2 !! x = blocks (free (Some (backend api)) m1) !! x)
      as -> by now rewrite Hb.
    rewrite blocks_free. unfold option_list, option_rect.
    repeat case_decide; try reflexivity; exfalso;
      repeat match goal with
             | H : context [_ ∈ _ :: _] |- _ => rewrite elem_of_cons in H
             | H : context [_ ∈ []] |- _ => rewrite elem_of_nil in H
             end; tauto.
Qed.

End ApiLifecycle.

Lemma RelaconApi_round_trip_witness :
  exists api lib1 m1,
    RelaconApiInit HIDAPI fresh_library empty_memory = (Some api, lib1, m1) /\
    let '(status, lib2, m2) := RelaconApiExit HIDAPI (Some api) lib1 m1 in
    blocks m2 = blocks empty_memory /\
    status = RELACON_STATUS_SUCCESS /\ initialised lib2 = false.
Proof.
  destruct (RelaconApiInit HIDAPI fresh_library empty_memory)
    as [[[api |] lib1] m1] eqn:E; [| vm_compute in E; discriminate].
  exists api, lib1, m1. split; [reflexivity |].
  pose proof (RelaconApi_round_trip HIDAPI fresh_library lib1 empty_memory m1
                api (mem_ok_empty _) E) as H.
  destruct (RelaconApiExit HIDAPI (Some api) lib1 m1) as [[status lib2] m2].
  destruct H as (Hb & Hs & Hi). cbn in Hs.
  split; [exact Hb |]. split; [exact Hs |]. apply Hi, Hs.
Defined.

Section CliNumbers.

Import Cli.

Lemma scan_base_decimal (ds : list byte) (acc : Z) :
  Forall (fun c => isdigit c = true) ds ->
  scan_base 10 acc ds =
    (fold_left (fun a c => 10 * a + (c - 48)) ds acc, length ds).
Proof.
  intros Hds. revert acc.
  induction Hds as [| d ds Hd _ IH]; intros acc;
    cbn [scan_base fold_left length]; [reflexivity |].
  unfold digit_value. rewrite Hd.
  unfold isdigit in Hd. apply andb_true_iff in Hd as [H1 H2].
  apply Z.leb_le in H1, H2.
  destruct (Z.ltb_spec (d - 48) 10) as [_ | H]; [| lia].
  now rewrite IH.
Qed.

Lemma nonzero_digit_cases (c : byte) :
  isdigit c = true -> c <> 48 ->
  c = 49 \/ c = 50 \/ c = 51 \/ c = 52 \/ c = 53 \/ c = 54 \/ c = 55 \/
  c = 56 \/ c = 57.
Proof.
  unfold isdigit. intros H Hne. apply andb_true_iff in H as [H1 H2].
  apply Z.leb_le in H1, H2. lia.
Qed.

(** A numeral in decimal notation: digits, the first of which is not 0
    unless it is the only one. *)
Lemma strtol_auto_decimal (ds : list byte) :
  ds <> [] -> Forall (fun c => isdigit c = true) ds ->
  (hd_error ds <> Some 48 \/ ds = [48]) -> (length ds <= 18)%nat ->
  strtol_auto ds = (decimal_value ds, length ds).
Proof.
  intros Hne Hds Hlead Hlen.
  destruct Hlead as [Hlead | ->]; [| reflexivity].
  destruct ds as [| c ds]; [congruence |].
  assert (c <> 48) as Hc by (intros ->; now apply Hlead).
  pose proof (decimal_value_bound (c :: ds) Hds) as Hb.
  assert (10 ^ Z.of_nat (length (c :: ds)) <= 10 ^ 18) as Hpow
    by (apply Z.pow_le_mono_r; lia).
  pose proof (scan_base_decimal (c :: ds) 0 Hds) as Hscan.
  fold (decimal_value (c :: ds)) in Hscan.
  assert (Z.max LONG_MIN (Z.min LONG_MAX (decimal_value (c :: ds))) =
          decimal_value (c :: ds)) as Hclamp.
  { unfold LONG_MIN, LONG_MAX.
    assert (10 ^ 18 < 2 ^ 63 - 1) by (vm_compute; reflexivity). lia. }
  pose proof (Forall_inv Hds) as Hd.
  assert (skip_spaces (c :: ds) = O) as Hws.
  { cbn [skip_spaces]. unfold isspace. unfold isdigit in Hd.
    apply andb_true_iff in Hd as [H1 H2]. apply Z.leb_le in H1, H2.
    destruct (Z.eqb_spec c 32) as [H | _]; [lia |].
    destruct (Z.leb_spec c 13) as [H | _]; [lia |].
    now rewrite andb_false_r. }
  unfold strtol_auto. rewrite Hws. cbn [drop].
  destruct (nonzero_digit_cases c Hd Hc)
    as [-> | [-> | [-> | [-> | [-> | [-> | [-> | [-> | ->]]]]]]]];
    cbn [drop]; rewrite Hscan; cbn [length Nat.add]; rewrite Hclamp;
    reflexivity.
Qed.

Lemma scan_base_octal (ds : list byte) (acc : Z) :
  Forall (fun c => 48 <= c <= 55) ds ->
  scan_base 8 acc ds =
    (fold_left (fun a c => 8 * a + (c - 48)) ds acc, length ds).
Proof.
  intros Hds. revert acc.
  induction Hds as [| d ds Hd _ IH]; intros acc;
    cbn [scan_base fold_left length]; [reflexivity |].
  unfold digit_value, isdigit.
  destruct (Z.leb_spec 48 d) as [_ | H]; [| lia].
  destruct (Z.leb_spec d 57) as [_ | H]; [| lia].
  cbn [andb].
  destruct (Z.ltb_spec (d - 48) 8) as [_ | H]; [| lia].
  now rewrite IH.
Qed.

Lemma octal_value_bound (ds : list byte) :
  Forall (fun c => 48 <= c <= 55) ds ->
  0 <= octal_value ds < 8 ^ Z.of_nat (length ds).
Proof.
  unfold octal_value.
  induction ds as [| c ds IH] using rev_ind; intros Hd.
  - simpl. lia.
  - apply Forall_app in Hd. destruct Hd as [Hds Hc].
    apply Forall_inv in Hc. specialize (IH Hds).
    rewrite fold_left_app, length_app. cbn [fold_left length].
    rewrite Nat2Z.inj_add, Z.pow_add_r by lia.
    change (8 ^ Z.of_nat 1) with 8. nia.
Qed.

(** A numeral with a leading 0 is read in base 8. *)
Lemma strtol_auto_octal (ds : list byte) :
  Forall (fun c => 48 <= c <= 55) ds -> (length ds <= 20)%nat ->
  strtol_auto (48 :: ds) = (octal_value ds, S (length ds)).
Proof.
  intros Hds Hlen.
  pose proof (octal_value_bound ds Hds) as Hb.
  assert (8 ^ Z.of_nat (length ds) <= 8 ^ 20) as Hpow
    by (apply Z.pow_le_mono_r; lia).
  assert (Z.max LONG_MIN (Z.min LONG_MAX (octal_value ds)) = octal_value ds)
    as Hclamp.
  { unfold LONG_MIN, LONG_MAX.
    assert (8 ^ 20 < 2 ^ 63 - 1) by (vm_compute; reflexivity). lia. }
  assert (scan_base 8 0 (48 :: ds) = (octal_value ds, S (length ds)))
    as Hscan.
  { rewrite scan_base_octal by (constructor; [lia | exact Hds]).
    reflexivity. }
  unfold strtol_auto.
  change (skip_spaces (48 :: ds)) with O. cbn [drop].
  destruct ds as [| x [| h t]].
  - reflexivity.
  - cbn [drop]. rewrite Hscan. cbn [Nat.add]. now rewrite Hclamp.
  - pose proof (Forall_inv Hds) as Hx. cbv beta in Hx.
    destruct (Z.eqb_spec x 120) as [H | _]; [lia |].
    destruct (Z.eqb_spec x 88) as [H | _]; [lia |].
    cbn [orb andb drop]. rewrite Hscan. cbn [Nat.add]. now rewrite Hclamp.
Qed.

Lemma ParseAndValidateNumber_parsed (str : list byte) (n : Z)
    (min max out : Z) (c : Console) :
  strtol_auto str = (n, length str) ->
  ParseAndValidateNumber str min max out c =
    if (min <=? n) && (n <=? max) then (true, n, c)
    else (false, out,
          eprintf (line (bytes_of_string "Value " ++ fmt_d n ++
                         bytes_of_string " is outside valid range [" ++
                         fmt_d min ++ bytes_of_string ", " ++ fmt_d max ++
                         bytes_of_string "]")) c).
Proof.
  intros H. unfold ParseAndValidateNumber. rewrite H.
  unfold deref. rewrite nth_overflow by lia.
  change (negb (0 =? 0)) with false. cbv iota.
  destruct (Z.ltb_spec n min), (Z.gtb_spec n max),
    (Z.leb_spec min n), (Z.leb_spec n max); try lia; reflexivity.
Qed.


(** X22: the notation of the numbers on the command line.  A decimal
    numeral (digits, with no leading 0 unless it is 0 itself) is accepted
    with its value when that lies between the bounds, and refused with a
    message naming the value and the bounds otherwise.  A leading 0
    announces base 8, so that 010 is eight.  The empty string is not
    refused: it counts as 0. *)
Theorem ParseAndValidateNumber_notation (min max out : Z) (c : Console) :
  let reads (str : list byte) (n : Z) :=
    ParseAndValidateNumber str min max out c =
      if (min <=? n) && (n <=? max) then (true, n, c)
      else (false, out,
            eprintf (line (bytes_of_string "Value " ++ fmt_d n ++
                           bytes_of_string " is outside valid range [" ++
                           fmt_d min ++ bytes_of_string ", " ++ fmt_d max ++
                           bytes_of_string "]")) c) in
  (forall ds,
      ds <> [] -> Forall (fun c => isdigit c = true) ds ->
      (hd_error ds <> Some 48 \/ ds = [48]) -> (length ds <= 18)%nat ->
      reads ds (decimal_value ds)) /\
  (forall ds,
      Forall (fun c => 48 <= c <= 55) ds -> (length ds <= 20)%nat ->
      reads (48 :: ds) (octal_value ds)) /\
  reads [] 0.
Proof.
  intros reads. unfold reads. split; [| split].
  - intros ds Hne Hds Hlead Hlen.
    apply ParseAndValidateNumber_parsed. now apply strtol_auto_decimal.
  - intros ds Hds Hlen.
    apply ParseAndValidateNumber_parsed. now apply strtol_auto_octal.
  - now apply ParseAndValidateNumber_parsed.
Qed.

Lemma ParseAndValidateNumber_notation_witness :
  ParseAndValidateNumber (bytes_of_string "255") 0 255 0
    {| stdout := []; stderr := [] |} =
    (true, 255, {| stdout := []; stderr := [] |}) /\
  ParseAndValidateNumber (bytes_of_string "010") 0 255 0
    {| stdout := []; stderr := [] |} =
    (true, 8, {| stdout := []; stderr := [] |}) /\
  ParseAndValidateNumber (bytes_of_string "256") 0 255 0
    {| stdout := []; stderr := [] |} =
    (false, 0,
     {| stdout := [];
        stderr :=
          bytes_of_string "Value 256 is outside valid range [0, 255]" ++
          [10] |}).
Proof.
  pose proof (ParseAndValidateNumber_notation 0 255 0
                {| stdout := []; stderr := [] |}) as (Hd & Ho & _).
  split; [| split].
  - etransitivity;
      [apply (Hd (bytes_of_string "255"));
         [discriminate | repeat constructor | left; discriminate |
          simpl; lia]
      | vm_compute; reflexivity].
  - change (bytes_of_string "010") with (48 :: bytes_of_string "10").
    etransitivity;
      [apply (Ho (bytes_of_string "10"));
         [change (bytes_of_string "10") with [49; 48];
          repeat (apply Forall_cons_2; [lia |]); apply Forall_nil_2
         | simpl; lia]
      | vm_compute; reflexivity].
  - etransitivity;
      [apply (Hd (bytes_of_string "256"));
         [discriminate | repeat constructor | left; discriminate |
          simpl; lia]
      | vm_compute; reflexivity].
Defined.

End CliNumbers.

Section CliHandlers.

Import Cli.

Variable indeterminate : Z.
Variable indeterminate_bool : bool.


End CliHandlers.


Section CliOptions.

Import Cli.

Lemma ParseAndValidateNumber_spec (str : list byte) (min max out : Z)
    (c : Console) :
  let '(success, v, c') := ParseAndValidateNumber str min max out c in
  if success then min <= v <= max /\ c' = c else v = out.
Proof.
  unfold ParseAndValidateNumber.
  destruct (strtol_auto str) as [val endptr].
  destruct (negb (deref str endptr =? 0)); [reflexivity |].
  destruct (Z.ltb_spec val min); [reflexivity |].
  destruct (Z.gtb_spec val max); [reflexivity |].
  cbn [orb]. split; [lia | reflexivity].
Qed.

(** What one turn of the loop keeps. *)
Lemma option_case_spec (ch : Z) (optarg : list byte)
    (o : CommandLineOptions) (longValue : Z) (c : Console) :
  let '(success, o', _, c') := option_case ch optarg o longValue c in
  (in_bounds o -> in_bounds o') /\
  (success = true -> c' = c) /\
  (Options.operation o <> OPERATION_NONE ->
   Options.operation o' = Options.operation o) /\
  match selects ch with
  | Some op => success = true -> Options.operation o' = op
  | None => Options.operation o' = Options.operation o
  end /\
  Options.writeValue o' = Options.writeValue o.
Proof.
  unfold option_case, selects, select, ValidateAndSetOperation, in_bounds,
    UINT16_MAX, NUM_RELAYS, NUM_DIGITAL_INPUTS.
  repeat match goal with
         | |- context [?a =? ?b] =>
             destruct (Z.eqb_spec a b) as [? | ?];
             [try (exfalso; lia); try subst ch |]
         end.
  all: cbv beta iota zeta.
  all: try (split; [tauto |]; split; [discriminate |]; split; [reflexivity |];
            split; reflexivity).
  all: try (destruct (Options.operation o); cbn; repeat split;
            try tauto; try congruence; fail).
  all: try (cbn; tauto).
  all: destruct (Options.operation o) eqn:Hop;
    repeat (case_bool_decide; try congruence);
    cbn -[Z.modulo ParseAndValidateNumber].
  all: try (repeat split; try tauto; congruence).
  all: match goal with
       | |- context [ParseAndValidateNumber ?s ?a ?b ?x ?y] =>
           pose proof (ParseAndValidateNumber_spec s a b x y) as Hp;
           destruct (ParseAndValidateNumber s a b x y) as [[[] v] c']
       end.
  all: cbn -[Z.modulo] in *.
  all: try match type of Hp with _ /\ _ => destruct Hp as [Hp ->] end.
  all: repeat split; intros; try tauto; try congruence; try lia.
  all: try (apply Z.mod_pos_bound; lia).
  all: try (rewrite Z.mod_small by lia; lia).
  all: try match goal with
           | |- ?v mod ?m <= _ => pose proof (Z.mod_pos_bound v m); lia
           end.
  all: try congruence.
Qed.

Lemma options_loop_spec (results : list (Z * list byte))
    (o : CommandLineOptions) (longValue : Z) (calls : nat) (c : Console) :
  let '(success, o', _, calls', c') :=
    options_loop results (true, o, longValue, calls, c) in
  (in_bounds o -> in_bounds o') /\
  (Options.operation o <> OPERATION_NONE ->
   Options.operation o' = Options.operation o) /\
  Options.writeValue o' = Options.writeValue o /\
  (success = true ->
   c' = c /\ calls' = S (calls + length results)%nat /\
   (forall ch optarg op,
       (ch, optarg) ∈ results -> selects ch = Some op ->
       Options.operation o' = op) /\
   ((forall ch optarg, (ch, optarg) ∈ results -> selects ch = None) ->
    Options.operation o' = Options.operation o)).
Proof.
  revert o longValue calls c.
  induction results as [| [ch optarg] rest IH]; intros o longValue calls c.
  - cbn [options_loop]. split; [tauto |]. split; [tauto |].
    split; [reflexivity |]. intros _.
    split; [reflexivity |]. split; [simpl; lia |].
    split; [| reflexivity].
    intros ch optarg op Hin. apply elem_of_nil in Hin. contradiction.
  - cbn [options_loop].
    pose proof (option_case_spec ch optarg o longValue c) as Hstep.
    destruct (option_case ch optarg o longValue c)
      as [[[success o1] longValue1] c1].
    destruct Hstep as (Hb & Hc & Hkeep & Hsel & Hwv).
    destruct success.
    + specialize (IH o1 longValue1 (S calls) c1).
      destruct (options_loop rest (true, o1, longValue1, S calls, c1))
        as [[[[success' o'] lv'] calls'] c'].
      destruct IH as (Hb' & Hkeep' & Hwv' & Hok).
      split; [tauto |].
      split; [intros Hne; rewrite Hkeep' by (rewrite Hkeep; auto); auto |].
      split; [congruence |].
      intros Hs. destruct (Hok Hs) as (-> & -> & Hall & Hnone).
      split; [now apply Hc |]. split; [simpl; lia |].
      assert (forall op, selects ch = Some op -> Options.operation o' = op)
        as Hhead.
      { intros op Hop. rewrite Hop in Hsel. specialize (Hsel eq_refl).
        rewrite Hkeep'; [exact Hsel |]. rewrite Hsel.
        revert Hop. unfold selects.
        repeat match goal with
               | |- context [if ?b then _ else _] => destruct b
               end; congruence. }
      split.
      * intros ch' optarg' op Hin Hop. apply elem_of_cons in Hin.
        destruct Hin as [[= -> ->] | Hin]; [now apply Hhead |].
        now apply (Hall ch' optarg').
      * intros Hno. rewrite Hnone.
        -- assert (selects ch = None) as Hch
             by (apply (Hno ch optarg); rewrite elem_of_cons; now left).
           now rewrite Hch in Hsel.
        -- intros ch' optarg' Hin. apply (Hno ch' optarg').
           rewrite elem_of_cons. now right.
    + destruct rest; cbn [options_loop]; (split; [tauto |]);
        (split; [exact Hkeep |]); (split; [exact Hwv |]); discriminate.
Qed.

Lemma complained_refl (c : Console) : complained c c.
Proof. split; [reflexivity |]. exists []. now rewrite app_nil_r. Qed.

Lemma complained_eprintf (text : list byte) (c : Console) :
  complained c (eprintf text c).
Proof. split; [reflexivity |]. now exists text. Qed.

Lemma complained_trans (c1 c2 c3 : Console) :
  complained c1 c2 -> complained c2 c3 -> complained c1 c3.
Proof.
  intros [H1 [m1 H1']] [H2 [m2 H2']]. split; [congruence |].
  exists (m1 ++ m2). rewrite H2', H1'. now rewrite app_assoc.
Qed.

Lemma ParseAndValidateNumber_console (str : list byte) (min max out : Z)
    (c : Console) :
  complained c (ParseAndValidateNumber str min max out c).2.
Proof.
  unfold ParseAndValidateNumber.
  destruct (strtol_auto str) as [val endptr].
  destruct (negb (deref str endptr =? 0));
    [apply complained_eprintf |].
  destruct ((val <? min) || (val >? max));
    [apply complained_eprintf | apply complained_refl].
Qed.

Lemma option_case_console (ch : Z) (optarg : list byte)
    (o : CommandLineOptions) (longValue : Z) (c : Console) :
  complained c (option_case ch optarg o longValue c).2.
Proof.
  unfold option_case, select, ValidateAndSetOperation.
  repeat match goal with
         | |- context [?a =? ?b] =>
             destruct (Z.eqb_spec a b) as [? | ?];
             [try (exfalso; lia); try subst ch |]
         end.
  all: cbv beta iota zeta.
  all: try apply complained_refl.
  all: repeat match goal with
              | |- context [bool_decide ?P] => destruct (bool_decide P)
              end;
       cbn [orb].
  all: try apply complained_refl.
  all: try apply complained_eprintf.
  all: match goal with
       | |- context [ParseAndValidateNumber ?s ?a ?b ?x ?y] =>
           pose proof (ParseAndValidateNumber_console s a b x y) as Hp;
           destruct (ParseAndValidateNumber s a b x y) as [[? ?] ?]
       end; exact Hp.
Qed.

Lemma options_loop_console (results : list (Z * list byte))
    (st : Parsing) :
  complained st.2 (options_loop results st).2.
Proof.
  revert st.
  induction results as [| [ch optarg] rest IH];
    intros [[[[success o] longValue] calls] c];
    destruct success; cbn [options_loop snd]; try apply complained_refl.
  pose proof (option_case_console ch optarg o longValue c) as Hstep.
  destruct (option_case ch optarg o longValue c)
    as [[[success o1] longValue1] c1].
  eapply complained_trans; [exact Hstep |].
  apply (IH (success, o1, longValue1, S calls, c1)).
Qed.

Variable indeterminate : Z.

Lemma ParseCommandLine_spec (argv0 : list byte) (g : Getopt)
    (selectedOptions : CommandLineOptions) (c : Console) :
  let '(success, o, c') :=
    ParseCommandLine indeterminate argv0 g selectedOptions c in
  complained c c' /\
  Options.progName o = argv0 /\
  Options.operation o <> OPERATION_NONE /\ in_bounds o /\
  (success = true ->
   c' = c /\
   (forall ch optarg op,
       (ch, optarg) ∈ results g -> selects ch = Some op ->
       Options.operation o = op) /\
   ((forall ch optarg, (ch, optarg) ∈ results g -> selects ch = None) ->
    Options.operation o = OPERATION_RW_ALL_RELAYS) /\
   Options.writeValue o = head (remaining g (S (length (results g)))) /\
   (length (remaining g (S (length (results g)))) <= 1)%nat).
Proof.
  unfold ParseCommandLine.
  set (o0 := {| Options.progName := Options.progName selectedOptions;
                Options.vid := 0; Options.pid := 0;
                Options.serialNumber := None;
                Options.operation := OPERATION_NONE;
                Options.relayIndex := 0; Options.counterIndex := 0;
                Options.clearOnRead := false;
                Options.writeValue := None |}).
  pose proof (options_loop_spec (results g) o0 indeterminate O c) as Hloop.
  pose proof (options_loop_console (results g) (true, o0, indeterminate, O, c))
    as Hcon.
  destruct (options_loop (results g) (true, o0, indeterminate, O, c))
    as [[[[success o1] lv] calls] c1].
  cbn [snd] in Hcon.
  destruct Hloop as (Hb & _ & Hwv & Hok).
  assert (in_bounds o1) as Hb1.
  { apply Hb. unfold in_bounds, UINT16_MAX, NUM_RELAYS, NUM_DIGITAL_INPUTS.
    cbn. lia. }
  cbn [Options.writeValue o0] in Hwv. cbv zeta.
  set (o2 := if bool_decide
                  (Options.operation (with_progName o1 argv0) =
                   OPERATION_NONE)
             then with_operation (with_progName o1 argv0)
                    OPERATION_RW_ALL_RELAYS
             else with_progName o1 argv0).
  assert (Options.progName o2 = argv0 /\
          Options.operation o2 <> OPERATION_NONE /\ in_bounds o2 /\
          Options.writeValue o2 = None /\
          (Options.operation o1 <> OPERATION_NONE ->
           Options.operation o2 = Options.operation o1) /\
          (Options.operation o1 = OPERATION_NONE ->
           Options.operation o2 = OPERATION_RW_ALL_RELAYS))
    as (Hname & Hop & Hb2 & Hwv2 & Hsame & Hdef).
  { subst o2. cbn [with_progName Options.operation].
    case_bool_decide as Hop1; cbn; repeat split; try tauto; try congruence;
      try apply Hb1. }
  assert (success = true ->
          c1 = c /\
          (forall ch optarg op,
              (ch, optarg) ∈ results g -> selects ch = Some op ->
              Options.operation o2 = op) /\
          ((forall ch optarg, (ch, optarg) ∈ results g -> selects ch = None) ->
           Options.operation o2 = OPERATION_RW_ALL_RELAYS) /\
          calls = S (length (results g))) as Hok2.
  { intros Hs. destruct (Hok Hs) as (-> & -> & Hall & Hnone).
    split; [reflexivity |]. split; [| split; [| reflexivity]].
    - intros ch optarg op Hin Hsel.
      pose proof (Hall ch optarg op Hin Hsel) as H1.
      rewrite Hsame; [exact H1 |]. rewrite H1. revert Hsel. unfold selects.
      repeat match goal with
             | |- context [if ?b then _ else _] => destruct b
             end; congruence.
    - intros Hno. apply Hdef. now rewrite (Hnone Hno). }
  destruct (remaining g calls) as [| value [| v2 rest]] eqn:Hrem.
  - split; [exact Hcon |]. repeat (split; [assumption |]).
    intros Hs. destruct (Hok2 Hs) as (Hc & Hall & Hnone & Hcalls).
    rewrite <- Hcalls, Hrem. repeat (split; [assumption |]).
    simpl; lia.
  - split; [exact Hcon |].
    split; [exact Hname |]. split; [exact Hop |]. split; [apply Hb2 |].
    intros Hs. destruct (Hok2 Hs) as (Hc & Hall & Hnone & Hcalls).
    rewrite <- Hcalls, Hrem. repeat (split; [assumption |]).
    split; [reflexivity | simpl; lia].
  - split; [eapply complained_trans;
            [exact Hcon | apply complained_eprintf] |].
    repeat (split; [assumption |]). discriminate.
Qed.

(** X24: what [ParseCommandLine] has checked when it returns true.  Nothing
    was printed; the program name is [argv[0]]; an operation is selected,
    it is the one every operation option on the command line stands for,
    and it is the reading or writing of all relays if there is no such
    option; the vendor and product identifiers fit 16 bits and the relay
    and counter indices are below eight; the write value is the
    positional argument if there is one, and there is at most one. *)
Theorem ParseCommandLine_accepted (argv0 : list byte) (g : Getopt)
    (selectedOptions o : CommandLineOptions) (c c' : Console) :
  ParseCommandLine indeterminate argv0 g selectedOptions c = (true, o, c') ->
  c' = c /\
  Options.progName o = argv0 /\
  Options.operation o <> OPERATION_NONE /\
  (forall ch optarg op,
      (ch, optarg) ∈ results g -> selects ch = Some op ->
      Options.operation o = op) /\
  ((forall ch optarg, (ch, optarg) ∈ results g -> selects ch = None) ->
   Options.operation o = OPERATION_RW_ALL_RELAYS) /\
  in_bounds o /\
  Options.writeValue o = head (remaining g (S (length (results g)))) /\
  (length (remaining g (S (length (results g)))) <= 1)%nat.
Proof.
  intros H.
  pose proof (ParseCommandLine_spec argv0 g selectedOptions c) as Hspec.
  rewrite H in Hspec.
  destruct Hspec as (_ & Hname & Hop & Hb & Hok).
  destruct (Hok eq_refl) as (Hc & Hall & Hnone & Hwv & Hlen).
  repeat (split; [assumption |]). assumption.
Qed.

Variable indeterminate_bool : bool.
Variable fresh_reportBuf : list byte.
Variable layout : RelaconDeviceInfo -> list byte.
Variable k : BackendKind.
Variable plat : Platform.

(** X25: a command line that names two different operations is refused
    before anything is done.  [main] returns the exit status of failure;
    the heap, the transport library and the device are not touched;
    nothing is printed on the output stream; and the error stream ends
    with the usage text. *)
Theorem conflicting_operations_rejected (argv0 : list byte) (g : Getopt)
    (selectedOptions : CommandLineOptions)
    (indeterminate_info : RelaconDeviceInfo) (w : World)
    (ch1 ch2 : Z) (optarg1 optarg2 : list byte) (op1 op2 : Operation) :
  (ch1, optarg1) ∈ results g -> (ch2, optarg2) ∈ results g ->
  selects ch1 = Some op1 -> selects ch2 = Some op2 -> op1 <> op2 ->
  let '(code, w') :=
    main indeterminate indeterminate_bool fresh_reportBuf layout k plat
      argv0 g selectedOptions indeterminate_info w in
  code = EXIT_FAILURE /\
  heap w' = heap w /\ library w' = library w /\ link w' = link w /\
  stdout (console w') = stdout (console w) /\
  exists msg, stderr (console w') = stderr (console w) ++ msg ++ usage argv0.
Proof.
  intros Hin1 Hin2 Hs1 Hs2 Hne. unfold main.
  pose proof (ParseCommandLine_spec argv0 g selectedOptions (console w))
    as Hspec.
  destruct (ParseCommandLine indeterminate argv0 g selectedOptions
              (console w)) as [[success o] c'].
  destruct Hspec as ((Hout & msg & Herr) & _ & _ & _ & Hok).
  destruct success.
  { destruct (Hok eq_refl) as (_ & Hall & _).
    rewrite <- (Hall ch1 optarg1 op1 Hin1 Hs1) in Hne.
    rewrite <- (Hall ch2 optarg2 op2 Hin2 Hs2) in Hne. contradiction. }
  cbn. repeat (split; [reflexivity |]). split; [exact Hout |].
  exists msg. rewrite Herr. now rewrite app_assoc.
Qed.

End CliOptions.

Lemma ParseCommandLine_accepted_witness :
  exists o,
    Cli.ParseCommandLine 0 (bytes_of_string "relacon-cli") Cli.close_relay_3
      Cli.blank_options Cli.quiet_console = (true, o, Cli.quiet_console) /\
    Cli.Options.operation o = Cli.OPERATION_RW_SINGLE_RELAY /\
    0 <= Cli.Options.relayIndex o < 8 /\
    Cli.Options.writeValue o = Some (bytes_of_string "1").
Proof.
  destruct (Cli.ParseCommandLine 0 (bytes_of_string "relacon-cli")
              Cli.close_relay_3 Cli.blank_options Cli.quiet_console)
    as [[[] o] c'] eqn:E; [| vm_compute in E; discriminate].
  destruct (ParseCommandLine_accepted 0 _ _ _ _ _ _ E)
    as (-> & _ & _ & Hall & _ & (_ & _ & Hidx & _) & Hwv & _).
  exists o. split; [reflexivity |].
  split; [apply (Hall 105 (bytes_of_string "3")); [left | reflexivity] |].
  split; [exact Hidx | exact Hwv].
Defined.

Lemma conflicting_operations_rejected_witness :
  let r := Cli.main 0 false (replicate 8 0) (fun _ => []) HIDAPI
             sample_platform (bytes_of_string "relacon-cli")
             Cli.list_and_inputs Cli.blank_options sample_info
             Cli.fresh_world in
  r.1 = Cli.EXIT_FAILURE /\ Cli.heap r.2 = empty_memory /\
  Cli.link r.2 = None /\ Cli.stdout (Cli.console r.2) = [].
Proof.
  intros r.
  pose proof (conflicting_operations_rejected 0 false (replicate 8 0)
                (fun _ => []) HIDAPI sample_platform
                (bytes_of_string "relacon-cli") Cli.list_and_inputs
                Cli.blank_options sample_info Cli.fresh_world
                108 103 [] [] Cli.OPERATION_LIST_DEVICES
                Cli.OPERATION_R_DIGITAL_INPUTS) as H.
  fold r in H. destruct r as [code w'].
  destruct H as (Hc & Hh & _ & Hl & Ho & _);
    [left | right; left | reflexivity | reflexivity | discriminate |].
  repeat split; assumption.
Defined.

Section CliListing.

Import Cli.





End CliListing.


Section CliSessions.

Import Cli.

Variable indeterminate : Z.
Variable indeterminate_bool : bool.






End CliSessions.

Section CliProgram.

Import Cli.

Variable indeterminate : Z.
Variable indeterminate_bool : bool.
Variable fresh_reportBuf : list byte.
Variable layout : RelaconDeviceInfo -> list byte.
Variable k : BackendKind.
Variable plat : Platform.






End CliProgram.



Section CliReading.

Import Cli.

Variable indeterminate : Z.
Variable indeterminate_bool : bool.

(** X29: what the reading handlers print.  When no write value is given,
    the transport takes the command and the device answers with a decimal
    number of at most six digits (so that the seven data bytes of the
    answer end in a zero byte) within the bounds of the operation, the
    handler returns true and prints one line on the output stream, and
    nothing on the error stream: the inputs and the relays as
    0x and two hexadecimal digits; a debounce setting of 0, 1, 2 as 10ms,
    1ms, 100us; a watchdog setting of 0, 1, 2, 3 as OFF, 1s, 10s, 1m; a
    single relay as 0 or 1; and an event counter as 0x and four
    hexadecimal digits of the count reduced modulo 256, which is what the
    library stores. *)
Theorem reading_handlers_print (dev : RelaconDevice)
    (options : CommandLineOptions) (c : Console) (ds : list byte)
    (q : list RxEvent) :
  report_buffer_ok dev -> accepts_write dev = true ->
  rx_queue (bd_link (backendDevice dev)) = RxReport (report_of ds) :: q ->
  ds <> [] -> (length ds <= 6)%nat ->
  Forall (fun c => isdigit c = true) ds ->
  Options.writeValue options = None ->
  let n := decimal_value ds in
  let prints (text : list byte) (r : bool * RelaconDevice * Console) :=
    r.1.1 = true /\ r.2 = printf (line text) c in
  (n <= 255 ->
   prints (bytes_of_string "0x" ++ fmt_02x n)
     (DeviceOperationReadDigitalInputs indeterminate dev options c) /\
   prints (bytes_of_string "0x" ++ fmt_02x n)
     (DeviceOperationReadWriteRelays indeterminate dev options c)) /\
  (n <= 2 ->
   prints (bytes_of_string "Debounce setting: " ++
           bytes_of_string (if n =? 0 then "10ms"
                            else if n =? 1 then "1ms" else "100us"))
     (DeviceOperationReadWriteDebounce indeterminate dev options c)) /\
  (n <= 3 ->
   prints (bytes_of_string "Watchdog setting: " ++
           bytes_of_string (if n =? 0 then "OFF"
                            else if n =? 1 then "1s"
                            else if n =? 2 then "10s" else "1m"))
     (DeviceOperationReadWriteWatchdog indeterminate dev options c)) /\
  (n <= 1 ->
   0 <= Options.relayIndex options <= 255 ->
   Options.relayIndex options < numRelays (info dev) ->
   prints [48 + n]
     (DeviceOperationReadWriteSingleRelay indeterminate indeterminate_bool
        dev options c)) /\
  (n <= 65535 ->
   0 <= Options.counterIndex options <= 255 ->
   Options.counterIndex options < numInputs (info dev) ->
   prints (bytes_of_string "0x" ++ fmt_04x (n mod 256))
     (DeviceOperationReadEventCounter indeterminate dev options c)).
Proof.
  intros Hbuf Hacc Hq Hne Hlen Hd Hwv n prints.
  pose proof (decimal_value_bound ds Hd) as [Hn0 _]. fold n in Hn0.
  assert (forall text min max,
            (length text <= 6)%nat -> min <= n <= max ->
            exists dev1 dev2,
              WriteFormattedCmd dev text = (RELACON_STATUS_SUCCESS, dev1) /\
              ReadNumericResponse dev1 min max indeterminate =
                (RELACON_STATUS_SUCCESS, n, dev2)) as Hquery.
  { intros text min max Htext Hr.
    destruct (query_exchange indeterminate dev text ds q min max Hbuf Hacc
                Hq Hne Hlen Hd Htext) as (dev1 & dev2 & Hw & Hread & _).
    fold n in Hread.
    destruct (Z.leb_spec min n); [| lia].
    destruct (Z.leb_spec n max); [| lia].
    exists dev1, dev2. split; [exact Hw | exact Hread]. }
  unfold prints.
  split; [| split; [| split; [| split]]].
  - intros Hmax.
    destruct (Hquery (bytes_of_string "PI") 0 UINT8_MAX)
      as (dev1 & dev2 & Hw & Hr); [simpl; lia | unfold UINT8_MAX; lia |].
    destruct (Hquery (bytes_of_string "PK") 0 UINT8_MAX)
      as (dev3 & dev4 & Hw' & Hr'); [simpl; lia | unfold UINT8_MAX; lia |].
    split.
    + unfold DeviceOperationReadDigitalInputs, call,
        RelaconDeviceReadInputs.
      rewrite Hw, decide_True, Hr, decide_True by reflexivity.
      cbn [store_through returned default fst snd].
      rewrite decide_False by (intros H; now apply H).
      rewrite Z.mod_small by lia. split; reflexivity.
    + unfold DeviceOperationReadWriteRelays, call, RelaconDeviceRelaysRead.
      rewrite Hwv, Hw', decide_True, Hr', decide_True by reflexivity.
      cbn [store_through returned default fst snd].
      rewrite decide_False by (intros H; now apply H).
      rewrite Z.mod_small by lia. split; reflexivity.
  - intros Hmax.
    destruct (Hquery (bytes_of_string "DB") RELACON_DEBOUNCE_CONFIG_10MS
                RELACON_DEBOUNCE_CONFIG_100US)
      as (dev1 & dev2 & Hw & Hr);
      [simpl; lia
      | unfold RELACON_DEBOUNCE_CONFIG_10MS, RELACON_DEBOUNCE_CONFIG_100US;
        lia |].
    unfold DeviceOperationReadWriteDebounce, call,
      RelaconDeviceEventCounterDebounceGet.
    rewrite Hwv, Hw, decide_True, Hr, decide_True by reflexivity.
    cbn [store_through returned default fst snd].
    rewrite decide_False by (intros H; now apply H).
    assert (n = 0 \/ n = 1 \/ n = 2) as [-> | [-> | ->]] by lia;
      split; reflexivity.
  - intros Hmax.
    destruct (Hquery (bytes_of_string "WD") RELACON_WATCHDOG_CONFIG_OFF
                RELACON_WATCHDOG_CONFIG_1MIN)
      as (dev1 & dev2 & Hw & Hr);
      [simpl; lia
      | unfold RELACON_WATCHDOG_CONFIG_OFF, RELACON_WATCHDOG_CONFIG_1MIN;
        lia |].
    unfold DeviceOperationReadWriteWatchdog, call, RelaconDeviceWatchdogGet.
    rewrite Hwv, Hw, decide_True, Hr, decide_True by reflexivity.
    cbn [store_through returned default fst snd].
    rewrite decide_False by (intros H; now apply H).
    assert (n = 0 \/ n = 1 \/ n = 2 \/ n = 3) as [-> | [-> | [-> | ->]]]
      by lia; split; reflexivity.
  - intros Hmax Hidx Hlt.
    destruct (fmt_d_uint8 (Options.relayIndex options) Hidx)
      as (_ & _ & Hl & _).
    destruct (Hquery (bytes_of_string "RPK" ++
                      fmt_d (Options.relayIndex options)) 0 1)
      as (dev1 & dev2 & Hw & Hr);
      [rewrite length_app; simpl; lia | lia |].
    unfold DeviceOperationReadWriteSingleRelay, call,
      RelaconDeviceSingleRelayRead.
    rewrite Hwv.
    destruct (Z.geb_spec (Options.relayIndex options)
                (numRelays (info dev))) as [H | _]; [lia |].
    rewrite Hw, decide_True, Hr, decide_True by reflexivity.
    cbn [store_through returned default fst snd].
    rewrite decide_False by (intros H; now apply H).
    assert (n = 0 \/ n = 1) as [-> | ->] by lia; split; reflexivity.
  - intros Hmax Hidx Hlt.
    destruct (fmt_d_uint8 (Options.counterIndex options) Hidx)
      as (_ & _ & Hl & _).
    destruct (Hquery (bytes_of_string "R" ++
                      bytes_of_string
                        (if Options.clearOnRead options then "C" else "E")
                      ++ fmt_d (Options.counterIndex options))
                0 UINT16_MAX)
      as (dev1 & dev2 & Hw & Hr);
      [rewrite !length_app; destruct (Options.clearOnRead options);
       simpl; lia
      | unfold UINT16_MAX; lia |].
    unfold DeviceOperationReadEventCounter, call,
      RelaconDeviceEventCounterGet.
    destruct (Z.geb_spec (Options.counterIndex options)
                (numInputs (info dev))) as [H | _]; [lia |].
    rewrite Hw, decide_True, Hr, decide_True by reflexivity.
    cbn [store_through returned default fst snd].
    rewrite decide_False by (intros H; now apply H).
    split; reflexivity.
Qed.

End CliReading.

Lemma reading_handlers_print_witness :
  let dev := sample_device HIDAPI
               [RxReport (report_of (bytes_of_string "37"))] in
  let r := Cli.DeviceOperationReadDigitalInputs 0 dev Cli.blank_options
             Cli.quiet_console in
  r.1.1 = true /\
  r.2 = {| Cli.stdout := bytes_of_string "0x25" ++ [10];
           Cli.stderr := [] |}.
Proof.
  intros dev r.
  destruct (reading_handlers_print 0 false dev Cli.blank_options
              Cli.quiet_console (bytes_of_string "37") [])
    as (((H1 & H2) & _) & _);
    [reflexivity | reflexivity | reflexivity | discriminate | simpl; lia |
     repeat constructor | reflexivity | vm_compute; discriminate |].
  subst r. split; [exact H1 |]. rewrite H2. reflexivity.
Defined.
